(** * Mobile NVIS antenna poster generators

    A model of the five poster scripts

      - gen_nvis_20m_car_roof.py
      - gen_nvis_40m_car_roof.py
      - gen_nvis_80_40m_car_roof.py
      - gen_nvis_80_40_20m_triband.py
      - gen_nvis_80_40m_optimized.py

    Each script computes coordinates, adds artists to a figure that lives
    in memory, saves the figure once and prints two status lines.

    Numbers.  Counts ([n], [n_corner], [DPI], zorder) are Python ints and
    are read as [Z].  Python floats are read as real numbers: [np.cos],
    [np.sin] and [np.pi] are [cos], [sin] and [PI], and + - * / are the
    operations of [R].  A double is not a real number, so the theorems
    about coordinates say what holds of the doubles as well: which
    expression a coordinate is, which coordinates are the same expression
    or its negation, and where [np.linspace] starts and stops.  What holds
    of a coordinate up to rounding only is shown not to hold exactly, in
    the module [f64], where the same lines are computed in IEEE doubles.

    Library calls.  [np.linspace] is written out below.  A matplotlib
    drawing call is read as "append one artist to the axes it is called
    on", and [Poly3DCollection] as raising on a polygon without a vertex;
    what the renderer later does with the artist, and which pixels
    [savefig] puts in the file, is not modelled.

    Layout.  First the helpers ([tube], [qpoly], [box3d], [cylinder],
    [rect_loop_pts]) as functions, then the drawing helpers once more on
    a heap of references, then the scripts: as programs over a small
    language of the calls that act on the world, one module per script,
    and statement by statement as far as binding and changing in place
    go.  The properties come last. *)

From Stdlib Require Import Floats Uint63.
From Stdlib Require Import Reals Lra Lia List ZArith String Ascii Bool.
From Stdlib Require Import DecimalString Sorted.
Import ListNotations.

Set Warnings "-inexact-float".

Local Open Scope R_scope.

(** ** Fallible computations

    A Python call either returns or raises; [None] stands for a raised
    exception. *)

Definition bind {A B : Type} (m : option A) (k : A -> option B) : option B :=
  match m with
  | Some x => k x
  | None => None
  end.

Notation "x <- m ;; k" := (bind m (fun x => k))
  (at level 61, m at next level, right associativity).

(** ** numpy *)

Module np.

(** [np.linspace(start, stop, num)] with the default [endpoint=True]:
    a negative [num] raises [ValueError]; otherwise the samples are
    [arange(num) * step + start] with [step = (stop - start) / (num - 1)],
    and for [num > 1] the last one is overwritten by [stop]. *)
Definition linspace (start stop : R) (num : Z) : option (list R) :=
  if (num <? 0)%Z then None
  else match Z.to_nat num with
       | O => Some []
       | S O => Some [start]
       | S div =>
           let step := (stop - start) / INR div in
           Some (map (fun i => INR i * step + start) (seq 0 div) ++ [stop])
       end.

(** [np.full_like(a, v)]. *)
Definition full_like (a : list R) (v : R) : list R :=
  repeat v (List.length a).

End np.

(** [range(n)] for a Python int [n]: empty when [n <= 0]. *)
Definition range (n : Z) : list nat := seq 0 (Z.to_nat n).

(** [th[i]] for an index that the loops below keep inside the array. *)
Definition item (th : list R) (i : nat) : R := nth i th 0.

(** ** Artists and axes *)

(** A vertex is the Python list [[x, y, z]]. *)
Definition vertex : Type := R * R * R.

Definition colour : Type := string.

Inductive artist : Type :=
| Line3D (xs ys zs : list R) (color : colour) (lw alpha : R) (zorder : Z)
| Poly3DCollection (verts : list vertex) (facecolor edgecolor : colour)
                   (alpha lw : R) (zorder : Z).

(** An axes object is the list of artists added to it, oldest first. *)
Definition axes : Type := list artist.

(** [a.plot(px, py, pz, color=c, lw=lw, alpha=al, zorder=zo)] *)
Definition plot (a : axes) (px py pz : list R) (c : colour)
    (lw al : R) (zo : Z) : axes :=
  a ++ [Line3D px py pz c lw al zo].

(** A Python string used as a condition is true when it is neither [None]
    nor empty. *)
Definition truthy (hc : option colour) : bool :=
  match hc with
  | None => false
  | Some EmptyString => false
  | Some (String _ _) => true
  end.

(** The string behind a condition that was found true. *)
Definition the (hc : option colour) : colour :=
  match hc with
  | Some s => s
  | None => EmptyString
  end.

(** ** Drawing helpers *)

(** [draw_tube] of gen_nvis_20m_car_roof.py: highlight at 0.45 of the
    width. *)
Definition draw_tube (ax : axes) (px py pz : list R) (color : colour)
    (lw : R) (hi_color : option colour) (alpha : R) (zo : Z) : axes :=
  let ax1 := plot ax px py pz color lw alpha zo in
  if truthy hi_color
  then plot ax1 px py pz (the hi_color) (lw * 0.45) 0.35 (zo + 1)
  else ax1.

(** [tube] of the other four scripts: highlight at 0.4 of the width. *)
Definition tube (a : axes) (px py pz : list R) (c : colour)
    (lw : R) (hc : option colour) (al : R) (zo : Z) : axes :=
  let a1 := plot a px py pz c lw al zo in
  if truthy hc
  then plot a1 px py pz (the hc) (lw * 0.4) 0.35 (zo + 1)
  else a1.

(** [Poly3DCollection([v], ...)] followed by the three setters: the
    constructor raises [ValueError] when [v] holds no vertex. *)
Definition collection (v : list vertex) (fc ec : colour)
    (al lw : R) (zo : Z) : option artist :=
  match v with
  | [] => None
  | _ :: _ => Some (Poly3DCollection v fc ec al lw zo)
  end.

(** [qpoly] (named [poly] in gen_nvis_40m_car_roof.py): one collection
    holding the single polygon [v], added to the axes. *)
Definition qpoly (a : axes) (v : list vertex) (fc ec : colour)
    (al lw : R) (zo : Z) : option axes :=
  p <- collection v fc ec al lw zo ;;
  Some (a ++ [p]).

Definition poly := qpoly.

(** The literal list of six faces that [draw_box] and [box3d] build. *)
Definition box_faces (cx cy cz hw hd hh : R) : list (list vertex) :=
  [ [(cx-hw, cy-hd, cz-hh); (cx+hw, cy-hd, cz-hh);
     (cx+hw, cy+hd, cz-hh); (cx-hw, cy+hd, cz-hh)];
    [(cx-hw, cy-hd, cz+hh); (cx+hw, cy-hd, cz+hh);
     (cx+hw, cy+hd, cz+hh); (cx-hw, cy+hd, cz+hh)];
    [(cx-hw, cy-hd, cz-hh); (cx+hw, cy-hd, cz-hh);
     (cx+hw, cy-hd, cz+hh); (cx-hw, cy-hd, cz+hh)];
    [(cx-hw, cy+hd, cz-hh); (cx+hw, cy+hd, cz-hh);
     (cx+hw, cy+hd, cz+hh); (cx-hw, cy+hd, cz+hh)];
    [(cx-hw, cy-hd, cz-hh); (cx-hw, cy+hd, cz-hh);
     (cx-hw, cy+hd, cz+hh); (cx-hw, cy-hd, cz+hh)];
    [(cx+hw, cy-hd, cz-hh); (cx+hw, cy+hd, cz-hh);
     (cx+hw, cy+hd, cz+hh); (cx+hw, cy-hd, cz+hh)] ].

(** [for face, fc in zip(faces, colours): ...] with a body that adds one
    polygon. *)
Definition for_zip (body : axes -> list vertex -> colour -> axes)
    (faces : list (list vertex)) (cols : list colour) (a : axes) : axes :=
  fold_left (fun acc fc => body acc (fst fc) (snd fc)) (combine faces cols) a.

(** [draw_box] of gen_nvis_20m_car_roof.py: line width 1.2. *)
Definition draw_box (ax : axes) (cx cy cz hw hd hh : R)
    (colors : list colour) (ec : colour) (alpha : R) (zo : Z) : axes :=
  for_zip (fun acc face fc => acc ++ [Poly3DCollection face fc ec alpha 1.2 zo])
          (box_faces cx cy cz hw hd hh) colors ax.

(** The same loop with a body that may raise: the first exception ends
    it. *)
Definition for_zip_raising (body : axes -> list vertex -> colour -> option axes)
    (faces : list (list vertex)) (cols : list colour) (a : axes)
    : option axes :=
  fold_left (fun acc fc => a' <- acc ;; body a' (fst fc) (snd fc))
            (combine faces cols) (Some a).

(** [box3d] of the other four scripts: through [qpoly], default [lw=1.0]. *)
Definition box3d (a : axes) (cx cy cz hw hd hh : R)
    (cols : list colour) (ec : colour) (al : R) (zo : Z) : option axes :=
  for_zip_raising (fun acc face fc_ => qpoly acc face fc_ ec al 1.0 zo)
                  (box_faces cx cy cz hw hd hh) cols a.

(** One side face of [cylinder], between [th[i]] and [th[i+1]]. *)
Definition cylinder_face (cx cy zb zt r : R) (th : list R) (i : nat)
    : list vertex :=
  [ (cx + r * cos (item th i),       cy + r * sin (item th i),       zb);
    (cx + r * cos (item th (i + 1)), cy + r * sin (item th (i + 1)), zb);
    (cx + r * cos (item th (i + 1)), cy + r * sin (item th (i + 1)), zt);
    (cx + r * cos (item th i),       cy + r * sin (item th i),       zt) ].

(** The top cap of [cylinder]. *)
Definition cylinder_cap (cx cy zt r : R) (th : list R) : list vertex :=
  map (fun t => (cx + r * cos t, cy + r * sin t, zt)) th.

(** [cylinder]: [n] side faces with [lw=0.5], then the cap one zorder
    higher with the default [lw=1.0].  With [n = -1] there is no angle and
    the cap is empty, so that [qpoly] raises. *)
Definition cylinder (a : axes) (cx cy zb zt r : R) (n : Z)
    (fc ec : colour) (al : R) (zo : Z) : option axes :=
  th <- np.linspace 0 (2 * PI) (n + 1) ;;
  a1 <- fold_left (fun acc i =>
                     a' <- acc ;;
                     qpoly a' (cylinder_face cx cy zb zt r th i) fc ec al 0.5 zo)
                  (range n) (Some a) ;;
  qpoly a1 (cylinder_cap cx cy zt r th) fc ec al 1.0 (zo + 1).

(** ** The rectangular loop of gen_nvis_80_40m_optimized.py *)

Definition Lx_loop : R := 0.70.
Definition Ly_loop : R := 0.40.
Definition R_corner : R := 0.05.
Definition gap_len : R := 0.08.

(** One rounded corner: [for a in angles: pts.append((cx + rc*cos a,
    cy + rc*sin a))]. *)
Definition corner_arc (cx cy rc : R) (angles : list R) : list (R * R) :=
  map (fun a => (cx + rc * cos a, cy + rc * sin a)) angles.

(** [rect_loop_pts(lx, ly, rc, n_corner)].  The local list [corners] of
    the source is never read and is left out. *)
Definition rect_loop_pts (lx ly rc : R) (n_corner : Z)
    : option (list (R * R)) :=
  fr <- np.linspace (PI / 2) 0 n_corner ;;
  br <- np.linspace 0 (- PI / 2) n_corner ;;
  bl <- np.linspace (- PI / 2) (- PI) n_corner ;;
  fl <- np.linspace PI (PI / 2) n_corner ;;
  Some ([(gap_len / 2, ly)] ++
        [(lx - rc, ly)] ++
        corner_arc (lx - rc) (ly - rc) rc fr ++
        [(lx, - ly + rc)] ++
        corner_arc (lx - rc) (- ly + rc) rc br ++
        [(- lx + rc, - ly)] ++
        corner_arc (- lx + rc) (- ly + rc) rc bl ++
        [(- lx, ly - rc)] ++
        corner_arc (- lx + rc) (ly - rc) rc fl ++
        [(- gap_len / 2, ly)]).

(** [loop_pts = rect_loop_pts(Lx_loop, Ly_loop, R_corner)] with the
    default [n_corner=12]. *)
Definition loop_pts : option (list (R * R)) :=
  rect_loop_pts Lx_loop Ly_loop R_corner 12.

(** ** The drawing helpers on a heap

    Python passes references.  To say that a helper leaves the arrays it
    is given as they are, the helpers are written once more over a heap:
    an object is a cell of the heap, a reference is its position, and a
    call either returns or raises, in both cases with the heap it leaves
    behind.  The bodies follow the source statement by statement. *)

Definition ref : Type := nat.

Inductive object : Type :=
| Floats (xs : list R)                 (* a numpy array or a list of floats *)
| Vertices (v : list vertex)           (* a list of [[x, y, z]] lists *)
| Colours (cs : list colour)           (* a list of colour strings *)
| Line (xs ys zs : list R) (color : colour) (lw alpha : R) (zorder : Z)
| Collection (verts : list vertex) (alpha : R) (zorder : Z)
             (facecolor edgecolor : option colour) (linewidth : option R)
| Axes (children : list ref).          (* the artists added, oldest first *)

Definition heap : Type := list object.

Inductive outcome (A : Type) : Type :=
| Returned (x : A)
| Raises.

Arguments Returned {A} x.
Arguments Raises {A}.

Definition action (A : Type) : Type := heap -> outcome A * heap.

Definition ret {A : Type} (x : A) : action A := fun h => (Returned x, h).

Definition raise {A : Type} : action A := fun h => (Raises, h).

Definition and_then {A B : Type} (m : action A) (k : A -> action B)
    : action B :=
  fun h => match m h with
           | (Returned x, h') => k x h'
           | (Raises, h') => (Raises, h')
           end.

Notation "x <~ m ;; k" := (and_then m (fun x => k))
  (at level 61, m at next level, right associativity).

Notation "m ;;; k" := (and_then m (fun _ => k))
  (at level 61, right associativity).

(** A computation that touches no object. *)
Definition lift {A : Type} (m : option A) : action A :=
  match m with
  | Some x => ret x
  | None => raise
  end.

(** A new object gets the next free position. *)
Definition new (o : object) : action ref :=
  fun h => (Returned (List.length h), h ++ [o]).

Definition get (l : ref) : action object :=
  fun h => match nth_error h l with
           | Some o => (Returned o, h)
           | None => (Raises, h)
           end.

Definition update (l : ref) (o : object) (h : heap) : heap :=
  firstn l h ++ o :: skipn (S l) h.

Definition put (l : ref) (o : object) : action unit :=
  fun h => if (l <? List.length h)%nat
           then (Returned tt, update l o h)
           else (Raises, h).

Definition floats (l : ref) : action (list R) :=
  o <~ get l ;;
  match o with
  | Floats xs => ret xs
  | _ => raise
  end.

Definition vertices (l : ref) : action (list vertex) :=
  o <~ get l ;;
  match o with
  | Vertices v => ret v
  | _ => raise
  end.

Definition colours (l : ref) : action (list colour) :=
  o <~ get l ;;
  match o with
  | Colours cs => ret cs
  | _ => raise
  end.

(** *** What matplotlib does with the objects it is handed *)

(** An axes object keeps a reference to each artist added to it. *)
Definition add_child (a c : ref) : action unit :=
  o <~ get a ;;
  match o with
  | Axes cs => put a (Axes (cs ++ [c]))
  | _ => raise
  end.

(** [a.plot(px, py, pz, ...)]: a new line over the data as they stand at
    the call; the three arrays are read. *)
Definition ax_plot (a px py pz : ref) (c : colour) (lw al : R) (zo : Z)
    : action unit :=
  xs <~ floats px ;;
  ys <~ floats py ;;
  zs <~ floats pz ;;
  l <~ new (Line xs ys zs c lw al zo) ;;
  add_child a l.

(** [Poly3DCollection([v], alpha=al, zorder=zo)]: a new collection over
    the vertices as they stand at the call; [ValueError] when there is
    none. *)
Definition new_collection (v : ref) (al : R) (zo : Z) : action ref :=
  vs <~ vertices v ;;
  match vs with
  | [] => raise
  | _ :: _ => new (Collection vs al zo None None None)
  end.

Definition set_facecolor (p : ref) (fc : colour) : action unit :=
  o <~ get p ;;
  match o with
  | Collection v al zo _ ec lw => put p (Collection v al zo (Some fc) ec lw)
  | _ => raise
  end.

Definition set_edgecolor (p : ref) (ec : colour) : action unit :=
  o <~ get p ;;
  match o with
  | Collection v al zo fc _ lw => put p (Collection v al zo fc (Some ec) lw)
  | _ => raise
  end.

Definition set_linewidth (p : ref) (lw : R) : action unit :=
  o <~ get p ;;
  match o with
  | Collection v al zo fc ec _ => put p (Collection v al zo fc ec (Some lw))
  | _ => raise
  end.

Definition add_collection3d (a p : ref) : action unit :=
  o <~ get p ;;
  match o with
  | Collection _ _ _ _ _ _ => add_child a p
  | _ => raise
  end.

(** *** The helpers *)

(** [for x in l: body]. *)
Fixpoint for_each {B : Type} (l : list B) (body : B -> action unit)
    : action unit :=
  match l with
  | [] => ret tt
  | x :: l' => body x ;;; for_each l' body
  end.

(** A list display: one new object for each element, in order. *)
Fixpoint new_each (os : list object) : action (list ref) :=
  match os with
  | [] => ret []
  | o :: os' =>
      l <~ new o ;;
      ls <~ new_each os' ;;
      ret (l :: ls)
  end.

Definition draw_tube_at (ax px py pz : ref) (color : colour) (lw : R)
    (hi_color : option colour) (alpha : R) (zo : Z) : action unit :=
  ax_plot ax px py pz color lw alpha zo ;;;
  if truthy hi_color
  then ax_plot ax px py pz (the hi_color) (lw * 0.45) 0.35 (zo + 1)
  else ret tt.

Definition tube_at (a px py pz : ref) (c : colour) (lw : R)
    (hc : option colour) (al : R) (zo : Z) : action unit :=
  ax_plot a px py pz c lw al zo ;;;
  if truthy hc
  then ax_plot a px py pz (the hc) (lw * 0.4) 0.35 (zo + 1)
  else ret tt.

Definition qpoly_at (a v : ref) (fc ec : colour) (al lw : R) (zo : Z)
    : action unit :=
  p <~ new_collection v al zo ;;
  set_facecolor p fc ;;;
  set_edgecolor p ec ;;;
  set_linewidth p lw ;;;
  add_collection3d a p.

Definition poly_at := qpoly_at.

Definition draw_box_at (ax : ref) (cx cy cz hw hd hh : R) (colors : ref)
    (ec : colour) (alpha : R) (zo : Z) : action unit :=
  faces <~ new_each (map Vertices (box_faces cx cy cz hw hd hh)) ;;
  cs <~ colours colors ;;
  for_each (combine faces cs)
    (fun face_fc =>
       p <~ new_collection (fst face_fc) alpha zo ;;
       set_facecolor p (snd face_fc) ;;;
       set_edgecolor p ec ;;;
       set_linewidth p 1.2 ;;;
       add_collection3d ax p).

Definition box3d_at (a : ref) (cx cy cz hw hd hh : R) (cols : ref)
    (ec : colour) (al : R) (zo : Z) : action unit :=
  fs <~ new_each (map Vertices (box_faces cx cy cz hw hd hh)) ;;
  cs <~ colours cols ;;
  for_each (combine fs cs)
    (fun face_fc => qpoly_at a (fst face_fc) (snd face_fc) ec al 1.0 zo).

Definition cylinder_at (a : ref) (cx cy zb zt r : R) (n : Z)
    (fc ec : colour) (al : R) (zo : Z) : action unit :=
  th <~ lift (np.linspace 0 (2 * PI) (n + 1)) ;;
  for_each (range n)
    (fun i =>
       face <~ new (Vertices (cylinder_face cx cy zb zt r th i)) ;;
       qpoly_at a face fc ec al 0.5 zo) ;;;
  cap <~ new (Vertices (cylinder_cap cx cy zt r th)) ;;
  qpoly_at a cap fc ec al 1.0 (zo + 1).

(** *** Reading a heap *)

(** The artist that an object is, once its colours and width are set. *)
Definition artist_of (o : object) : option artist :=
  match o with
  | Line xs ys zs c lw al zo => Some (Line3D xs ys zs c lw al zo)
  | Collection v al zo (Some fc) (Some ec) (Some lw) =>
      Some (Poly3DCollection v fc ec al lw zo)
  | _ => None
  end.

Fixpoint all_some {A : Type} (l : list (option A)) : option (list A) :=
  match l with
  | [] => Some []
  | x :: l' =>
      y <- x ;;
      ys <- all_some l' ;;
      Some (y :: ys)
  end.

(** What the axes at [a] shows: the artists behind its references. *)
Definition view (h : heap) (a : ref) : option axes :=
  match nth_error h a with
  | Some (Axes cs) =>
      all_some (map (fun c => o <- nth_error h c ;; artist_of o) cs)
  | _ => None
  end.

(** Every object that was there before, the axes at [a] apart, is still
    there and is what it was. *)
Definition untouched (a : ref) (h h' : heap) : Prop :=
  (List.length h <= List.length h')%nat /\
  forall l, (l < List.length h)%nat -> l <> a ->
            nth_error h' l = nth_error h l.

(** [m], run on a heap of at least [n] objects, takes none away, leaves
    the first [n] as they are, the axes at [a] apart, and returns only
    values that satisfy [Q]; and this whether it returns or raises. *)
Definition frames {A : Type} (n : nat) (a : ref) (Q : A -> Prop)
    (m : action A) : Prop :=
  forall h, (n <= List.length h)%nat ->
    (List.length h <= List.length (snd (m h)))%nat /\
    (forall l, (l < n)%nat -> l <> a ->
               nth_error (snd (m h)) l = nth_error h l) /\
    (forall x, fst (m h) = Returned x -> Q x).

(** [m], run on [h], returns, and what it returns and leaves satisfies
    [Q]. *)
Definition ensures {A : Type} (m : action A) (h : heap)
    (Q : A -> heap -> Prop) : Prop :=
  match m h with
  | (Returned x, h') => Q x h'
  | (Raises, _) => False
  end.

(** ** The same lines in double precision

    Where rounding decides (does the cap of a cylinder end where it
    starts, does a corner arc stay inside the rectangle), the lines are
    written once more over the binary64 numbers of the kernel, whose
    + - * / round as those of the interpreter do.  [np.cos] and [np.sin]
    are the library's: the functions take them as a parameter. *)

Module f64.

Record libm : Type := { cos : float -> float; sin : float -> float }.

(** [np.pi] *)
Definition pi : float := 0x1.921fb54442d18p+1%float.

(** An element of [arange(0, num)], converted as the product with [step]
    converts it. *)
Definition of_nat (i : nat) : float :=
  PrimFloat.of_uint63 (Uint63.of_Z (Z.of_nat i)).

(** [np.linspace(start, stop, num)], as in [np.linspace] above. *)
Definition linspace (start stop : float) (num : Z) : option (list float) :=
  if (num <? 0)%Z then None
  else match Z.to_nat num with
       | O => Some []
       | S O => Some [start]
       | S div =>
           let step := ((stop - start) / of_nat div)%float in
           Some (map (fun i => (of_nat i * step + start)%float) (seq 0 div)
                 ++ [stop])
       end.

(** Line 78 of gen_nvis_80_40m_car_roof.py:
    [cap = [[cx+r*np.cos(t), cy+r*np.sin(t), zt] for t in th]]. *)
Definition cylinder_cap (m : libm) (cx cy zt r : float) (th : list float)
    : list (float * float * float) :=
  map (fun t => (cx + r * cos m t, cy + r * sin m t, zt)%float) th.

(** Lines 413-414 of gen_nvis_80_40m_optimized.py:
    [pts.append((cx + rc*np.cos(a), cy + rc*np.sin(a)))] for [a] in
    [angles]. *)
Definition corner_arc (m : libm) (cx cy rc : float) (angles : list float)
    : list (float * float) :=
  map (fun a => (cx + rc * cos m a, cy + rc * sin m a)%float) angles.

(** The double-precision cosine and sine at the five angles of
    [np.linspace(0, 2*np.pi, 5)], which are 0 and the doubles next to
    pi/2, pi, 3*pi/2 and 2*pi; [nan] stands for an argument that is not
    in the table. *)
Definition quarter_turns : libm :=
  {| cos := fun t =>
       if (t =? 0)%float then 1%float
       else if (t =? 0x1.921fb54442d18p+0)%float then 0x1.1a62633145c07p-54%float
       else if (t =? 0x1.921fb54442d18p+1)%float then (-1)%float
       else if (t =? 0x1.2d97c7f3321d2p+2)%float then (-0x1.a79394c9e8a0ap-53)%float
       else if (t =? 0x1.921fb54442d18p+2)%float then 1%float
       else nan;
     sin := fun t =>
       if (t =? 0)%float then 0%float
       else if (t =? 0x1.921fb54442d18p+0)%float then 1%float
       else if (t =? 0x1.921fb54442d18p+1)%float then 0x1.1a62633145c07p-53%float
       else if (t =? 0x1.2d97c7f3321d2p+2)%float then (-1)%float
       else if (t =? 0x1.921fb54442d18p+2)%float then (-0x1.1a62633145c07p-52)%float
       else nan |}.

End f64.

(** ** The scripts as programs

    A script is cut at its banner comments into sections.  A section is
    summarised by what crosses its border: the names it binds that a later
    section reads, the names of earlier sections it reads, the objects it
    updates in place with Python's own mutating forms (augmented
    assignment, [append]), and the loop and cross-section arrays it
    computes.  Calls into matplotlib that only touch the figure in memory
    are not listed one by one. *)

Definition name : Type := string.

Inductive kind : Type :=
| Number     (* int or float *)
| Text       (* str *)
| Texts      (* list of str *)
| Array      (* numpy array or list of coordinates *)
| Canvas     (* figure, axes or a list of their artists *)
| Helper     (* function of the script *)
| Library.   (* imported module or class *)

Record section : Type := {
  title : string;                            (* the banner, in ASCII *)
  line : nat;                                (* where the banner stands *)
  defines : list (name * kind);
  reads : list name;
  updates : list (name * kind);
  computes : option (list (name * list R))   (* [None]: computing raises *)
}.

(** Where a Python program can take input from. *)
Inductive source : Type :=
| Argv                       (* sys.argv *)
| Stdin                      (* input(), sys.stdin *)
| Config (path : string).    (* a file opened for reading *)

(** The statements that act on the world outside the interpreter.
    [Input] stands for any read of the command line, the standard input
    or a file. *)
Inductive call : Type :=
| Draw (s : section)
| Savefig (path : string) (dpi : Z) (bbox_inches : string)
| Close
| Print (text : string)
| Input (src : source).

(** Statements.  [Try] is Python's [try: body except: handler]. *)
#[warnings="-register-all"]
Inductive stmt : Type :=
| Do (c : call)
| Try (body handler : list stmt).

(** What an observer of the process sees, in order. *)
Inductive event : Type :=
| Drew (title : string)
| Saved (path : string) (dpi : Z) (bbox_inches : string)
| Closed
| Printed (text : string)
| Consulted (src : source) (value : list string).

(** What a process can consult. *)
Record environment : Type := {
  argv : list string;
  stdin : list string;
  config_files : list (string * list string)
}.

Definition consult (e : environment) (src : source) : list string :=
  match src with
  | Argv => argv e
  | Stdin => stdin e
  | Config path =>
      match find (fun f => String.eqb (fst f) path) (config_files e) with
      | Some f => snd f
      | None => []
      end
  end.

Record process : Type := {
  env : environment;
  calls : nat;                      (* library calls completed *)
  events : list event;
  memory : list (name * list R)     (* coordinate arrays computed *)
}.

Inductive status : Type := Finished | Raised.

(** [print] and input are the interpreter's own; the other calls go to
    numpy and matplotlib. *)
Definition is_library (c : call) : bool :=
  match c with
  | Print _ => false
  | Input _ => false
  | _ => true
  end.

Definition emit (e : event) (lib : bool) (arrays : list (name * list R))
    (st : process) : process :=
  {| env := env st;
     calls := if lib then S (calls st) else calls st;
     events := events st ++ [e];
     memory := memory st ++ arrays |}.

(** One call.  [fault = Some k] makes the library call number [k] of the
    run raise before it has any effect. *)
Definition do_call (fault : option nat) (c : call) (st : process)
    : status * process :=
  let faulty :=
    match fault with
    | Some k => is_library c && Nat.eqb k (calls st)
    | None => false
    end in
  if faulty then (Raised, st)
  else match c with
       | Draw s =>
           match computes s with
           | Some arrays => (Finished, emit (Drew (title s)) true arrays st)
           | None => (Raised, st)
           end
       | Savefig path dpi bbox => (Finished, emit (Saved path dpi bbox) true [] st)
       | Close => (Finished, emit Closed true [] st)
       | Print text => (Finished, emit (Printed text) false [] st)
       | Input src =>
           (Finished, emit (Consulted src (consult (env st) src)) false [] st)
       end.

(** A statement.  An exception leaves a block at once; only [Try] stops
    it, by running the handler from where the body raised. *)
Fixpoint exec_stmt (fault : option nat) (s : stmt) (st : process)
    {struct s} : status * process :=
  match s with
  | Do c => do_call fault c st
  | Try body handler =>
      let fix block (p : list stmt) (st : process) : status * process :=
        match p with
        | [] => (Finished, st)
        | s :: p' =>
            match exec_stmt fault s st with
            | (Finished, st') => block p' st'
            | (Raised, st') => (Raised, st')
            end
        end in
      match block body st with
      | (Finished, st') => (Finished, st')
      | (Raised, st') => block handler st'
      end
  end.

Fixpoint exec (fault : option nat) (p : list stmt) (st : process)
    : status * process :=
  match p with
  | [] => (Finished, st)
  | s :: p' =>
      match exec_stmt fault s st with
      | (Finished, st') => exec fault p' st'
      | (Raised, st') => (Raised, st')
      end
  end.

Definition start (e : environment) : process :=
  {| env := e; calls := 0; events := []; memory := [] |}.

Record script : Type := {
  file : string;
  canvas : Z * Z;                  (* figsize, inches *)
  dpi : Z;
  sections : list section;
  output : string;                 (* the value of [out] *)
  program : list stmt
}.

(** A run from a fresh interpreter, and a run in which library call [k]
    raises. *)
Definition run (e : environment) (s : script) : status * process :=
  exec None (program s) (start e).

Definition run_with_fault (k : nat) (e : environment) (s : script)
    : status * process :=
  exec (Some k) (program s) (start e).

(** Files written and lines printed, read off the events. *)
Definition files (evs : list event) : list string :=
  flat_map (fun e => match e with Saved path _ _ => [path] | _ => [] end) evs.

Definition console (evs : list event) : list string :=
  flat_map (fun e => match e with Printed text => [text] | _ => [] end) evs.

Definition in_memory (e : event) : bool :=
  match e with
  | Drew _ => true
  | _ => false
  end.

(** No statement of the program, at any depth, takes input. *)
Fixpoint closed_stmt (s : stmt) : bool :=
  match s with
  | Do (Input _) => false
  | Do _ => true
  | Try body handler => forallb closed_stmt body && forallb closed_stmt handler
  end.

Definition closed (p : list stmt) : bool := forallb closed_stmt p.

(** No statement of the program is a [try]. *)
Definition handler_free (p : list stmt) : bool :=
  forallb (fun s => match s with Do _ => true | Try _ _ => false end) p.

Definition library_calls (p : list stmt) : nat :=
  List.length (filter (fun s => match s with
                                | Do c => is_library c
                                | Try _ _ => false
                                end) p).

(** [str(n)] of an f-string field. *)
Definition str (n : Z) : string := NilZero.string_of_int (Z.to_int n).

(** ** The five scripts *)

Module gen_nvis_20m_car_roof.

Local Open Scope string_scope.

Definition DPI : Z := 200.
Definition figsize : Z * Z := (42, 28)%Z.

(** lines 88 to 92, 129 and 220 to 231 *)
Definition N_pts : Z := 200.
Definition car_h : R := 0.35.
Definition z_ground : R := -0.15.
Definition z_body : R := z_ground + car_h.
Definition z_roof : R := z_body + 0.32.
Definition R_loop : R := 0.40.
Definition z_ant_base : R := z_roof.
Definition standoff_h : R := 0.08.
Definition z_loop : R := z_ant_base + standoff_h.
Definition gap_angle : R := 0.08.

Definition main_loop : option (list (name * list R)) :=
  theta_loop <- np.linspace (PI / 2 + gap_angle)
                            (PI / 2 + 2 * PI - gap_angle) N_pts ;;
  let lx := map (fun t => R_loop * cos t) theta_loop in
  let ly := map (fun t => R_loop * sin t) theta_loop in
  let lz := np.full_like theta_loop z_loop in
  Some [("theta_loop", theta_loop); ("lx", lx); ("ly", ly); ("lz", lz)].

Definition drawing : list section :=
  [ {| title := "PREAMBLE"; line := 1;
       defines := [("plt", Library); ("DPI", Number); ("fig", Canvas);
                  ("Poly3DCollection", Library); ("CAR_ROOF", Text);
                  ("CAR_GLASS", Text); ("np", Library); ("N_pts", Number);
                  ("CU_MAIN", Text); ("CU_HI", Text); ("CU_COUPLE", Text);
                  ("ACCENT_RED", Text); ("ACCENT_GRN", Text);
                  ("ACCENT_BLUE", Text); ("TEXT_DARK", Text);
                  ("FancyBboxPatch", Library); ("GOLD", Text)];
       reads := [];
       updates := [];
       computes := Some [] |};
    {| title := "MAIN 3D VIEW - Car body + antenna (left 60%)"; line := 36;
       defines := [("ax", Canvas); ("draw_tube", Helper);
                  ("draw_box", Helper)];
       reads := ["fig"];
       updates := [];
       computes := Some [] |};
    {| title := "CAR BODY - simplified sedan shape"; line := 83;
       defines := [("z_ground", Number); ("car_l", Number);
                  ("car_w", Number); ("z_body", Number); ("z_roof", Number)];
       reads := ["ax"; "Poly3DCollection"; "CAR_ROOF"; "CAR_GLASS"; "np"];
       updates := [];
       computes := Some [] |};
    {| title := "ANTENNA - 80 cm magnetic loop on car roof"; line := 218;
       defines := [];
       reads := ["ax"; "z_ground"; "car_l"; "car_w"; "z_body";
                "Poly3DCollection"; "z_roof"; "np"; "N_pts"; "draw_tube";
                "CU_MAIN"; "CU_HI"; "draw_box"; "CU_COUPLE"; "ACCENT_RED";
                "ACCENT_GRN"];
       updates := [];
       computes := main_loop |};
    {| title := "PANEL A - Key Specifications (top-right)"; line := 430;
       defines := [];
       reads := ["fig"; "ACCENT_BLUE"; "TEXT_DARK"; "FancyBboxPatch"];
       updates := [];
       computes := Some [] |};
    {| title := "PANEL B - Installation Guide (bottom-right)"; line := 480;
       defines := [];
       reads := ["plt"; "fig"; "TEXT_DARK"; "FancyBboxPatch"];
       updates := [];
       computes := Some [] |};
    {| title := "TITLE BANNER"; line := 556;
       defines := [];
       reads := ["fig"; "ACCENT_BLUE"; "FancyBboxPatch"; "GOLD"];
       updates := [("fig.patches", Canvas)];
       computes := Some [] |};
    {| title := "FOOTER"; line := 573;
       defines := [];
       reads := ["fig"; "ACCENT_BLUE"; "FancyBboxPatch"];
       updates := [("fig.patches", Canvas)];
       computes := Some [] |}
  ].

Definition SAVE : section :=
  {| title := "SAVE"; line := 585;
   defines := [];
   reads := ["plt"; "DPI"; "fig"];
   updates := [];
   computes := Some [] |}.

(** line 587 *)
Definition out : string :=
  "C:\Users\Jakkrit\.local\bin\NVIS_20m_Car_Roof_3D.jpg".

(** line 591 *)
Definition saved_line : string :=
  "Saved: "
  ++ out.

(** line 592 *)
Definition size_line : string :=
  "Size: "
  ++ str (42 * DPI)
  ++ " x "
  ++ str (28 * DPI)
  ++ " px = "
  ++ str 42
  ++ "x"
  ++ str 28
  ++ " inches @ "
  ++ str DPI
  ++ " DPI".

(** lines 588 to 592 *)
Definition save_statements : list stmt :=
  [ Do (Savefig out DPI "tight"); Do Close;
    Do (Print saved_line); Do (Print size_line) ].

Definition script : script :=
  {| file := "gen_nvis_20m_car_roof.py"; canvas := figsize; dpi := DPI;
     sections := drawing ++ [SAVE]; output := out;
     program := map (fun s => Do (Draw s)) drawing ++ save_statements |}.

End gen_nvis_20m_car_roof.

Module gen_nvis_40m_car_roof.

Local Open Scope string_scope.

Definition DPI : Z := 200.
Definition figsize : Z * Z := (44, 30)%Z.

(** lines 27, 337, 341 and 344 to 347; [lz] hangs on [np.interp] and is
    not listed *)
Definition N : Z := 200.
Definition R_loop : R := 0.50.
Definition gap_angle : R := 0.07.

Definition main_loop : option (list (name * list R)) :=
  theta_l <- np.linspace (PI / 2 + gap_angle)
                         (PI / 2 + 2 * PI - gap_angle) N ;;
  let lx := map (fun t => R_loop * cos t) theta_l in
  let ly := map (fun t => R_loop * sin t) theta_l in
  Some [("theta_l", theta_l); ("lx", lx); ("ly", ly)].

Definition z_g : R := -0.18.

(** line 81 *)
Definition body_xs : list R :=
  [-2.2; -2.0; -1.6; -1.0; -0.4; 0.0; 0.4; 0.8; 1.2; 1.6; 2.0; 2.2; 2.35].

(** line 83 *)
Definition body_ws : list R :=
  [0.4; 0.72; 0.78; 0.8; 0.8; 0.8; 0.8; 0.8; 0.78; 0.74; 0.66; 0.5; 0.3].

(** line 86 *)
Definition body_ztop : list R :=
  [z_g + 0.2; z_g + 0.38; z_g + 0.44; z_g + 0.46; z_g + 0.46; z_g + 0.46;
   z_g + 0.46; z_g + 0.46; z_g + 0.44; z_g + 0.42; z_g + 0.36; z_g + 0.28;
   z_g + 0.2].

(** line 91 *)
Definition cab_xs : list R :=
  [-1.4; -1.0; -0.5; 0.0; 0.5; 0.9; 1.2].

(** line 92 *)
Definition cab_ws : list R :=
  [0.68; 0.74; 0.76; 0.76; 0.76; 0.72; 0.65].

(** line 93 *)
Definition cab_ztop : list R :=
  [z_g + 0.44; z_g + 0.72; z_g + 0.78; z_g + 0.8; z_g + 0.78; z_g + 0.72;
   z_g + 0.6].

Definition cross_sections : option (list (name * list R)) :=
  Some [("body_xs", body_xs); ("body_ws", body_ws);
        ("body_ztop", body_ztop); ("cab_xs", cab_xs); ("cab_ws", cab_ws);
        ("cab_ztop", cab_ztop)].

Definition drawing : list section :=
  [ {| title := "PREAMBLE"; line := 1;
       defines := [("plt", Library); ("DPI", Number); ("fig", Canvas);
                  ("np", Library); ("Poly3DCollection", Library);
                  ("N", Number); ("CU_MAIN", Text); ("CU_HI", Text);
                  ("CU_COUPLE", Text); ("ACCENT_RED", Text);
                  ("ACCENT_GRN", Text); ("ACCENT_BLUE", Text);
                  ("TEXT_DARK", Text); ("FancyBboxPatch", Library);
                  ("GOLD", Text)];
       reads := [];
       updates := [];
       computes := Some [] |};
    {| title := "MAIN 3D VIEW (left 58%)"; line := 30;
       defines := [("ax", Canvas); ("poly", Helper); ("tube", Helper);
                  ("box3d", Helper)];
       reads := ["fig"];
       updates := [];
       computes := Some [] |};
    {| title := "CAR - realistic sedan built from profiled cross-sections"; line := 74;
       defines := [("body_xs", Array); ("z_g", Number); ("body_ws", Array);
                  ("cab_xs", Array); ("cab_ws", Array); ("cab_ztop", Array)];
       reads := ["ax"; "np"; "poly"; "Poly3DCollection"];
       updates := [];
       computes := cross_sections |};
    {| title := "ANTENNA - 1.0 m magnetic loop for 40 m, horizontal on roof"; line := 335;
       defines := [("R_loop", Number); ("z_loop", Number)];
       reads := ["ax"; "np"; "body_xs"; "z_g"; "body_ws"; "poly";
                "Poly3DCollection"; "cab_xs"; "cab_ws"; "cab_ztop"; "N";
                "tube"; "CU_MAIN"; "CU_HI"; "box3d"; "CU_COUPLE"];
       updates := [];
       computes := main_loop |};
    {| title := "NVIS RADIATION PATTERN - arrows + ionosphere"; line := 490;
       defines := [];
       reads := ["ax"; "np"; "z_g"; "cab_xs"; "cab_ztop"; "R_loop"; "z_loop";
                "ACCENT_RED"; "ACCENT_GRN"];
       updates := [];
       computes := Some [] |};
    {| title := "PANEL A - Specifications (top-right)"; line := 597;
       defines := [];
       reads := ["fig"; "ACCENT_BLUE"; "TEXT_DARK"; "FancyBboxPatch"];
       updates := [];
       computes := Some [] |};
    {| title := "PANEL B - Installation Guide (bottom-right, taller)"; line := 651;
       defines := [];
       reads := ["plt"; "fig"; "TEXT_DARK"; "FancyBboxPatch"];
       updates := [];
       computes := Some [] |};
    {| title := "INSET - NVIS Radiation Pattern (polar, bottom-left corner of 3D view)"; line := 733;
       defines := [];
       reads := ["fig"; "np"; "GOLD"];
       updates := [];
       computes := Some [] |};
    {| title := "INSET - Coverage Map (small, overlaid in 3D area)"; line := 792;
       defines := [];
       reads := ["fig"; "np"; "ACCENT_RED"];
       updates := [];
       computes := Some [] |};
    {| title := "TITLE BANNER"; line := 837;
       defines := [];
       reads := ["fig"; "FancyBboxPatch"; "GOLD"];
       updates := [("fig.patches", Canvas)];
       computes := Some [] |};
    {| title := "FOOTER"; line := 857;
       defines := [];
       reads := ["fig"; "FancyBboxPatch"];
       updates := [("fig.patches", Canvas)];
       computes := Some [] |}
  ].

Definition SAVE : section :=
  {| title := "SAVE"; line := 871;
   defines := [];
   reads := ["plt"; "DPI"; "fig"];
   updates := [];
   computes := Some [] |}.

(** line 873 *)
Definition out : string :=
  "C:\Users\Jakkrit\.local\bin\NVIS_40m_Car_Roof_3D.jpg".

(** line 877 *)
Definition saved_line : string :=
  "Saved: "
  ++ out.

(** line 878 *)
Definition size_line : string :=
  "Size: "
  ++ str (44 * DPI)
  ++ " x "
  ++ str (30 * DPI)
  ++ " px  =  "
  ++ str 44
  ++ "x"
  ++ str 30
  ++ " in @ "
  ++ str DPI
  ++ " DPI".

(** lines 874 to 878 *)
Definition save_statements : list stmt :=
  [ Do (Savefig out DPI "tight"); Do Close;
    Do (Print saved_line); Do (Print size_line) ].

Definition script : script :=
  {| file := "gen_nvis_40m_car_roof.py"; canvas := figsize; dpi := DPI;
     sections := drawing ++ [SAVE]; output := out;
     program := map (fun s => Do (Draw s)) drawing ++ save_statements |}.

End gen_nvis_40m_car_roof.

Module gen_nvis_80_40m_car_roof.

Local Open Scope string_scope.

Definition DPI : Z := 200.
Definition figsize : Z * Z := (48, 32)%Z.

(** lines 28, 348, 352 and 355 *)
Definition N : Z := 220.
Definition R_loop : R := 0.50.
Definition gap_a : R := 0.07.

Definition main_loop : option (list (name * list R)) :=
  th_l <- np.linspace (PI / 2 + gap_a) (PI / 2 + 2 * PI - gap_a) N ;;
  Some [("th_l", th_l)].

Definition z_g : R := -0.2.

(** line 88 *)
Definition bx : list R :=
  [-2.3; -2.15; -2.0; -1.8; -1.5; -1.2; -0.8; -0.4; 0.0; 0.3; 0.6; 0.9; 1.2;
   1.5; 1.75; 2.0; 2.15; 2.3; 2.42; 2.5].

(** line 91 *)
Definition bw : list R :=
  [0.28; 0.52; 0.72; 0.79; 0.82; 0.83; 0.84; 0.84; 0.84; 0.84; 0.84; 0.84;
   0.82; 0.79; 0.74; 0.67; 0.56; 0.42; 0.3; 0.18].

(** line 94 *)
Definition bzt : list R :=
  [z_g + 0.15; z_g + 0.3; z_g + 0.4; z_g + 0.45; z_g + 0.48; z_g + 0.48;
   z_g + 0.48; z_g + 0.48; z_g + 0.48; z_g + 0.48; z_g + 0.48; z_g + 0.48;
   z_g + 0.47; z_g + 0.45; z_g + 0.42; z_g + 0.38; z_g + 0.33; z_g + 0.26;
   z_g + 0.2; z_g + 0.14].

(** line 100 *)
Definition cx_ : list R :=
  [-1.5; -1.2; -0.8; -0.4; 0.0; 0.4; 0.7; 1.0; 1.25; 1.45].

(** line 101 *)
Definition cw_ : list R :=
  [0.6; 0.72; 0.77; 0.78; 0.78; 0.78; 0.77; 0.74; 0.68; 0.58].

(** line 102 *)
Definition czt : list R :=
  [z_g + 0.48; z_g + 0.68; z_g + 0.78; z_g + 0.82; z_g + 0.84; z_g + 0.82;
   z_g + 0.78; z_g + 0.72; z_g + 0.64; z_g + 0.55].

Definition cross_sections : option (list (name * list R)) :=
  Some [("bx", bx); ("bw", bw); ("bzt", bzt); ("cx_", cx_); ("cw_", cw_);
        ("czt", czt)].

Definition drawing : list section :=
  [ {| title := "PREAMBLE"; line := 1;
       defines := [("plt", Library); ("DPI", Number); ("fig", Canvas);
                  ("np", Library); ("Poly3DCollection", Library);
                  ("N", Number); ("CU", Text); ("CU_HI", Text);
                  ("CU_CPL", Text); ("A_RED", Text); ("A_GRN", Text);
                  ("A_BLUE", Text); ("TD", Text);
                  ("FancyBboxPatch", Library); ("GOLD", Text)];
       reads := [];
       updates := [];
       computes := Some [] |};
    {| title := "MAIN 3-D VIEW (upper-left 56 %)"; line := 32;
       defines := [("ax", Canvas); ("qpoly", Helper); ("cylinder", Helper);
                  ("tube", Helper); ("box3d", Helper)];
       reads := ["fig"];
       updates := [];
       computes := Some [] |};
    {| title := "CAR - high-detail sedan with 20 cross-sections, metallic look"; line := 83;
       defines := [("z_g", Number); ("bx", Array); ("bw", Array);
                  ("cx_", Array); ("cw_", Array); ("czt", Array)];
       reads := ["ax"; "np"; "qpoly"; "Poly3DCollection"; "cylinder"];
       updates := [];
       computes := cross_sections |};
    {| title := "ANTENNA - 1.0 m dual-band loop with relay-switched cap banks"; line := 346;
       defines := [("z_roof", Number); ("R_loop", Number); ("z_lp", Number)];
       reads := ["ax"; "np"; "z_g"; "bx"; "bw"; "qpoly"; "Poly3DCollection";
                "cx_"; "cw_"; "czt"; "cylinder"; "N"; "tube"; "CU"; "CU_HI";
                "box3d"; "CU_CPL"];
       updates := [];
       computes := main_loop |};
    {| title := "NVIS RADIATION ARROWS + IONOSPHERE"; line := 493;
       defines := [];
       reads := ["ax"; "np"; "z_g"; "z_roof"; "R_loop"; "z_lp"; "A_RED";
                "A_GRN"];
       updates := [];
       computes := Some [] |};
    {| title := "PANEL A - Dual-Band Specifications (right, upper)"; line := 582;
       defines := [];
       reads := ["fig"; "A_BLUE"; "TD"; "FancyBboxPatch"];
       updates := [];
       computes := Some [] |};
    {| title := "PANEL B - Installation Guide (right, lower)"; line := 651;
       defines := [];
       reads := ["plt"; "fig"; "TD"; "FancyBboxPatch"];
       updates := [];
       computes := Some [] |};
    {| title := "INSET - Radiation Pattern (bottom-left)"; line := 721;
       defines := [];
       reads := ["fig"; "np"; "GOLD"];
       updates := [("pat", Array)];
       computes := Some [] |};
    {| title := "INSET - Coverage Map"; line := 764;
       defines := [];
       reads := ["fig"; "np"; "A_RED"];
       updates := [];
       computes := Some [] |};
    {| title := "INSET - Switching Diagram (schematic)"; line := 799;
       defines := [];
       reads := ["plt"; "fig"; "np"; "CU"; "CU_HI"; "FancyBboxPatch"];
       updates := [];
       computes := Some [] |};
    {| title := "TITLE BANNER"; line := 879;
       defines := [];
       reads := ["fig"; "FancyBboxPatch"; "GOLD"];
       updates := [("fig.patches", Canvas)];
       computes := Some [] |};
    {| title := "FOOTER"; line := 899;
       defines := [];
       reads := ["fig"; "FancyBboxPatch"];
       updates := [("fig.patches", Canvas)];
       computes := Some [] |}
  ].

Definition SAVE : section :=
  {| title := "SAVE"; line := 913;
   defines := [];
   reads := ["plt"; "DPI"; "fig"];
   updates := [];
   computes := Some [] |}.

(** line 915 *)
Definition out : string :=
  "C:\Users\Jakkrit\.local\bin\NVIS_80_40m_Car_Roof_3D.jpg".

(** line 919 *)
Definition saved_line : string :=
  "Saved: "
  ++ out.

(** line 920 *)
Definition size_line : string :=
  "Size: "
  ++ str (48 * DPI)
  ++ " x "
  ++ str (32 * DPI)
  ++ " px = "
  ++ str 48
  ++ "x"
  ++ str 32
  ++ " in @ "
  ++ str DPI
  ++ " DPI".

(** lines 916 to 920 *)
Definition save_statements : list stmt :=
  [ Do (Savefig out DPI "tight"); Do Close;
    Do (Print saved_line); Do (Print size_line) ].

Definition script : script :=
  {| file := "gen_nvis_80_40m_car_roof.py"; canvas := figsize; dpi := DPI;
     sections := drawing ++ [SAVE]; output := out;
     program := map (fun s => Do (Draw s)) drawing ++ save_statements |}.

End gen_nvis_80_40m_car_roof.

Module gen_nvis_80_40_20m_triband.

Local Open Scope string_scope.

Definition DPI : Z := 200.
Definition figsize : Z * Z := (48, 34)%Z.

(** lines 384, 389 and 397 to 400 *)
Definition R_loop : R := 0.60.
Definition gap_len : R := 0.08.
Definition gap_angle : R := asin ((gap_len / 2) / R_loop).

Definition main_loop : option (list (name * list R)) :=
  angles <- np.linspace gap_angle (2 * PI - gap_angle) 200 ;;
  let loop_x := map (fun t => R_loop * cos t) angles in
  let loop_y := map (fun t => R_loop * sin t) angles in
  Some [("angles", angles); ("loop_x", loop_x); ("loop_y", loop_y)].

Definition z_g : R := -0.15.

(** line 83 *)
Definition bx : list R :=
  [-2.3; -2.18; -2.05; -1.9; -1.72; -1.5; -1.28; -1.05; -0.8; -0.55; -0.3;
   -0.05; 0.2; 0.45; 0.7; 0.95; 1.2; 1.45; 1.7; 1.9; 2.08; 2.22; 2.35; 2.45].

(** line 86 *)
Definition bw : list R :=
  [0.42; 0.62; 0.76; 0.84; 0.89; 0.92; 0.93; 0.93; 0.93; 0.93; 0.93; 0.93;
   0.93; 0.93; 0.93; 0.92; 0.9; 0.86; 0.8; 0.72; 0.62; 0.52; 0.4; 0.28].

(** line 90 *)
Definition bzt : list R :=
  [z_g + 0.28; z_g + 0.36; z_g + 0.42; z_g + 0.46; z_g + 0.47; z_g + 0.48;
   z_g + 0.48; z_g + 0.48; z_g + 0.48; z_g + 0.48; z_g + 0.48; z_g + 0.48;
   z_g + 0.48; z_g + 0.48; z_g + 0.48; z_g + 0.48; z_g + 0.47; z_g + 0.46;
   z_g + 0.44; z_g + 0.42; z_g + 0.38; z_g + 0.34; z_g + 0.28; z_g + 0.22].

(** line 97 *)
Definition cx_ : list R :=
  [-1.5; -1.2; -0.85; -0.45; 0.0; 0.4; 0.75; 1.05; 1.25; 1.4].

(** line 98 *)
Definition cw_ : list R :=
  [0.78; 0.84; 0.88; 0.9; 0.9; 0.9; 0.88; 0.85; 0.8; 0.72].

(** line 100 *)
Definition czt : list R :=
  [z_g + 0.48; z_g + 0.72; z_g + 0.83; z_g + 0.87; z_g + 0.88; z_g + 0.88;
   z_g + 0.86; z_g + 0.82; z_g + 0.76; z_g + 0.68].

Definition cross_sections : option (list (name * list R)) :=
  Some [("bx", bx); ("bw", bw); ("bzt", bzt); ("cx_", cx_); ("cw_", cw_);
        ("czt", czt)].

Definition drawing : list section :=
  [ {| title := "PREAMBLE"; line := 1;
       defines := [("plt", Library); ("DPI", Number); ("fig", Canvas);
                  ("np", Library); ("Poly3DCollection", Library);
                  ("N", Number); ("CU_CPL", Text); ("A_RED", Text);
                  ("A_GRN", Text); ("A_BLUE", Text); ("TD", Text);
                  ("FancyBboxPatch", Library); ("A_CYAN_LT", Text);
                  ("GOLD", Text)];
       reads := [];
       updates := [];
       computes := Some [] |};
    {| title := "MAIN 3-D VIEW (upper-left)"; line := 31;
       defines := [("ax", Canvas); ("qpoly", Helper); ("box3d", Helper);
                  ("cylinder", Helper); ("tube", Helper)];
       reads := ["fig"];
       updates := [];
       computes := Some [] |};
    {| title := "SEDAN - realistic mid-size sedan (lower, swoopy, 3-box)"; line := 78;
       defines := [("z_g", Number); ("bx", Array); ("bw", Array);
                  ("cx_", Array); ("cw_", Array); ("czt", Array)];
       reads := ["ax"; "np"; "qpoly"; "Poly3DCollection"; "box3d"; "cylinder"];
       updates := [];
       computes := cross_sections |};
    {| title := "TRI-BAND ANTENNA - dia 1.20 m CIRCLE, 40 mm Ag-Cu, 2-turn/1-turn"; line := 381;
       defines := [("z_roof", Number); ("z_lp", Number); ("R_loop", Number);
                  ("z_lp2", Number)];
       reads := ["ax"; "np"; "z_g"; "bx"; "bw"; "qpoly"; "Poly3DCollection";
                "cx_"; "cw_"; "czt"; "box3d"; "cylinder"; "tube"; "N";
                "CU_CPL"];
       updates := [];
       computes := main_loop |};
    {| title := "NVIS RADIATION + IONOSPHERE"; line := 591;
       defines := [];
       reads := ["ax"; "np"; "z_g"; "z_roof"; "z_lp"; "R_loop"; "z_lp2";
                "A_RED"; "A_GRN"];
       updates := [];
       computes := Some [] |};
    {| title := "PANEL A - Tri-Band Specs (right, upper)"; line := 682;
       defines := [];
       reads := ["fig"; "A_BLUE"; "TD"; "FancyBboxPatch"; "A_CYAN_LT"];
       updates := [];
       computes := Some [] |};
    {| title := "PANEL B - Installation Guide (right, lower)"; line := 762;
       defines := [];
       reads := ["plt"; "fig"; "TD"; "FancyBboxPatch"];
       updates := [];
       computes := Some [] |};
    {| title := "INSET 1 - Tri-Band Efficiency Bar Chart"; line := 838;
       defines := [("x_b", Array); ("w_", Number); ("bar_colors", Texts);
                  ("bands", Texts)];
       reads := ["fig"; "np"; "A_CYAN_LT"];
       updates := [];
       computes := Some [] |};
    {| title := "INSET 2 - Tri-Band ERP Bar Chart"; line := 868;
       defines := [];
       reads := ["fig"; "x_b"; "w_"; "bar_colors"; "bands"];
       updates := [];
       computes := Some [] |};
    {| title := "INSET 3 - Loss Budget Pie Charts (3 bands)"; line := 894;
       defines := [];
       reads := ["fig"; "A_CYAN_LT"];
       updates := [];
       computes := Some [] |};
    {| title := "TITLE BANNER"; line := 939;
       defines := [];
       reads := ["fig"; "FancyBboxPatch"; "GOLD"];
       updates := [("fig.patches", Canvas)];
       computes := Some [] |};
    {| title := "FOOTER"; line := 958;
       defines := [];
       reads := ["fig"; "FancyBboxPatch"];
       updates := [("fig.patches", Canvas)];
       computes := Some [] |}
  ].

Definition SAVE : section :=
  {| title := "SAVE"; line := 972;
   defines := [];
   reads := ["plt"; "DPI"; "fig"];
   updates := [];
   computes := Some [] |}.

(** line 974 *)
Definition out : string :=
  "C:\Users\Jakkrit\.local\bin\NVIS_80_40_20m_Triband_Sedan_3D.jpg".

(** line 978 *)
Definition saved_line : string :=
  "Saved: "
  ++ out.

(** line 979 *)
Definition size_line : string :=
  "Size: "
  ++ str (48 * DPI)
  ++ " x "
  ++ str (34 * DPI)
  ++ " px = "
  ++ str 48
  ++ "x"
  ++ str 34
  ++ " in @ "
  ++ str DPI
  ++ " DPI".

(** lines 975 to 979 *)
Definition save_statements : list stmt :=
  [ Do (Savefig out DPI "tight"); Do Close;
    Do (Print saved_line); Do (Print size_line) ].

Definition script : script :=
  {| file := "gen_nvis_80_40_20m_triband.py"; canvas := figsize; dpi := DPI;
     sections := drawing ++ [SAVE]; output := out;
     program := map (fun s => Do (Draw s)) drawing ++ save_statements |}.

End gen_nvis_80_40_20m_triband.

(** In the last script the banner INSET 4 stands over a comment only; it
    is kept as a section that does nothing. *)

Module gen_nvis_80_40m_optimized.

Local Open Scope string_scope.

Definition DPI : Z := 200.
Definition figsize : Z * Z := (48, 34)%Z.

(** lines 434 to 436: [loop_pts[:, 0]] and [loop_pts[:, 1]] *)
Definition main_loop : option (list (name * list R)) :=
  pts <- loop_pts ;;
  let loop_x := map fst pts in
  let loop_y := map snd pts in
  Some [("loop_x", loop_x); ("loop_y", loop_y)].

Definition z_g : R := -0.15.

(** line 81 *)
Definition bx : list R :=
  [-2.3; -2.18; -2.05; -1.9; -1.72; -1.5; -1.28; -1.05; -0.8; -0.55; -0.3;
   -0.05; 0.2; 0.45; 0.7; 0.95; 1.2; 1.45; 1.7; 1.9; 2.08; 2.22; 2.35; 2.45].

(** line 84 *)
Definition bw : list R :=
  [0.42; 0.62; 0.76; 0.84; 0.89; 0.92; 0.93; 0.93; 0.93; 0.93; 0.93; 0.93;
   0.93; 0.93; 0.93; 0.92; 0.9; 0.86; 0.8; 0.72; 0.62; 0.52; 0.4; 0.28].

(** line 88 *)
Definition bzt : list R :=
  [z_g + 0.28; z_g + 0.36; z_g + 0.42; z_g + 0.46; z_g + 0.47; z_g + 0.48;
   z_g + 0.48; z_g + 0.48; z_g + 0.48; z_g + 0.48; z_g + 0.48; z_g + 0.48;
   z_g + 0.48; z_g + 0.48; z_g + 0.48; z_g + 0.48; z_g + 0.47; z_g + 0.46;
   z_g + 0.44; z_g + 0.42; z_g + 0.38; z_g + 0.34; z_g + 0.28; z_g + 0.22].

(** line 95 *)
Definition cx_ : list R :=
  [-1.5; -1.2; -0.85; -0.45; 0.0; 0.4; 0.75; 1.05; 1.25; 1.4].

(** line 96 *)
Definition cw_ : list R :=
  [0.78; 0.84; 0.88; 0.9; 0.9; 0.9; 0.88; 0.85; 0.8; 0.72].

(** line 98 *)
Definition czt : list R :=
  [z_g + 0.48; z_g + 0.72; z_g + 0.83; z_g + 0.87; z_g + 0.88; z_g + 0.88;
   z_g + 0.86; z_g + 0.82; z_g + 0.76; z_g + 0.68].

Definition cross_sections : option (list (name * list R)) :=
  Some [("bx", bx); ("bw", bw); ("bzt", bzt); ("cx_", cx_); ("cw_", cw_);
        ("czt", czt)].

Definition drawing : list section :=
  [ {| title := "PREAMBLE"; line := 1;
       defines := [("plt", Library); ("DPI", Number); ("fig", Canvas);
                  ("np", Library); ("Poly3DCollection", Library);
                  ("N", Number); ("CU_CPL", Text); ("A_RED", Text);
                  ("A_GRN", Text); ("A_BLUE", Text); ("TD", Text);
                  ("FancyBboxPatch", Library); ("GOLD", Text)];
       reads := [];
       updates := [];
       computes := Some [] |};
    {| title := "MAIN 3-D VIEW (upper-left)"; line := 29;
       defines := [("ax", Canvas); ("qpoly", Helper); ("box3d", Helper);
                  ("cylinder", Helper); ("tube", Helper)];
       reads := ["fig"];
       updates := [];
       computes := Some [] |};
    {| title := "SEDAN - realistic mid-size sedan (lower, swoopy, 3-box)"; line := 76;
       defines := [("z_g", Number); ("bx", Array); ("bw", Array);
                  ("cx_", Array); ("cw_", Array); ("czt", Array)];
       reads := ["ax"; "np"; "qpoly"; "Poly3DCollection"; "box3d"; "cylinder"];
       updates := [];
       computes := cross_sections |};
    {| title := "OPTIMIZED ANTENNA - 1.40x0.80 m RECTANGULAR, 28 mm Ag-Cu, 2-turn/1-turn"; line := 379;
       defines := [("z_roof", Number); ("z_lp", Number); ("Lx_loop", Number);
                  ("Ly_loop", Number); ("z_lp2", Number)];
       reads := ["ax"; "np"; "z_g"; "bx"; "bw"; "qpoly"; "Poly3DCollection";
                "cx_"; "cw_"; "czt"; "box3d"; "cylinder"; "tube"; "N";
                "CU_CPL"];
       updates := [("pts", Array)];
       computes := main_loop |};
    {| title := "NVIS RADIATION + IONOSPHERE"; line := 626;
       defines := [];
       reads := ["ax"; "np"; "z_g"; "z_roof"; "z_lp"; "Lx_loop"; "Ly_loop";
                "z_lp2"; "A_RED"; "A_GRN"];
       updates := [];
       computes := Some [] |};
    {| title := "PANEL A - Optimized Specs (right, upper)"; line := 717;
       defines := [];
       reads := ["fig"; "A_BLUE"; "TD"; "FancyBboxPatch"];
       updates := [];
       computes := Some [] |};
    {| title := "PANEL B - Installation Guide (right, lower)"; line := 796;
       defines := [];
       reads := ["plt"; "fig"; "TD"; "FancyBboxPatch"];
       updates := [];
       computes := Some [] |};
    {| title := "INSET 1 - Efficiency Improvement Bar Chart"; line := 872;
       defines := [("w_", Number); ("x_b", Array); ("bands", Texts)];
       reads := ["fig"; "np"; "GOLD"];
       updates := [];
       computes := Some [] |};
    {| title := "INSET 2 - ERP Comparison"; line := 920;
       defines := [];
       reads := ["fig"; "w_"; "x_b"; "GOLD"; "bands"];
       updates := [];
       computes := Some [] |};
    {| title := "INSET 3 - Loss Budget Pie Charts"; line := 964;
       defines := [];
       reads := ["fig"];
       updates := [];
       computes := Some [] |};
    {| title := "INSET 4 - Switching Schematic (compact)"; line := 997;
       defines := [];
       reads := [];
       updates := [];
       computes := Some [] |};
    {| title := "TITLE BANNER"; line := 1003;
       defines := [];
       reads := ["fig"; "FancyBboxPatch"; "GOLD"];
       updates := [("fig.patches", Canvas)];
       computes := Some [] |};
    {| title := "FOOTER"; line := 1023;
       defines := [];
       reads := ["fig"; "FancyBboxPatch"];
       updates := [("fig.patches", Canvas)];
       computes := Some [] |}
  ].

Definition SAVE : section :=
  {| title := "SAVE"; line := 1037;
   defines := [];
   reads := ["plt"; "DPI"; "fig"];
   updates := [];
   computes := Some [] |}.

(** line 1039 *)
Definition out : string :=
  "C:\Users\Jakkrit\.local\bin\NVIS_80_40m_Optimized_Sedan_3D.jpg".

(** line 1043 *)
Definition saved_line : string :=
  "Saved: "
  ++ out.

(** line 1044 *)
Definition size_line : string :=
  "Size: "
  ++ str (48 * DPI)
  ++ " x "
  ++ str (34 * DPI)
  ++ " px = "
  ++ str 48
  ++ "x"
  ++ str 34
  ++ " in @ "
  ++ str DPI
  ++ " DPI".

(** lines 1040 to 1044 *)
Definition save_statements : list stmt :=
  [ Do (Savefig out DPI "tight"); Do Close;
    Do (Print saved_line); Do (Print size_line) ].

Definition script : script :=
  {| file := "gen_nvis_80_40m_optimized.py"; canvas := figsize; dpi := DPI;
     sections := drawing ++ [SAVE]; output := out;
     program := map (fun s => Do (Draw s)) drawing ++ save_statements |}.

End gen_nvis_80_40m_optimized.

Definition scripts : list script :=
  [ gen_nvis_20m_car_roof.script; gen_nvis_40m_car_roof.script;
    gen_nvis_80_40m_car_roof.script; gen_nvis_80_40_20m_triband.script;
    gen_nvis_80_40m_optimized.script ].

(** ** The statements of the scripts

    Which statement can change an object in place is a matter of syntax,
    so the scripts are listed once more, statement by statement, with what
    that takes: the line, the targets, and for each expression how its
    value comes about, the names it loads and the calls it makes.  A name
    bound by a comprehension lives in the comprehension only and is left
    out. *)

(** How the value of an expression comes about. *)
Inductive shape : Type :=
| Constant        (* a literal, an f-string, or no expression at all *)
| Display         (* [[...]], [(...)], [{...}]: a new container *)
| Comprehension   (* [[... for ...]]: a new container *)
| Arithmetic      (* an operator applied to operands: a new value *)
| Call            (* [f(...)]: what the callee returns *)
| Reference       (* a name, [x[i]] or [x.attr]: an object that is there *)
| Choice.         (* [a if c else b] *)

(** An expression: its shape, the names it loads, and the calls in it,
    each as the dotted path of the callee ([np.linspace] is
    [["np"; "linspace"]]). *)
Inductive expression : Type :=
| E (sh : shape) (names : list name) (called : list (list string)).

Inductive target : Type :=
| Name (x : name)              (* [x = ...] *)
| Unpack (xs : list name)      (* [x, y = ...] *)
| Subscript (base : name)      (* [x[i] = ...], [x[i:j] = ...] *)
| Attribute (base : name).     (* [x.attr = ...] *)

#[warnings="-register-all"]
Inductive py : Type :=
| Assign (l : nat) (targets : list target) (value : expression)
| AugAssign (l : nat) (t : target) (value : expression)
| Expr (l : nat) (value : expression)
| For (l : nat) (t : target) (iter : expression) (body : list py)
| If (l : nat) (test : expression) (body orelse : list py)
| FunctionDef (l : nat) (f : name) (args : list name)
              (defaults : expression) (body : list py)
| Imports (l : nat) (names : list name)
| Return (l : nat) (value : expression).

Definition shape_of (e : expression) : shape := let 'E sh _ _ := e in sh.

Definition names_of (e : expression) : list name := let 'E _ ns _ := e in ns.

Definition called (e : expression) : list (list string) :=
  let 'E _ _ cs := e in cs.

Definition line_of (s : py) : nat :=
  match s with
  | Assign l _ _ | AugAssign l _ _ | Expr l _ | For l _ _ _ | If l _ _ _
  | FunctionDef l _ _ _ _ | Imports l _ | Return l _ => l
  end.

(** The expression that a statement evaluates itself; those of the
    statements in its body are theirs. *)
Definition value_of (s : py) : expression :=
  match s with
  | Assign _ _ v | AugAssign _ _ v | Expr _ v | For _ _ v _ | If _ v _ _
  | FunctionDef _ _ _ v _ | Return _ v => v
  | Imports _ _ => E Constant [] []
  end.

(** A statement and the statements of its blocks, in the order of the
    text.  The body of a function is another scope and is not entered. *)
Fixpoint flat (s : py) : list py :=
  match s with
  | For _ _ _ body => s :: flat_map flat body
  | If _ _ body orelse => s :: flat_map flat body ++ flat_map flat orelse
  | _ => [s]
  end.

Definition statements (p : list py) : list py := flat_map flat p.

(** The functions that a block defines: name, parameters, body. *)
Definition functions (p : list py) : list (name * list name * list py) :=
  flat_map (fun s => match s with
                     | FunctionDef _ f args _ body => [(f, args, body)]
                     | _ => []
                     end) (statements p).

(** Every statement of a script: those of the module, then those of its
    functions. *)
Definition everywhere (p : list py) : list py :=
  statements p ++ flat_map (fun f => statements (snd f)) (functions p).

Definition mem (x : string) (l : list string) : bool :=
  existsb (String.eqb x) l.

(** The methods of [list] and of [numpy.ndarray] that change the object
    they are called on. *)
Definition in_place_methods : list string :=
  [ "append"; "clear"; "extend"; "insert"; "pop"; "remove"; "reverse";
    "sort";
    "byteswap"; "fill"; "itemset"; "partition"; "put"; "resize";
    "setfield"; "setflags" ]%string.

(** [x] for each call [x.m(...)] of such a method on a bare name. *)
Definition receivers (e : expression) : list name :=
  flat_map (fun path => match path with
                        | [x; m] => if mem m in_place_methods then [x] else []
                        | _ => []
                        end) (called e).

(** The calls [x.y...m(...)] of such a method on something that is not
    a bare name. *)
Definition far_receivers (e : expression) : list (list string) :=
  filter (fun path => (2 <? List.length path)%nat
                      && mem (last path EmptyString) in_place_methods)
         (called e).

Definition stores (t : target) : list name :=
  match t with
  | Subscript b | Attribute b => [b]
  | Name _ | Unpack _ => []
  end.

(** The names whose object a statement changes in place: by an augmented
    assignment, by a store into an element, a slice or an attribute, or
    by a method of the list above. *)
Definition updated (s : py) : list name :=
  match s with
  | Assign _ ts v => flat_map stores ts ++ receivers v
  | AugAssign _ t v =>
      match t with
      | Name x => [x]
      | Unpack xs => xs
      | Subscript b | Attribute b => [b]
      end ++ receivers v
  | For _ t v _ => stores t ++ receivers v
  | Expr _ v | If _ v _ _ | FunctionDef _ _ _ v _ | Return _ v => receivers v
  | Imports _ _ => []
  end.

Definition bound_by (t : target) : list name :=
  match t with
  | Name x => [x]
  | Unpack xs => xs
  | Subscript _ | Attribute _ => []
  end.

(** The names a statement binds. *)
Definition binds (s : py) : list name :=
  match s with
  | Assign _ ts _ => flat_map bound_by ts
  | For _ t _ _ => bound_by t
  | FunctionDef _ f _ _ _ => [f]
  | Imports _ ns => ns
  | AugAssign _ _ _ | Expr _ _ | If _ _ _ _ | Return _ _ => []
  end.

(** An expression of one of these shapes yields an object that did not
    exist before; a constant, a reference and a choice yield one that
    did.  (For a call this is so for the calls the scripts make: the
    constructors of numpy and matplotlib, and [rect_loop_pts], which
    returns [np.array(pts)].) *)
Definition fresh (sh : shape) : bool :=
  match sh with
  | Display | Comprehension | Arithmetic | Call => true
  | Constant | Reference | Choice => false
  end.

(** [s] binds [x], by itself and not in an unpacking or a loop, to an
    object that [s] has just made. *)
Definition creates (s : py) (x : name) : bool :=
  match s with
  | Assign _ ts v =>
      fresh (shape_of v)
      && existsb (fun t => match t with
                           | Name y => String.eqb x y
                           | _ => false
                           end) ts
  | _ => false
  end.

(** The section a line is in: the line of the last banner at or above
    it. *)
Definition section_at (s : script) (l : nat) : nat :=
  fold_left (fun acc sec => if (line sec <=? l)%nat then line sec else acc)
            (sections s) 0%nat.


(** *** The five scripts, statement by statement *)

Module statements_of.

Local Open Scope string_scope.

Definition gen_nvis_20m_car_roof : list py :=
  [
    Expr 2 (E Constant [] []);
    Imports 4 ["matplotlib"];
    Expr 5 (E Call ["matplotlib"] [["matplotlib"; "use"]]);
    Imports 6 ["plt"];
    Imports 7 ["Axes3D"];
    Imports 8 ["Poly3DCollection"];
    Imports 9 ["FancyBboxPatch"];
    Imports 10 ["np"];
    Assign 12 [Name "DPI"] (E Constant [] []);
    Assign 13 [Name "fig"] (E Call ["plt"; "DPI"] [["plt"; "figure"]]);
    Assign 16 [Name "BG"] (E Constant [] []);
    Assign 17 [Name "BG_PANEL"] (E Constant [] []);
    Assign 18 [Name "PANEL_BG"] (E Constant [] []);
    Assign 19 [Name "TEXT_LIGHT"] (E Constant [] []);
    Assign 20 [Name "TEXT_DARK"] (E Constant [] []);
    Assign 21 [Name "CU_MAIN"] (E Constant [] []);
    Assign 22 [Name "CU_HI"] (E Constant [] []);
    Assign 23 [Name "CU_COUPLE"] (E Constant [] []);
    Assign 24 [Name "CAR_BODY"] (E Constant [] []);
    Assign 25 [Name "CAR_ROOF"] (E Constant [] []);
    Assign 26 [Name "CAR_GLASS"] (E Constant [] []);
    Assign 27 [Name "ACCENT_RED"] (E Constant [] []);
    Assign 28 [Name "ACCENT_BLUE"] (E Constant [] []);
    Assign 29 [Name "ACCENT_GRN"] (E Constant [] []);
    Assign 30 [Name "GOLD"] (E Constant [] []);
    Assign 31 [Name "CAP_BLUE"] (E Constant [] []);
    Assign 33 [Name "N_pts"] (E Constant [] []);
    Assign 38 [Name "ax"] (E Call ["fig"] [["fig"; "add_axes"]]);
    Expr 40 (E Call ["ax"] [["ax"; "set_facecolor"]]);
    Expr 41 (E Call ["ax"] [["ax"; "set_xlim"]]);
    Expr 42 (E Call ["ax"] [["ax"; "set_ylim"]]);
    Expr 43 (E Call ["ax"] [["ax"; "set_zlim"]]);
    Expr 44 (E Call ["ax"] [["ax"; "view_init"]]);
    Expr 45 (E Call ["ax"] [["ax"; "set_box_aspect"]]);
    Expr 46 (E Call ["ax"] [["ax"; "axis"]]);
    FunctionDef 50 "draw_tube" ["ax"; "px"; "py"; "pz"; "color"; "lw";
        "hi_color"; "alpha"; "zo"] (E Display [] [])
      [
        Expr 51 (E Call ["ax"; "px"; "py"; "pz"; "color"; "lw"; "alpha";
            "zo"] [["ax"; "plot"]]);
        If 53 (E Reference ["hi_color"] [])
          [
            Expr 54 (E Call ["ax"; "px"; "py"; "pz"; "hi_color"; "lw"; "zo"]
                [["ax"; "plot"]])
          ]
          []
      ];
    FunctionDef 59 "draw_box" ["ax"; "cx"; "cy"; "cz"; "hw"; "hd"; "hh";
        "colors"; "ec"; "alpha"; "zo"] (E Display [] [])
      [
        Assign 60 [Name "faces"] (E Display ["cx"; "hw"; "cy"; "hd"; "cz";
            "hh"] []);
        For 74 (Unpack ["face"; "fc"]) (E Call ["zip"; "faces"; "colors"]
            [["zip"]])
          [
            Assign 75 [Name "p"] (E Call ["Poly3DCollection"; "face";
                "alpha"; "zo"] [["Poly3DCollection"]]);
            Expr 76 (E Call ["p"; "fc"] [["p"; "set_facecolor"]]);
            Expr 77 (E Call ["p"; "ec"] [["p"; "set_edgecolor"]]);
            Expr 78 (E Call ["p"] [["p"; "set_linewidth"]]);
            Expr 79 (E Call ["ax"; "p"] [["ax"; "add_collection3d"]])
          ]
      ];
    Assign 88 [Name "car_l"] (E Constant [] []);
    Assign 89 [Name "car_w"] (E Constant [] []);
    Assign 90 [Name "car_h"] (E Constant [] []);
    Assign 91 [Name "z_ground"] (E Arithmetic [] []);
    Assign 92 [Name "z_body"] (E Arithmetic ["z_ground"; "car_h"] []);
    Assign 95 [Name "body_bot"] (E Display ["car_l"; "car_w"; "z_ground"] []);
    Assign 98 [Name "body_top"] (E Display ["car_l"; "car_w"; "z_body"] []);
    Assign 102 [Name "body_faces"] (E Display ["car_l"; "car_w"; "z_ground";
        "z_body"; "body_bot"] []);
    Assign 119 [Name "body_colors"] (E Display [] []);
    For 120 (Unpack ["face"; "fc"]) (E Call ["zip"; "body_faces";
        "body_colors"] [["zip"]])
      [
        Assign 121 [Name "p"] (E Call ["Poly3DCollection"; "face"]
            [["Poly3DCollection"]]);
        Expr 122 (E Call ["p"; "fc"] [["p"; "set_facecolor"]]);
        Expr 123 (E Call ["p"] [["p"; "set_edgecolor"]]);
        Expr 124 (E Call ["p"] [["p"; "set_linewidth"]]);
        Expr 125 (E Call ["ax"; "p"] [["ax"; "add_collection3d"]])
      ];
    Assign 129 [Name "z_roof"] (E Arithmetic ["z_body"] []);
    Assign 131 [Name "rx_r"] (E Arithmetic ["car_l"] []);
    Assign 132 [Name "rx_f"] (E Arithmetic ["car_l"] []);
    Assign 133 [Name "rw"] (E Arithmetic ["car_w"] []);
    Assign 135 [Name "cabin_faces"] (E Display ["rx_r"; "rw"; "z_roof";
        "rx_f"; "z_body"] []);
    Assign 153 [Name "cabin_colors"] (E Display ["CAR_ROOF"; "CAR_GLASS"] []);
    Assign 154 [Name "cabin_alphas"] (E Display [] []);
    For 155 (Unpack ["face"; "fc"; "al"]) (E Call ["zip"; "cabin_faces";
        "cabin_colors"; "cabin_alphas"] [["zip"]])
      [
        Assign 156 [Name "p"] (E Call ["Poly3DCollection"; "face"; "al"]
            [["Poly3DCollection"]]);
        Expr 157 (E Call ["p"; "fc"] [["p"; "set_facecolor"]]);
        Expr 158 (E Call ["p"] [["p"; "set_edgecolor"]]);
        Expr 159 (E Call ["p"] [["p"; "set_linewidth"]]);
        Expr 160 (E Call ["ax"; "p"] [["ax"; "add_collection3d"]])
      ];
    Assign 163 [Name "hood_face"] (E Display ["rx_f"; "car_w"; "z_body";
        "car_l"; "z_ground"] []);
    Assign 167 [Name "p"] (E Call ["Poly3DCollection"; "hood_face"]
        [["Poly3DCollection"]]);
    Expr 168 (E Call ["p"] [["p"; "set_facecolor"]]);
    Expr 169 (E Call ["p"] [["p"; "set_edgecolor"]]);
    Expr 170 (E Call ["p"] [["p"; "set_linewidth"]]);
    Expr 171 (E Call ["ax"; "p"] [["ax"; "add_collection3d"]]);
    Assign 174 [Name "trunk_face"] (E Display ["rx_r"; "car_w"; "z_body";
        "car_l"; "z_ground"] []);
    Assign 178 [Name "p"] (E Call ["Poly3DCollection"; "trunk_face"]
        [["Poly3DCollection"]]);
    Expr 179 (E Call ["p"] [["p"; "set_facecolor"]]);
    Expr 180 (E Call ["p"] [["p"; "set_edgecolor"]]);
    Expr 181 (E Call ["p"] [["p"; "set_linewidth"]]);
    Expr 182 (E Call ["ax"; "p"] [["ax"; "add_collection3d"]]);
    Assign 185 [Name "wheel_r"] (E Constant [] []);
    Assign 186 [Name "wheel_theta"] (E Call ["np"] [["np"; "linspace"]]);
    Assign 187 [Name "wheel_positions"] (E Display ["car_l"; "car_w";
        "z_ground"; "wheel_r"] []);
    For 193 (Unpack ["wx"; "wy"; "wz"]) (E Reference ["wheel_positions"] [])
      [
        Assign 194 [Name "wpts"] (E Comprehension ["wx"; "wheel_r"; "np";
            "wy"; "wz"; "wheel_theta"] [["np"; "cos"]; ["np"; "sin"]]);
        Assign 197 [Name "p"] (E Call ["Poly3DCollection"; "wpts"]
            [["Poly3DCollection"]]);
        Expr 198 (E Call ["p"] [["p"; "set_facecolor"]]);
        Expr 199 (E Call ["p"] [["p"; "set_edgecolor"]]);
        Expr 200 (E Call ["p"] [["p"; "set_linewidth"]]);
        Expr 201 (E Call ["ax"; "p"] [["ax"; "add_collection3d"]])
      ];
    For 204 (Name "side") (E Display [] [])
      [
        Assign 205 [Name "hl_face"] (E Display ["car_l"; "side"; "car_w";
            "z_ground"] []);
        Assign 211 [Name "p"] (E Call ["Poly3DCollection"; "hl_face"]
            [["Poly3DCollection"]]);
        Expr 212 (E Call ["p"] [["p"; "set_facecolor"]]);
        Expr 213 (E Call ["p"] [["p"; "set_edgecolor"]]);
        Expr 214 (E Call ["p"] [["p"; "set_linewidth"]]);
        Expr 215 (E Call ["ax"; "p"] [["ax"; "add_collection3d"]])
      ];
    Assign 220 [Name "R_loop"] (E Constant [] []);
    Assign 221 [Name "z_ant_base"] (E Reference ["z_roof"] []);
    Assign 222 [Name "standoff_h"] (E Constant [] []);
    Assign 223 [Name "z_loop"] (E Arithmetic ["z_ant_base"; "standoff_h"] []);
    Assign 224 [Name "gap_angle"] (E Constant [] []);
    Assign 227 [Name "theta_loop"] (E Call ["np"; "gap_angle"; "N_pts"]
        [["np"; "linspace"]]);
    Assign 229 [Name "lx"] (E Arithmetic ["R_loop"; "np"; "theta_loop"]
        [["np"; "cos"]]);
    Assign 230 [Name "ly"] (E Arithmetic ["R_loop"; "np"; "theta_loop"]
        [["np"; "sin"]]);
    Assign 231 [Name "lz"] (E Call ["np"; "theta_loop"; "z_loop"] [["np";
        "full_like"]]);
    Expr 232 (E Call ["draw_tube"; "ax"; "lx"; "ly"; "lz"; "CU_MAIN";
        "CU_HI"] [["draw_tube"]]);
    Assign 235 [Name "cap_x"] (E Constant [] []);
    Assign 236 [Name "cap_y"] (E Reference ["R_loop"] []);
    Assign 237 [Name "cap_z"] (E Reference ["z_loop"] []);
    Assign 238 [Name "cap_colors"] (E Display [] []);
    Expr 239 (E Call ["draw_box"; "ax"; "cap_x"; "cap_y"; "cap_z";
        "cap_colors"] [["draw_box"]]);
    Assign 243 [Name "left_a"] (E Arithmetic ["np"; "gap_angle"] []);
    Assign 244 [Name "right_a"] (E Arithmetic ["np"; "gap_angle"] []);
    For 245 (Unpack ["angle"; "sign"]) (E Display ["left_a"; "right_a"] [])
      [
        Assign 246 [Name "ex"] (E Arithmetic ["R_loop"; "np"; "angle"]
            [["np"; "cos"]]);
        Assign 247 [Name "ey"] (E Arithmetic ["R_loop"; "np"; "angle"]
            [["np"; "sin"]]);
        Expr 248 (E Call ["ax"; "ex"; "cap_x"; "sign"; "ey"; "cap_y";
            "z_loop"; "cap_z"; "CU_MAIN"] [["ax"; "plot"]])
      ];
    Expr 252 (E Call ["ax"; "cap_x"; "cap_y"; "cap_z"; "dict"] [["ax";
        "text"]; ["dict"]]);
    Assign 260 [Name "mot_theta"] (E Call ["np"] [["np"; "linspace"]]);
    Assign 261 [Name "mot_r"] (E Constant [] []);
    For 262 (Name "i") (E Call ["range"; "len"; "mot_theta"] [["range"];
        ["len"]])
      [
        Assign 263 [Name "face"] (E Display ["cap_x"; "mot_r"; "np";
            "mot_theta"; "i"; "cap_y"; "cap_z"] [["np"; "cos"]; ["np";
            "sin"]]);
        Assign 273 [Name "p"] (E Call ["Poly3DCollection"; "face"]
            [["Poly3DCollection"]]);
        Expr 274 (E Call ["p"] [["p"; "set_facecolor"]]);
        Expr 275 (E Call ["p"] [["p"; "set_edgecolor"]]);
        Expr 276 (E Call ["p"] [["p"; "set_linewidth"]]);
        Expr 277 (E Call ["ax"; "p"] [["ax"; "add_collection3d"]])
      ];
    Expr 279 (E Call ["ax"; "cap_x"; "cap_y"; "cap_z"; "dict"] [["ax";
        "text"]; ["dict"]]);
    Assign 286 [Name "R_couple"] (E Constant [] []);
    Assign 287 [Name "theta_c"] (E Call ["np"; "N_pts"] [["np"; "linspace"]]);
    Assign 288 [Name "cx_c"] (E Arithmetic ["R_couple"; "np"; "theta_c"]
        [["np"; "cos"]]);
    Assign 289 [Name "cy_c"] (E Arithmetic ["R_couple"; "np"; "theta_c";
        "R_loop"] [["np"; "sin"]]);
    Assign 290 [Name "cz_c"] (E Call ["np"; "theta_c"; "z_loop"] [["np";
        "full_like"]]);
    Expr 291 (E Call ["draw_tube"; "ax"; "cx_c"; "cy_c"; "cz_c";
        "CU_COUPLE"] [["draw_tube"]]);
    Expr 293 (E Call ["ax"; "R_couple"; "R_loop"; "z_loop"; "dict"] [["ax";
        "text"]; ["dict"]]);
    Assign 301 [Name "standoff_pos"] (E Display ["R_loop"] []);
    For 307 (Unpack ["sx"; "sy"]) (E Reference ["standoff_pos"] [])
      [
        For 309 (Name "i") (E Call ["range"; "len"; "mot_theta"] [["range"];
            ["len"]])
          [
            Assign 310 [Name "face"] (E Display ["sx"; "np"; "mot_theta";
                "i"; "sy"; "z_ant_base"] [["np"; "cos"]; ["np"; "sin"]]);
            Assign 320 [Name "p"] (E Call ["Poly3DCollection"; "face"]
                [["Poly3DCollection"]]);
            Expr 321 (E Call ["p"] [["p"; "set_facecolor"]]);
            Expr 322 (E Call ["p"] [["p"; "set_edgecolor"]]);
            Expr 323 (E Call ["p"] [["p"; "set_linewidth"]]);
            Expr 324 (E Call ["ax"; "p"] [["ax"; "add_collection3d"]])
          ];
        Expr 326 (E Call ["ax"; "sx"; "sy"; "z_ant_base"; "z_loop"] [["ax";
            "plot"]])
      ];
    Expr 330 (E Call ["ax"; "R_loop"; "z_ant_base"; "z_loop"; "dict"] [["ax";
        "text"]; ["dict"]]);
    Assign 338 [Name "coax_pts"] (E Call ["np"; "R_loop"; "z_loop"; "car_w";
        "z_body"] [["np"; "array"]]);
    Expr 345 (E Call ["ax"; "coax_pts"] [["ax"; "plot"]]);
    Expr 347 (E Call ["ax"; "car_w"; "z_body"] [["ax"; "text"]]);
    Assign 354 [Name "dim_z"] (E Arithmetic ["z_loop"] []);
    Expr 355 (E Call ["ax"; "R_loop"; "dim_z"; "ACCENT_RED"] [["ax"; "plot"]]);
    For 357 (Name "s") (E Display [] [])
      [
        Expr 358 (E Call ["ax"; "s"; "R_loop"; "dim_z"; "ACCENT_RED"] [["ax";
            "plot"]]);
        Expr 360 (E Call ["ax"; "s"; "R_loop"; "dim_z"; "ACCENT_RED"] [["ax";
            "plot"]])
      ];
    Expr 362 (E Call ["ax"; "dim_z"; "dict"; "ACCENT_RED"] [["ax"; "text"];
        ["dict"]]);
    Assign 369 [Name "ph_x"] (E Arithmetic ["R_loop"] []);
    Expr 370 (E Call ["ax"; "ph_x"; "z_ant_base"; "z_loop"; "ACCENT_GRN"]
        [["ax"; "plot"]]);
    For 372 (Name "dz") (E Display ["z_ant_base"; "z_loop"] [])
      [
        Expr 373 (E Call ["ax"; "ph_x"; "dz"; "ACCENT_GRN"] [["ax"; "plot"]])
      ];
    Expr 375 (E Call ["ax"; "ph_x"; "z_ant_base"; "z_loop"; "dict";
        "ACCENT_GRN"] [["ax"; "text"]; ["dict"]]);
    Assign 383 [Name "arrow_style"] (E Call ["dict"] [["dict"]]);
    For 384 (Unpack ["arr_x"; "arr_y"]) (E Display [] [])
      [
        Assign 386 [Name "z_start"] (E Arithmetic ["z_loop"] []);
        Assign 387 [Name "z_end"] (E Arithmetic ["z_loop"] []);
        Expr 388 (E Call ["ax"; "arr_x"; "arr_y"; "z_start"; "z_end";
            "arrow_style"] [["ax"; "plot"]]);
        Expr 391 (E Call ["ax"; "arr_x"; "arr_y"; "z_end"] [["ax"; "plot"]]);
        Expr 394 (E Call ["ax"; "arr_x"; "arr_y"; "z_end"] [["ax"; "plot"]])
      ];
    Expr 398 (E Call ["ax"; "z_loop"; "dict"] [["ax"; "text"]; ["dict"]]);
    Assign 405 [Name "iono_theta"] (E Call ["np"] [["np"; "linspace"]]);
    Assign 406 [Name "iono_x"] (E Arithmetic ["np"; "iono_theta"] [["np";
        "sin"]]);
    Assign 407 [Name "iono_y"] (E Arithmetic ["np"; "iono_theta"] [["np";
        "cos"]]);
    Assign 408 [Name "iono_z"] (E Call ["np"; "iono_theta"; "z_loop"] [["np";
        "full_like"]]);
    Expr 409 (E Call ["ax"; "iono_x"; "iono_y"; "iono_z"] [["ax"; "plot"]]);
    Expr 411 (E Call ["ax"; "z_loop"] [["ax"; "text"]]);
    Expr 416 (E Call ["ax"; "car_l"; "z_ground"] [["ax"; "text"]]);
    Assign 421 [Name "grd"] (E Call ["np"] [["np"; "linspace"]]);
    For 422 (Name "g") (E Reference ["grd"] [])
      [
        Expr 423 (E Call ["ax"; "g"; "z_ground"] [["ax"; "plot"]]);
        Expr 425 (E Call ["ax"; "g"; "z_ground"] [["ax"; "plot"]])
      ];
    Assign 432 [Name "ax_s"] (E Call ["fig"] [["fig"; "add_axes"]]);
    Expr 433 (E Call ["ax_s"] [["ax_s"; "set_facecolor"]]);
    Expr 434 (E Call ["ax_s"] [["ax_s"; "set_xlim"]]);
    Expr 435 (E Call ["ax_s"] [["ax_s"; "set_ylim"]]);
    Expr 436 (E Call ["ax_s"] [["ax_s"; "axis"]]);
    For 437 (Name "sp") (E Call ["ax_s"] [["ax_s"; "spines"; "values"]])
      [
        Expr 438 (E Call ["sp"] [["sp"; "set_visible"]]);
        Expr 439 (E Call ["sp"; "ACCENT_BLUE"] [["sp"; "set_color"]]);
        Expr 440 (E Call ["sp"] [["sp"; "set_linewidth"]])
      ];
    Expr 442 (E Call ["ax_s"; "TEXT_DARK"] [["ax_s"; "text"]]);
    Assign 446 [Name "specs"] (E Display [] []);
    Assign 465 [Name "row_clrs"] (E Display [] []);
    Assign 466 [Name "y0"] (E Constant [] []);
    Assign 467 [Name "dy"] (E Constant [] []);
    For 468 (Unpack ["i"; "label"; "value"]) (E Call ["enumerate"; "specs"]
        [["enumerate"]])
      [
        Assign 469 [Name "y"] (E Arithmetic ["y0"; "i"; "dy"] []);
        Assign 470 [Name "rc"] (E Reference ["row_clrs"; "i"] []);
        Expr 471 (E Call ["ax_s"; "FancyBboxPatch"; "y"; "rc"] [["ax_s";
            "add_patch"]; ["FancyBboxPatch"]]);
        Expr 473 (E Call ["ax_s"; "y"; "label"; "TEXT_DARK"] [["ax_s";
            "text"]]);
        Expr 475 (E Call ["ax_s"; "y"; "value"; "TEXT_DARK"] [["ax_s";
            "text"]])
      ];
    Assign 482 [Name "ax_n"] (E Call ["fig"] [["fig"; "add_axes"]]);
    Expr 483 (E Call ["ax_n"] [["ax_n"; "set_facecolor"]]);
    Expr 484 (E Call ["ax_n"] [["ax_n"; "set_xlim"]]);
    Expr 485 (E Call ["ax_n"] [["ax_n"; "set_ylim"]]);
    Expr 486 (E Call ["ax_n"] [["ax_n"; "axis"]]);
    For 487 (Name "sp") (E Call ["ax_n"] [["ax_n"; "spines"; "values"]])
      [
        Expr 488 (E Call ["sp"] [["sp"; "set_visible"]]);
        Expr 489 (E Call ["sp"] [["sp"; "set_color"]]);
        Expr 490 (E Call ["sp"] [["sp"; "set_linewidth"]])
      ];
    Expr 492 (E Call ["ax_n"; "TEXT_DARK"] [["ax_n"; "text"]]);
    Assign 496 [Name "notes"] (E Display [] []);
    Assign 517 [Name "row_clrs_n"] (E Display [] []);
    Assign 518 [Name "y0n"] (E Constant [] []);
    Assign 519 [Name "dyn"] (E Constant [] []);
    For 520 (Unpack ["i"; "num"; "title"; "desc"]) (E Call ["enumerate";
        "notes"] [["enumerate"]])
      [
        Assign 521 [Name "y"] (E Arithmetic ["y0n"; "i"; "dyn"] []);
        Assign 522 [Name "rc"] (E Reference ["row_clrs_n"; "i"] []);
        Expr 523 (E Call ["ax_n"; "FancyBboxPatch"; "y"; "rc"] [["ax_n";
            "add_patch"]; ["FancyBboxPatch"]]);
        Expr 525 (E Call ["ax_n"; "plt"; "y"] [["ax_n"; "add_patch"]; ["plt";
            "Circle"]]);
        Expr 528 (E Call ["ax_n"; "y"; "num"] [["ax_n"; "text"]]);
        Expr 530 (E Call ["ax_n"; "y"; "title"] [["ax_n"; "text"]]);
        Expr 532 (E Call ["ax_n"; "y"; "desc"] [["ax_n"; "text"]])
      ];
    Expr 536 (E Call ["ax_n"; "dict"] [["ax_n"; "text"]; ["dict"]]);
    Expr 546 (E Call ["ax_n"; "dict"] [["ax_n"; "text"]; ["dict"]]);
    Expr 558 (E Call ["fig"; "FancyBboxPatch"; "ACCENT_BLUE"] [["fig";
        "patches"; "append"]; ["FancyBboxPatch"]]);
    Expr 562 (E Call ["fig"] [["fig"; "text"]]);
    Expr 566 (E Call ["fig"; "GOLD"] [["fig"; "text"]]);
    Expr 575 (E Call ["fig"; "FancyBboxPatch"; "ACCENT_BLUE"] [["fig";
        "patches"; "append"]; ["FancyBboxPatch"]]);
    Expr 579 (E Call ["fig"] [["fig"; "text"]]);
    Assign 587 [Name "out"] (E Constant [] []);
    Expr 588 (E Call ["fig"; "out"; "DPI"] [["fig"; "savefig"]; ["fig";
        "get_facecolor"]]);
    Expr 590 (E Call ["plt"] [["plt"; "close"]]);
    Expr 591 (E Call ["print"; "out"] [["print"]]);
    Expr 592 (E Call ["print"; "DPI"] [["print"]])
  ].

Definition gen_nvis_40m_car_roof : list py :=
  [
    Expr 2 (E Constant [] []);
    Imports 7 ["matplotlib"];
    Expr 8 (E Call ["matplotlib"] [["matplotlib"; "use"]]);
    Imports 9 ["plt"];
    Imports 10 ["Poly3DCollection"];
    Imports 11 ["FancyBboxPatch"; "FancyArrowPatch"];
    Imports 12 ["np"];
    Assign 14 [Name "DPI"] (E Constant [] []);
    Assign 15 [Name "fig"] (E Call ["plt"; "DPI"] [["plt"; "figure"]]);
    Assign 18 [Name "CU_MAIN"] (E Constant [] []);
    Assign 19 [Name "CU_HI"] (E Constant [] []);
    Assign 20 [Name "CU_COUPLE"] (E Constant [] []);
    Assign 21 [Name "ACCENT_BLUE"] (E Constant [] []);
    Assign 22 [Name "ACCENT_RED"] (E Constant [] []);
    Assign 23 [Name "ACCENT_GRN"] (E Constant [] []);
    Assign 24 [Name "GOLD"] (E Constant [] []);
    Assign 25 [Name "TEXT_DARK"] (E Constant [] []);
    Assign 27 [Name "N"] (E Constant [] []);
    Assign 32 [Name "ax"] (E Call ["fig"] [["fig"; "add_axes"]]);
    Expr 34 (E Call ["ax"] [["ax"; "set_facecolor"]]);
    Expr 35 (E Call ["ax"] [["ax"; "set_xlim"]]);
    Expr 36 (E Call ["ax"] [["ax"; "set_ylim"]]);
    Expr 37 (E Call ["ax"] [["ax"; "set_zlim"]]);
    Expr 38 (E Call ["ax"] [["ax"; "view_init"]]);
    Expr 39 (E Call ["ax"] [["ax"; "set_box_aspect"]]);
    Expr 40 (E Call ["ax"] [["ax"; "axis"]]);
    FunctionDef 44 "tube" ["ax"; "px"; "py"; "pz"; "c"; "lw"; "hc"; "a";
        "zo"] (E Display [] [])
      [
        Expr 45 (E Call ["ax"; "px"; "py"; "pz"; "c"; "lw"; "a"; "zo"]
            [["ax"; "plot"]]);
        If 47 (E Reference ["hc"] [])
          [
            Expr 48 (E Call ["ax"; "px"; "py"; "pz"; "hc"; "lw"; "zo"]
                [["ax"; "plot"]])
          ]
          []
      ];
    FunctionDef 52 "poly" ["ax"; "verts"; "fc"; "ec"; "a"; "lw"; "zo"]
        (E Display [] [])
      [
        Assign 53 [Name "p"] (E Call ["Poly3DCollection"; "verts"; "a";
            "zo"] [["Poly3DCollection"]]);
        Expr 54 (E Call ["p"; "fc"] [["p"; "set_facecolor"]]);
        Expr 55 (E Call ["p"; "ec"] [["p"; "set_edgecolor"]]);
        Expr 56 (E Call ["p"; "lw"] [["p"; "set_linewidth"]]);
        Expr 57 (E Call ["ax"; "p"] [["ax"; "add_collection3d"]])
      ];
    FunctionDef 60 "box3d" ["ax"; "cx"; "cy"; "cz"; "hw"; "hd"; "hh"; "cols";
        "ec"; "a"; "zo"] (E Display [] [])
      [
        Assign 61 [Name "f"] (E Display ["cx"; "hw"; "cy"; "hd"; "cz"; "hh"]
            []);
        For 69 (Unpack ["face"; "fc_"]) (E Call ["zip"; "f"; "cols"]
            [["zip"]])
          [
            Expr 70 (E Call ["poly"; "ax"; "face"; "fc_"; "ec"; "a"; "zo"]
                [["poly"]])
          ]
      ];
    Assign 77 [Name "z_g"] (E Arithmetic [] []);
    Assign 81 [Name "body_xs"] (E Call ["np"] [["np"; "array"]]);
    Assign 83 [Name "body_ws"] (E Call ["np"] [["np"; "array"]]);
    Assign 85 [Name "body_zbot"] (E Call ["np"; "body_xs"; "z_g"] [["np";
        "full_like"]]);
    Assign 86 [Name "body_ztop"] (E Call ["np"; "z_g"] [["np"; "array"]]);
    Assign 91 [Name "cab_xs"] (E Call ["np"] [["np"; "array"]]);
    Assign 92 [Name "cab_ws"] (E Call ["np"] [["np"; "array"]]);
    Assign 93 [Name "cab_ztop"] (E Call ["np"; "z_g"] [["np"; "array"]]);
    Assign 97 [Name "car_dark"] (E Constant [] []);
    Assign 98 [Name "car_mid"] (E Constant [] []);
    Assign 99 [Name "car_light"] (E Constant [] []);
    Assign 100 [Name "car_accent"] (E Constant [] []);
    For 103 (Name "i") (E Call ["range"; "len"; "body_xs"] [["range"];
        ["len"]])
      [
        Assign 104 [Unpack ["x0"; "x1"]] (E Display ["body_xs"; "i"] []);
        Assign 105 [Unpack ["w0"; "w1"]] (E Display ["body_ws"; "i"] []);
        Assign 106 [Unpack ["zb0"; "zb1"]] (E Display ["body_zbot"; "i"] []);
        Assign 107 [Unpack ["zt0"; "zt1"]] (E Display ["body_ztop"; "i"] []);
        Expr 109 (E Call ["poly"; "ax"; "x0"; "w0"; "zb0"; "x1"; "w1"; "zb1";
            "zt1"; "zt0"; "car_mid"] [["poly"]]);
        Expr 112 (E Call ["poly"; "ax"; "x0"; "w0"; "zb0"; "x1"; "w1"; "zb1";
            "zt1"; "zt0"; "car_dark"] [["poly"]]);
        Expr 115 (E Call ["poly"; "ax"; "x0"; "w0"; "zt0"; "x1"; "w1"; "zt1";
            "car_light"] [["poly"]]);
        Expr 118 (E Call ["poly"; "ax"; "x0"; "w0"; "zb0"; "x1"; "w1";
            "zb1"] [["poly"]])
      ];
    Assign 122 [Name "x_f"] (E Reference ["body_xs"] []);
    Assign 123 [Name "w_f"] (E Reference ["body_ws"] []);
    Assign 124 [Name "zt_f"] (E Reference ["body_ztop"] []);
    Expr 125 (E Call ["poly"; "ax"; "x_f"; "w_f"; "z_g"; "zt_f"] [["poly"]]);
    Assign 130 [Name "x_r"] (E Reference ["body_xs"] []);
    Assign 131 [Name "w_r"] (E Reference ["body_ws"] []);
    Assign 132 [Name "zt_r"] (E Reference ["body_ztop"] []);
    Expr 133 (E Call ["poly"; "ax"; "x_r"; "w_r"; "z_g"; "zt_r"] [["poly"]]);
    Assign 138 [Name "glass_c"] (E Constant [] []);
    Assign 139 [Name "glass_a"] (E Constant [] []);
    Assign 140 [Name "pillar_c"] (E Constant [] []);
    Assign 141 [Name "roof_c"] (E Constant [] []);
    For 144 (Name "i") (E Call ["range"; "len"; "cab_xs"] [["range"];
        ["len"]])
      [
        Assign 145 [Unpack ["x0"; "x1"]] (E Display ["cab_xs"; "i"] []);
        Assign 146 [Unpack ["w0"; "w1"]] (E Display ["cab_ws"; "i"] []);
        Assign 148 [Name "zb0"] (E Call ["np"; "x0"; "body_xs"; "body_ztop"]
            [["np"; "interp"]]);
        Assign 149 [Name "zb1"] (E Call ["np"; "x1"; "body_xs"; "body_ztop"]
            [["np"; "interp"]]);
        Assign 150 [Unpack ["zt0"; "zt1"]] (E Display ["cab_ztop"; "i"] []);
        Expr 152 (E Call ["poly"; "ax"; "x0"; "w0"; "zb0"; "x1"; "w1"; "zb1";
            "zt1"; "zt0"; "glass_c"; "glass_a"] [["poly"]]);
        Expr 155 (E Call ["poly"; "ax"; "x0"; "w0"; "zb0"; "x1"; "w1"; "zb1";
            "zt1"; "zt0"; "glass_c"; "glass_a"] [["poly"]]);
        Expr 158 (E Call ["poly"; "ax"; "x0"; "w0"; "zt0"; "x1"; "w1"; "zt1";
            "roof_c"] [["poly"]])
      ];
    Assign 162 [Name "x_wf"] (E Reference ["cab_xs"] []);
    Assign 163 [Name "w_wf"] (E Reference ["cab_ws"] []);
    Assign 164 [Name "zb_wf"] (E Call ["np"; "x_wf"; "body_xs"; "body_ztop"]
        [["np"; "interp"]]);
    Assign 165 [Name "zt_wf"] (E Reference ["cab_ztop"] []);
    Expr 167 (E Call ["poly"; "ax"; "x_wf"; "w_wf"; "zb_wf"; "zt_wf";
        "glass_c"] [["poly"]]);
    Assign 173 [Name "x_rg"] (E Reference ["cab_xs"] []);
    Assign 174 [Name "w_rg"] (E Reference ["cab_ws"] []);
    Assign 175 [Name "zb_rg"] (E Call ["np"; "x_rg"; "body_xs"; "body_ztop"]
        [["np"; "interp"]]);
    Assign 176 [Name "zt_rg"] (E Reference ["cab_ztop"] []);
    Expr 177 (E Call ["poly"; "ax"; "x_rg"; "w_rg"; "zb_rg"; "zt_rg";
        "glass_c"] [["poly"]]);
    Assign 183 [Name "pillar_w"] (E Constant [] []);
    Assign 184 [Name "pillar_positions"] (E Display ["cab_xs"; "cab_ws"] []);
    For 189 (Unpack ["px_p"; "pw_p"]) (E Reference ["pillar_positions"] [])
      [
        Assign 190 [Name "zb_p"] (E Call ["np"; "px_p"; "body_xs";
            "body_ztop"] [["np"; "interp"]]);
        Assign 191 [Name "zt_p"] (E Call ["np"; "px_p"; "cab_xs";
            "cab_ztop"] [["np"; "interp"]]);
        For 192 (Name "side") (E Display [] [])
          [
            Expr 193 (E Call ["poly"; "ax"; "px_p"; "pillar_w"; "side";
                "pw_p"; "zb_p"; "zt_p"; "pillar_c"] [["poly"]])
          ]
      ];
    Assign 201 [Name "door_x_positions"] (E Display [] []);
    For 202 (Name "dx") (E Reference ["door_x_positions"] [])
      [
        Assign 203 [Name "zb_d"] (E Arithmetic ["z_g"] []);
        Assign 204 [Name "zt_d"] (E Arithmetic ["np"; "dx"; "body_xs";
            "body_ztop"] [["np"; "interp"]]);
        Assign 205 [Name "w_d"] (E Call ["np"; "dx"; "body_xs"; "body_ws"]
            [["np"; "interp"]]);
        Expr 207 (E Call ["ax"; "dx"; "w_d"; "zb_d"; "zt_d"] [["ax";
            "plot"]]);
        Expr 210 (E Call ["ax"; "dx"; "w_d"; "zb_d"; "zt_d"] [["ax"; "plot"]])
      ];
    Assign 214 [Name "handle_positions"] (E Display [] []);
    For 216 (Unpack ["hx"; "hside"]) (E Reference ["handle_positions"] [])
      [
        Assign 217 [Name "hw"] (E Call ["np"; "hx"; "body_xs"; "body_ws"]
            [["np"; "interp"]]);
        Assign 218 [Name "hz"] (E Arithmetic ["np"; "hx"; "body_xs";
            "body_ztop"] [["np"; "interp"]]);
        Assign 219 [Name "hy"] (E Choice ["hw"; "hside"] []);
        Expr 220 (E Call ["ax"; "hx"; "hy"; "hz"] [["ax"; "plot"]])
      ];
    For 224 (Name "side") (E Display [] [])
      [
        Assign 225 [Name "mx"] (E Arithmetic ["cab_xs"] []);
        Assign 226 [Name "mw"] (E Call ["np"; "mx"; "body_xs"; "body_ws"]
            [["np"; "interp"]]);
        Assign 227 [Name "my"] (E Arithmetic ["side"; "mw"] []);
        Assign 228 [Name "mz"] (E Arithmetic ["np"; "mx"; "body_xs";
            "body_ztop"] [["np"; "interp"]]);
        Expr 230 (E Call ["ax"; "mx"; "side"; "mw"; "my"; "mz"] [["ax";
            "plot"]]);
        Assign 233 [Name "mirror_face"] (E Display ["mx"; "my"; "mz"] []);
        Expr 239 (E Call ["poly"; "ax"; "mirror_face"] [["poly"]])
      ];
    For 242 (Name "side") (E Display [] [])
      [
        Assign 243 [Name "hl_x"] (E Arithmetic ["body_xs"] []);
        Assign 244 [Name "hl_w"] (E Reference ["body_ws"] []);
        Assign 245 [Name "hl_w2"] (E Call ["np"; "body_xs"; "body_ws"]
            [["np"; "interp"]]);
        Assign 246 [Name "hl_y_inner"] (E Arithmetic ["side"; "hl_w"] []);
        Assign 247 [Name "hl_y_outer"] (E Arithmetic ["side"; "hl_w2"] []);
        Assign 248 [Name "hl_zb"] (E Arithmetic ["z_g"] []);
        Assign 249 [Name "hl_zt"] (E Arithmetic ["z_g"] []);
        Expr 250 (E Call ["poly"; "ax"; "hl_x"; "hl_y_inner"; "hl_zb";
            "hl_y_outer"; "hl_zt"] [["poly"]])
      ];
    For 256 (Name "side") (E Display [] [])
      [
        Assign 257 [Name "tl_x"] (E Arithmetic ["body_xs"] []);
        Assign 258 [Name "tl_w"] (E Reference ["body_ws"] []);
        Assign 259 [Name "tl_w2"] (E Call ["np"; "body_xs"; "body_ws"]
            [["np"; "interp"]]);
        Expr 260 (E Call ["poly"; "ax"; "tl_x"; "side"; "tl_w"; "z_g";
            "tl_w2"] [["poly"]])
      ];
    Assign 268 [Name "gx"] (E Arithmetic ["body_xs"] []);
    Assign 269 [Name "gw"] (E Arithmetic ["body_ws"] []);
    Assign 270 [Name "gzb"] (E Arithmetic ["z_g"] []);
    Assign 271 [Name "gzt"] (E Arithmetic ["z_g"] []);
    Expr 272 (E Call ["poly"; "ax"; "gx"; "gw"; "gzb"; "gzt"] [["poly"]]);
    For 276 (Name "gz_bar") (E Call ["np"; "gzb"; "gzt"] [["np"; "linspace"]])
      [
        Expr 277 (E Call ["ax"; "gx"; "gw"; "gz_bar"] [["ax"; "plot"]])
      ];
    Assign 281 [Name "lp_x"] (E Arithmetic ["body_xs"] []);
    Expr 282 (E Call ["poly"; "ax"; "lp_x"; "z_g"] [["poly"]]);
    Assign 287 [Name "wt"] (E Call ["np"] [["np"; "linspace"]]);
    Assign 288 [Name "wheel_r"] (E Constant [] []);
    Assign 289 [Name "rim_r"] (E Constant [] []);
    Assign 290 [Name "wheel_locs"] (E Display ["z_g"] []);
    For 296 (Unpack ["wx"; "wy"; "wz"]) (E Reference ["wheel_locs"] [])
      [
        Assign 298 [Name "tyre_pts"] (E Comprehension ["wx"; "wheel_r"; "np";
            "wy"; "wz"; "wt"] [["np"; "cos"]; ["np"; "sin"]]);
        Expr 300 (E Call ["poly"; "ax"; "tyre_pts"] [["poly"]]);
        Assign 302 [Name "rim_pts"] (E Comprehension ["wx"; "rim_r"; "np";
            "wy"; "wz"; "wt"] [["np"; "cos"]; ["np"; "sin"]]);
        Expr 304 (E Call ["poly"; "ax"; "rim_pts"] [["poly"]]);
        Assign 306 [Name "arch_t"] (E Call ["np"] [["np"; "linspace"]]);
        Assign 307 [Name "arch_x"] (E Arithmetic ["wx"; "wheel_r"; "np";
            "arch_t"] [["np"; "cos"]]);
        Assign 308 [Name "arch_y"] (E Call ["np"; "wy"] [["np"; "full"]]);
        Assign 309 [Name "arch_z"] (E Arithmetic ["wz"; "wheel_r"; "np";
            "arch_t"] [["np"; "sin"]]);
        Expr 310 (E Call ["ax"; "arch_x"; "arch_y"; "arch_z"] [["ax";
            "plot"]])
      ];
    Assign 314 [Name "fb_x"] (E Arithmetic ["body_xs"] []);
    Assign 315 [Name "fb_w"] (E Arithmetic ["body_ws"] []);
    Expr 316 (E Call ["poly"; "ax"; "fb_x"; "fb_w"; "z_g"] [["poly"]]);
    Assign 320 [Name "rb_x"] (E Arithmetic ["body_xs"] []);
    Assign 321 [Name "rb_w"] (E Arithmetic ["body_ws"] []);
    Expr 322 (E Call ["poly"; "ax"; "rb_x"; "rb_w"; "z_g"] [["poly"]]);
    For 327 (Name "side") (E Display [] [])
      [
        Assign 328 [Name "rail_xs"] (E Call ["np"; "cab_xs"] [["np";
            "linspace"]]);
        Assign 329 [Name "rail_ys"] (E Call ["np"; "side"; "cab_xs";
            "cab_ws"; "rail_xs"] [["np"; "array"]; ["np"; "interp"]]);
        Assign 330 [Name "rail_zs"] (E Call ["np"; "cab_xs"; "cab_ztop";
            "rail_xs"] [["np"; "array"]; ["np"; "interp"]]);
        Expr 331 (E Call ["ax"; "rail_xs"; "rail_ys"; "rail_zs"] [["ax";
            "plot"]])
      ];
    Assign 337 [Name "R_loop"] (E Constant [] []);
    Assign 338 [Name "z_roof_mid"] (E Arithmetic ["np"; "cab_xs";
        "cab_ztop"] [["np"; "interp"]]);
    Assign 339 [Name "standoff_h"] (E Constant [] []);
    Assign 340 [Name "z_loop"] (E Arithmetic ["z_roof_mid"; "standoff_h"] []);
    Assign 341 [Name "gap_angle"] (E Constant [] []);
    Assign 344 [Name "theta_l"] (E Call ["np"; "gap_angle"; "N"] [["np";
        "linspace"]]);
    Assign 346 [Name "lx"] (E Arithmetic ["R_loop"; "np"; "theta_l"] [["np";
        "cos"]]);
    Assign 347 [Name "ly"] (E Arithmetic ["R_loop"; "np"; "theta_l"] [["np";
        "sin"]]);
    Assign 348 [Name "lz"] (E Call ["np"; "N"; "z_loop"] [["np"; "full"]]);
    Expr 349 (E Call ["tube"; "ax"; "lx"; "ly"; "lz"; "CU_MAIN"; "CU_HI"]
        [["tube"]]);
    Assign 352 [Unpack ["cap_x"; "cap_y"; "cap_z"]] (E Display ["R_loop";
        "z_loop"] []);
    Assign 353 [Name "cap_cols"] (E Display [] []);
    Expr 354 (E Call ["box3d"; "ax"; "cap_x"; "cap_y"; "cap_z"; "cap_cols"]
        [["box3d"]]);
    For 357 (Unpack ["angle"; "sx"]) (E Display ["np"; "gap_angle"] [])
      [
        Assign 358 [Unpack ["ex"; "ey"]] (E Display ["R_loop"; "np";
            "angle"] [["np"; "cos"]; ["np"; "sin"]]);
        Expr 359 (E Call ["ax"; "ex"; "cap_x"; "sx"; "ey"; "cap_y"; "z_loop";
            "cap_z"; "CU_MAIN"] [["ax"; "plot"]])
      ];
    Expr 363 (E Call ["ax"; "cap_x"; "cap_y"; "cap_z"] [["ax"; "plot"]]);
    Expr 366 (E Call ["ax"; "cap_x"; "cap_y"; "cap_z"; "dict"] [["ax";
        "text"]; ["dict"]]);
    Assign 374 [Name "mot_t"] (E Call ["np"] [["np"; "linspace"]]);
    Assign 375 [Name "mot_r"] (E Constant [] []);
    For 376 (Name "i") (E Call ["range"; "len"; "mot_t"] [["range"]; ["len"]])
      [
        Assign 377 [Name "face"] (E Display ["cap_x"; "mot_r"; "np"; "mot_t";
            "i"; "cap_y"; "cap_z"] [["np"; "cos"]; ["np"; "sin"]]);
        Expr 383 (E Call ["poly"; "ax"; "face"] [["poly"]])
      ];
    Assign 386 [Name "dome_t"] (E Call ["np"] [["np"; "linspace"]]);
    Assign 387 [Name "dome_r"] (E Constant [] []);
    Assign 388 [Name "dome_x"] (E Arithmetic ["cap_x"; "dome_r"; "np";
        "dome_t"] [["np"; "cos"]]);
    Assign 389 [Name "dome_y"] (E Arithmetic ["cap_y"; "dome_r"; "np";
        "dome_t"] [["np"; "sin"]]);
    Assign 390 [Name "dome_z"] (E Call ["np"; "cap_z"] [["np"; "full"]]);
    Expr 391 (E Call ["ax"; "dome_x"; "dome_y"; "dome_z"] [["ax"; "plot"]]);
    Assign 395 [Name "R_couple"] (E Constant [] []);
    Assign 396 [Name "theta_c"] (E Call ["np"; "N"] [["np"; "linspace"]]);
    Assign 397 [Name "cx_c"] (E Arithmetic ["R_couple"; "np"; "theta_c"]
        [["np"; "cos"]]);
    Assign 398 [Name "cy_c"] (E Arithmetic ["R_couple"; "np"; "theta_c";
        "R_loop"] [["np"; "sin"]]);
    Assign 399 [Name "cz_c"] (E Call ["np"; "N"; "z_loop"] [["np"; "full"]]);
    Expr 400 (E Call ["tube"; "ax"; "cx_c"; "cy_c"; "cz_c"; "CU_COUPLE"]
        [["tube"]]);
    Expr 403 (E Call ["ax"; "R_couple"; "R_loop"; "z_loop"] [["ax"; "plot"]]);
    Expr 405 (E Call ["ax"; "R_couple"; "R_loop"; "z_loop"; "dict"] [["ax";
        "text"]; ["dict"]]);
    Assign 413 [Unpack ["so_x"; "so_y"; "so_z"]] (E Display ["R_loop";
        "R_couple"; "z_loop"] []);
    Assign 415 [Name "hex_t"] (E Call ["np"] [["np"; "linspace"]]);
    Assign 416 [Name "hex_pts"] (E Comprehension ["so_x"; "np"; "so_y";
        "so_z"; "hex_t"] [["np"; "cos"]; ["np"; "sin"]]);
    Expr 418 (E Call ["poly"; "ax"; "hex_pts"] [["poly"]]);
    Expr 419 (E Call ["ax"; "so_x"; "so_y"; "so_z"] [["ax"; "text"]]);
    Assign 424 [Name "standoff_pos"] (E Display ["R_loop"] []);
    For 430 (Unpack ["sx"; "sy"]) (E Reference ["standoff_pos"] [])
      [
        Assign 431 [Name "z_roof_at"] (E Arithmetic ["np"; "sx"; "cab_xs";
            "cab_ztop"] [["np"; "interp"]]);
        Assign 433 [Name "base_pts"] (E Comprehension ["sx"; "np"; "sy";
            "z_roof_at"] [["np"; "cos"]; ["np"; "sin"]; ["np"; "linspace"]]);
        Expr 435 (E Call ["poly"; "ax"; "base_pts"] [["poly"]]);
        Assign 437 [Name "ring_pts"] (E Comprehension ["sx"; "np"; "sy";
            "z_roof_at"] [["np"; "cos"]; ["np"; "sin"]; ["np"; "linspace"]]);
        Expr 439 (E Call ["poly"; "ax"; "ring_pts"] [["poly"]]);
        Expr 441 (E Call ["ax"; "sx"; "sy"; "z_roof_at"; "z_loop"] [["ax";
            "plot"]]);
        Assign 444 [Name "clip_pts"] (E Comprehension ["sx"; "np"; "sy";
            "z_loop"] [["np"; "cos"]; ["np"; "sin"]; ["np"; "linspace"]]);
        Expr 446 (E Call ["poly"; "ax"; "clip_pts"] [["poly"]])
      ];
    Expr 449 (E Call ["ax"; "R_loop"; "z_loop"; "z_roof_mid"] [["ax";
        "plot"]]);
    Expr 453 (E Call ["ax"; "R_loop"; "z_loop"; "z_roof_mid"; "dict"] [["ax";
        "text"]; ["dict"]]);
    Assign 462 [Name "coax_path"] (E Call ["np"; "R_loop"; "R_couple";
        "z_loop"; "cab_xs"; "cab_ws"; "z_roof_mid"; "body_xs"; "body_ws";
        "z_g"] [["np"; "array"]; ["np"; "interp"]]);
    Expr 469 (E Call ["ax"; "coax_path"] [["ax"; "plot"]]);
    Expr 471 (E Call ["ax"; "coax_path"; "z_g"] [["ax"; "text"]]);
    Assign 477 [Name "balun_t"] (E Call ["np"] [["np"; "linspace"]]);
    Assign 478 [Name "bx"] (E Constant [] []);
    Assign 479 [Name "by"] (E Reference ["coax_path"] []);
    Assign 480 [Name "bz"] (E Arithmetic ["z_roof_mid"] []);
    Assign 481 [Name "br"] (E Constant [] []);
    Assign 482 [Name "balun_x"] (E Arithmetic ["bx"; "br"; "np"; "balun_t"]
        [["np"; "cos"]]);
    Assign 483 [Name "balun_y"] (E Arithmetic ["by"; "br"; "np"; "balun_t"]
        [["np"; "cos"]]);
    Assign 484 [Name "balun_z"] (E Arithmetic ["bz"; "br"; "np"; "balun_t"]
        [["np"; "sin"]]);
    Expr 485 (E Call ["ax"; "balun_x"; "balun_y"; "balun_z"] [["ax"; "plot"]]);
    Expr 486 (E Call ["ax"; "bx"; "by"; "bz"] [["ax"; "text"]]);
    Assign 492 [Name "arrow_c"] (E Constant [] []);
    For 494 (Unpack ["arr_x"; "arr_y"; "spread"]) (E Display [] [])
      [
        Assign 499 [Name "z0"] (E Arithmetic ["z_loop"] []);
        Assign 500 [Name "z1"] (E Arithmetic ["z_loop"] []);
        Expr 501 (E Call ["ax"; "arr_x"; "spread"; "arr_y"; "z0"; "z1";
            "arrow_c"] [["ax"; "plot"]]);
        Expr 505 (E Call ["ax"; "arr_x"; "spread"; "arr_y"; "z1"; "arrow_c"]
            [["ax"; "plot"]]);
        Expr 508 (E Call ["ax"; "arr_x"; "spread"; "arr_y"; "z1"; "arrow_c"]
            [["ax"; "plot"]])
      ];
    Expr 513 (E Call ["ax"; "z_loop"; "dict"] [["ax"; "text"]; ["dict"]]);
    Assign 521 [Name "iono_t"] (E Call ["np"] [["np"; "linspace"]]);
    Assign 522 [Name "iono_x"] (E Arithmetic ["np"; "iono_t"] [["np"; "sin"]]);
    Assign 523 [Name "iono_y"] (E Arithmetic ["np"; "iono_t"] [["np"; "cos"]]);
    Assign 524 [Name "iono_z"] (E Call ["np"; "z_loop"] [["np"; "full"]]);
    Expr 525 (E Call ["ax"; "iono_x"; "iono_y"; "iono_z"] [["ax"; "plot"]]);
    Expr 528 (E Call ["ax"; "iono_x"; "iono_y"; "iono_z"] [["ax"; "plot"]]);
    Expr 531 (E Call ["ax"; "z_loop"; "dict"] [["ax"; "text"]; ["dict"]]);
    For 539 (Unpack ["rx"; "ry"]) (E Display [] [])
      [
        Expr 540 (E Call ["ax"; "rx"; "ry"; "z_loop"] [["ax"; "plot"]]);
        Expr 544 (E Call ["ax"; "rx"; "np"; "ry"; "z_loop"] [["ax"; "plot"];
            ["np"; "sign"]])
      ];
    Assign 550 [Name "dz"] (E Arithmetic ["z_loop"] []);
    Expr 551 (E Call ["ax"; "R_loop"; "dz"; "ACCENT_RED"] [["ax"; "plot"]]);
    For 553 (Name "s") (E Display [] [])
      [
        Expr 554 (E Call ["ax"; "s"; "R_loop"; "dz"; "ACCENT_RED"] [["ax";
            "plot"]]);
        Expr 556 (E Call ["ax"; "s"; "R_loop"; "dz"; "ACCENT_RED"] [["ax";
            "plot"]])
      ];
    Expr 558 (E Call ["ax"; "dz"; "dict"; "ACCENT_RED"] [["ax"; "text"];
        ["dict"]]);
    Assign 565 [Name "ph_x"] (E Arithmetic ["R_loop"] []);
    Assign 566 [Name "z_roof_at_0"] (E Arithmetic ["np"; "cab_xs";
        "cab_ztop"] [["np"; "interp"]]);
    Expr 567 (E Call ["ax"; "ph_x"; "z_roof_at_0"; "z_loop"; "ACCENT_GRN"]
        [["ax"; "plot"]]);
    For 569 (Name "dz_") (E Display ["z_roof_at_0"; "z_loop"] [])
      [
        Expr 570 (E Call ["ax"; "ph_x"; "dz_"; "ACCENT_GRN"] [["ax"; "plot"]])
      ];
    Expr 572 (E Call ["ax"; "ph_x"; "z_roof_at_0"; "z_loop"; "dict";
        "ACCENT_GRN"] [["ax"; "text"]; ["dict"]]);
    Expr 580 (E Call ["ax"; "z_g"] [["ax"; "text"]]);
    For 585 (Name "g") (E Call ["np"] [["np"; "linspace"]])
      [
        Expr 586 (E Call ["ax"; "g"; "z_g"] [["ax"; "plot"]]);
        Expr 588 (E Call ["ax"; "g"; "z_g"] [["ax"; "plot"]])
      ];
    Expr 592 (E Call ["ax"; "z_g"] [["ax"; "plot"]]);
    Assign 599 [Name "ax_s"] (E Call ["fig"] [["fig"; "add_axes"]]);
    Expr 600 (E Call ["ax_s"] [["ax_s"; "set_facecolor"]]);
    Expr 601 (E Call ["ax_s"] [["ax_s"; "set_xlim"]]);
    Expr 602 (E Call ["ax_s"] [["ax_s"; "set_ylim"]]);
    Expr 603 (E Call ["ax_s"] [["ax_s"; "axis"]]);
    For 604 (Name "sp") (E Call ["ax_s"] [["ax_s"; "spines"; "values"]])
      [
        Expr 605 (E Call ["sp"] [["sp"; "set_visible"]]);
        Expr 606 (E Call ["sp"; "ACCENT_BLUE"] [["sp"; "set_color"]]);
        Expr 607 (E Call ["sp"] [["sp"; "set_linewidth"]])
      ];
    Expr 609 (E Call ["ax_s"; "TEXT_DARK"] [["ax_s"; "text"]]);
    Assign 613 [Name "specs"] (E Display [] []);
    Assign 636 [Name "row_clrs"] (E Display [] []);
    Assign 637 [Name "y0"] (E Constant [] []);
    Assign 638 [Name "dy"] (E Constant [] []);
    For 639 (Unpack ["i"; "label"; "value"]) (E Call ["enumerate"; "specs"]
        [["enumerate"]])
      [
        Assign 640 [Name "y"] (E Arithmetic ["y0"; "i"; "dy"] []);
        Assign 641 [Name "rc"] (E Reference ["row_clrs"; "i"] []);
        Expr 642 (E Call ["ax_s"; "FancyBboxPatch"; "y"; "rc"] [["ax_s";
            "add_patch"]; ["FancyBboxPatch"]]);
        Expr 644 (E Call ["ax_s"; "y"; "label"; "TEXT_DARK"] [["ax_s";
            "text"]]);
        Expr 646 (E Call ["ax_s"; "y"; "value"; "TEXT_DARK"] [["ax_s";
            "text"]])
      ];
    Assign 653 [Name "ax_n"] (E Call ["fig"] [["fig"; "add_axes"]]);
    Expr 654 (E Call ["ax_n"] [["ax_n"; "set_facecolor"]]);
    Expr 655 (E Call ["ax_n"] [["ax_n"; "set_xlim"]]);
    Expr 656 (E Call ["ax_n"] [["ax_n"; "set_ylim"]]);
    Expr 657 (E Call ["ax_n"] [["ax_n"; "axis"]]);
    For 658 (Name "sp") (E Call ["ax_n"] [["ax_n"; "spines"; "values"]])
      [
        Expr 659 (E Call ["sp"] [["sp"; "set_visible"]]);
        Expr 660 (E Call ["sp"] [["sp"; "set_color"]]);
        Expr 661 (E Call ["sp"] [["sp"; "set_linewidth"]])
      ];
    Expr 663 (E Call ["ax_n"; "TEXT_DARK"] [["ax_n"; "text"]]);
    Assign 667 [Name "notes"] (E Display [] []);
    Assign 688 [Name "row_clrs_n"] (E Display [] []);
    Assign 689 [Name "y0n"] (E Constant [] []);
    Assign 690 [Name "dyn"] (E Constant [] []);
    For 691 (Unpack ["i"; "num"; "title"; "desc"]) (E Call ["enumerate";
        "notes"] [["enumerate"]])
      [
        Assign 692 [Name "y"] (E Arithmetic ["y0n"; "i"; "dyn"] []);
        Assign 693 [Name "rc"] (E Reference ["row_clrs_n"; "i"] []);
        Expr 694 (E Call ["ax_n"; "FancyBboxPatch"; "y"; "rc"] [["ax_n";
            "add_patch"]; ["FancyBboxPatch"]]);
        Expr 696 (E Call ["ax_n"; "plt"; "y"] [["ax_n"; "add_patch"]; ["plt";
            "Circle"]]);
        Expr 699 (E Call ["ax_n"; "y"; "num"] [["ax_n"; "text"]]);
        Expr 701 (E Call ["ax_n"; "y"; "title"] [["ax_n"; "text"]]);
        Expr 703 (E Call ["ax_n"; "y"; "desc"] [["ax_n"; "text"]])
      ];
    Expr 707 (E Call ["ax_n"; "dict"] [["ax_n"; "text"]; ["dict"]]);
    Expr 714 (E Call ["ax_n"; "dict"] [["ax_n"; "text"]; ["dict"]]);
    Expr 723 (E Call ["ax_n"; "dict"] [["ax_n"; "text"]; ["dict"]]);
    Assign 735 [Name "ax_rp"] (E Call ["fig"] [["fig"; "add_axes"]]);
    Expr 736 (E Call ["ax_rp"] [["ax_rp"; "set_facecolor"]]);
    Expr 737 (E Call ["ax_rp"] [["ax_rp"; "set_theta_zero_location"]]);
    Expr 738 (E Call ["ax_rp"] [["ax_rp"; "set_theta_direction"]]);
    Assign 742 [Name "elev"] (E Call ["np"] [["np"; "linspace"]]);
    Assign 744 [Name "pattern_raw"] (E Call ["np"; "elev"] [["np"; "abs"];
        ["np"; "cos"]]);
    Assign 746 [Name "h_over_lam"] (E Constant [] []);
    Assign 747 [Name "ground_factor"] (E Call ["np"; "h_over_lam"; "elev"]
        [["np"; "abs"]; ["np"; "sin"]]);
    Assign 748 [Name "pattern"] (E Arithmetic ["pattern_raw";
        "ground_factor"] []);
    Assign 749 [Name "pattern"] (E Arithmetic ["pattern"; "np"] [["np";
        "max"]]);
    Expr 752 (E Call ["ax_rp"; "elev"; "pattern"] [["ax_rp"; "plot"]]);
    Expr 753 (E Call ["ax_rp"; "elev"; "pattern"] [["ax_rp"; "plot"]]);
    Expr 754 (E Call ["ax_rp"; "elev"; "pattern"] [["ax_rp"; "fill_between"]]);
    Expr 755 (E Call ["ax_rp"; "elev"; "pattern"] [["ax_rp"; "fill_between"]]);
    Assign 758 [Name "nvis_lo"] (E Call ["np"] [["np"; "radians"]]);
    Assign 759 [Name "nvis_hi"] (E Call ["np"] [["np"; "radians"]]);
    Assign 760 [Name "nvis_fill"] (E Call ["np"; "nvis_lo"; "nvis_hi"]
        [["np"; "linspace"]]);
    Assign 761 [Name "nvis_r"] (E Call ["np"; "nvis_fill"; "elev";
        "pattern"] [["np"; "interp"]]);
    Expr 762 (E Call ["ax_rp"; "nvis_fill"; "nvis_r"] [["ax_rp";
        "fill_between"]]);
    Expr 763 (E Call ["ax_rp"; "nvis_fill"; "nvis_r"] [["ax_rp";
        "fill_between"]]);
    Expr 765 (E Call ["ax_rp"] [["ax_rp"; "set_ylim"]]);
    Expr 766 (E Call ["ax_rp"] [["ax_rp"; "set_rticks"]]);
    Expr 767 (E Call ["ax_rp"] [["ax_rp"; "set_yticklabels"]]);
    Expr 768 (E Call ["ax_rp"; "np"] [["ax_rp"; "set_xticks"]; ["np";
        "radians"]]);
    Expr 769 (E Call ["ax_rp"] [["ax_rp"; "set_xticklabels"]]);
    Expr 773 (E Call ["ax_rp"] [["ax_rp"; "tick_params"]]);
    Expr 774 (E Call ["ax_rp"] [["ax_rp"; "grid"]]);
    Expr 775 (E Call ["ax_rp"] [["ax_rp"; "set_title"]]);
    Expr 779 (E Call ["ax_rp"; "np"; "GOLD"; "dict"] [["ax_rp"; "annotate"];
        ["np"; "radians"]; ["dict"]]);
    For 786 (Name "sp") (E Call ["ax_rp"] [["ax_rp"; "spines"; "values"]])
      [
        Expr 787 (E Call ["sp"] [["sp"; "set_color"]]);
        Expr 788 (E Call ["sp"] [["sp"; "set_linewidth"]])
      ];
    Assign 794 [Name "ax_cov"] (E Call ["fig"] [["fig"; "add_axes"]]);
    Expr 795 (E Call ["ax_cov"] [["ax_cov"; "set_facecolor"]]);
    Expr 796 (E Call ["ax_cov"] [["ax_cov"; "set_aspect"]]);
    Assign 799 [Name "theta_cov"] (E Call ["np"] [["np"; "linspace"]]);
    For 800 (Unpack ["r_km"; "alpha_c"; "lbl"]) (E Display [] [])
      [
        Assign 805 [Name "r_norm"] (E Arithmetic ["r_km"] []);
        Expr 806 (E Call ["ax_cov"; "r_norm"; "np"; "theta_cov"; "alpha_c"]
            [["ax_cov"; "fill"]; ["np"; "cos"]; ["np"; "sin"]]);
        Expr 808 (E Call ["ax_cov"; "r_norm"; "np"; "theta_cov"] [["ax_cov";
            "plot"]; ["np"; "cos"]; ["np"; "sin"]]);
        Expr 810 (E Call ["ax_cov"; "r_norm"; "lbl"] [["ax_cov"; "text"]])
      ];
    Expr 814 (E Call ["ax_cov"; "ACCENT_RED"] [["ax_cov"; "plot"]]);
    Expr 815 (E Call ["ax_cov"; "ACCENT_RED"] [["ax_cov"; "text"]]);
    Expr 819 (E Call ["ax_cov"; "dict"] [["ax_cov"; "annotate"]; ["dict"]]);
    Expr 825 (E Call ["ax_cov"] [["ax_cov"; "set_xlim"]]);
    Expr 826 (E Call ["ax_cov"] [["ax_cov"; "set_ylim"]]);
    Expr 827 (E Call ["ax_cov"] [["ax_cov"; "set_title"]]);
    Expr 829 (E Call ["ax_cov"] [["ax_cov"; "axis"]]);
    For 830 (Name "sp") (E Call ["ax_cov"] [["ax_cov"; "spines"; "values"]])
      [
        Expr 831 (E Call ["sp"] [["sp"; "set_visible"]]);
        Expr 832 (E Call ["sp"] [["sp"; "set_color"]]);
        Expr 833 (E Call ["sp"] [["sp"; "set_linewidth"]])
      ];
    Expr 839 (E Call ["fig"; "FancyBboxPatch"] [["fig"; "patches"; "append"];
        ["FancyBboxPatch"]]);
    Expr 843 (E Call ["fig"] [["fig"; "text"]]);
    Expr 848 (E Call ["fig"; "GOLD"] [["fig"; "text"]]);
    Expr 859 (E Call ["fig"; "FancyBboxPatch"] [["fig"; "patches"; "append"];
        ["FancyBboxPatch"]]);
    Expr 863 (E Call ["fig"] [["fig"; "text"]]);
    Assign 873 [Name "out"] (E Constant [] []);
    Expr 874 (E Call ["fig"; "out"; "DPI"] [["fig"; "savefig"]; ["fig";
        "get_facecolor"]]);
    Expr 876 (E Call ["plt"] [["plt"; "close"]]);
    Expr 877 (E Call ["print"; "out"] [["print"]]);
    Expr 878 (E Call ["print"; "DPI"] [["print"]])
  ].

Definition gen_nvis_80_40m_car_roof : list py :=
  [
    Expr 2 (E Constant [] []);
    Imports 8 ["matplotlib"];
    Expr 9 (E Call ["matplotlib"] [["matplotlib"; "use"]]);
    Imports 10 ["plt"];
    Imports 11 ["Poly3DCollection"];
    Imports 12 ["FancyBboxPatch"];
    Imports 13 ["np"];
    Assign 15 [Name "DPI"] (E Constant [] []);
    Assign 16 [Name "fig"] (E Call ["plt"; "DPI"] [["plt"; "figure"]]);
    Assign 19 [Name "CU"] (E Constant [] []);
    Assign 20 [Name "CU_HI"] (E Constant [] []);
    Assign 21 [Name "CU_DK"] (E Constant [] []);
    Assign 22 [Name "CU_CPL"] (E Constant [] []);
    Assign 23 [Name "A_BLUE"] (E Constant [] []);
    Assign 24 [Name "A_RED"] (E Constant [] []);
    Assign 25 [Name "A_GRN"] (E Constant [] []);
    Assign 26 [Name "GOLD"] (E Constant [] []);
    Assign 27 [Name "TD"] (E Constant [] []);
    Assign 28 [Name "N"] (E Constant [] []);
    Assign 34 [Name "ax"] (E Call ["fig"] [["fig"; "add_axes"]]);
    Expr 36 (E Call ["ax"] [["ax"; "set_facecolor"]]);
    Expr 37 (E Call ["ax"] [["ax"; "set_xlim"]]);
    Expr 38 (E Call ["ax"] [["ax"; "set_ylim"]]);
    Expr 39 (E Call ["ax"] [["ax"; "set_zlim"]]);
    Expr 40 (E Call ["ax"] [["ax"; "view_init"]]);
    Expr 41 (E Call ["ax"] [["ax"; "set_box_aspect"]]);
    Expr 42 (E Call ["ax"] [["ax"; "axis"]]);
    FunctionDef 46 "tube" ["a"; "px"; "py"; "pz"; "c"; "lw"; "hc"; "al";
        "zo"] (E Display [] [])
      [
        Expr 47 (E Call ["a"; "px"; "py"; "pz"; "c"; "lw"; "al"; "zo"] [["a";
            "plot"]]);
        If 48 (E Reference ["hc"] [])
          [
            Expr 49 (E Call ["a"; "px"; "py"; "pz"; "hc"; "lw"; "zo"] [["a";
                "plot"]])
          ]
          []
      ];
    FunctionDef 52 "qpoly" ["a"; "v"; "fc"; "ec"; "al"; "lw"; "zo"]
        (E Display [] [])
      [
        Assign 53 [Name "p"] (E Call ["Poly3DCollection"; "v"; "al"; "zo"]
            [["Poly3DCollection"]]);
        Expr 54 (E Call ["p"; "fc"] [["p"; "set_facecolor"]]);
        Expr 54 (E Call ["p"; "ec"] [["p"; "set_edgecolor"]]);
        Expr 54 (E Call ["p"; "lw"] [["p"; "set_linewidth"]]);
        Expr 55 (E Call ["a"; "p"] [["a"; "add_collection3d"]])
      ];
    FunctionDef 57 "box3d" ["a"; "cx"; "cy"; "cz"; "hw"; "hd"; "hh"; "cols";
        "ec"; "al"; "zo"] (E Display [] [])
      [
        Assign 58 [Name "fs"] (E Display ["cx"; "hw"; "cy"; "hd"; "cz";
            "hh"] []);
        For 66 (Unpack ["face"; "fc_"]) (E Call ["zip"; "fs"; "cols"]
            [["zip"]])
          [
            Expr 67 (E Call ["qpoly"; "a"; "face"; "fc_"; "ec"; "al"; "zo"]
                [["qpoly"]])
          ]
      ];
    FunctionDef 69 "cylinder" ["a"; "cx"; "cy"; "zb"; "zt"; "r"; "n"; "fc";
        "ec"; "al"; "zo"] (E Display [] [])
      [
        Assign 70 [Name "th"] (E Call ["np"; "n"] [["np"; "linspace"]]);
        For 71 (Name "i") (E Call ["range"; "n"] [["range"]])
          [
            Assign 72 [Name "face"] (E Display ["cx"; "r"; "np"; "th"; "i";
                "cy"; "zb"; "zt"] [["np"; "cos"]; ["np"; "sin"]]);
            Expr 76 (E Call ["qpoly"; "a"; "face"; "fc"; "ec"; "al"; "zo"]
                [["qpoly"]])
          ];
        Assign 78 [Name "cap"] (E Comprehension ["cx"; "r"; "np"; "cy"; "zt";
            "th"] [["np"; "cos"]; ["np"; "sin"]]);
        Expr 79 (E Call ["qpoly"; "a"; "cap"; "fc"; "ec"; "al"; "zo"]
            [["qpoly"]])
      ];
    Assign 85 [Name "z_g"] (E Arithmetic [] []);
    Assign 88 [Name "bx"] (E Call ["np"] [["np"; "array"]]);
    Assign 91 [Name "bw"] (E Call ["np"] [["np"; "array"]]);
    Assign 94 [Name "bzt"] (E Call ["np"; "z_g"] [["np"; "array"]]);
    Assign 100 [Name "cx_"] (E Call ["np"] [["np"; "array"]]);
    Assign 101 [Name "cw_"] (E Call ["np"] [["np"; "array"]]);
    Assign 102 [Name "czt"] (E Call ["np"; "z_g"] [["np"; "array"]]);
    Assign 106 [Name "paint_l"] (E Constant [] []);
    Assign 107 [Name "paint_r"] (E Constant [] []);
    Assign 108 [Name "paint_t"] (E Constant [] []);
    Assign 109 [Name "paint_bt"] (E Constant [] []);
    Assign 110 [Name "paint_f"] (E Constant [] []);
    Assign 111 [Name "paint_re"] (E Constant [] []);
    For 114 (Name "i") (E Call ["range"; "len"; "bx"] [["range"]; ["len"]])
      [
        Assign 115 [Unpack ["x0"; "x1"]] (E Display ["bx"; "i"] []);
        Assign 115 [Unpack ["w0"; "w1"]] (E Display ["bw"; "i"] []);
        Assign 116 [Unpack ["zt0"; "zt1"]] (E Display ["bzt"; "i"] []);
        Expr 118 (E Call ["qpoly"; "ax"; "x0"; "w0"; "z_g"; "x1"; "w1";
            "zt1"; "zt0"; "paint_l"] [["qpoly"]]);
        Expr 121 (E Call ["qpoly"; "ax"; "x0"; "w0"; "z_g"; "x1"; "w1";
            "zt1"; "zt0"; "paint_r"] [["qpoly"]]);
        Expr 124 (E Call ["qpoly"; "ax"; "x0"; "w0"; "zt0"; "x1"; "w1";
            "zt1"; "paint_t"] [["qpoly"]]);
        Expr 127 (E Call ["qpoly"; "ax"; "x0"; "w0"; "z_g"; "x1"; "w1";
            "paint_bt"] [["qpoly"]])
      ];
    Expr 131 (E Call ["qpoly"; "ax"; "bx"; "bw"; "z_g"; "bzt"; "paint_f"]
        [["qpoly"]]);
    Expr 135 (E Call ["qpoly"; "ax"; "bx"; "bw"; "z_g"; "bzt"; "paint_re"]
        [["qpoly"]]);
    Assign 140 [Name "glass_c"] (E Constant [] []);
    Assign 140 [Name "glass_a"] (E Constant [] []);
    Assign 141 [Name "roof_c"] (E Constant [] []);
    Assign 141 [Name "roof_a"] (E Constant [] []);
    Assign 142 [Name "pillar_c"] (E Constant [] []);
    For 144 (Name "i") (E Call ["range"; "len"; "cx_"] [["range"]; ["len"]])
      [
        Assign 145 [Unpack ["x0"; "x1"]] (E Display ["cx_"; "i"] []);
        Assign 145 [Unpack ["w0"; "w1"]] (E Display ["cw_"; "i"] []);
        Assign 146 [Name "zb0"] (E Call ["np"; "x0"; "bx"; "bzt"] [["np";
            "interp"]]);
        Assign 146 [Name "zb1"] (E Call ["np"; "x1"; "bx"; "bzt"] [["np";
            "interp"]]);
        Assign 147 [Unpack ["zt0"; "zt1"]] (E Display ["czt"; "i"] []);
        Expr 149 (E Call ["qpoly"; "ax"; "x0"; "w0"; "zb0"; "x1"; "w1";
            "zb1"; "zt1"; "zt0"; "glass_c"; "glass_a"] [["qpoly"]]);
        Expr 152 (E Call ["qpoly"; "ax"; "x0"; "w0"; "zb0"; "x1"; "w1";
            "zb1"; "zt1"; "zt0"; "glass_c"; "glass_a"] [["qpoly"]]);
        Expr 155 (E Call ["qpoly"; "ax"; "x0"; "w0"; "zt0"; "x1"; "w1";
            "zt1"; "roof_c"; "roof_a"] [["qpoly"]])
      ];
    Assign 159 [Name "xwf"] (E Reference ["cx_"] []);
    Assign 159 [Name "wwf"] (E Reference ["cw_"] []);
    Assign 160 [Name "zbwf"] (E Call ["np"; "xwf"; "bx"; "bzt"] [["np";
        "interp"]]);
    Assign 160 [Name "ztwf"] (E Reference ["czt"] []);
    Expr 161 (E Call ["qpoly"; "ax"; "xwf"; "wwf"; "zbwf"; "ztwf";
        "glass_c"] [["qpoly"]]);
    Assign 165 [Name "xrg"] (E Reference ["cx_"] []);
    Assign 165 [Name "wrg"] (E Reference ["cw_"] []);
    Assign 166 [Name "zbrg"] (E Call ["np"; "xrg"; "bx"; "bzt"] [["np";
        "interp"]]);
    Assign 166 [Name "ztrg"] (E Reference ["czt"] []);
    Expr 167 (E Call ["qpoly"; "ax"; "xrg"; "wrg"; "zbrg"; "ztrg";
        "glass_c"] [["qpoly"]]);
    Assign 172 [Name "pw"] (E Constant [] []);
    For 173 (Unpack ["px_"; "pw_"]) (E Display ["cx_"; "cw_"] [])
      [
        Assign 174 [Name "zb_"] (E Call ["np"; "px_"; "bx"; "bzt"] [["np";
            "interp"]]);
        Assign 175 [Name "zt_"] (E Call ["np"; "px_"; "cx_"; "czt"] [["np";
            "interp"]]);
        For 176 (Name "s") (E Display [] [])
          [
            Expr 177 (E Call ["qpoly"; "ax"; "px_"; "pw"; "s"; "pw_"; "zb_";
                "zt_"; "pillar_c"] [["qpoly"]])
          ]
      ];
    For 182 (Name "dx") (E Display [] [])
      [
        Assign 183 [Name "wd"] (E Call ["np"; "dx"; "bx"; "bw"] [["np";
            "interp"]]);
        Assign 184 [Name "zbd"] (E Arithmetic ["z_g"] []);
        Assign 184 [Name "ztd"] (E Arithmetic ["np"; "dx"; "bx"; "bzt"]
            [["np"; "interp"]]);
        For 185 (Name "s") (E Display [] [])
          [
            Expr 186 (E Call ["ax"; "dx"; "s"; "wd"; "zbd"; "ztd"] [["ax";
                "plot"]])
          ]
      ];
    For 190 (Name "hx") (E Display [] [])
      [
        Assign 191 [Name "hw_"] (E Call ["np"; "hx"; "bx"; "bw"] [["np";
            "interp"]]);
        Assign 192 [Name "hz_"] (E Arithmetic ["np"; "hx"; "bx"; "bzt"]
            [["np"; "interp"]]);
        For 193 (Name "s") (E Display [] [])
          [
            Assign 194 [Name "hy_"] (E Arithmetic ["s"; "hw_"] []);
            Expr 195 (E Call ["ax"; "hx"; "hy_"; "hz_"] [["ax"; "plot"]])
          ]
      ];
    For 199 (Name "s") (E Display [] [])
      [
        Assign 200 [Name "mx_"] (E Arithmetic ["cx_"] []);
        Assign 200 [Name "mw_"] (E Call ["np"; "mx_"; "bx"; "bw"] [["np";
            "interp"]]);
        Assign 201 [Name "my_"] (E Arithmetic ["s"; "mw_"] []);
        Assign 201 [Name "mz_"] (E Arithmetic ["np"; "mx_"; "bx"; "bzt"]
            [["np"; "interp"]]);
        Expr 202 (E Call ["ax"; "mx_"; "s"; "mw_"; "my_"; "mz_"] [["ax";
            "plot"]]);
        Expr 204 (E Call ["qpoly"; "ax"; "mx_"; "my_"; "mz_"] [["qpoly"]]);
        Expr 208 (E Call ["qpoly"; "ax"; "mx_"; "my_"; "s"; "mz_"]
            [["qpoly"]])
      ];
    For 213 (Name "s") (E Display [] [])
      [
        Assign 214 [Name "hlx"] (E Arithmetic ["bx"] []);
        For 215 (Unpack ["y0h"; "y1h"]) (E Display ["s"; "bw"] [])
          [
            Expr 216 (E Call ["qpoly"; "ax"; "hlx"; "y0h"; "z_g"; "y1h"]
                [["qpoly"]])
          ];
        Expr 220 (E Call ["ax"; "hlx"; "s"; "bw"; "z_g"] [["ax"; "plot"]])
      ];
    For 224 (Name "s") (E Display [] [])
      [
        Assign 225 [Name "tlx"] (E Arithmetic ["bx"] []);
        Expr 226 (E Call ["qpoly"; "ax"; "tlx"; "s"; "z_g"; "bw"]
            [["qpoly"]]);
        Expr 230 (E Call ["ax"; "tlx"; "s"; "bw"; "z_g"] [["ax"; "plot"]])
      ];
    Assign 234 [Name "gx_"] (E Arithmetic ["bx"] []);
    Assign 234 [Name "gw_"] (E Arithmetic ["bw"] []);
    Expr 236 (E Call ["qpoly"; "ax"; "gx_"; "gw_"; "z_g"] [["qpoly"]]);
    Expr 240 (E Call ["qpoly"; "ax"; "gx_"; "gw_"; "z_g"] [["qpoly"]]);
    Expr 244 (E Call ["ax"; "gx_"; "gw_"; "z_g"] [["ax"; "plot"]]);
    For 247 (Name "gz_") (E Call ["np"; "z_g"] [["np"; "linspace"]])
      [
        Expr 248 (E Call ["ax"; "gx_"; "gw_"; "gz_"] [["ax"; "plot"]])
      ];
    Assign 252 [Name "badge_t"] (E Call ["np"] [["np"; "linspace"]]);
    Assign 253 [Name "badge_pts"] (E Comprehension ["gx_"; "np"; "z_g";
        "badge_t"] [["np"; "cos"]; ["np"; "sin"]]);
    Expr 255 (E Call ["qpoly"; "ax"; "badge_pts"] [["qpoly"]]);
    For 258 (Unpack ["lx_"; "ls"]) (E Display ["bx"] [])
      [
        Expr 259 (E Call ["qpoly"; "ax"; "lx_"; "z_g"] [["qpoly"]])
      ];
    Expr 265 (E Call ["qpoly"; "ax"; "bx"; "bw"; "z_g"] [["qpoly"]]);
    Expr 269 (E Call ["qpoly"; "ax"; "bx"; "bw"; "z_g"] [["qpoly"]]);
    For 274 (Name "s") (E Display [] [])
      [
        Assign 275 [Unpack ["rx0"; "rx1"]] (E Display [] []);
        Assign 276 [Name "rw0"] (E Call ["np"; "rx0"; "bx"; "bw"] [["np";
            "interp"]]);
        Assign 276 [Name "rw1"] (E Call ["np"; "rx1"; "bx"; "bw"] [["np";
            "interp"]]);
        Expr 277 (E Call ["qpoly"; "ax"; "rx0"; "s"; "rw0"; "z_g"; "rx1";
            "rw1"] [["qpoly"]])
      ];
    Assign 282 [Name "wt"] (E Call ["np"] [["np"; "linspace"]]);
    Assign 283 [Name "wr"] (E Constant [] []);
    Assign 283 [Name "rr"] (E Constant [] []);
    Assign 283 [Name "dr"] (E Constant [] []);
    Assign 284 [Name "wlocs"] (E Display ["z_g"] []);
    For 286 (Unpack ["wx_"; "wy_"; "wz_"]) (E Reference ["wlocs"] [])
      [
        Assign 288 [Name "tpts"] (E Comprehension ["wx_"; "wr"; "np"; "wy_";
            "wz_"; "wt"] [["np"; "cos"]; ["np"; "sin"]]);
        Expr 289 (E Call ["qpoly"; "ax"; "tpts"] [["qpoly"]]);
        Assign 291 [Name "rpts"] (E Comprehension ["wx_"; "rr"; "np"; "wy_";
            "wz_"; "wt"] [["np"; "cos"]; ["np"; "sin"]]);
        Expr 292 (E Call ["qpoly"; "ax"; "rpts"] [["qpoly"]]);
        Assign 294 [Name "dpts"] (E Comprehension ["wx_"; "dr"; "np"; "wy_";
            "wz_"; "wt"] [["np"; "cos"]; ["np"; "sin"]]);
        Expr 295 (E Call ["qpoly"; "ax"; "dpts"] [["qpoly"]]);
        For 297 (Name "sp_a") (E Reference ["np"] [["np"; "linspace"]])
          [
            Assign 298 [Name "sx0"] (E Arithmetic ["wx_"; "dr"; "np";
                "sp_a"] [["np"; "cos"]]);
            Assign 299 [Name "sz0"] (E Arithmetic ["wz_"; "dr"; "np";
                "sp_a"] [["np"; "sin"]]);
            Assign 300 [Name "sx1"] (E Arithmetic ["wx_"; "rr"; "np";
                "sp_a"] [["np"; "cos"]]);
            Assign 301 [Name "sz1"] (E Arithmetic ["wz_"; "rr"; "np";
                "sp_a"] [["np"; "sin"]]);
            Expr 302 (E Call ["ax"; "sx0"; "sx1"; "wy_"; "sz0"; "sz1"]
                [["ax"; "plot"]])
          ];
        Assign 305 [Name "arch_a"] (E Call ["np"] [["np"; "linspace"]]);
        Expr 306 (E Call ["ax"; "wx_"; "wr"; "np"; "arch_a"; "wy_"; "wz_"]
            [["ax"; "plot"]; ["np"; "cos"]; ["np"; "full"]; ["np"; "sin"]]);
        Expr 311 (E Call ["ax"; "wx_"; "wr"; "np"; "arch_a"; "wy_"; "wz_";
            "paint_l"; "paint_r"] [["ax"; "plot"]; ["np"; "cos"]; ["np";
            "full"]; ["np"; "sin"]])
      ];
    For 317 (Name "s") (E Display [] [])
      [
        Assign 318 [Name "rrx"] (E Call ["np"; "cx_"] [["np"; "linspace"]]);
        Assign 319 [Name "rry"] (E Call ["np"; "s"; "cx_"; "cw_"; "rrx"]
            [["np"; "array"]; ["np"; "interp"]]);
        Assign 320 [Name "rrz"] (E Call ["np"; "cx_"; "czt"; "rrx"] [["np";
            "array"]; ["np"; "interp"]]);
        Expr 321 (E Call ["ax"; "rrx"; "rry"; "rrz"] [["ax"; "plot"]])
      ];
    Assign 324 [Name "sfx"] (E Reference ["cx_"] []);
    Assign 324 [Name "sfz_b"] (E Arithmetic ["np"; "sfx"; "cx_"; "czt"]
        [["np"; "interp"]]);
    Assign 325 [Name "sfz_t"] (E Arithmetic ["sfz_b"] []);
    Expr 326 (E Call ["qpoly"; "ax"; "sfx"; "sfz_b"; "sfz_t"] [["qpoly"]]);
    Assign 331 [Name "wiper_x0"] (E Arithmetic ["cx_"] []);
    For 332 (Name "s_w") (E Display [] [])
      [
        Assign 333 [Name "wiper_y"] (E Reference ["s_w"] []);
        Assign 334 [Name "wiper_zb"] (E Arithmetic ["np"; "wiper_x0"; "bx";
            "bzt"] [["np"; "interp"]]);
        Expr 335 (E Call ["ax"; "wiper_x0"; "wiper_y"; "wiper_zb"] [["ax";
            "plot"]])
      ];
    For 340 (Name "ey") (E Display [] [])
      [
        Expr 341 (E Call ["cylinder"; "ax"; "bx"; "ey"; "z_g"] [["cylinder"]])
      ];
    Assign 348 [Name "R_loop"] (E Constant [] []);
    Assign 349 [Name "z_roof"] (E Arithmetic ["np"; "cx_"; "czt"] [["np";
        "interp"]]);
    Assign 350 [Name "standoff_h"] (E Constant [] []);
    Assign 351 [Name "z_lp"] (E Arithmetic ["z_roof"; "standoff_h"] []);
    Assign 352 [Name "gap_a"] (E Constant [] []);
    Assign 355 [Name "th_l"] (E Call ["np"; "gap_a"; "N"] [["np";
        "linspace"]]);
    Expr 356 (E Call ["tube"; "ax"; "R_loop"; "np"; "th_l"; "N"; "z_lp";
        "CU"; "CU_HI"] [["tube"]; ["np"; "cos"]; ["np"; "sin"]; ["np";
        "full"]]);
    Assign 360 [Unpack ["cap_x"; "cap_y"; "cap_z"]] (E Display ["R_loop";
        "z_lp"] []);
    Assign 361 [Name "box_cols"] (E Display [] []);
    Expr 362 (E Call ["box3d"; "ax"; "cap_x"; "cap_y"; "cap_z"; "box_cols"]
        [["box3d"]]);
    For 365 (Unpack ["angle"; "sx"]) (E Display ["np"; "gap_a"] [])
      [
        Assign 366 [Unpack ["ex"; "ey"]] (E Display ["R_loop"; "np";
            "angle"] [["np"; "cos"]; ["np"; "sin"]]);
        Expr 367 (E Call ["ax"; "ex"; "cap_x"; "sx"; "ey"; "cap_y"; "z_lp";
            "cap_z"; "CU"] [["ax"; "plot"]])
      ];
    Expr 371 (E Call ["box3d"; "ax"; "cap_x"; "cap_y"; "cap_z"] [["box3d"]]);
    Expr 377 (E Call ["cylinder"; "ax"; "cap_x"; "cap_y"; "cap_z"]
        [["cylinder"]]);
    Expr 381 (E Call ["ax"; "cap_x"; "cap_y"; "cap_z"] [["ax"; "plot"]]);
    Expr 385 (E Call ["ax"; "cap_x"; "cap_y"; "cap_z"] [["ax"; "plot"]]);
    Expr 387 (E Call ["ax"; "cap_x"; "cap_y"; "cap_z"; "dict"] [["ax";
        "text"]; ["dict"]]);
    Assign 398 [Name "dome_t"] (E Call ["np"] [["np"; "linspace"]]);
    Expr 399 (E Call ["ax"; "cap_x"; "np"; "dome_t"; "cap_y"; "cap_z"]
        [["ax"; "plot"]; ["np"; "cos"]; ["np"; "sin"]; ["np"; "full"]]);
    Assign 404 [Name "R_cpl"] (E Constant [] []);
    Assign 405 [Name "th_c"] (E Call ["np"; "N"] [["np"; "linspace"]]);
    Expr 406 (E Call ["tube"; "ax"; "R_cpl"; "np"; "th_c"; "R_loop"; "N";
        "z_lp"; "CU_CPL"] [["tube"]; ["np"; "cos"]; ["np"; "sin"]; ["np";
        "full"]]);
    Expr 409 (E Call ["ax"; "R_cpl"; "R_loop"; "z_lp"] [["ax"; "plot"]]);
    Expr 411 (E Call ["ax"; "R_cpl"; "R_loop"; "z_lp"; "dict"] [["ax";
        "text"]; ["dict"]]);
    Assign 419 [Name "hex_t"] (E Call ["np"] [["np"; "linspace"]]);
    Expr 420 (E Call ["qpoly"; "ax"; "np"; "R_loop"; "R_cpl"; "z_lp";
        "hex_t"] [["qpoly"]; ["np"; "cos"]; ["np"; "sin"]]);
    Expr 422 (E Call ["ax"; "R_loop"; "R_cpl"; "z_lp"] [["ax"; "text"]]);
    Assign 427 [Name "spos"] (E Display ["R_loop"] []);
    For 429 (Unpack ["sx_"; "sy_"]) (E Reference ["spos"] [])
      [
        Assign 430 [Name "zr_"] (E Arithmetic ["np"; "sx_"; "cx_"; "czt"]
            [["np"; "interp"]]);
        Expr 432 (E Call ["cylinder"; "ax"; "sx_"; "sy_"; "zr_"]
            [["cylinder"]]);
        Expr 435 (E Call ["cylinder"; "ax"; "sx_"; "sy_"; "zr_"]
            [["cylinder"]]);
        Expr 438 (E Call ["ax"; "sx_"; "sy_"; "zr_"; "z_lp"] [["ax";
            "plot"]]);
        Expr 441 (E Call ["cylinder"; "ax"; "sx_"; "sy_"; "z_lp"]
            [["cylinder"]])
      ];
    Expr 444 (E Call ["ax"; "R_loop"; "z_roof"; "z_lp"] [["ax"; "plot"]]);
    Expr 448 (E Call ["ax"; "R_loop"; "z_roof"; "z_lp"; "dict"] [["ax";
        "text"]; ["dict"]]);
    Assign 456 [Name "coax_pts"] (E Call ["np"; "R_loop"; "R_cpl"; "z_lp";
        "cx_"; "cw_"; "z_roof"; "bx"; "bw"; "z_g"] [["np"; "array"]; ["np";
        "interp"]]);
    Expr 462 (E Call ["ax"; "coax_pts"] [["ax"; "plot"]]);
    Expr 465 (E Call ["ax"; "coax_pts"] [["ax"; "plot"]]);
    Expr 467 (E Call ["ax"; "coax_pts"; "z_g"] [["ax"; "text"]]);
    Assign 473 [Name "bx_"] (E Constant [] []);
    Assign 473 [Name "by_"] (E Reference ["coax_pts"] []);
    Assign 473 [Name "bz_"] (E Arithmetic ["z_roof"] []);
    Assign 474 [Name "balun_t"] (E Call ["np"] [["np"; "linspace"]]);
    Expr 475 (E Call ["ax"; "bx_"; "np"; "balun_t"; "by_"; "bz_"] [["ax";
        "plot"]; ["np"; "cos"]; ["np"; "sin"]]);
    Expr 479 (E Call ["ax"; "bx_"; "by_"; "bz_"] [["ax"; "text"]]);
    Expr 483 (E Call ["box3d"; "ax"; "np"; "bx"; "bw"; "z_g"] [["box3d"];
        ["np"; "interp"]]);
    Expr 487 (E Call ["ax"; "np"; "bx"; "bw"; "z_g"] [["ax"; "text"]; ["np";
        "interp"]]);
    Assign 495 [Name "ac"] (E Constant [] []);
    For 496 (Unpack ["ax_"; "ay_"; "sp"]) (E Display [] [])
      [
        Assign 500 [Name "z0_"] (E Arithmetic ["z_lp"] []);
        Assign 500 [Name "z1_"] (E Arithmetic ["z_lp"] []);
        Expr 501 (E Call ["ax"; "ax_"; "sp"; "ay_"; "z0_"; "z1_"; "ac"]
            [["ax"; "plot"]]);
        For 503 (Name "dx_") (E Display [] [])
          [
            Expr 504 (E Call ["ax"; "ax_"; "sp"; "dx_"; "ay_"; "z1_"; "ac"]
                [["ax"; "plot"]])
          ]
      ];
    Expr 508 (E Call ["ax"; "z_lp"; "dict"] [["ax"; "text"]; ["dict"]]);
    For 516 (Unpack ["r_s"; "z_off"; "c_"; "a_"; "lbl"]) (E Display [] [])
      [
        Assign 520 [Name "it"] (E Call ["np"] [["np"; "linspace"]]);
        Expr 521 (E Call ["ax"; "r_s"; "np"; "it"; "z_lp"; "z_off"; "c_";
            "a_"] [["ax"; "plot"]; ["np"; "sin"]; ["np"; "cos"]; ["np";
            "full"]])
      ];
    Expr 525 (E Call ["ax"; "z_lp"; "dict"] [["ax"; "text"]; ["dict"]]);
    For 533 (Unpack ["rx_"; "ry_"]) (E Display [] [])
      [
        Expr 535 (E Call ["ax"; "rx_"; "ry_"; "z_lp"] [["ax"; "plot"]])
      ];
    Assign 541 [Name "dz_"] (E Arithmetic ["z_lp"] []);
    Expr 542 (E Call ["ax"; "R_loop"; "dz_"; "A_RED"] [["ax"; "plot"]]);
    For 543 (Name "s") (E Display [] [])
      [
        Expr 544 (E Call ["ax"; "s"; "R_loop"; "dz_"; "A_RED"] [["ax";
            "plot"]]);
        Expr 546 (E Call ["ax"; "s"; "R_loop"; "dz_"; "A_RED"] [["ax";
            "plot"]])
      ];
    Expr 548 (E Call ["ax"; "dz_"; "dict"; "A_RED"] [["ax"; "text"];
        ["dict"]]);
    Assign 555 [Name "ph"] (E Arithmetic ["R_loop"] []);
    Expr 556 (E Call ["ax"; "ph"; "z_roof"; "z_lp"; "A_GRN"] [["ax"; "plot"]]);
    For 557 (Name "dz__") (E Display ["z_roof"; "z_lp"] [])
      [
        Expr 558 (E Call ["ax"; "ph"; "dz__"; "A_GRN"] [["ax"; "plot"]])
      ];
    Expr 560 (E Call ["ax"; "ph"; "z_roof"; "z_lp"; "dict"; "A_GRN"] [["ax";
        "text"]; ["dict"]]);
    Expr 567 (E Call ["ax"; "z_g"] [["ax"; "text"]]);
    For 571 (Name "g") (E Call ["np"] [["np"; "linspace"]])
      [
        Expr 572 (E Call ["ax"; "g"; "z_g"] [["ax"; "plot"]]);
        Expr 574 (E Call ["ax"; "g"; "z_g"] [["ax"; "plot"]])
      ];
    Expr 577 (E Call ["ax"; "z_g"] [["ax"; "plot"]]);
    Assign 584 [Name "ax_s"] (E Call ["fig"] [["fig"; "add_axes"]]);
    Expr 585 (E Call ["ax_s"] [["ax_s"; "set_facecolor"]]);
    Expr 586 (E Call ["ax_s"] [["ax_s"; "set_xlim"]]);
    Expr 586 (E Call ["ax_s"] [["ax_s"; "set_ylim"]]);
    Expr 586 (E Call ["ax_s"] [["ax_s"; "axis"]]);
    For 587 (Name "sp") (E Call ["ax_s"] [["ax_s"; "spines"; "values"]])
      [
        Expr 588 (E Call ["sp"] [["sp"; "set_visible"]]);
        Expr 588 (E Call ["sp"; "A_BLUE"] [["sp"; "set_color"]]);
        Expr 588 (E Call ["sp"] [["sp"; "set_linewidth"]])
      ];
    Expr 590 (E Call ["ax_s"; "TD"] [["ax_s"; "text"]]);
    Expr 595 (E Call ["ax_s"; "FancyBboxPatch"] [["ax_s"; "add_patch"];
        ["FancyBboxPatch"]]);
    Expr 597 (E Call ["ax_s"] [["ax_s"; "text"]]);
    Expr 599 (E Call ["ax_s"] [["ax_s"; "text"]]);
    Expr 601 (E Call ["ax_s"] [["ax_s"; "text"]]);
    Assign 604 [Name "specs"] (E Display [] []);
    Assign 623 [Name "rc"] (E Display [] []);
    Assign 624 [Name "y0"] (E Constant [] []);
    Assign 624 [Name "dy"] (E Constant [] []);
    For 625 (Unpack ["i"; "lbl"; "v80"; "v40"]) (E Call ["enumerate";
        "specs"] [["enumerate"]])
      [
        Assign 626 [Name "y"] (E Arithmetic ["y0"; "i"; "dy"] []);
        Expr 627 (E Call ["ax_s"; "FancyBboxPatch"; "y"; "rc"; "i"] [["ax_s";
            "add_patch"]; ["FancyBboxPatch"]]);
        Expr 629 (E Call ["ax_s"; "y"; "lbl"; "TD"] [["ax_s"; "text"]]);
        Expr 631 (E Call ["ax_s"; "y"; "v80"; "TD"] [["ax_s"; "text"]]);
        Expr 633 (E Call ["ax_s"; "y"; "v40"; "TD"] [["ax_s"; "text"]])
      ];
    Expr 637 (E Call ["ax_s"] [["ax_s"; "plot"]]);
    Expr 638 (E Call ["ax_s"] [["ax_s"; "plot"]]);
    Expr 641 (E Call ["ax_s"; "dict"] [["ax_s"; "text"]; ["dict"]]);
    Assign 653 [Name "ax_n"] (E Call ["fig"] [["fig"; "add_axes"]]);
    Expr 654 (E Call ["ax_n"] [["ax_n"; "set_facecolor"]]);
    Expr 655 (E Call ["ax_n"] [["ax_n"; "set_xlim"]]);
    Expr 655 (E Call ["ax_n"] [["ax_n"; "set_ylim"]]);
    Expr 655 (E Call ["ax_n"] [["ax_n"; "axis"]]);
    For 656 (Name "sp") (E Call ["ax_n"] [["ax_n"; "spines"; "values"]])
      [
        Expr 657 (E Call ["sp"] [["sp"; "set_visible"]]);
        Expr 657 (E Call ["sp"] [["sp"; "set_color"]]);
        Expr 657 (E Call ["sp"] [["sp"; "set_linewidth"]])
      ];
    Expr 659 (E Call ["ax_n"; "TD"] [["ax_n"; "text"]]);
    Assign 663 [Name "notes"] (E Display [] []);
    Assign 687 [Name "rcn"] (E Display [] []);
    Assign 688 [Name "y0n"] (E Constant [] []);
    Assign 688 [Name "dyn"] (E Constant [] []);
    For 689 (Unpack ["i"; "num"; "title"; "desc"]) (E Call ["enumerate";
        "notes"] [["enumerate"]])
      [
        Assign 690 [Name "y"] (E Arithmetic ["y0n"; "i"; "dyn"] []);
        Expr 691 (E Call ["ax_n"; "FancyBboxPatch"; "y"; "rcn"; "i"]
            [["ax_n"; "add_patch"]; ["FancyBboxPatch"]]);
        Expr 693 (E Call ["ax_n"; "plt"; "y"] [["ax_n"; "add_patch"]; ["plt";
            "Circle"]]);
        Expr 696 (E Call ["ax_n"; "y"; "num"] [["ax_n"; "text"]]);
        Expr 698 (E Call ["ax_n"; "y"; "title"] [["ax_n"; "text"]]);
        Expr 700 (E Call ["ax_n"; "y"; "desc"] [["ax_n"; "text"]])
      ];
    Expr 704 (E Call ["ax_n"; "dict"] [["ax_n"; "text"]; ["dict"]]);
    Expr 711 (E Call ["ax_n"; "dict"] [["ax_n"; "text"]; ["dict"]]);
    Assign 723 [Name "ax_rp"] (E Call ["fig"] [["fig"; "add_axes"]]);
    Expr 724 (E Call ["ax_rp"] [["ax_rp"; "set_facecolor"]]);
    Expr 725 (E Call ["ax_rp"] [["ax_rp"; "set_theta_zero_location"]]);
    Expr 726 (E Call ["ax_rp"] [["ax_rp"; "set_theta_direction"]]);
    Assign 728 [Name "elev"] (E Call ["np"] [["np"; "linspace"]]);
    Assign 729 [Name "pat_base"] (E Call ["np"; "elev"] [["np"; "abs"];
        ["np"; "cos"]]);
    Assign 730 [Name "gf"] (E Call ["np"; "elev"] [["np"; "abs"]; ["np";
        "sin"]]);
    Assign 731 [Name "pat"] (E Arithmetic ["pat_base"; "gf"] []);
    AugAssign 731 (Name "pat") (E Call ["pat"] [["pat"; "max"]]);
    Expr 733 (E Call ["ax_rp"; "elev"; "pat"] [["ax_rp"; "plot"]]);
    Expr 734 (E Call ["ax_rp"; "elev"; "pat"] [["ax_rp"; "plot"]]);
    Expr 735 (E Call ["ax_rp"; "elev"; "pat"] [["ax_rp"; "fill_between"]]);
    Expr 736 (E Call ["ax_rp"; "elev"; "pat"] [["ax_rp"; "fill_between"]]);
    Assign 739 [Name "nv"] (E Call ["np"] [["np"; "linspace"]; ["np";
        "radians"]]);
    Assign 740 [Name "nv_r"] (E Call ["np"; "nv"; "elev"; "pat"] [["np";
        "interp"]]);
    Expr 741 (E Call ["ax_rp"; "nv"; "nv_r"; "GOLD"] [["ax_rp";
        "fill_between"]]);
    Expr 742 (E Call ["ax_rp"; "nv"; "nv_r"; "GOLD"] [["ax_rp";
        "fill_between"]]);
    Expr 744 (E Call ["ax_rp"] [["ax_rp"; "set_ylim"]]);
    Expr 745 (E Call ["ax_rp"] [["ax_rp"; "set_rticks"]]);
    Expr 746 (E Call ["ax_rp"] [["ax_rp"; "set_yticklabels"]]);
    Expr 747 (E Call ["ax_rp"; "np"; "range"] [["ax_rp"; "set_xticks"];
        ["np"; "radians"]; ["range"]]);
    Expr 748 (E Call ["ax_rp"; "range"] [["ax_rp"; "set_xticklabels"];
        ["range"]]);
    Expr 750 (E Call ["ax_rp"] [["ax_rp"; "tick_params"]]);
    Expr 751 (E Call ["ax_rp"] [["ax_rp"; "grid"]]);
    Expr 752 (E Call ["ax_rp"] [["ax_rp"; "set_title"]]);
    Expr 755 (E Call ["ax_rp"; "np"; "GOLD"; "dict"] [["ax_rp"; "annotate"];
        ["np"; "radians"]; ["dict"]]);
    For 759 (Name "sp") (E Call ["ax_rp"] [["ax_rp"; "spines"; "values"]])
      [
        Expr 760 (E Call ["sp"] [["sp"; "set_color"]]);
        Expr 760 (E Call ["sp"] [["sp"; "set_linewidth"]])
      ];
    Assign 766 [Name "ax_cov"] (E Call ["fig"] [["fig"; "add_axes"]]);
    Expr 767 (E Call ["ax_cov"] [["ax_cov"; "set_facecolor"]]);
    Expr 768 (E Call ["ax_cov"] [["ax_cov"; "set_aspect"]]);
    Assign 770 [Name "ct"] (E Call ["np"] [["np"; "linspace"]]);
    For 771 (Unpack ["r_km"; "al_"; "lbl"]) (E Display [] [])
      [
        Assign 773 [Name "rn"] (E Arithmetic ["r_km"] []);
        Expr 774 (E Call ["ax_cov"; "rn"; "np"; "ct"; "al_"] [["ax_cov";
            "fill"]; ["np"; "cos"]; ["np"; "sin"]]);
        Expr 775 (E Call ["ax_cov"; "rn"; "np"; "ct"] [["ax_cov"; "plot"];
            ["np"; "cos"]; ["np"; "sin"]]);
        Expr 776 (E Call ["ax_cov"; "rn"; "lbl"] [["ax_cov"; "text"]])
      ];
    Expr 780 (E Call ["ax_cov"; "A_RED"] [["ax_cov"; "plot"]]);
    Expr 781 (E Call ["ax_cov"; "A_RED"] [["ax_cov"; "text"]]);
    Expr 784 (E Call ["ax_cov"; "dict"] [["ax_cov"; "annotate"]; ["dict"]]);
    Expr 791 (E Call ["ax_cov"] [["ax_cov"; "set_xlim"]]);
    Expr 791 (E Call ["ax_cov"] [["ax_cov"; "set_ylim"]]);
    Expr 792 (E Call ["ax_cov"] [["ax_cov"; "set_title"]]);
    Expr 795 (E Call ["ax_cov"] [["ax_cov"; "axis"]]);
    Assign 801 [Name "ax_sw"] (E Call ["fig"] [["fig"; "add_axes"]]);
    Expr 802 (E Call ["ax_sw"] [["ax_sw"; "set_facecolor"]]);
    Expr 803 (E Call ["ax_sw"] [["ax_sw"; "set_xlim"]]);
    Expr 803 (E Call ["ax_sw"] [["ax_sw"; "set_ylim"]]);
    Expr 804 (E Call ["ax_sw"] [["ax_sw"; "axis"]]);
    For 805 (Name "sp") (E Call ["ax_sw"] [["ax_sw"; "spines"; "values"]])
      [
        Expr 806 (E Call ["sp"] [["sp"; "set_visible"]]);
        Expr 806 (E Call ["sp"] [["sp"; "set_color"]]);
        Expr 806 (E Call ["sp"] [["sp"; "set_linewidth"]])
      ];
    Expr 808 (E Call ["ax_sw"] [["ax_sw"; "set_title"]]);
    Assign 813 [Name "loop_t"] (E Call ["np"] [["np"; "linspace"]]);
    Expr 814 (E Call ["ax_sw"; "np"; "loop_t"; "CU"] [["ax_sw"; "plot"];
        ["np"; "cos"]; ["np"; "sin"]]);
    Expr 816 (E Call ["ax_sw"; "CU_HI"] [["ax_sw"; "text"]]);
    Expr 821 (E Call ["ax_sw"; "CU"] [["ax_sw"; "plot"]]);
    Expr 822 (E Call ["ax_sw"; "CU"] [["ax_sw"; "plot"]]);
    Expr 825 (E Call ["ax_sw"; "FancyBboxPatch"] [["ax_sw"; "add_patch"];
        ["FancyBboxPatch"]]);
    Expr 828 (E Call ["ax_sw"] [["ax_sw"; "text"]]);
    Expr 831 (E Call ["ax_sw"; "plt"] [["ax_sw"; "add_patch"]; ["plt";
        "Circle"]]);
    Expr 835 (E Call ["ax_sw"] [["ax_sw"; "plot"]]);
    Expr 836 (E Call ["ax_sw"] [["ax_sw"; "plot"]]);
    Expr 837 (E Call ["ax_sw"; "FancyBboxPatch"] [["ax_sw"; "add_patch"];
        ["FancyBboxPatch"]]);
    Expr 840 (E Call ["ax_sw"] [["ax_sw"; "text"]]);
    Expr 845 (E Call ["ax_sw"] [["ax_sw"; "plot"]]);
    Expr 846 (E Call ["ax_sw"] [["ax_sw"; "plot"]]);
    Expr 847 (E Call ["ax_sw"; "FancyBboxPatch"] [["ax_sw"; "add_patch"];
        ["FancyBboxPatch"]]);
    Expr 850 (E Call ["ax_sw"] [["ax_sw"; "text"]]);
    Expr 855 (E Call ["ax_sw"; "FancyBboxPatch"] [["ax_sw"; "add_patch"];
        ["FancyBboxPatch"]]);
    Expr 858 (E Call ["ax_sw"] [["ax_sw"; "text"]]);
    Expr 861 (E Call ["ax_sw"] [["ax_sw"; "plot"]]);
    Expr 862 (E Call ["ax_sw"] [["ax_sw"; "plot"]]);
    Expr 864 (E Call ["ax_sw"; "dict"] [["ax_sw"; "annotate"]; ["dict"]]);
    Expr 866 (E Call ["ax_sw"; "dict"] [["ax_sw"; "annotate"]; ["dict"]]);
    Expr 870 (E Call ["ax_sw"; "FancyBboxPatch"] [["ax_sw"; "add_patch"];
        ["FancyBboxPatch"]]);
    Expr 873 (E Call ["ax_sw"] [["ax_sw"; "text"]]);
    Expr 875 (E Call ["ax_sw"] [["ax_sw"; "plot"]]);
    Expr 881 (E Call ["fig"; "FancyBboxPatch"] [["fig"; "patches"; "append"];
        ["FancyBboxPatch"]]);
    Expr 885 (E Call ["fig"] [["fig"; "text"]]);
    Expr 890 (E Call ["fig"; "GOLD"] [["fig"; "text"]]);
    Expr 901 (E Call ["fig"; "FancyBboxPatch"] [["fig"; "patches"; "append"];
        ["FancyBboxPatch"]]);
    Expr 905 (E Call ["fig"] [["fig"; "text"]]);
    Assign 915 [Name "out"] (E Constant [] []);
    Expr 916 (E Call ["fig"; "out"; "DPI"] [["fig"; "savefig"]; ["fig";
        "get_facecolor"]]);
    Expr 918 (E Call ["plt"] [["plt"; "close"]]);
    Expr 919 (E Call ["print"; "out"] [["print"]]);
    Expr 920 (E Call ["print"; "DPI"] [["print"]])
  ].

Definition gen_nvis_80_40_20m_triband : list py :=
  [
    Expr 2 (E Constant [] []);
    Imports 13 ["matplotlib"];
    Expr 14 (E Call ["matplotlib"] [["matplotlib"; "use"]]);
    Imports 15 ["plt"];
    Imports 16 ["Poly3DCollection"];
    Imports 17 ["FancyBboxPatch"];
    Imports 18 ["np"];
    Assign 20 [Name "DPI"] (E Constant [] []);
    Assign 21 [Name "fig"] (E Call ["plt"; "DPI"] [["plt"; "figure"]]);
    Assign 24 [Name "CU"] (E Constant [] []);
    Assign 24 [Name "CU_HI"] (E Constant [] []);
    Assign 24 [Name "CU_DK"] (E Constant [] []);
    Assign 25 [Name "CU_CPL"] (E Constant [] []);
    Assign 25 [Name "A_BLUE"] (E Constant [] []);
    Assign 25 [Name "A_RED"] (E Constant [] []);
    Assign 26 [Name "A_GRN"] (E Constant [] []);
    Assign 26 [Name "GOLD"] (E Constant [] []);
    Assign 26 [Name "TD"] (E Constant [] []);
    Assign 27 [Name "A_CYAN"] (E Constant [] []);
    Assign 27 [Name "A_CYAN_LT"] (E Constant [] []);
    Assign 28 [Name "N"] (E Constant [] []);
    Assign 33 [Name "ax"] (E Call ["fig"] [["fig"; "add_axes"]]);
    Expr 35 (E Call ["ax"] [["ax"; "set_facecolor"]]);
    Expr 36 (E Call ["ax"] [["ax"; "set_xlim"]]);
    Expr 36 (E Call ["ax"] [["ax"; "set_ylim"]]);
    Expr 36 (E Call ["ax"] [["ax"; "set_zlim"]]);
    Expr 37 (E Call ["ax"] [["ax"; "view_init"]]);
    Expr 38 (E Call ["ax"] [["ax"; "set_box_aspect"]]);
    Expr 39 (E Call ["ax"] [["ax"; "axis"]]);
    FunctionDef 42 "tube" ["a"; "px"; "py"; "pz"; "c"; "lw"; "hc"; "al";
        "zo"] (E Display [] [])
      [
        Expr 43 (E Call ["a"; "px"; "py"; "pz"; "c"; "lw"; "al"; "zo"] [["a";
            "plot"]]);
        If 44 (E Reference ["hc"] [])
          [
            Expr 45 (E Call ["a"; "px"; "py"; "pz"; "hc"; "lw"; "zo"] [["a";
                "plot"]])
          ]
          []
      ];
    FunctionDef 48 "qpoly" ["a"; "v"; "fc"; "ec"; "al"; "lw"; "zo"]
        (E Display [] [])
      [
        Assign 49 [Name "p"] (E Call ["Poly3DCollection"; "v"; "al"; "zo"]
            [["Poly3DCollection"]]);
        Expr 50 (E Call ["p"; "fc"] [["p"; "set_facecolor"]]);
        Expr 50 (E Call ["p"; "ec"] [["p"; "set_edgecolor"]]);
        Expr 50 (E Call ["p"; "lw"] [["p"; "set_linewidth"]]);
        Expr 51 (E Call ["a"; "p"] [["a"; "add_collection3d"]])
      ];
    FunctionDef 53 "box3d" ["a"; "cx"; "cy"; "cz"; "hw"; "hd"; "hh"; "cols";
        "ec"; "al"; "zo"] (E Display [] [])
      [
        Assign 54 [Name "fs"] (E Display ["cx"; "hw"; "cy"; "hd"; "cz";
            "hh"] []);
        For 62 (Unpack ["face"; "fc_"]) (E Call ["zip"; "fs"; "cols"]
            [["zip"]])
          [
            Expr 63 (E Call ["qpoly"; "a"; "face"; "fc_"; "ec"; "al"; "zo"]
                [["qpoly"]])
          ]
      ];
    FunctionDef 65 "cylinder" ["a"; "cx"; "cy"; "zb"; "zt"; "r"; "n"; "fc";
        "ec"; "al"; "zo"] (E Display [] [])
      [
        Assign 66 [Name "th"] (E Call ["np"; "n"] [["np"; "linspace"]]);
        For 67 (Name "i") (E Call ["range"; "n"] [["range"]])
          [
            Assign 68 [Name "face"] (E Display ["cx"; "r"; "np"; "th"; "i";
                "cy"; "zb"; "zt"] [["np"; "cos"]; ["np"; "sin"]]);
            Expr 72 (E Call ["qpoly"; "a"; "face"; "fc"; "ec"; "al"; "zo"]
                [["qpoly"]])
          ];
        Assign 73 [Name "cap"] (E Comprehension ["cx"; "r"; "np"; "cy"; "zt";
            "th"] [["np"; "cos"]; ["np"; "sin"]]);
        Expr 74 (E Call ["qpoly"; "a"; "cap"; "fc"; "ec"; "al"; "zo"]
            [["qpoly"]])
      ];
    Assign 80 [Name "z_g"] (E Arithmetic [] []);
    Assign 83 [Name "bx"] (E Call ["np"] [["np"; "array"]]);
    Assign 86 [Name "bw"] (E Call ["np"] [["np"; "array"]]);
    Assign 90 [Name "bzt"] (E Call ["np"; "z_g"] [["np"; "array"]]);
    Assign 97 [Name "cx_"] (E Call ["np"] [["np"; "array"]]);
    Assign 98 [Name "cw_"] (E Call ["np"] [["np"; "array"]]);
    Assign 100 [Name "czt"] (E Call ["np"; "z_g"] [["np"; "array"]]);
    Assign 104 [Name "paint_l"] (E Constant [] []);
    Assign 105 [Name "paint_r"] (E Constant [] []);
    Assign 106 [Name "paint_t"] (E Constant [] []);
    Assign 107 [Name "paint_bt"] (E Constant [] []);
    Assign 108 [Name "paint_f"] (E Constant [] []);
    Assign 109 [Name "paint_re"] (E Constant [] []);
    Assign 110 [Name "paint_hi"] (E Constant [] []);
    Assign 111 [Name "glass_c"] (E Constant [] []);
    Assign 112 [Name "roof_c"] (E Constant [] []);
    Assign 113 [Name "pillar_c"] (E Constant [] []);
    Assign 114 [Name "trim_c"] (E Constant [] []);
    For 117 (Name "i") (E Call ["range"; "len"; "bx"] [["range"]; ["len"]])
      [
        Assign 118 [Unpack ["x0"; "x1"]] (E Display ["bx"; "i"] []);
        Assign 118 [Unpack ["w0"; "w1"]] (E Display ["bw"; "i"] []);
        Assign 118 [Unpack ["zt0"; "zt1"]] (E Display ["bzt"; "i"] []);
        Expr 119 (E Call ["qpoly"; "ax"; "x0"; "w0"; "z_g"; "x1"; "w1";
            "zt1"; "zt0"; "paint_l"] [["qpoly"]]);
        Expr 120 (E Call ["qpoly"; "ax"; "x0"; "w0"; "z_g"; "x1"; "w1";
            "zt1"; "zt0"; "paint_r"] [["qpoly"]]);
        Expr 121 (E Call ["qpoly"; "ax"; "x0"; "w0"; "zt0"; "x1"; "w1";
            "zt1"; "paint_t"] [["qpoly"]]);
        Expr 122 (E Call ["qpoly"; "ax"; "x0"; "w0"; "z_g"; "x1"; "w1";
            "paint_bt"] [["qpoly"]])
      ];
    Expr 125 (E Call ["qpoly"; "ax"; "bx"; "bw"; "z_g"; "bzt"; "paint_f"]
        [["qpoly"]]);
    Expr 128 (E Call ["qpoly"; "ax"; "bx"; "bw"; "z_g"; "bzt"; "paint_re"]
        [["qpoly"]]);
    For 132 (Name "s") (E Display [] [])
      [
        Assign 133 [Name "cl_xs"] (E Call ["np"; "bx"] [["np"; "linspace"]]);
        Assign 134 [Name "cl_ys"] (E Call ["np"; "s"; "bx"; "bw"; "cl_xs"]
            [["np"; "array"]; ["np"; "interp"]]);
        Assign 135 [Name "cl_zs"] (E Call ["np"; "bx"; "bzt"; "cl_xs"]
            [["np"; "array"]; ["np"; "interp"]]);
        Expr 136 (E Call ["ax"; "cl_xs"; "cl_ys"; "cl_zs"; "paint_hi"]
            [["ax"; "plot"]])
      ];
    For 139 (Name "s") (E Display [] [])
      [
        Assign 140 [Unpack ["sk_x0"; "sk_x1"]] (E Display [] []);
        Assign 141 [Name "sk_xs"] (E Call ["np"; "sk_x0"; "sk_x1"] [["np";
            "linspace"]]);
        Assign 142 [Name "sk_ys"] (E Call ["np"; "s"; "bx"; "bw"; "sk_xs"]
            [["np"; "array"]; ["np"; "interp"]]);
        Assign 143 [Name "sk_zs"] (E Call ["np"; "z_g"] [["np"; "full"]]);
        Expr 144 (E Call ["ax"; "sk_xs"; "sk_ys"; "sk_zs"] [["ax"; "plot"]])
      ];
    For 147 (Name "i") (E Call ["range"; "len"; "cx_"] [["range"]; ["len"]])
      [
        Assign 148 [Unpack ["x0"; "x1"]] (E Display ["cx_"; "i"] []);
        Assign 148 [Unpack ["w0"; "w1"]] (E Display ["cw_"; "i"] []);
        Assign 149 [Name "zb0"] (E Call ["np"; "x0"; "bx"; "bzt"] [["np";
            "interp"]]);
        Assign 149 [Name "zb1"] (E Call ["np"; "x1"; "bx"; "bzt"] [["np";
            "interp"]]);
        Assign 150 [Unpack ["zt0"; "zt1"]] (E Display ["czt"; "i"] []);
        Expr 152 (E Call ["qpoly"; "ax"; "x0"; "w0"; "zb0"; "x1"; "w1";
            "zb1"; "zt1"; "zt0"; "glass_c"] [["qpoly"]]);
        Expr 155 (E Call ["qpoly"; "ax"; "x0"; "w0"; "zb0"; "x1"; "w1";
            "zb1"; "zt1"; "zt0"; "glass_c"] [["qpoly"]]);
        Expr 158 (E Call ["qpoly"; "ax"; "x0"; "w0"; "zt0"; "x1"; "w1";
            "zt1"; "roof_c"] [["qpoly"]])
      ];
    For 162 (Name "s") (E Display [] [])
      [
        Assign 163 [Name "tr_xs"] (E Comprehension ["cx_"; "range"; "len"]
            [["range"]; ["len"]]);
        Assign 164 [Name "tr_ys"] (E Comprehension ["s"; "cw_"; "range";
            "len"; "cx_"] [["range"]; ["len"]]);
        Assign 165 [Name "tr_zb"] (E Comprehension ["np"; "cx_"; "bx"; "bzt";
            "range"; "len"] [["np"; "interp"]; ["range"]; ["len"]]);
        Assign 166 [Name "tr_zt"] (E Comprehension ["czt"; "range"; "len";
            "cx_"] [["range"]; ["len"]]);
        Expr 168 (E Call ["ax"; "tr_xs"; "tr_ys"; "tr_zb"; "trim_c"] [["ax";
            "plot"]]);
        Expr 170 (E Call ["ax"; "tr_xs"; "tr_ys"; "tr_zt"; "trim_c"] [["ax";
            "plot"]])
      ];
    Assign 173 [Name "xwf"] (E Reference ["cx_"] []);
    Assign 173 [Name "wwf"] (E Reference ["cw_"] []);
    Assign 173 [Name "zbwf"] (E Call ["np"; "xwf"; "bx"; "bzt"] [["np";
        "interp"]]);
    Assign 173 [Name "ztwf"] (E Reference ["czt"] []);
    Expr 174 (E Call ["qpoly"; "ax"; "xwf"; "wwf"; "zbwf"; "ztwf";
        "glass_c"] [["qpoly"]]);
    Assign 179 [Name "xrg"] (E Reference ["cx_"] []);
    Assign 179 [Name "wrg"] (E Reference ["cw_"] []);
    Assign 179 [Name "zbrg"] (E Call ["np"; "xrg"; "bx"; "bzt"] [["np";
        "interp"]]);
    Assign 179 [Name "ztrg"] (E Reference ["czt"] []);
    Expr 180 (E Call ["qpoly"; "ax"; "xrg"; "wrg"; "zbrg"; "ztrg";
        "glass_c"] [["qpoly"]]);
    For 185 (Unpack ["hx_"; "hy_"]) (E Display [] [])
      [
        Assign 186 [Name "hr_zb"] (E Arithmetic ["np"; "hx_"; "bx"; "bzt"]
            [["np"; "interp"]]);
        Assign 187 [Name "hr_zt"] (E Arithmetic ["hr_zb"] []);
        Expr 188 (E Call ["box3d"; "ax"; "hx_"; "hy_"; "hr_zb"; "hr_zt"]
            [["box3d"]])
      ];
    Assign 193 [Name "pw"] (E Constant [] []);
    Assign 194 [Name "pillar_locs"] (E Display ["cx_"; "cw_"] []);
    For 199 (Unpack ["px_"; "pw_"]) (E Reference ["pillar_locs"] [])
      [
        Assign 200 [Name "zb_"] (E Call ["np"; "px_"; "bx"; "bzt"] [["np";
            "interp"]]);
        Assign 200 [Name "zt_"] (E Call ["np"; "px_"; "cx_"; "czt"] [["np";
            "interp"]]);
        For 201 (Name "s") (E Display [] [])
          [
            Expr 202 (E Call ["qpoly"; "ax"; "px_"; "pw"; "s"; "pw_"; "zb_";
                "zt_"; "pillar_c"] [["qpoly"]])
          ]
      ];
    For 207 (Name "dx") (E Display [] [])
      [
        Assign 208 [Name "wd"] (E Call ["np"; "dx"; "bx"; "bw"] [["np";
            "interp"]]);
        Assign 208 [Name "zbd"] (E Arithmetic ["z_g"] []);
        Assign 208 [Name "ztd"] (E Arithmetic ["np"; "dx"; "bx"; "bzt"]
            [["np"; "interp"]]);
        For 209 (Name "s") (E Display [] [])
          [
            Expr 210 (E Call ["ax"; "dx"; "s"; "wd"; "zbd"; "ztd"] [["ax";
                "plot"]])
          ]
      ];
    For 214 (Name "hx") (E Display [] [])
      [
        Assign 215 [Name "hw_"] (E Call ["np"; "hx"; "bx"; "bw"] [["np";
            "interp"]]);
        Assign 215 [Name "hz_"] (E Arithmetic ["np"; "hx"; "bx"; "bzt"]
            [["np"; "interp"]]);
        For 216 (Name "s") (E Display [] [])
          [
            Expr 217 (E Call ["ax"; "hx"; "s"; "hw_"; "hz_"] [["ax"; "plot"]])
          ]
      ];
    For 221 (Name "s") (E Display [] [])
      [
        Assign 222 [Name "mx_"] (E Arithmetic ["cx_"] []);
        Assign 222 [Name "mw_"] (E Call ["np"; "mx_"; "bx"; "bw"] [["np";
            "interp"]]);
        Assign 223 [Name "my_"] (E Arithmetic ["s"; "mw_"] []);
        Assign 223 [Name "mz_"] (E Arithmetic ["np"; "mx_"; "bx"; "bzt"]
            [["np"; "interp"]]);
        Expr 225 (E Call ["ax"; "mx_"; "s"; "mw_"; "my_"; "mz_"; "pillar_c"]
            [["ax"; "plot"]]);
        Expr 227 (E Call ["qpoly"; "ax"; "mx_"; "my_"; "mz_"; "pillar_c"]
            [["qpoly"]]);
        Expr 231 (E Call ["qpoly"; "ax"; "mx_"; "my_"; "s"; "mz_"]
            [["qpoly"]])
      ];
    For 236 (Name "s") (E Display [] [])
      [
        Assign 237 [Name "hlx"] (E Arithmetic ["bx"] []);
        Expr 239 (E Call ["qpoly"; "ax"; "hlx"; "s"; "z_g"; "bw"]
            [["qpoly"]]);
        Expr 243 (E Call ["qpoly"; "ax"; "hlx"; "s"; "z_g"; "bw"]
            [["qpoly"]]);
        Expr 247 (E Call ["ax"; "hlx"; "s"; "bw"; "z_g"] [["ax"; "plot"]])
      ];
    For 251 (Name "s") (E Display [] [])
      [
        Assign 252 [Name "tlx"] (E Arithmetic ["bx"] []);
        Expr 253 (E Call ["qpoly"; "ax"; "tlx"; "s"; "z_g"; "bw"]
            [["qpoly"]]);
        Expr 257 (E Call ["ax"; "tlx"; "s"; "bw"; "z_g"] [["ax"; "plot"]])
      ];
    Assign 260 [Name "tlx_b"] (E Arithmetic ["bx"] []);
    Expr 261 (E Call ["qpoly"; "ax"; "tlx_b"; "z_g"] [["qpoly"]]);
    Assign 266 [Name "trunk_x"] (E Reference ["bx"] []);
    Assign 267 [Name "trunk_w"] (E Reference ["bw"] []);
    Assign 268 [Name "trunk_z"] (E Arithmetic ["bzt"] []);
    Expr 269 (E Call ["ax"; "trunk_x"; "trunk_w"; "trunk_z"; "paint_hi"]
        [["ax"; "plot"]]);
    Assign 273 [Name "gx_"] (E Arithmetic ["bx"] []);
    Assign 273 [Name "gw_"] (E Arithmetic ["bw"] []);
    Expr 275 (E Call ["qpoly"; "ax"; "gx_"; "gw_"; "z_g"] [["qpoly"]]);
    For 279 (Name "gz_") (E Display ["z_g"] [])
      [
        Expr 280 (E Call ["ax"; "gx_"; "gw_"; "gz_"] [["ax"; "plot"]])
      ];
    For 283 (Name "gz_") (E Call ["np"; "z_g"] [["np"; "linspace"]])
      [
        Expr 284 (E Call ["ax"; "gx_"; "gw_"; "gz_"] [["ax"; "plot"]]);
        Expr 286 (E Call ["ax"; "gx_"; "gw_"; "gz_"] [["ax"; "plot"]])
      ];
    Expr 289 (E Call ["qpoly"; "ax"; "gx_"; "gw_"; "z_g"] [["qpoly"]]);
    Assign 294 [Name "bt_"] (E Call ["np"] [["np"; "linspace"]]);
    Expr 295 (E Call ["qpoly"; "ax"; "gx_"; "np"; "z_g"; "bt_"] [["qpoly"];
        ["np"; "cos"]; ["np"; "sin"]]);
    For 299 (Name "lx_") (E Display ["bx"] [])
      [
        Expr 300 (E Call ["qpoly"; "ax"; "lx_"; "z_g"] [["qpoly"]])
      ];
    Expr 305 (E Call ["qpoly"; "ax"; "bx"; "bw"; "z_g"; "paint_f"]
        [["qpoly"]]);
    Expr 310 (E Call ["qpoly"; "ax"; "bx"; "bw"; "z_g"; "paint_re"]
        [["qpoly"]]);
    Assign 315 [Name "fd_x"] (E Arithmetic [] []);
    Assign 315 [Name "fd_w"] (E Call ["np"; "fd_x"; "bx"; "bw"] [["np";
        "interp"]]);
    Assign 316 [Name "fd_z"] (E Arithmetic ["np"; "fd_x"; "bx"; "bzt"]
        [["np"; "interp"]]);
    Expr 317 (E Call ["qpoly"; "ax"; "fd_x"; "fd_w"; "fd_z"; "paint_hi"]
        [["qpoly"]]);
    Assign 324 [Name "sh_th"] (E Call ["np"] [["np"; "linspace"]]);
    Assign 325 [Unpack ["sh_rx"; "sh_ry"]] (E Display [] []);
    Expr 326 (E Call ["qpoly"; "ax"; "sh_rx"; "np"; "sh_ry"; "z_g"; "sh_th"]
        [["qpoly"]; ["np"; "cos"]; ["np"; "sin"]]);
    Assign 330 [Name "wt"] (E Call ["np"] [["np"; "linspace"]]);
    Assign 331 [Name "wr"] (E Constant [] []);
    Assign 332 [Name "rr"] (E Constant [] []);
    Assign 333 [Name "dr"] (E Constant [] []);
    Assign 334 [Name "wlocs"] (E Display ["z_g"] []);
    For 336 (Unpack ["wx_"; "wy_"; "wz_"]) (E Reference ["wlocs"] [])
      [
        Expr 338 (E Call ["qpoly"; "ax"; "wx_"; "wr"; "np"; "wy_"; "wz_";
            "wt"] [["qpoly"]; ["np"; "cos"]; ["np"; "sin"]]);
        Expr 341 (E Call ["qpoly"; "ax"; "wx_"; "rr"; "np"; "wy_"; "wz_";
            "wt"] [["qpoly"]; ["np"; "cos"]; ["np"; "sin"]]);
        Expr 344 (E Call ["qpoly"; "ax"; "wx_"; "np"; "wy_"; "wz_"; "wt"]
            [["qpoly"]; ["np"; "cos"]; ["np"; "sin"]]);
        Expr 347 (E Call ["qpoly"; "ax"; "wx_"; "dr"; "np"; "wy_"; "wz_";
            "wt"] [["qpoly"]; ["np"; "cos"]; ["np"; "sin"]]);
        For 350 (Name "sp_a") (E Reference ["np"] [["np"; "linspace"]])
          [
            Assign 351 [Name "sx0"] (E Arithmetic ["wx_"; "dr"; "np";
                "sp_a"] [["np"; "cos"]]);
            Assign 352 [Name "sz0"] (E Arithmetic ["wz_"; "dr"; "np";
                "sp_a"] [["np"; "sin"]]);
            Assign 353 [Name "sx1"] (E Arithmetic ["wx_"; "rr"; "np";
                "sp_a"] [["np"; "cos"]]);
            Assign 354 [Name "sz1"] (E Arithmetic ["wz_"; "rr"; "np";
                "sp_a"] [["np"; "sin"]]);
            Expr 355 (E Call ["ax"; "sx0"; "sx1"; "wy_"; "sz0"; "sz1"]
                [["ax"; "plot"]])
          ];
        Assign 357 [Name "aa"] (E Call ["np"] [["np"; "linspace"]]);
        Expr 358 (E Call ["ax"; "wx_"; "wr"; "np"; "aa"; "wy_"; "wz_";
            "paint_l"; "paint_r"] [["ax"; "plot"]; ["np"; "cos"]; ["np";
            "full"]; ["np"; "sin"]])
      ];
    Assign 363 [Name "sfx"] (E Reference ["cx_"] []);
    Assign 363 [Name "sfzb"] (E Arithmetic ["np"; "sfx"; "cx_"; "czt"]
        [["np"; "interp"]]);
    Assign 363 [Name "sfzt"] (E Arithmetic ["sfzb"] []);
    Expr 364 (E Call ["qpoly"; "ax"; "sfx"; "sfzb"; "sfzt"] [["qpoly"]]);
    Assign 368 [Name "wp_x0"] (E Arithmetic ["cx_"] []);
    For 369 (Name "sw") (E Display [] [])
      [
        Assign 370 [Name "wpz"] (E Arithmetic ["np"; "wp_x0"; "bx"; "bzt"]
            [["np"; "interp"]]);
        Expr 371 (E Call ["ax"; "wp_x0"; "sw"; "wpz"] [["ax"; "plot"]])
      ];
    For 375 (Name "ey") (E Display [] [])
      [
        Expr 376 (E Call ["cylinder"; "ax"; "bx"; "ey"; "z_g"] [["cylinder"]])
      ];
    Assign 384 [Name "R_loop"] (E Constant [] []);
    Assign 385 [Name "z_roof"] (E Arithmetic ["np"; "cx_"; "czt"] [["np";
        "interp"]]);
    Assign 386 [Name "standoff_h"] (E Constant [] []);
    Assign 387 [Name "z_lp"] (E Arithmetic ["z_roof"; "standoff_h"] []);
    Assign 388 [Name "z_lp2"] (E Arithmetic ["z_lp"] []);
    Assign 389 [Name "gap_len"] (E Constant [] []);
    Assign 392 [Name "AG_CU"] (E Constant [] []);
    Assign 393 [Name "AG_HI"] (E Constant [] []);
    Assign 394 [Name "AG_GLOW"] (E Constant [] []);
    Assign 397 [Name "gap_angle"] (E Call ["np"; "gap_len"; "R_loop"] [["np";
        "arcsin"]]);
    Assign 398 [Name "angles"] (E Call ["np"; "gap_angle"] [["np";
        "linspace"]]);
    Assign 399 [Name "loop_x"] (E Arithmetic ["R_loop"; "np"; "angles"]
        [["np"; "cos"]]);
    Assign 400 [Name "loop_y"] (E Arithmetic ["R_loop"; "np"; "angles"]
        [["np"; "sin"]]);
    Assign 401 [Name "Npts"] (E Call ["len"; "loop_x"] [["len"]]);
    For 404 (Name "z_glow") (E Display ["z_lp"; "z_lp2"] [])
      [
        Expr 405 (E Call ["ax"; "loop_x"; "loop_y"; "np"; "Npts"; "z_glow";
            "AG_GLOW"] [["ax"; "plot"]; ["np"; "full"]]);
        Expr 407 (E Call ["ax"; "loop_x"; "loop_y"; "np"; "Npts"; "z_glow";
            "AG_GLOW"] [["ax"; "plot"]; ["np"; "full"]])
      ];
    Expr 411 (E Call ["ax"; "loop_x"; "loop_y"; "np"; "Npts"; "z_lp"] [["ax";
        "plot"]; ["np"; "full"]]);
    Expr 413 (E Call ["tube"; "ax"; "loop_x"; "loop_y"; "np"; "Npts"; "z_lp";
        "AG_CU"; "AG_HI"] [["tube"]; ["np"; "full"]]);
    Expr 416 (E Call ["ax"; "loop_x"; "loop_y"; "np"; "Npts"; "z_lp2"]
        [["ax"; "plot"]; ["np"; "full"]]);
    Expr 418 (E Call ["tube"; "ax"; "loop_x"; "loop_y"; "np"; "Npts";
        "z_lp2"; "AG_CU"; "AG_HI"] [["tube"]; ["np"; "full"]]);
    Assign 421 [Name "jx"] (E Arithmetic ["gap_len"] []);
    Assign 422 [Name "jy"] (E Call ["np"; "R_loop"; "jx"] [["np"; "sqrt"]]);
    Assign 423 [Name "jz_arr"] (E Call ["np"; "z_lp"; "z_lp2"] [["np";
        "linspace"]]);
    Expr 424 (E Call ["ax"; "np"; "jx"; "jy"; "jz_arr"] [["ax"; "plot"];
        ["np"; "full"]]);
    Expr 426 (E Call ["tube"; "ax"; "np"; "jx"; "jy"; "jz_arr"; "AG_HI"]
        [["tube"]; ["np"; "full"]]);
    Expr 428 (E Call ["ax"; "jx"; "jy"; "z_lp"; "z_lp2"; "dict"; "AG_CU"]
        [["ax"; "text"]; ["dict"]]);
    Expr 435 (E Call ["ax"; "R_loop"; "z_lp"; "AG_CU"; "dict"] [["ax";
        "text"]; ["dict"]]);
    Expr 440 (E Call ["ax"; "R_loop"; "z_lp2"; "dict"] [["ax"; "text"];
        ["dict"]]);
    Assign 447 [Name "relay_x"] (E Arithmetic ["jx"] []);
    Assign 448 [Name "relay_y"] (E Arithmetic ["jy"] []);
    Assign 449 [Name "relay_z"] (E Arithmetic ["z_lp"; "z_lp2"] []);
    Expr 450 (E Call ["box3d"; "ax"; "relay_x"; "relay_y"; "relay_z"]
        [["box3d"]]);
    Expr 453 (E Call ["ax"; "relay_x"; "relay_y"; "relay_z"; "dict"] [["ax";
        "text"]; ["dict"]]);
    Assign 461 [Unpack ["cap_x"; "cap_y"; "cap_z"]] (E Display ["R_loop";
        "z_lp"; "z_lp2"] []);
    Expr 462 (E Call ["box3d"; "ax"; "cap_x"; "cap_y"; "cap_z"] [["box3d"]]);
    For 467 (Unpack ["gx_"; "sx"]) (E Display ["gap_len"] [])
      [
        For 468 (Name "z_t") (E Display ["z_lp"; "z_lp2"] [])
          [
            Expr 469 (E Call ["ax"; "gx_"; "cap_x"; "sx"; "R_loop"; "cap_y";
                "z_t"; "cap_z"; "AG_CU"] [["ax"; "plot"]])
          ]
      ];
    Expr 473 (E Call ["ax"; "cap_x"; "cap_y"; "cap_z"] [["ax"; "plot"]]);
    Expr 475 (E Call ["ax"; "cap_x"; "cap_y"; "cap_z"] [["ax"; "plot"]]);
    Expr 479 (E Call ["cylinder"; "ax"; "cap_x"; "cap_y"; "cap_z"]
        [["cylinder"]]);
    Expr 481 (E Call ["ax"; "cap_x"; "cap_y"; "cap_z"] [["ax"; "plot"]]);
    Expr 485 (E Call ["ax"; "cap_x"; "cap_y"; "cap_z"] [["ax"; "plot"]]);
    Expr 487 (E Call ["ax"; "cap_x"; "cap_y"; "cap_z"; "dict"] [["ax";
        "text"]; ["dict"]]);
    Assign 498 [Name "dome_t"] (E Call ["np"] [["np"; "linspace"]]);
    Expr 499 (E Call ["ax"; "cap_x"; "np"; "dome_t"; "cap_y"; "cap_z"]
        [["ax"; "plot"]; ["np"; "cos"]; ["np"; "sin"]; ["np"; "full"]]);
    Assign 503 [Name "R_cpl"] (E Constant [] []);
    Assign 504 [Name "th_c"] (E Call ["np"; "N"] [["np"; "linspace"]]);
    Assign 505 [Name "cpl_cy"] (E Arithmetic ["R_loop"] []);
    Expr 506 (E Call ["ax"; "R_cpl"; "np"; "th_c"; "cpl_cy"; "N"; "z_lp"]
        [["ax"; "plot"]; ["np"; "cos"]; ["np"; "sin"]; ["np"; "full"]]);
    Expr 509 (E Call ["tube"; "ax"; "R_cpl"; "np"; "th_c"; "cpl_cy"; "N";
        "z_lp"; "CU_CPL"] [["tube"]; ["np"; "cos"]; ["np"; "sin"]; ["np";
        "full"]]);
    Expr 512 (E Call ["ax"; "R_cpl"; "cpl_cy"; "z_lp"] [["ax"; "plot"]]);
    Expr 514 (E Call ["ax"; "R_cpl"; "cpl_cy"; "z_lp"; "dict"] [["ax";
        "text"]; ["dict"]]);
    Assign 522 [Name "hex_t"] (E Call ["np"] [["np"; "linspace"]]);
    Expr 523 (E Call ["qpoly"; "ax"; "np"; "cpl_cy"; "R_cpl"; "z_lp";
        "hex_t"] [["qpoly"]; ["np"; "cos"]; ["np"; "sin"]]);
    Expr 525 (E Call ["ax"; "cpl_cy"; "R_cpl"; "z_lp"] [["ax"; "text"]]);
    Assign 530 [Name "_s45"] (E Arithmetic ["R_loop"; "np"] [["np"; "cos"]]);
    Assign 531 [Name "spos"] (E Display ["_s45"] []);
    For 535 (Unpack ["sx_"; "sy_"]) (E Reference ["spos"] [])
      [
        Assign 536 [Name "zr_"] (E Arithmetic ["np"; "sx_"; "cx_"; "czt"]
            [["np"; "interp"]]);
        Expr 538 (E Call ["cylinder"; "ax"; "sx_"; "sy_"; "zr_"]
            [["cylinder"]]);
        Expr 539 (E Call ["cylinder"; "ax"; "sx_"; "sy_"; "zr_"]
            [["cylinder"]]);
        Expr 541 (E Call ["ax"; "sx_"; "sy_"; "zr_"; "z_lp"] [["ax";
            "plot"]]);
        Expr 544 (E Call ["cylinder"; "ax"; "sx_"; "sy_"; "z_lp"]
            [["cylinder"]]);
        Expr 546 (E Call ["ax"; "sx_"; "sy_"; "z_lp"; "z_lp2"] [["ax";
            "plot"]]);
        Expr 549 (E Call ["cylinder"; "ax"; "sx_"; "sy_"; "z_lp2"]
            [["cylinder"]])
      ];
    Expr 551 (E Call ["ax"; "spos"; "z_roof"; "z_lp"] [["ax"; "plot"]]);
    Expr 555 (E Call ["ax"; "spos"; "z_roof"; "z_lp"; "dict"] [["ax";
        "text"]; ["dict"]]);
    Assign 563 [Name "cp"] (E Call ["np"; "cpl_cy"; "R_cpl"; "z_lp"; "cx_";
        "cw_"; "z_roof"; "bx"; "bw"; "z_g"] [["np"; "array"]; ["np";
        "interp"]]);
    Expr 567 (E Call ["ax"; "cp"] [["ax"; "plot"]]);
    Expr 568 (E Call ["ax"; "cp"] [["ax"; "plot"]]);
    Expr 569 (E Call ["ax"; "cp"; "z_g"] [["ax"; "text"]]);
    Assign 573 [Name "bb"] (E Call ["np"] [["np"; "linspace"]]);
    Assign 574 [Name "bxb"] (E Constant [] []);
    Assign 574 [Name "byb"] (E Reference ["cp"] []);
    Assign 574 [Name "bzb"] (E Arithmetic ["z_roof"] []);
    Expr 575 (E Call ["ax"; "bxb"; "np"; "bb"; "byb"; "bzb"] [["ax"; "plot"];
        ["np"; "cos"]; ["np"; "sin"]]);
    Expr 577 (E Call ["ax"; "bxb"; "byb"; "bzb"] [["ax"; "text"]]);
    Expr 581 (E Call ["box3d"; "ax"; "np"; "bx"; "bw"; "z_g"] [["box3d"];
        ["np"; "interp"]]);
    Expr 585 (E Call ["ax"; "np"; "bx"; "bw"; "z_g"] [["ax"; "text"]; ["np";
        "interp"]]);
    Assign 593 [Name "z_mid"] (E Arithmetic ["z_lp"; "z_lp2"] []);
    Assign 594 [Name "ac"] (E Constant [] []);
    For 595 (Unpack ["ax_"; "ay_"; "sp"]) (E Display [] [])
      [
        Assign 599 [Name "z0_"] (E Arithmetic ["z_mid"] []);
        Assign 599 [Name "z1_"] (E Arithmetic ["z_mid"] []);
        Expr 600 (E Call ["ax"; "ax_"; "sp"; "ay_"; "z0_"; "z1_"; "ac"]
            [["ax"; "plot"]]);
        For 602 (Name "dx_") (E Display [] [])
          [
            Expr 603 (E Call ["ax"; "ax_"; "sp"; "dx_"; "ay_"; "z1_"; "ac"]
                [["ax"; "plot"]])
          ]
      ];
    Expr 607 (E Call ["ax"; "z_mid"; "dict"] [["ax"; "text"]; ["dict"]]);
    For 614 (Unpack ["r_s"; "z_off"; "c_"; "a_"]) (E Display [] [])
      [
        Assign 615 [Name "it"] (E Call ["np"] [["np"; "linspace"]]);
        Expr 616 (E Call ["ax"; "r_s"; "np"; "it"; "z_mid"; "z_off"; "c_";
            "a_"] [["ax"; "plot"]; ["np"; "sin"]; ["np"; "cos"]; ["np";
            "full"]])
      ];
    Expr 618 (E Call ["ax"; "z_mid"; "dict"] [["ax"; "text"]; ["dict"]]);
    For 625 (Unpack ["rx_"; "ry_"]) (E Display [] [])
      [
        Expr 626 (E Call ["ax"; "rx_"; "ry_"; "z_mid"] [["ax"; "plot"]])
      ];
    Assign 630 [Name "dz_"] (E Arithmetic ["z_lp2"] []);
    Expr 631 (E Call ["ax"; "R_loop"; "dz_"; "A_RED"] [["ax"; "plot"]]);
    For 632 (Name "s") (E Display [] [])
      [
        Expr 633 (E Call ["ax"; "s"; "R_loop"; "dz_"; "A_RED"] [["ax";
            "plot"]]);
        Expr 634 (E Call ["ax"; "s"; "R_loop"; "dz_"; "A_RED"] [["ax";
            "plot"]])
      ];
    Expr 635 (E Call ["ax"; "dz_"; "dict"; "A_RED"] [["ax"; "text"];
        ["dict"]]);
    Assign 642 [Name "dz_w"] (E Arithmetic ["z_lp2"] []);
    Expr 643 (E Call ["ax"; "R_loop"; "dz_w"; "A_RED"] [["ax"; "plot"]]);
    For 645 (Name "s") (E Display [] [])
      [
        Expr 646 (E Call ["ax"; "R_loop"; "s"; "dz_w"; "A_RED"] [["ax";
            "plot"]])
      ];
    Assign 650 [Name "sp_x"] (E Arithmetic ["R_loop"] []);
    Expr 651 (E Call ["ax"; "sp_x"; "z_lp"; "z_lp2"] [["ax"; "plot"]]);
    For 652 (Name "dz__") (E Display ["z_lp"; "z_lp2"] [])
      [
        Expr 653 (E Call ["ax"; "sp_x"; "dz__"] [["ax"; "plot"]])
      ];
    Expr 654 (E Call ["ax"; "sp_x"; "z_lp"; "z_lp2"; "dict"] [["ax"; "text"];
        ["dict"]]);
    Assign 661 [Name "ph"] (E Arithmetic ["R_loop"] []);
    Expr 662 (E Call ["ax"; "ph"; "z_roof"; "z_lp2"; "A_GRN"] [["ax";
        "plot"]]);
    For 663 (Name "dz__") (E Display ["z_roof"; "z_lp2"] [])
      [
        Expr 664 (E Call ["ax"; "ph"; "dz__"; "A_GRN"] [["ax"; "plot"]])
      ];
    Expr 665 (E Call ["ax"; "ph"; "z_roof"; "z_lp2"; "dict"; "A_GRN"] [["ax";
        "text"]; ["dict"]]);
    Expr 671 (E Call ["ax"; "z_g"] [["ax"; "text"]]);
    For 675 (Name "g") (E Call ["np"] [["np"; "linspace"]])
      [
        Expr 676 (E Call ["ax"; "g"; "z_g"] [["ax"; "plot"]]);
        Expr 677 (E Call ["ax"; "g"; "z_g"] [["ax"; "plot"]])
      ];
    Expr 678 (E Call ["ax"; "z_g"] [["ax"; "plot"]]);
    Assign 684 [Name "ax_s"] (E Call ["fig"] [["fig"; "add_axes"]]);
    Expr 685 (E Call ["ax_s"] [["ax_s"; "set_facecolor"]]);
    Expr 686 (E Call ["ax_s"] [["ax_s"; "set_xlim"]]);
    Expr 686 (E Call ["ax_s"] [["ax_s"; "set_ylim"]]);
    Expr 686 (E Call ["ax_s"] [["ax_s"; "axis"]]);
    For 687 (Name "sp") (E Call ["ax_s"] [["ax_s"; "spines"; "values"]])
      [
        Expr 688 (E Call ["sp"] [["sp"; "set_visible"]]);
        Expr 688 (E Call ["sp"; "A_BLUE"] [["sp"; "set_color"]]);
        Expr 688 (E Call ["sp"] [["sp"; "set_linewidth"]])
      ];
    Expr 690 (E Call ["ax_s"; "TD"] [["ax_s"; "text"]]);
    Expr 695 (E Call ["ax_s"; "FancyBboxPatch"] [["ax_s"; "add_patch"];
        ["FancyBboxPatch"]]);
    Expr 697 (E Call ["ax_s"] [["ax_s"; "text"]]);
    Expr 699 (E Call ["ax_s"] [["ax_s"; "text"]]);
    Expr 701 (E Call ["ax_s"] [["ax_s"; "text"]]);
    Expr 703 (E Call ["ax_s"; "A_CYAN_LT"] [["ax_s"; "text"]]);
    Assign 706 [Name "specs"] (E Display [] []);
    Assign 725 [Name "rc"] (E Display [] []);
    Assign 726 [Name "y0"] (E Constant [] []);
    Assign 726 [Name "dy"] (E Constant [] []);
    For 727 (Unpack ["i"; "lbl"; "v80"; "v40"; "v20"]) (E Call ["enumerate";
        "specs"] [["enumerate"]])
      [
        Assign 728 [Name "y"] (E Arithmetic ["y0"; "i"; "dy"] []);
        Assign 729 [Name "bg"] (E Reference ["rc"; "i"] []);
        If 731 (E Arithmetic ["lbl"] [])
          [
            Assign 732 [Name "bg"] (E Choice ["i"] [])
          ]
          [];
        Expr 733 (E Call ["ax_s"; "FancyBboxPatch"; "y"; "bg"] [["ax_s";
            "add_patch"]; ["FancyBboxPatch"]]);
        Expr 735 (E Call ["ax_s"; "y"; "lbl"; "TD"] [["ax_s"; "text"]]);
        Assign 738 [Name "fw"] (E Choice ["lbl"] []);
        Expr 739 (E Call ["ax_s"; "y"; "v80"; "fw"; "TD"] [["ax_s"; "text"]]);
        Expr 741 (E Call ["ax_s"; "y"; "v40"; "fw"; "TD"] [["ax_s"; "text"]]);
        Expr 743 (E Call ["ax_s"; "y"; "v20"; "fw"; "TD"] [["ax_s"; "text"]])
      ];
    Expr 747 (E Call ["ax_s"] [["ax_s"; "plot"]]);
    Expr 748 (E Call ["ax_s"] [["ax_s"; "plot"]]);
    Expr 749 (E Call ["ax_s"] [["ax_s"; "plot"]]);
    Expr 751 (E Call ["ax_s"; "dict"] [["ax_s"; "text"]; ["dict"]]);
    Assign 764 [Name "ax_n"] (E Call ["fig"] [["fig"; "add_axes"]]);
    Expr 765 (E Call ["ax_n"] [["ax_n"; "set_facecolor"]]);
    Expr 766 (E Call ["ax_n"] [["ax_n"; "set_xlim"]]);
    Expr 766 (E Call ["ax_n"] [["ax_n"; "set_ylim"]]);
    Expr 766 (E Call ["ax_n"] [["ax_n"; "axis"]]);
    For 767 (Name "sp") (E Call ["ax_n"] [["ax_n"; "spines"; "values"]])
      [
        Expr 768 (E Call ["sp"] [["sp"; "set_visible"]]);
        Expr 768 (E Call ["sp"] [["sp"; "set_color"]]);
        Expr 768 (E Call ["sp"] [["sp"; "set_linewidth"]])
      ];
    Expr 770 (E Call ["ax_n"; "TD"] [["ax_n"; "text"]]);
    Assign 774 [Name "notes"] (E Display [] []);
    Assign 798 [Name "rcn"] (E Display [] []);
    Assign 799 [Name "y0n"] (E Constant [] []);
    Assign 799 [Name "dyn"] (E Constant [] []);
    For 800 (Unpack ["i"; "num"; "title"; "desc"]) (E Call ["enumerate";
        "notes"] [["enumerate"]])
      [
        Assign 801 [Name "y"] (E Arithmetic ["y0n"; "i"; "dyn"] []);
        Expr 802 (E Call ["ax_n"; "FancyBboxPatch"; "y"; "rcn"; "i"]
            [["ax_n"; "add_patch"]; ["FancyBboxPatch"]]);
        Expr 804 (E Call ["ax_n"; "plt"; "y"] [["ax_n"; "add_patch"]; ["plt";
            "Circle"]]);
        Expr 806 (E Call ["ax_n"; "y"; "num"] [["ax_n"; "text"]]);
        Expr 808 (E Call ["ax_n"; "y"; "title"] [["ax_n"; "text"]]);
        Expr 810 (E Call ["ax_n"; "y"; "desc"] [["ax_n"; "text"]])
      ];
    Expr 813 (E Call ["ax_n"; "dict"] [["ax_n"; "text"]; ["dict"]]);
    Expr 820 (E Call ["ax_n"; "dict"] [["ax_n"; "text"]; ["dict"]]);
    Expr 828 (E Call ["ax_n"; "dict"] [["ax_n"; "text"]; ["dict"]]);
    Assign 840 [Name "ax_eff"] (E Call ["fig"] [["fig"; "add_axes"]]);
    Expr 841 (E Call ["ax_eff"] [["ax_eff"; "set_facecolor"]]);
    Assign 843 [Name "bands"] (E Display [] []);
    Assign 844 [Name "eff_vals"] (E Display [] []);
    Assign 845 [Name "bar_colors"] (E Display ["A_CYAN_LT"] []);
    Assign 846 [Name "x_b"] (E Call ["np"] [["np"; "arange"]]);
    Assign 847 [Name "w_"] (E Constant [] []);
    Assign 849 [Name "bars_eff"] (E Call ["ax_eff"; "x_b"; "eff_vals"; "w_";
        "bar_colors"] [["ax_eff"; "bar"]]);
    For 851 (Unpack ["b"; "v"; "c"]) (E Call ["zip"; "bars_eff"; "eff_vals"]
        [["zip"]])
      [
        Expr 852 (E Call ["ax_eff"; "b"; "v"; "c"] [["ax_eff"; "text"]; ["b";
            "get_x"]; ["b"; "get_width"]])
      ];
    Expr 856 (E Call ["ax_eff"; "x_b"] [["ax_eff"; "set_xticks"]]);
    Expr 856 (E Call ["ax_eff"; "bands"] [["ax_eff"; "set_xticklabels"]]);
    Expr 857 (E Call ["ax_eff"] [["ax_eff"; "set_ylabel"]]);
    Expr 858 (E Call ["ax_eff"] [["ax_eff"; "set_title"]]);
    Expr 860 (E Call ["ax_eff"] [["ax_eff"; "set_ylim"]]);
    Expr 861 (E Call ["ax_eff"] [["ax_eff"; "tick_params"]]);
    Expr 862 (E Call ["ax_eff"] [["ax_eff"; "grid"]]);
    For 863 (Name "sp") (E Call ["ax_eff"] [["ax_eff"; "spines"; "values"]])
      [
        Expr 864 (E Call ["sp"] [["sp"; "set_color"]])
      ];
    Assign 870 [Name "ax_erp"] (E Call ["fig"] [["fig"; "add_axes"]]);
    Expr 871 (E Call ["ax_erp"] [["ax_erp"; "set_facecolor"]]);
    Assign 873 [Name "erp_vals"] (E Display [] []);
    Assign 875 [Name "bars_erp"] (E Call ["ax_erp"; "x_b"; "erp_vals"; "w_";
        "bar_colors"] [["ax_erp"; "bar"]]);
    For 877 (Unpack ["b"; "v"; "c"]) (E Call ["zip"; "bars_erp"; "erp_vals"]
        [["zip"]])
      [
        Expr 878 (E Call ["ax_erp"; "b"; "v"; "c"] [["ax_erp"; "text"]; ["b";
            "get_x"]; ["b"; "get_width"]])
      ];
    Expr 882 (E Call ["ax_erp"; "x_b"] [["ax_erp"; "set_xticks"]]);
    Expr 882 (E Call ["ax_erp"; "bands"] [["ax_erp"; "set_xticklabels"]]);
    Expr 883 (E Call ["ax_erp"] [["ax_erp"; "set_ylabel"]]);
    Expr 884 (E Call ["ax_erp"] [["ax_erp"; "set_title"]]);
    Expr 886 (E Call ["ax_erp"] [["ax_erp"; "set_ylim"]]);
    Expr 887 (E Call ["ax_erp"] [["ax_erp"; "tick_params"]]);
    Expr 888 (E Call ["ax_erp"] [["ax_erp"; "grid"]]);
    For 889 (Name "sp") (E Call ["ax_erp"] [["ax_erp"; "spines"; "values"]])
      [
        Expr 890 (E Call ["sp"] [["sp"; "set_color"]])
      ];
    Assign 896 [Name "pie_colors"] (E Display [] []);
    Assign 899 [Name "ax_p80"] (E Call ["fig"] [["fig"; "add_axes"]]);
    Expr 900 (E Call ["ax_p80"] [["ax_p80"; "set_facecolor"]]);
    Assign 901 [Name "sizes_80"] (E Display [] []);
    Assign 902 [Name "labels_80"] (E Display [] []);
    Assign 903 [Unpack ["wedges80"; "texts80"]] (E Call ["ax_p80";
        "sizes_80"; "pie_colors"; "dict"] [["ax_p80"; "pie"]; ["dict"]]);
    Expr 905 (E Call ["ax_p80"] [["ax_p80"; "set_title"]]);
    Expr 907 (E Call ["ax_p80"; "labels_80"] [["ax_p80"; "legend"]]);
    Assign 912 [Name "ax_p40"] (E Call ["fig"] [["fig"; "add_axes"]]);
    Expr 913 (E Call ["ax_p40"] [["ax_p40"; "set_facecolor"]]);
    Assign 914 [Name "sizes_40"] (E Display [] []);
    Assign 915 [Name "labels_40"] (E Display [] []);
    Assign 916 [Unpack ["wedges40"; "texts40"]] (E Call ["ax_p40";
        "sizes_40"; "pie_colors"; "dict"] [["ax_p40"; "pie"]; ["dict"]]);
    Expr 918 (E Call ["ax_p40"] [["ax_p40"; "set_title"]]);
    Expr 920 (E Call ["ax_p40"; "labels_40"] [["ax_p40"; "legend"]]);
    Assign 925 [Name "ax_p20"] (E Call ["fig"] [["fig"; "add_axes"]]);
    Expr 926 (E Call ["ax_p20"] [["ax_p20"; "set_facecolor"]]);
    Assign 927 [Name "sizes_20"] (E Display [] []);
    Assign 928 [Name "labels_20"] (E Display [] []);
    Assign 929 [Unpack ["wedges20"; "texts20"]] (E Call ["ax_p20";
        "sizes_20"; "pie_colors"; "dict"] [["ax_p20"; "pie"]; ["dict"]]);
    Expr 931 (E Call ["ax_p20"; "A_CYAN_LT"] [["ax_p20"; "set_title"]]);
    Expr 933 (E Call ["ax_p20"; "labels_20"] [["ax_p20"; "legend"]]);
    Expr 941 (E Call ["fig"; "FancyBboxPatch"] [["fig"; "patches"; "append"];
        ["FancyBboxPatch"]]);
    Expr 945 (E Call ["fig"] [["fig"; "text"]]);
    Expr 949 (E Call ["fig"; "GOLD"] [["fig"; "text"]]);
    Expr 960 (E Call ["fig"; "FancyBboxPatch"] [["fig"; "patches"; "append"];
        ["FancyBboxPatch"]]);
    Expr 964 (E Call ["fig"] [["fig"; "text"]]);
    Assign 974 [Name "out"] (E Constant [] []);
    Expr 975 (E Call ["fig"; "out"; "DPI"] [["fig"; "savefig"]; ["fig";
        "get_facecolor"]]);
    Expr 977 (E Call ["plt"] [["plt"; "close"]]);
    Expr 978 (E Call ["print"; "out"] [["print"]]);
    Expr 979 (E Call ["print"; "DPI"] [["print"]])
  ].

Definition gen_nvis_80_40m_optimized : list py :=
  [
    Expr 2 (E Constant [] []);
    Imports 12 ["matplotlib"];
    Expr 13 (E Call ["matplotlib"] [["matplotlib"; "use"]]);
    Imports 14 ["plt"];
    Imports 15 ["Poly3DCollection"];
    Imports 16 ["FancyBboxPatch"];
    Imports 17 ["np"];
    Assign 19 [Name "DPI"] (E Constant [] []);
    Assign 20 [Name "fig"] (E Call ["plt"; "DPI"] [["plt"; "figure"]]);
    Assign 23 [Name "CU"] (E Constant [] []);
    Assign 23 [Name "CU_HI"] (E Constant [] []);
    Assign 23 [Name "CU_DK"] (E Constant [] []);
    Assign 24 [Name "CU_CPL"] (E Constant [] []);
    Assign 24 [Name "A_BLUE"] (E Constant [] []);
    Assign 24 [Name "A_RED"] (E Constant [] []);
    Assign 25 [Name "A_GRN"] (E Constant [] []);
    Assign 25 [Name "GOLD"] (E Constant [] []);
    Assign 25 [Name "TD"] (E Constant [] []);
    Assign 26 [Name "N"] (E Constant [] []);
    Assign 31 [Name "ax"] (E Call ["fig"] [["fig"; "add_axes"]]);
    Expr 33 (E Call ["ax"] [["ax"; "set_facecolor"]]);
    Expr 34 (E Call ["ax"] [["ax"; "set_xlim"]]);
    Expr 34 (E Call ["ax"] [["ax"; "set_ylim"]]);
    Expr 34 (E Call ["ax"] [["ax"; "set_zlim"]]);
    Expr 35 (E Call ["ax"] [["ax"; "view_init"]]);
    Expr 36 (E Call ["ax"] [["ax"; "set_box_aspect"]]);
    Expr 37 (E Call ["ax"] [["ax"; "axis"]]);
    FunctionDef 40 "tube" ["a"; "px"; "py"; "pz"; "c"; "lw"; "hc"; "al";
        "zo"] (E Display [] [])
      [
        Expr 41 (E Call ["a"; "px"; "py"; "pz"; "c"; "lw"; "al"; "zo"] [["a";
            "plot"]]);
        If 42 (E Reference ["hc"] [])
          [
            Expr 43 (E Call ["a"; "px"; "py"; "pz"; "hc"; "lw"; "zo"] [["a";
                "plot"]])
          ]
          []
      ];
    FunctionDef 46 "qpoly" ["a"; "v"; "fc"; "ec"; "al"; "lw"; "zo"]
        (E Display [] [])
      [
        Assign 47 [Name "p"] (E Call ["Poly3DCollection"; "v"; "al"; "zo"]
            [["Poly3DCollection"]]);
        Expr 48 (E Call ["p"; "fc"] [["p"; "set_facecolor"]]);
        Expr 48 (E Call ["p"; "ec"] [["p"; "set_edgecolor"]]);
        Expr 48 (E Call ["p"; "lw"] [["p"; "set_linewidth"]]);
        Expr 49 (E Call ["a"; "p"] [["a"; "add_collection3d"]])
      ];
    FunctionDef 51 "box3d" ["a"; "cx"; "cy"; "cz"; "hw"; "hd"; "hh"; "cols";
        "ec"; "al"; "zo"] (E Display [] [])
      [
        Assign 52 [Name "fs"] (E Display ["cx"; "hw"; "cy"; "hd"; "cz";
            "hh"] []);
        For 60 (Unpack ["face"; "fc_"]) (E Call ["zip"; "fs"; "cols"]
            [["zip"]])
          [
            Expr 61 (E Call ["qpoly"; "a"; "face"; "fc_"; "ec"; "al"; "zo"]
                [["qpoly"]])
          ]
      ];
    FunctionDef 63 "cylinder" ["a"; "cx"; "cy"; "zb"; "zt"; "r"; "n"; "fc";
        "ec"; "al"; "zo"] (E Display [] [])
      [
        Assign 64 [Name "th"] (E Call ["np"; "n"] [["np"; "linspace"]]);
        For 65 (Name "i") (E Call ["range"; "n"] [["range"]])
          [
            Assign 66 [Name "face"] (E Display ["cx"; "r"; "np"; "th"; "i";
                "cy"; "zb"; "zt"] [["np"; "cos"]; ["np"; "sin"]]);
            Expr 70 (E Call ["qpoly"; "a"; "face"; "fc"; "ec"; "al"; "zo"]
                [["qpoly"]])
          ];
        Assign 71 [Name "cap"] (E Comprehension ["cx"; "r"; "np"; "cy"; "zt";
            "th"] [["np"; "cos"]; ["np"; "sin"]]);
        Expr 72 (E Call ["qpoly"; "a"; "cap"; "fc"; "ec"; "al"; "zo"]
            [["qpoly"]])
      ];
    Assign 78 [Name "z_g"] (E Arithmetic [] []);
    Assign 81 [Name "bx"] (E Call ["np"] [["np"; "array"]]);
    Assign 84 [Name "bw"] (E Call ["np"] [["np"; "array"]]);
    Assign 88 [Name "bzt"] (E Call ["np"; "z_g"] [["np"; "array"]]);
    Assign 95 [Name "cx_"] (E Call ["np"] [["np"; "array"]]);
    Assign 96 [Name "cw_"] (E Call ["np"] [["np"; "array"]]);
    Assign 98 [Name "czt"] (E Call ["np"; "z_g"] [["np"; "array"]]);
    Assign 102 [Name "paint_l"] (E Constant [] []);
    Assign 103 [Name "paint_r"] (E Constant [] []);
    Assign 104 [Name "paint_t"] (E Constant [] []);
    Assign 105 [Name "paint_bt"] (E Constant [] []);
    Assign 106 [Name "paint_f"] (E Constant [] []);
    Assign 107 [Name "paint_re"] (E Constant [] []);
    Assign 108 [Name "paint_hi"] (E Constant [] []);
    Assign 109 [Name "glass_c"] (E Constant [] []);
    Assign 110 [Name "roof_c"] (E Constant [] []);
    Assign 111 [Name "pillar_c"] (E Constant [] []);
    Assign 112 [Name "trim_c"] (E Constant [] []);
    For 115 (Name "i") (E Call ["range"; "len"; "bx"] [["range"]; ["len"]])
      [
        Assign 116 [Unpack ["x0"; "x1"]] (E Display ["bx"; "i"] []);
        Assign 116 [Unpack ["w0"; "w1"]] (E Display ["bw"; "i"] []);
        Assign 116 [Unpack ["zt0"; "zt1"]] (E Display ["bzt"; "i"] []);
        Expr 117 (E Call ["qpoly"; "ax"; "x0"; "w0"; "z_g"; "x1"; "w1";
            "zt1"; "zt0"; "paint_l"] [["qpoly"]]);
        Expr 118 (E Call ["qpoly"; "ax"; "x0"; "w0"; "z_g"; "x1"; "w1";
            "zt1"; "zt0"; "paint_r"] [["qpoly"]]);
        Expr 119 (E Call ["qpoly"; "ax"; "x0"; "w0"; "zt0"; "x1"; "w1";
            "zt1"; "paint_t"] [["qpoly"]]);
        Expr 120 (E Call ["qpoly"; "ax"; "x0"; "w0"; "z_g"; "x1"; "w1";
            "paint_bt"] [["qpoly"]])
      ];
    Expr 123 (E Call ["qpoly"; "ax"; "bx"; "bw"; "z_g"; "bzt"; "paint_f"]
        [["qpoly"]]);
    Expr 126 (E Call ["qpoly"; "ax"; "bx"; "bw"; "z_g"; "bzt"; "paint_re"]
        [["qpoly"]]);
    For 130 (Name "s") (E Display [] [])
      [
        Assign 131 [Name "cl_xs"] (E Call ["np"; "bx"] [["np"; "linspace"]]);
        Assign 132 [Name "cl_ys"] (E Call ["np"; "s"; "bx"; "bw"; "cl_xs"]
            [["np"; "array"]; ["np"; "interp"]]);
        Assign 133 [Name "cl_zs"] (E Call ["np"; "bx"; "bzt"; "cl_xs"]
            [["np"; "array"]; ["np"; "interp"]]);
        Expr 134 (E Call ["ax"; "cl_xs"; "cl_ys"; "cl_zs"; "paint_hi"]
            [["ax"; "plot"]])
      ];
    For 137 (Name "s") (E Display [] [])
      [
        Assign 138 [Unpack ["sk_x0"; "sk_x1"]] (E Display [] []);
        Assign 139 [Name "sk_xs"] (E Call ["np"; "sk_x0"; "sk_x1"] [["np";
            "linspace"]]);
        Assign 140 [Name "sk_ys"] (E Call ["np"; "s"; "bx"; "bw"; "sk_xs"]
            [["np"; "array"]; ["np"; "interp"]]);
        Assign 141 [Name "sk_zs"] (E Call ["np"; "z_g"] [["np"; "full"]]);
        Expr 142 (E Call ["ax"; "sk_xs"; "sk_ys"; "sk_zs"] [["ax"; "plot"]])
      ];
    For 145 (Name "i") (E Call ["range"; "len"; "cx_"] [["range"]; ["len"]])
      [
        Assign 146 [Unpack ["x0"; "x1"]] (E Display ["cx_"; "i"] []);
        Assign 146 [Unpack ["w0"; "w1"]] (E Display ["cw_"; "i"] []);
        Assign 147 [Name "zb0"] (E Call ["np"; "x0"; "bx"; "bzt"] [["np";
            "interp"]]);
        Assign 147 [Name "zb1"] (E Call ["np"; "x1"; "bx"; "bzt"] [["np";
            "interp"]]);
        Assign 148 [Unpack ["zt0"; "zt1"]] (E Display ["czt"; "i"] []);
        Expr 150 (E Call ["qpoly"; "ax"; "x0"; "w0"; "zb0"; "x1"; "w1";
            "zb1"; "zt1"; "zt0"; "glass_c"] [["qpoly"]]);
        Expr 153 (E Call ["qpoly"; "ax"; "x0"; "w0"; "zb0"; "x1"; "w1";
            "zb1"; "zt1"; "zt0"; "glass_c"] [["qpoly"]]);
        Expr 156 (E Call ["qpoly"; "ax"; "x0"; "w0"; "zt0"; "x1"; "w1";
            "zt1"; "roof_c"] [["qpoly"]])
      ];
    For 160 (Name "s") (E Display [] [])
      [
        Assign 161 [Name "tr_xs"] (E Comprehension ["cx_"; "range"; "len"]
            [["range"]; ["len"]]);
        Assign 162 [Name "tr_ys"] (E Comprehension ["s"; "cw_"; "range";
            "len"; "cx_"] [["range"]; ["len"]]);
        Assign 163 [Name "tr_zb"] (E Comprehension ["np"; "cx_"; "bx"; "bzt";
            "range"; "len"] [["np"; "interp"]; ["range"]; ["len"]]);
        Assign 164 [Name "tr_zt"] (E Comprehension ["czt"; "range"; "len";
            "cx_"] [["range"]; ["len"]]);
        Expr 166 (E Call ["ax"; "tr_xs"; "tr_ys"; "tr_zb"; "trim_c"] [["ax";
            "plot"]]);
        Expr 168 (E Call ["ax"; "tr_xs"; "tr_ys"; "tr_zt"; "trim_c"] [["ax";
            "plot"]])
      ];
    Assign 171 [Name "xwf"] (E Reference ["cx_"] []);
    Assign 171 [Name "wwf"] (E Reference ["cw_"] []);
    Assign 171 [Name "zbwf"] (E Call ["np"; "xwf"; "bx"; "bzt"] [["np";
        "interp"]]);
    Assign 171 [Name "ztwf"] (E Reference ["czt"] []);
    Expr 172 (E Call ["qpoly"; "ax"; "xwf"; "wwf"; "zbwf"; "ztwf";
        "glass_c"] [["qpoly"]]);
    Assign 177 [Name "xrg"] (E Reference ["cx_"] []);
    Assign 177 [Name "wrg"] (E Reference ["cw_"] []);
    Assign 177 [Name "zbrg"] (E Call ["np"; "xrg"; "bx"; "bzt"] [["np";
        "interp"]]);
    Assign 177 [Name "ztrg"] (E Reference ["czt"] []);
    Expr 178 (E Call ["qpoly"; "ax"; "xrg"; "wrg"; "zbrg"; "ztrg";
        "glass_c"] [["qpoly"]]);
    For 183 (Unpack ["hx_"; "hy_"]) (E Display [] [])
      [
        Assign 184 [Name "hr_zb"] (E Arithmetic ["np"; "hx_"; "bx"; "bzt"]
            [["np"; "interp"]]);
        Assign 185 [Name "hr_zt"] (E Arithmetic ["hr_zb"] []);
        Expr 186 (E Call ["box3d"; "ax"; "hx_"; "hy_"; "hr_zb"; "hr_zt"]
            [["box3d"]])
      ];
    Assign 191 [Name "pw"] (E Constant [] []);
    Assign 192 [Name "pillar_locs"] (E Display ["cx_"; "cw_"] []);
    For 197 (Unpack ["px_"; "pw_"]) (E Reference ["pillar_locs"] [])
      [
        Assign 198 [Name "zb_"] (E Call ["np"; "px_"; "bx"; "bzt"] [["np";
            "interp"]]);
        Assign 198 [Name "zt_"] (E Call ["np"; "px_"; "cx_"; "czt"] [["np";
            "interp"]]);
        For 199 (Name "s") (E Display [] [])
          [
            Expr 200 (E Call ["qpoly"; "ax"; "px_"; "pw"; "s"; "pw_"; "zb_";
                "zt_"; "pillar_c"] [["qpoly"]])
          ]
      ];
    For 205 (Name "dx") (E Display [] [])
      [
        Assign 206 [Name "wd"] (E Call ["np"; "dx"; "bx"; "bw"] [["np";
            "interp"]]);
        Assign 206 [Name "zbd"] (E Arithmetic ["z_g"] []);
        Assign 206 [Name "ztd"] (E Arithmetic ["np"; "dx"; "bx"; "bzt"]
            [["np"; "interp"]]);
        For 207 (Name "s") (E Display [] [])
          [
            Expr 208 (E Call ["ax"; "dx"; "s"; "wd"; "zbd"; "ztd"] [["ax";
                "plot"]])
          ]
      ];
    For 212 (Name "hx") (E Display [] [])
      [
        Assign 213 [Name "hw_"] (E Call ["np"; "hx"; "bx"; "bw"] [["np";
            "interp"]]);
        Assign 213 [Name "hz_"] (E Arithmetic ["np"; "hx"; "bx"; "bzt"]
            [["np"; "interp"]]);
        For 214 (Name "s") (E Display [] [])
          [
            Expr 215 (E Call ["ax"; "hx"; "s"; "hw_"; "hz_"] [["ax"; "plot"]])
          ]
      ];
    For 219 (Name "s") (E Display [] [])
      [
        Assign 220 [Name "mx_"] (E Arithmetic ["cx_"] []);
        Assign 220 [Name "mw_"] (E Call ["np"; "mx_"; "bx"; "bw"] [["np";
            "interp"]]);
        Assign 221 [Name "my_"] (E Arithmetic ["s"; "mw_"] []);
        Assign 221 [Name "mz_"] (E Arithmetic ["np"; "mx_"; "bx"; "bzt"]
            [["np"; "interp"]]);
        Expr 223 (E Call ["ax"; "mx_"; "s"; "mw_"; "my_"; "mz_"; "pillar_c"]
            [["ax"; "plot"]]);
        Expr 225 (E Call ["qpoly"; "ax"; "mx_"; "my_"; "mz_"; "pillar_c"]
            [["qpoly"]]);
        Expr 229 (E Call ["qpoly"; "ax"; "mx_"; "my_"; "s"; "mz_"]
            [["qpoly"]])
      ];
    For 234 (Name "s") (E Display [] [])
      [
        Assign 235 [Name "hlx"] (E Arithmetic ["bx"] []);
        Expr 237 (E Call ["qpoly"; "ax"; "hlx"; "s"; "z_g"; "bw"]
            [["qpoly"]]);
        Expr 241 (E Call ["qpoly"; "ax"; "hlx"; "s"; "z_g"; "bw"]
            [["qpoly"]]);
        Expr 245 (E Call ["ax"; "hlx"; "s"; "bw"; "z_g"] [["ax"; "plot"]])
      ];
    For 249 (Name "s") (E Display [] [])
      [
        Assign 250 [Name "tlx"] (E Arithmetic ["bx"] []);
        Expr 251 (E Call ["qpoly"; "ax"; "tlx"; "s"; "z_g"; "bw"]
            [["qpoly"]]);
        Expr 255 (E Call ["ax"; "tlx"; "s"; "bw"; "z_g"] [["ax"; "plot"]])
      ];
    Assign 258 [Name "tlx_b"] (E Arithmetic ["bx"] []);
    Expr 259 (E Call ["qpoly"; "ax"; "tlx_b"; "z_g"] [["qpoly"]]);
    Assign 264 [Name "trunk_x"] (E Reference ["bx"] []);
    Assign 265 [Name "trunk_w"] (E Reference ["bw"] []);
    Assign 266 [Name "trunk_z"] (E Arithmetic ["bzt"] []);
    Expr 267 (E Call ["ax"; "trunk_x"; "trunk_w"; "trunk_z"; "paint_hi"]
        [["ax"; "plot"]]);
    Assign 271 [Name "gx_"] (E Arithmetic ["bx"] []);
    Assign 271 [Name "gw_"] (E Arithmetic ["bw"] []);
    Expr 273 (E Call ["qpoly"; "ax"; "gx_"; "gw_"; "z_g"] [["qpoly"]]);
    For 277 (Name "gz_") (E Display ["z_g"] [])
      [
        Expr 278 (E Call ["ax"; "gx_"; "gw_"; "gz_"] [["ax"; "plot"]])
      ];
    For 281 (Name "gz_") (E Call ["np"; "z_g"] [["np"; "linspace"]])
      [
        Expr 282 (E Call ["ax"; "gx_"; "gw_"; "gz_"] [["ax"; "plot"]]);
        Expr 284 (E Call ["ax"; "gx_"; "gw_"; "gz_"] [["ax"; "plot"]])
      ];
    Expr 287 (E Call ["qpoly"; "ax"; "gx_"; "gw_"; "z_g"] [["qpoly"]]);
    Assign 292 [Name "bt_"] (E Call ["np"] [["np"; "linspace"]]);
    Expr 293 (E Call ["qpoly"; "ax"; "gx_"; "np"; "z_g"; "bt_"] [["qpoly"];
        ["np"; "cos"]; ["np"; "sin"]]);
    For 297 (Name "lx_") (E Display ["bx"] [])
      [
        Expr 298 (E Call ["qpoly"; "ax"; "lx_"; "z_g"] [["qpoly"]])
      ];
    Expr 303 (E Call ["qpoly"; "ax"; "bx"; "bw"; "z_g"; "paint_f"]
        [["qpoly"]]);
    Expr 308 (E Call ["qpoly"; "ax"; "bx"; "bw"; "z_g"; "paint_re"]
        [["qpoly"]]);
    Assign 313 [Name "fd_x"] (E Arithmetic [] []);
    Assign 313 [Name "fd_w"] (E Call ["np"; "fd_x"; "bx"; "bw"] [["np";
        "interp"]]);
    Assign 314 [Name "fd_z"] (E Arithmetic ["np"; "fd_x"; "bx"; "bzt"]
        [["np"; "interp"]]);
    Expr 315 (E Call ["qpoly"; "ax"; "fd_x"; "fd_w"; "fd_z"; "paint_hi"]
        [["qpoly"]]);
    Assign 322 [Name "sh_th"] (E Call ["np"] [["np"; "linspace"]]);
    Assign 323 [Unpack ["sh_rx"; "sh_ry"]] (E Display [] []);
    Expr 324 (E Call ["qpoly"; "ax"; "sh_rx"; "np"; "sh_ry"; "z_g"; "sh_th"]
        [["qpoly"]; ["np"; "cos"]; ["np"; "sin"]]);
    Assign 328 [Name "wt"] (E Call ["np"] [["np"; "linspace"]]);
    Assign 329 [Name "wr"] (E Constant [] []);
    Assign 330 [Name "rr"] (E Constant [] []);
    Assign 331 [Name "dr"] (E Constant [] []);
    Assign 332 [Name "wlocs"] (E Display ["z_g"] []);
    For 334 (Unpack ["wx_"; "wy_"; "wz_"]) (E Reference ["wlocs"] [])
      [
        Expr 336 (E Call ["qpoly"; "ax"; "wx_"; "wr"; "np"; "wy_"; "wz_";
            "wt"] [["qpoly"]; ["np"; "cos"]; ["np"; "sin"]]);
        Expr 339 (E Call ["qpoly"; "ax"; "wx_"; "rr"; "np"; "wy_"; "wz_";
            "wt"] [["qpoly"]; ["np"; "cos"]; ["np"; "sin"]]);
        Expr 342 (E Call ["qpoly"; "ax"; "wx_"; "np"; "wy_"; "wz_"; "wt"]
            [["qpoly"]; ["np"; "cos"]; ["np"; "sin"]]);
        Expr 345 (E Call ["qpoly"; "ax"; "wx_"; "dr"; "np"; "wy_"; "wz_";
            "wt"] [["qpoly"]; ["np"; "cos"]; ["np"; "sin"]]);
        For 348 (Name "sp_a") (E Reference ["np"] [["np"; "linspace"]])
          [
            Assign 349 [Name "sx0"] (E Arithmetic ["wx_"; "dr"; "np";
                "sp_a"] [["np"; "cos"]]);
            Assign 350 [Name "sz0"] (E Arithmetic ["wz_"; "dr"; "np";
                "sp_a"] [["np"; "sin"]]);
            Assign 351 [Name "sx1"] (E Arithmetic ["wx_"; "rr"; "np";
                "sp_a"] [["np"; "cos"]]);
            Assign 352 [Name "sz1"] (E Arithmetic ["wz_"; "rr"; "np";
                "sp_a"] [["np"; "sin"]]);
            Expr 353 (E Call ["ax"; "sx0"; "sx1"; "wy_"; "sz0"; "sz1"]
                [["ax"; "plot"]])
          ];
        Assign 355 [Name "aa"] (E Call ["np"] [["np"; "linspace"]]);
        Expr 356 (E Call ["ax"; "wx_"; "wr"; "np"; "aa"; "wy_"; "wz_";
            "paint_l"; "paint_r"] [["ax"; "plot"]; ["np"; "cos"]; ["np";
            "full"]; ["np"; "sin"]])
      ];
    Assign 361 [Name "sfx"] (E Reference ["cx_"] []);
    Assign 361 [Name "sfzb"] (E Arithmetic ["np"; "sfx"; "cx_"; "czt"]
        [["np"; "interp"]]);
    Assign 361 [Name "sfzt"] (E Arithmetic ["sfzb"] []);
    Expr 362 (E Call ["qpoly"; "ax"; "sfx"; "sfzb"; "sfzt"] [["qpoly"]]);
    Assign 366 [Name "wp_x0"] (E Arithmetic ["cx_"] []);
    For 367 (Name "sw") (E Display [] [])
      [
        Assign 368 [Name "wpz"] (E Arithmetic ["np"; "wp_x0"; "bx"; "bzt"]
            [["np"; "interp"]]);
        Expr 369 (E Call ["ax"; "wp_x0"; "sw"; "wpz"] [["ax"; "plot"]])
      ];
    For 373 (Name "ey") (E Display [] [])
      [
        Expr 374 (E Call ["cylinder"; "ax"; "bx"; "ey"; "z_g"] [["cylinder"]])
      ];
    Assign 382 [Name "Lx_loop"] (E Constant [] []);
    Assign 383 [Name "Ly_loop"] (E Constant [] []);
    Assign 384 [Name "R_corner"] (E Constant [] []);
    Assign 385 [Name "z_roof"] (E Arithmetic ["np"; "cx_"; "czt"] [["np";
        "interp"]]);
    Assign 386 [Name "standoff_h"] (E Constant [] []);
    Assign 387 [Name "z_lp"] (E Arithmetic ["z_roof"; "standoff_h"] []);
    Assign 388 [Name "z_lp2"] (E Arithmetic ["z_lp"] []);
    Assign 389 [Name "gap_len"] (E Constant [] []);
    Assign 392 [Name "AG_CU"] (E Constant [] []);
    Assign 393 [Name "AG_HI"] (E Constant [] []);
    Assign 394 [Name "AG_GLOW"] (E Constant [] []);
    FunctionDef 396 "rect_loop_pts" ["lx"; "ly"; "rc"; "n_corner"]
        (E Display [] [])
      [
        Expr 397 (E Constant [] []);
        Assign 398 [Name "pts"] (E Display [] []);
        Assign 401 [Name "corners"] (E Display ["lx"; "rc"; "ly"; "np"] []);
        Expr 409 (E Call ["pts"; "gap_len"; "ly"] [["pts"; "append"]]);
        Expr 411 (E Call ["pts"; "lx"; "rc"; "ly"] [["pts"; "append"]]);
        For 413 (Name "a") (E Call ["np"; "n_corner"] [["np"; "linspace"]])
          [
            Expr 414 (E Call ["pts"; "lx"; "rc"; "np"; "a"; "ly"] [["pts";
                "append"]; ["np"; "cos"]; ["np"; "sin"]])
          ];
        Expr 416 (E Call ["pts"; "lx"; "ly"; "rc"] [["pts"; "append"]]);
        For 418 (Name "a") (E Call ["np"; "n_corner"] [["np"; "linspace"]])
          [
            Expr 419 (E Call ["pts"; "lx"; "rc"; "np"; "a"; "ly"] [["pts";
                "append"]; ["np"; "cos"]; ["np"; "sin"]])
          ];
        Expr 421 (E Call ["pts"; "lx"; "rc"; "ly"] [["pts"; "append"]]);
        For 423 (Name "a") (E Call ["np"; "n_corner"] [["np"; "linspace"]])
          [
            Expr 424 (E Call ["pts"; "lx"; "rc"; "np"; "a"; "ly"] [["pts";
                "append"]; ["np"; "cos"]; ["np"; "sin"]])
          ];
        Expr 426 (E Call ["pts"; "lx"; "ly"; "rc"] [["pts"; "append"]]);
        For 428 (Name "a") (E Call ["np"; "n_corner"] [["np"; "linspace"]])
          [
            Expr 429 (E Call ["pts"; "lx"; "rc"; "np"; "a"; "ly"] [["pts";
                "append"]; ["np"; "cos"]; ["np"; "sin"]])
          ];
        Expr 431 (E Call ["pts"; "gap_len"; "ly"] [["pts"; "append"]]);
        Return 432 (E Call ["np"; "pts"] [["np"; "array"]])
      ];
    Assign 434 [Name "loop_pts"] (E Call ["rect_loop_pts"; "Lx_loop";
        "Ly_loop"; "R_corner"] [["rect_loop_pts"]]);
    Assign 435 [Name "loop_x"] (E Reference ["loop_pts"] []);
    Assign 436 [Name "loop_y"] (E Reference ["loop_pts"] []);
    Assign 437 [Name "Npts"] (E Call ["len"; "loop_x"] [["len"]]);
    For 440 (Name "z_glow") (E Display ["z_lp"; "z_lp2"] [])
      [
        Expr 441 (E Call ["ax"; "loop_x"; "loop_y"; "np"; "Npts"; "z_glow";
            "AG_GLOW"] [["ax"; "plot"]; ["np"; "full"]]);
        Expr 443 (E Call ["ax"; "loop_x"; "loop_y"; "np"; "Npts"; "z_glow";
            "AG_GLOW"] [["ax"; "plot"]; ["np"; "full"]])
      ];
    Expr 447 (E Call ["ax"; "loop_x"; "loop_y"; "np"; "Npts"; "z_lp"] [["ax";
        "plot"]; ["np"; "full"]]);
    Expr 449 (E Call ["tube"; "ax"; "loop_x"; "loop_y"; "np"; "Npts"; "z_lp";
        "AG_CU"; "AG_HI"] [["tube"]; ["np"; "full"]]);
    Expr 452 (E Call ["ax"; "loop_x"; "loop_y"; "np"; "Npts"; "z_lp2"]
        [["ax"; "plot"]; ["np"; "full"]]);
    Expr 454 (E Call ["tube"; "ax"; "loop_x"; "loop_y"; "np"; "Npts";
        "z_lp2"; "AG_CU"; "AG_HI"] [["tube"]; ["np"; "full"]]);
    Assign 457 [Name "jx"] (E Arithmetic ["gap_len"] []);
    Assign 458 [Name "jy"] (E Reference ["Ly_loop"] []);
    Assign 459 [Name "jz_arr"] (E Call ["np"; "z_lp"; "z_lp2"] [["np";
        "linspace"]]);
    Expr 460 (E Call ["ax"; "np"; "jx"; "jy"; "jz_arr"] [["ax"; "plot"];
        ["np"; "full"]]);
    Expr 462 (E Call ["tube"; "ax"; "np"; "jx"; "jy"; "jz_arr"; "AG_HI"]
        [["tube"]; ["np"; "full"]]);
    Expr 464 (E Call ["ax"; "jx"; "jy"; "z_lp"; "z_lp2"; "dict"; "AG_CU"]
        [["ax"; "text"]; ["dict"]]);
    Expr 471 (E Call ["ax"; "Lx_loop"; "z_lp"; "AG_CU"; "dict"] [["ax";
        "text"]; ["dict"]]);
    Expr 476 (E Call ["ax"; "Lx_loop"; "z_lp2"; "dict"] [["ax"; "text"];
        ["dict"]]);
    Assign 483 [Name "relay_x"] (E Arithmetic ["jx"] []);
    Assign 484 [Name "relay_y"] (E Arithmetic ["jy"] []);
    Assign 485 [Name "relay_z"] (E Arithmetic ["z_lp"; "z_lp2"] []);
    Expr 486 (E Call ["box3d"; "ax"; "relay_x"; "relay_y"; "relay_z"]
        [["box3d"]]);
    Expr 489 (E Call ["ax"; "relay_x"; "relay_y"; "relay_z"; "dict"] [["ax";
        "text"]; ["dict"]]);
    Assign 496 [Unpack ["cap_x"; "cap_y"; "cap_z"]] (E Display ["Ly_loop";
        "z_lp"; "z_lp2"] []);
    Expr 497 (E Call ["box3d"; "ax"; "cap_x"; "cap_y"; "cap_z"] [["box3d"]]);
    For 502 (Unpack ["gx_"; "sx"]) (E Display ["gap_len"] [])
      [
        For 503 (Name "z_t") (E Display ["z_lp"; "z_lp2"] [])
          [
            Expr 504 (E Call ["ax"; "gx_"; "cap_x"; "sx"; "Ly_loop"; "cap_y";
                "z_t"; "cap_z"; "AG_CU"] [["ax"; "plot"]])
          ]
      ];
    Expr 508 (E Call ["ax"; "cap_x"; "cap_y"; "cap_z"] [["ax"; "plot"]]);
    Expr 510 (E Call ["ax"; "cap_x"; "cap_y"; "cap_z"] [["ax"; "plot"]]);
    Expr 514 (E Call ["cylinder"; "ax"; "cap_x"; "cap_y"; "cap_z"]
        [["cylinder"]]);
    Expr 516 (E Call ["ax"; "cap_x"; "cap_y"; "cap_z"] [["ax"; "plot"]]);
    Expr 520 (E Call ["ax"; "cap_x"; "cap_y"; "cap_z"] [["ax"; "plot"]]);
    Expr 522 (E Call ["ax"; "cap_x"; "cap_y"; "cap_z"; "dict"] [["ax";
        "text"]; ["dict"]]);
    Assign 534 [Name "dome_t"] (E Call ["np"] [["np"; "linspace"]]);
    Expr 535 (E Call ["ax"; "cap_x"; "np"; "dome_t"; "cap_y"; "cap_z"]
        [["ax"; "plot"]; ["np"; "cos"]; ["np"; "sin"]; ["np"; "full"]]);
    Assign 539 [Name "R_cpl"] (E Constant [] []);
    Assign 540 [Name "th_c"] (E Call ["np"; "N"] [["np"; "linspace"]]);
    Assign 541 [Name "cpl_cy"] (E Arithmetic ["Ly_loop"] []);
    Expr 542 (E Call ["ax"; "R_cpl"; "np"; "th_c"; "cpl_cy"; "N"; "z_lp"]
        [["ax"; "plot"]; ["np"; "cos"]; ["np"; "sin"]; ["np"; "full"]]);
    Expr 545 (E Call ["tube"; "ax"; "R_cpl"; "np"; "th_c"; "cpl_cy"; "N";
        "z_lp"; "CU_CPL"] [["tube"]; ["np"; "cos"]; ["np"; "sin"]; ["np";
        "full"]]);
    Expr 548 (E Call ["ax"; "R_cpl"; "cpl_cy"; "z_lp"] [["ax"; "plot"]]);
    Expr 550 (E Call ["ax"; "R_cpl"; "cpl_cy"; "z_lp"; "dict"] [["ax";
        "text"]; ["dict"]]);
    Assign 558 [Name "hex_t"] (E Call ["np"] [["np"; "linspace"]]);
    Expr 559 (E Call ["qpoly"; "ax"; "np"; "cpl_cy"; "R_cpl"; "z_lp";
        "hex_t"] [["qpoly"]; ["np"; "cos"]; ["np"; "sin"]]);
    Expr 561 (E Call ["ax"; "cpl_cy"; "R_cpl"; "z_lp"] [["ax"; "text"]]);
    Assign 566 [Name "spos"] (E Display ["Lx_loop"; "Ly_loop"] []);
    For 570 (Unpack ["sx_"; "sy_"]) (E Reference ["spos"] [])
      [
        Assign 571 [Name "zr_"] (E Arithmetic ["np"; "sx_"; "cx_"; "czt"]
            [["np"; "interp"]]);
        Expr 573 (E Call ["cylinder"; "ax"; "sx_"; "sy_"; "zr_"]
            [["cylinder"]]);
        Expr 574 (E Call ["cylinder"; "ax"; "sx_"; "sy_"; "zr_"]
            [["cylinder"]]);
        Expr 576 (E Call ["ax"; "sx_"; "sy_"; "zr_"; "z_lp"] [["ax";
            "plot"]]);
        Expr 579 (E Call ["cylinder"; "ax"; "sx_"; "sy_"; "z_lp"]
            [["cylinder"]]);
        Expr 581 (E Call ["ax"; "sx_"; "sy_"; "z_lp"; "z_lp2"] [["ax";
            "plot"]]);
        Expr 584 (E Call ["cylinder"; "ax"; "sx_"; "sy_"; "z_lp2"]
            [["cylinder"]])
      ];
    Expr 586 (E Call ["ax"; "Lx_loop"; "Ly_loop"; "z_roof"; "z_lp"] [["ax";
        "plot"]]);
    Expr 590 (E Call ["ax"; "Lx_loop"; "Ly_loop"; "z_roof"; "z_lp"; "dict"]
        [["ax"; "text"]; ["dict"]]);
    Assign 598 [Name "cp"] (E Call ["np"; "cpl_cy"; "R_cpl"; "z_lp"; "cx_";
        "cw_"; "z_roof"; "bx"; "bw"; "z_g"] [["np"; "array"]; ["np";
        "interp"]]);
    Expr 602 (E Call ["ax"; "cp"] [["ax"; "plot"]]);
    Expr 603 (E Call ["ax"; "cp"] [["ax"; "plot"]]);
    Expr 604 (E Call ["ax"; "cp"; "z_g"] [["ax"; "text"]]);
    Assign 608 [Name "bb"] (E Call ["np"] [["np"; "linspace"]]);
    Assign 609 [Name "bxb"] (E Constant [] []);
    Assign 609 [Name "byb"] (E Reference ["cp"] []);
    Assign 609 [Name "bzb"] (E Arithmetic ["z_roof"] []);
    Expr 610 (E Call ["ax"; "bxb"; "np"; "bb"; "byb"; "bzb"] [["ax"; "plot"];
        ["np"; "cos"]; ["np"; "sin"]]);
    Expr 612 (E Call ["ax"; "bxb"; "byb"; "bzb"] [["ax"; "text"]]);
    Expr 616 (E Call ["box3d"; "ax"; "np"; "bx"; "bw"; "z_g"] [["box3d"];
        ["np"; "interp"]]);
    Expr 620 (E Call ["ax"; "np"; "bx"; "bw"; "z_g"] [["ax"; "text"]; ["np";
        "interp"]]);
    Assign 628 [Name "z_mid"] (E Arithmetic ["z_lp"; "z_lp2"] []);
    Assign 629 [Name "ac"] (E Constant [] []);
    For 630 (Unpack ["ax_"; "ay_"; "sp"]) (E Display [] [])
      [
        Assign 634 [Name "z0_"] (E Arithmetic ["z_mid"] []);
        Assign 634 [Name "z1_"] (E Arithmetic ["z_mid"] []);
        Expr 635 (E Call ["ax"; "ax_"; "sp"; "ay_"; "z0_"; "z1_"; "ac"]
            [["ax"; "plot"]]);
        For 637 (Name "dx_") (E Display [] [])
          [
            Expr 638 (E Call ["ax"; "ax_"; "sp"; "dx_"; "ay_"; "z1_"; "ac"]
                [["ax"; "plot"]])
          ]
      ];
    Expr 642 (E Call ["ax"; "z_mid"; "dict"] [["ax"; "text"]; ["dict"]]);
    For 649 (Unpack ["r_s"; "z_off"; "c_"; "a_"]) (E Display [] [])
      [
        Assign 650 [Name "it"] (E Call ["np"] [["np"; "linspace"]]);
        Expr 651 (E Call ["ax"; "r_s"; "np"; "it"; "z_mid"; "z_off"; "c_";
            "a_"] [["ax"; "plot"]; ["np"; "sin"]; ["np"; "cos"]; ["np";
            "full"]])
      ];
    Expr 653 (E Call ["ax"; "z_mid"; "dict"] [["ax"; "text"]; ["dict"]]);
    For 660 (Unpack ["rx_"; "ry_"]) (E Display [] [])
      [
        Expr 661 (E Call ["ax"; "rx_"; "ry_"; "z_mid"] [["ax"; "plot"]])
      ];
    Assign 665 [Name "dz_"] (E Arithmetic ["z_lp2"] []);
    Expr 666 (E Call ["ax"; "Lx_loop"; "dz_"; "A_RED"] [["ax"; "plot"]]);
    For 667 (Name "s") (E Display [] [])
      [
        Expr 668 (E Call ["ax"; "s"; "Lx_loop"; "dz_"; "A_RED"] [["ax";
            "plot"]]);
        Expr 669 (E Call ["ax"; "s"; "Lx_loop"; "dz_"; "A_RED"] [["ax";
            "plot"]])
      ];
    Expr 670 (E Call ["ax"; "dz_"; "dict"; "A_RED"] [["ax"; "text"];
        ["dict"]]);
    Assign 677 [Name "dz_w"] (E Arithmetic ["z_lp2"] []);
    Expr 678 (E Call ["ax"; "Lx_loop"; "Ly_loop"; "dz_w"; "A_RED"] [["ax";
        "plot"]]);
    For 680 (Name "s") (E Display [] [])
      [
        Expr 681 (E Call ["ax"; "Lx_loop"; "s"; "Ly_loop"; "dz_w"; "A_RED"]
            [["ax"; "plot"]])
      ];
    Assign 685 [Name "sp_x"] (E Arithmetic ["Lx_loop"] []);
    Expr 686 (E Call ["ax"; "sp_x"; "z_lp"; "z_lp2"] [["ax"; "plot"]]);
    For 687 (Name "dz__") (E Display ["z_lp"; "z_lp2"] [])
      [
        Expr 688 (E Call ["ax"; "sp_x"; "dz__"] [["ax"; "plot"]])
      ];
    Expr 689 (E Call ["ax"; "sp_x"; "z_lp"; "z_lp2"; "dict"] [["ax"; "text"];
        ["dict"]]);
    Assign 696 [Name "ph"] (E Arithmetic ["Lx_loop"] []);
    Expr 697 (E Call ["ax"; "ph"; "z_roof"; "z_lp2"; "A_GRN"] [["ax";
        "plot"]]);
    For 698 (Name "dz__") (E Display ["z_roof"; "z_lp2"] [])
      [
        Expr 699 (E Call ["ax"; "ph"; "dz__"; "A_GRN"] [["ax"; "plot"]])
      ];
    Expr 700 (E Call ["ax"; "ph"; "z_roof"; "z_lp2"; "dict"; "A_GRN"] [["ax";
        "text"]; ["dict"]]);
    Expr 706 (E Call ["ax"; "z_g"] [["ax"; "text"]]);
    For 710 (Name "g") (E Call ["np"] [["np"; "linspace"]])
      [
        Expr 711 (E Call ["ax"; "g"; "z_g"] [["ax"; "plot"]]);
        Expr 712 (E Call ["ax"; "g"; "z_g"] [["ax"; "plot"]])
      ];
    Expr 713 (E Call ["ax"; "z_g"] [["ax"; "plot"]]);
    Assign 719 [Name "ax_s"] (E Call ["fig"] [["fig"; "add_axes"]]);
    Expr 720 (E Call ["ax_s"] [["ax_s"; "set_facecolor"]]);
    Expr 721 (E Call ["ax_s"] [["ax_s"; "set_xlim"]]);
    Expr 721 (E Call ["ax_s"] [["ax_s"; "set_ylim"]]);
    Expr 721 (E Call ["ax_s"] [["ax_s"; "axis"]]);
    For 722 (Name "sp") (E Call ["ax_s"] [["ax_s"; "spines"; "values"]])
      [
        Expr 723 (E Call ["sp"] [["sp"; "set_visible"]]);
        Expr 723 (E Call ["sp"; "A_BLUE"] [["sp"; "set_color"]]);
        Expr 723 (E Call ["sp"] [["sp"; "set_linewidth"]])
      ];
    Expr 725 (E Call ["ax_s"; "TD"] [["ax_s"; "text"]]);
    Expr 730 (E Call ["ax_s"; "FancyBboxPatch"] [["ax_s"; "add_patch"];
        ["FancyBboxPatch"]]);
    Expr 732 (E Call ["ax_s"] [["ax_s"; "text"]]);
    Expr 734 (E Call ["ax_s"] [["ax_s"; "text"]]);
    Expr 736 (E Call ["ax_s"] [["ax_s"; "text"]]);
    Assign 739 [Name "specs"] (E Display [] []);
    Assign 760 [Name "rc"] (E Display [] []);
    Assign 761 [Name "y0"] (E Constant [] []);
    Assign 761 [Name "dy"] (E Constant [] []);
    For 762 (Unpack ["i"; "lbl"; "v80"; "v40"]) (E Call ["enumerate";
        "specs"] [["enumerate"]])
      [
        Assign 763 [Name "y"] (E Arithmetic ["y0"; "i"; "dy"] []);
        Assign 764 [Name "bg"] (E Reference ["rc"; "i"] []);
        If 766 (E Arithmetic ["lbl"] [])
          [
            Assign 767 [Name "bg"] (E Choice ["i"] [])
          ]
          [];
        Expr 768 (E Call ["ax_s"; "FancyBboxPatch"; "y"; "bg"] [["ax_s";
            "add_patch"]; ["FancyBboxPatch"]]);
        Expr 770 (E Call ["ax_s"; "y"; "lbl"; "TD"] [["ax_s"; "text"]]);
        Assign 773 [Name "fw"] (E Choice ["lbl"] []);
        Assign 774 [Name "c80"] (E Choice ["v80"; "TD"] []);
        Assign 775 [Name "c40"] (E Choice ["v40"; "TD"] []);
        If 776 (E Arithmetic ["lbl"] [])
          [
            Assign 776 [Name "c80"] (E Constant [] []);
            Assign 776 [Name "c40"] (E Constant [] [])
          ]
          [];
        Expr 777 (E Call ["ax_s"; "y"; "v80"; "fw"; "c80"] [["ax_s";
            "text"]]);
        Expr 779 (E Call ["ax_s"; "y"; "v40"; "fw"; "c40"] [["ax_s"; "text"]])
      ];
    Expr 782 (E Call ["ax_s"] [["ax_s"; "plot"]]);
    Expr 783 (E Call ["ax_s"] [["ax_s"; "plot"]]);
    Expr 785 (E Call ["ax_s"; "dict"] [["ax_s"; "text"]; ["dict"]]);
    Assign 798 [Name "ax_n"] (E Call ["fig"] [["fig"; "add_axes"]]);
    Expr 799 (E Call ["ax_n"] [["ax_n"; "set_facecolor"]]);
    Expr 800 (E Call ["ax_n"] [["ax_n"; "set_xlim"]]);
    Expr 800 (E Call ["ax_n"] [["ax_n"; "set_ylim"]]);
    Expr 800 (E Call ["ax_n"] [["ax_n"; "axis"]]);
    For 801 (Name "sp") (E Call ["ax_n"] [["ax_n"; "spines"; "values"]])
      [
        Expr 802 (E Call ["sp"] [["sp"; "set_visible"]]);
        Expr 802 (E Call ["sp"] [["sp"; "set_color"]]);
        Expr 802 (E Call ["sp"] [["sp"; "set_linewidth"]])
      ];
    Expr 804 (E Call ["ax_n"; "TD"] [["ax_n"; "text"]]);
    Assign 808 [Name "notes"] (E Display [] []);
    Assign 832 [Name "rcn"] (E Display [] []);
    Assign 833 [Name "y0n"] (E Constant [] []);
    Assign 833 [Name "dyn"] (E Constant [] []);
    For 834 (Unpack ["i"; "num"; "title"; "desc"]) (E Call ["enumerate";
        "notes"] [["enumerate"]])
      [
        Assign 835 [Name "y"] (E Arithmetic ["y0n"; "i"; "dyn"] []);
        Expr 836 (E Call ["ax_n"; "FancyBboxPatch"; "y"; "rcn"; "i"]
            [["ax_n"; "add_patch"]; ["FancyBboxPatch"]]);
        Expr 838 (E Call ["ax_n"; "plt"; "y"] [["ax_n"; "add_patch"]; ["plt";
            "Circle"]]);
        Expr 840 (E Call ["ax_n"; "y"; "num"] [["ax_n"; "text"]]);
        Expr 842 (E Call ["ax_n"; "y"; "title"] [["ax_n"; "text"]]);
        Expr 844 (E Call ["ax_n"; "y"; "desc"] [["ax_n"; "text"]])
      ];
    Expr 847 (E Call ["ax_n"; "dict"] [["ax_n"; "text"]; ["dict"]]);
    Expr 854 (E Call ["ax_n"; "dict"] [["ax_n"; "text"]; ["dict"]]);
    Expr 862 (E Call ["ax_n"; "dict"] [["ax_n"; "text"]; ["dict"]]);
    Assign 874 [Name "ax_eff"] (E Call ["fig"] [["fig"; "add_axes"]]);
    Expr 875 (E Call ["ax_eff"] [["ax_eff"; "set_facecolor"]]);
    Assign 877 [Name "bands"] (E Display [] []);
    Assign 878 [Name "eff_old"] (E Display [] []);
    Assign 879 [Name "eff_new"] (E Display [] []);
    Assign 880 [Name "x_b"] (E Call ["np"] [["np"; "arange"]]);
    Assign 881 [Name "w_"] (E Constant [] []);
    Assign 883 [Name "bars_old"] (E Call ["ax_eff"; "x_b"; "w_"; "eff_old"]
        [["ax_eff"; "bar"]]);
    Assign 885 [Name "bars_new"] (E Call ["ax_eff"; "x_b"; "w_"; "eff_new"]
        [["ax_eff"; "bar"]]);
    For 888 (Unpack ["b"; "v"]) (E Call ["zip"; "bars_old"; "eff_old"]
        [["zip"]])
      [
        Expr 889 (E Call ["ax_eff"; "b"; "v"] [["ax_eff"; "text"]; ["b";
            "get_x"]; ["b"; "get_width"]])
      ];
    For 892 (Unpack ["b"; "v"]) (E Call ["zip"; "bars_new"; "eff_new"]
        [["zip"]])
      [
        Expr 893 (E Call ["ax_eff"; "b"; "v"] [["ax_eff"; "text"]; ["b";
            "get_x"]; ["b"; "get_width"]])
      ];
    For 898 (Unpack ["i"; "vo"; "vn"]) (E Call ["enumerate"; "zip";
        "eff_old"; "eff_new"] [["enumerate"]; ["zip"]])
      [
        Assign 899 [Name "ratio"] (E Arithmetic ["vn"; "vo"] []);
        Expr 900 (E Call ["ax_eff"; "ratio"; "i"; "w_"; "vn"; "GOLD";
            "dict"] [["ax_eff"; "annotate"]; ["dict"]])
      ];
    Expr 906 (E Call ["ax_eff"; "x_b"] [["ax_eff"; "set_xticks"]]);
    Expr 906 (E Call ["ax_eff"; "bands"] [["ax_eff"; "set_xticklabels"]]);
    Expr 907 (E Call ["ax_eff"] [["ax_eff"; "set_ylabel"]]);
    Expr 908 (E Call ["ax_eff"] [["ax_eff"; "set_title"]]);
    Expr 910 (E Call ["ax_eff"] [["ax_eff"; "set_ylim"]]);
    Expr 911 (E Call ["ax_eff"] [["ax_eff"; "tick_params"]]);
    Expr 912 (E Call ["ax_eff"] [["ax_eff"; "legend"]]);
    Expr 914 (E Call ["ax_eff"] [["ax_eff"; "grid"]]);
    For 915 (Name "sp") (E Call ["ax_eff"] [["ax_eff"; "spines"; "values"]])
      [
        Expr 916 (E Call ["sp"] [["sp"; "set_color"]])
      ];
    Assign 922 [Name "ax_erp"] (E Call ["fig"] [["fig"; "add_axes"]]);
    Expr 923 (E Call ["ax_erp"] [["ax_erp"; "set_facecolor"]]);
    Assign 925 [Name "erp_old"] (E Display [] []);
    Assign 926 [Name "erp_new"] (E Display [] []);
    Assign 928 [Name "bars_eo"] (E Call ["ax_erp"; "x_b"; "w_"; "erp_old"]
        [["ax_erp"; "bar"]]);
    Assign 930 [Name "bars_en"] (E Call ["ax_erp"; "x_b"; "w_"; "erp_new"]
        [["ax_erp"; "bar"]]);
    For 933 (Unpack ["b"; "v"]) (E Call ["zip"; "bars_eo"; "erp_old"]
        [["zip"]])
      [
        Expr 934 (E Call ["ax_erp"; "b"; "v"] [["ax_erp"; "text"]; ["b";
            "get_x"]; ["b"; "get_width"]])
      ];
    For 937 (Unpack ["b"; "v"]) (E Call ["zip"; "bars_en"; "erp_new"]
        [["zip"]])
      [
        Expr 938 (E Call ["ax_erp"; "b"; "v"] [["ax_erp"; "text"]; ["b";
            "get_x"]; ["b"; "get_width"]])
      ];
    For 942 (Unpack ["i"; "vo"; "vn"]) (E Call ["enumerate"; "zip";
        "erp_old"; "erp_new"] [["enumerate"]; ["zip"]])
      [
        Assign 943 [Name "ratio"] (E Arithmetic ["vn"; "vo"] []);
        Expr 944 (E Call ["ax_erp"; "ratio"; "i"; "w_"; "vn"; "GOLD";
            "dict"] [["ax_erp"; "annotate"]; ["dict"]])
      ];
    Expr 950 (E Call ["ax_erp"; "x_b"] [["ax_erp"; "set_xticks"]]);
    Expr 950 (E Call ["ax_erp"; "bands"] [["ax_erp"; "set_xticklabels"]]);
    Expr 951 (E Call ["ax_erp"] [["ax_erp"; "set_ylabel"]]);
    Expr 952 (E Call ["ax_erp"] [["ax_erp"; "set_title"]]);
    Expr 954 (E Call ["ax_erp"] [["ax_erp"; "set_ylim"]]);
    Expr 955 (E Call ["ax_erp"] [["ax_erp"; "tick_params"]]);
    Expr 956 (E Call ["ax_erp"] [["ax_erp"; "legend"]]);
    Expr 958 (E Call ["ax_erp"] [["ax_erp"; "grid"]]);
    For 959 (Name "sp") (E Call ["ax_erp"] [["ax_erp"; "spines"; "values"]])
      [
        Expr 960 (E Call ["sp"] [["sp"; "set_color"]])
      ];
    Assign 967 [Name "ax_p80"] (E Call ["fig"] [["fig"; "add_axes"]]);
    Expr 968 (E Call ["ax_p80"] [["ax_p80"; "set_facecolor"]]);
    Assign 969 [Name "sizes_80"] (E Display [] []);
    Assign 970 [Name "labels_80"] (E Display [] []);
    Assign 971 [Name "colors_80"] (E Display [] []);
    Assign 972 [Unpack ["wedges80"; "texts80"]] (E Call ["ax_p80";
        "sizes_80"; "colors_80"; "dict"] [["ax_p80"; "pie"]; ["dict"]]);
    Expr 974 (E Call ["ax_p80"] [["ax_p80"; "set_title"]]);
    Expr 977 (E Call ["ax_p80"; "labels_80"] [["ax_p80"; "legend"]]);
    Assign 982 [Name "ax_p40"] (E Call ["fig"] [["fig"; "add_axes"]]);
    Expr 983 (E Call ["ax_p40"] [["ax_p40"; "set_facecolor"]]);
    Assign 984 [Name "sizes_40"] (E Display [] []);
    Assign 985 [Name "labels_40"] (E Display [] []);
    Assign 986 [Name "colors_40"] (E Display [] []);
    Assign 987 [Unpack ["wedges40"; "texts40"]] (E Call ["ax_p40";
        "sizes_40"; "colors_40"; "dict"] [["ax_p40"; "pie"]; ["dict"]]);
    Expr 989 (E Call ["ax_p40"] [["ax_p40"; "set_title"]]);
    Expr 991 (E Call ["ax_p40"; "labels_40"] [["ax_p40"; "legend"]]);
    Expr 1005 (E Call ["fig"; "FancyBboxPatch"] [["fig"; "patches";
        "append"]; ["FancyBboxPatch"]]);
    Expr 1009 (E Call ["fig"] [["fig"; "text"]]);
    Expr 1014 (E Call ["fig"; "GOLD"] [["fig"; "text"]]);
    Expr 1025 (E Call ["fig"; "FancyBboxPatch"] [["fig"; "patches";
        "append"]; ["FancyBboxPatch"]]);
    Expr 1029 (E Call ["fig"] [["fig"; "text"]]);
    Assign 1039 [Name "out"] (E Constant [] []);
    Expr 1040 (E Call ["fig"; "out"; "DPI"] [["fig"; "savefig"]; ["fig";
        "get_facecolor"]]);
    Expr 1042 (E Call ["plt"] [["plt"; "close"]]);
    Expr 1043 (E Call ["print"; "out"] [["print"]]);
    Expr 1044 (E Call ["print"; "DPI"] [["print"]])
  ].

End statements_of.

(** Each script with its statements. *)
Definition sources : list (script * list py) :=
  [ (gen_nvis_20m_car_roof.script, statements_of.gen_nvis_20m_car_roof);
    (gen_nvis_40m_car_roof.script, statements_of.gen_nvis_40m_car_roof);
    (gen_nvis_80_40m_car_roof.script, statements_of.gen_nvis_80_40m_car_roof);
    (gen_nvis_80_40_20m_triband.script,
     statements_of.gen_nvis_80_40_20m_triband);
    (gen_nvis_80_40m_optimized.script,
     statements_of.gen_nvis_80_40m_optimized) ].


(** *** What is to be shown of the statements *)

(** The lines on which the banners of a script stand. *)
Definition banners (s : script) : list nat := map line (sections s).

(** The statements of the module that stand in a section. *)
Definition statements_in (s : script) (p : list py) (sec : section)
    : list py :=
  filter (fun st => (section_at s (line_of st) =? line sec)%nat)
         (statements p).

(** Each statement of the block [p] that changes the object of a name in
    place comes after a statement that binds the name, and every
    statement of [p] that binds the name binds it to an object it has just
    made, in the section of the script [s] where the change is. *)
Definition changes_what_its_section_made (s : script) (p : list py) : Prop :=
  forall before st after x,
    statements p = before ++ st :: after ->
    In x (updated st) ->
    (exists b, In b before /\ In x (binds b)) /\
    (forall b, In b (statements p) -> In x (binds b) ->
               creates b x = true
               /\ section_at s (line_of b) = section_at s (line_of st)).

(** Each statement of the body of a function that changes the object of
    a name in place changes a local of the function: not a parameter,
    bound earlier in the body, and bound everywhere in the body to an
    object just made. *)
Definition changes_its_locals_only (args : list name) (body : list py)
    : Prop :=
  forall before st after x,
    statements body = before ++ st :: after ->
    In x (updated st) ->
    ~ In x args /\
    (exists b, In b before /\ In x (binds b)) /\
    (forall b, In b (statements body) -> In x (binds b) ->
               creates b x = true).

(** The one parameter on which the body calls a method is the first. *)
Definition calls_methods_of_the_first (args : list name) (body : list py)
    : Prop :=
  forall st x m rest,
    In st (statements body) ->
    In (x :: m :: rest) (called (value_of st)) ->
    In x args ->
    hd_error args = Some x.

(** No statement stores into an element, a slice or an attribute. *)
Definition stores_nothing (p : list py) : Prop :=
  forall st, In st (everywhere p) ->
    match st with
    | Assign _ ts _ => flat_map stores ts = []
    | AugAssign _ t _ | For _ t _ _ => stores t = []
    | _ => True
    end.

(** The decisions behind these properties. *)

Fixpoint scan (ok : list py -> py -> bool) (seen rest : list py) : bool :=
  match rest with
  | [] => true
  | st :: rest' => ok seen st && scan ok (seen ++ [st]) rest'
  end.

Definition changes_what_its_section_made_b (s : script) (p : list py)
    : bool :=
  scan (fun before st =>
          forallb (fun x =>
                     existsb (fun b => mem x (binds b)) before
                     && forallb (fun b =>
                                   implb (mem x (binds b))
                                         (creates b x
                                          && (section_at s (line_of b)
                                              =? section_at s (line_of st))%nat))
                                (statements p))
                  (updated st))
       [] (statements p).

Definition changes_its_locals_only_b (args : list name) (body : list py)
    : bool :=
  scan (fun before st =>
          forallb (fun x =>
                     negb (mem x args)
                     && existsb (fun b => mem x (binds b)) before
                     && forallb (fun b => implb (mem x (binds b)) (creates b x))
                                (statements body))
                  (updated st))
       [] (statements body).

Definition calls_methods_of_the_first_b (args : list name) (body : list py)
    : bool :=
  forallb (fun st =>
             forallb (fun path =>
                        match path with
                        | x :: _ :: _ =>
                            implb (mem x args)
                                  (match args with
                                   | a :: _ => String.eqb a x
                                   | [] => false
                                   end)
                        | _ => true
                        end) (called (value_of st)))
          (statements body).

Definition stores_nothing_b (p : list py) : bool :=
  forallb (fun st =>
             match st with
             | Assign _ ts _ =>
                 match flat_map stores ts with [] => true | _ => false end
             | AugAssign _ t _ | For _ t _ _ =>
                 match stores t with [] => true | _ => false end
             | _ => true
             end) (everywhere p).

Definition functions_keep_b (p : list py) : bool :=
  forallb (fun f =>
             changes_its_locals_only_b (snd (fst f)) (snd f)
             && calls_methods_of_the_first_b (snd (fst f)) (snd f)
             && match functions (snd f) with [] => true | _ => false end)
          (functions p).

(** The figure's own list of patches: [fig.patches.append(...)]. *)
Definition fig_patches_append : list string :=
  ["fig"; "patches"; "append"]%string.

Definition far_receivers_b (p : list py) : bool :=
  forallb (fun st =>
             forallb (fun path =>
                        if list_eq_dec string_dec path fig_patches_append
                        then true else false)
                     (far_receivers (value_of st)))
          (everywhere p).

(** Every change in place that a script makes through a name, by line. *)
Definition in_place (p : list py) : list (nat * name) :=
  flat_map (fun st => map (pair (line_of st)) (updated st)) (everywhere p).

(** A call leaves every object that it did not make as it was, the axes
    at [a] apart, whether it returns or raises. *)
Definition leaves_the_rest (a : ref) (m : action unit) : Prop :=
  forall h, untouched a h (snd (m h)).

(** ** What the properties speak of *)

(** The eight corners of the axis-aligned box with centre [(cx, cy, cz)]
    and half-extents [(hw, hd, hh)]. *)
Definition box_corners (cx cy cz hw hd hh : R) : list vertex :=
  [ (cx-hw, cy-hd, cz-hh); (cx+hw, cy-hd, cz-hh);
    (cx-hw, cy+hd, cz-hh); (cx+hw, cy+hd, cz-hh);
    (cx-hw, cy-hd, cz+hh); (cx+hw, cy-hd, cz+hh);
    (cx-hw, cy+hd, cz+hh); (cx+hw, cy+hd, cz+hh) ].

(** A face is a quadrilateral on the corners of the box. *)
Definition quad_on_corners (cx cy cz hw hd hh : R) (face : list vertex) : Prop :=
  List.length face = 4%nat /\
  Forall (fun v => In v (box_corners cx cy cz hw hd hh)) face.

(** The polygons a box helper adds: one per (face, colour) pair. *)
Definition box_polys (lw : R) (cx cy cz hw hd hh : R) (cols : list colour)
    (ec : colour) (al : R) (zo : Z) : list artist :=
  map (fun fc => Poly3DCollection (fst fc) (snd fc) ec al lw zo)
      (combine (box_faces cx cy cz hw hd hh) cols).

(** The vertices of a polygon artist; a line has none. *)
Definition verts_of (p : artist) : list vertex :=
  match p with
  | Poly3DCollection v _ _ _ _ _ => v
  | Line3D _ _ _ _ _ _ _ => []
  end.

(** The artist is a polygon collection. *)
Definition is_poly (p : artist) : Prop :=
  match p with
  | Poly3DCollection _ _ _ _ _ _ => True
  | Line3D _ _ _ _ _ _ _ => False
  end.

(** The z coordinate of a vertex. *)
Definition height (v : vertex) : R := let '(_, _, z) := v in z.

(** The side faces of a cylinder over the angles [th]. *)
Definition cylinder_sides (cx cy zb zt r : R) (th : list R) (n : Z)
    : list (list vertex) :=
  map (cylinder_face cx cy zb zt r th) (range n).

(** The point at angle [t] and height [z] that is [r * (cos t, sin t)] away
    from the axis through [(cx, cy)]. *)
Definition circle_point (cx cy r t z : R) : vertex :=
  (cx + r * cos t, cy + r * sin t, z).


(** A point lies in the rectangle of half-extents [(lx, ly)]. *)
Definition in_rect (lx ly : R) (p : R * R) : Prop :=
  - lx <= fst p <= lx /\ - ly <= snd p <= ly.




(** The same process in another environment. *)
Definition with_env (e : environment) (st : process) : process :=
  {| env := e; calls := calls st; events := events st; memory := memory st |}.

(** The result of a run, moved to another environment. *)
Definition moved_to (e : environment) (r : status * process)
    : status * process :=
  (fst r, with_env e (snd r)).

(** What two runs can be compared on: how the run ended, the coordinate
    arrays it computed, and everything it showed to the outside, which
    holds the path written to and the lines printed. *)
Definition observable (r : status * process)
    : status * list (name * list R) * list event :=
  (fst r, memory (snd r), events (snd r)).

(** An interpreter started with nothing on its command line. *)
Definition bare : environment :=
  {| argv := []; stdin := []; config_files := [] |}.

(** An interpreter started with arguments, piped input and a
    configuration file in place. *)
Definition busy : environment :=
  {| argv := ["--dpi"; "72"; "--out"; "poster.png"];
     stdin := ["y"];
     config_files := [("matplotlibrc", ["savefig.dpi: 72"])] |}%string.

(** The events of the drawing sections, which are all sections but the
    last one, SAVE. *)
Definition drawn (s : script) : list event :=
  map (fun x => Drew (title x)) (removelast (sections s)).

(** The text of the second status line: the canvas in pixels and in
    inches.  The scripts differ in the words between the numbers. *)
Definition size_text (s : script) (eq_sign inches : string) : string :=
  ("Size: " ++ str (fst (canvas s) * dpi s) ++ " x "
            ++ str (snd (canvas s) * dpi s) ++ " px" ++ eq_sign
            ++ str (fst (canvas s)) ++ "x" ++ str (snd (canvas s))
            ++ inches ++ str (dpi s) ++ " DPI")%string.

(** The words the scripts put between the numbers of the size line. *)
Definition wordings : list (string * string) :=
  [ (" = ", " inches @ "); ("  =  ", " in @ "); (" = ", " in @ ") ]%string.

(** The statements of the drawing sections. *)
Definition draws (secs : list section) : list stmt :=
  map (fun x => Do (Draw x)) secs.

(** The statements of the SAVE section. *)
Definition save_block (s : script) (line1 line2 : string) : list stmt :=
  [ Do (Savefig (output s) (dpi s) "tight"); Do Close;
    Do (Print line1); Do (Print line2) ].

(** The shape all five scripts have: the drawing sections in order, none
    of which fails on its own arrays, then the SAVE section. *)
Definition linear (s : script) : Prop :=
  (exists line1 line2,
     program s = draws (removelast (sections s)) ++ save_block s line1 line2)
  /\ Forall (fun x => computes x <> None) (removelast (sections s)).

(** A run in which library call [k] raises ends there, with no file
    written and nothing printed. *)
Definition ends_without_output (k : nat) (e : environment) (s : script)
    : Prop :=
  exists st,
    run_with_fault k e s = (Raised, st)
    /\ files (events st) = []
    /\ console (events st) = [].

(** * More of the scripts

    The blocks below are the scripts' own top-level code, written as
    functions of the variables they read, so that what they do can be
    stated for every value of those variables and not only for the ones
    of the poster. *)

(** ** Indexing *)

(** [a[i]] for a Python int [i] on a list or a numpy array: an index below
    zero counts from the end, and an index outside [-len(a) .. len(a)-1]
    raises [IndexError]. *)
Definition index {A : Type} (a : list A) (i : Z) : option A :=
  let n := Z.of_nat (List.length a) in
  if ((0 <=? i) && (i <? n))%Z then nth_error a (Z.to_nat i)
  else if ((- n <=? i) && (i <? 0))%Z then nth_error a (Z.to_nat (n + i))
  else None.

(** ** The lower body shell

    gen_nvis_80_40m_car_roof.py lines 114 to 138,
    gen_nvis_80_40_20m_triband.py lines 117 to 129 and
    gen_nvis_80_40m_optimized.py lines 115 to 127: four quadrilaterals
    between each station of the profile and the next, then the front and
    the rear face.  [qpoly] is called with its defaults [ec='#1a2530'],
    [al=0.92], [lw=1.0] and [zo=2], but for the bottom panels at
    [zo=1]. *)

(** [qpoly]'s default edge colour in the three scripts. *)
Definition edge : colour := "#1a2530"%string.

Definition left_quad (z_g x0 x1 w0 w1 zt0 zt1 : R) : list vertex :=
  [(x0, - w0, z_g); (x1, - w1, z_g); (x1, - w1, zt1); (x0, - w0, zt0)].

Definition right_quad (z_g x0 x1 w0 w1 zt0 zt1 : R) : list vertex :=
  [(x0, w0, z_g); (x1, w1, z_g); (x1, w1, zt1); (x0, w0, zt0)].

Definition top_quad (x0 x1 w0 w1 zt0 zt1 : R) : list vertex :=
  [(x0, - w0, zt0); (x1, - w1, zt1); (x1, w1, zt1); (x0, w0, zt0)].

Definition bottom_quad (z_g x0 x1 w0 w1 : R) : list vertex :=
  [(x0, - w0, z_g); (x1, - w1, z_g); (x1, w1, z_g); (x0, w0, z_g)].

(** The front face at [bx[-1]] and the rear face at [bx[0]]. *)
Definition end_face (z_g x w zt : R) : list vertex :=
  [(x, - w, z_g); (x, w, z_g); (x, w, zt); (x, - w, zt)].

(** The four colours of the panels and the two of the faces. *)
Record paint : Type := {
  paint_l : colour;
  paint_r : colour;
  paint_t : colour;
  paint_bt : colour;
  paint_f : colour;
  paint_re : colour
}.

(** The body of [for i in range(len(bx)-1)]. *)
Definition shell_step (z_g : R) (p : paint) (bx bw bzt : list R)
    (acc : option axes) (i : nat) : option axes :=
  ax <- acc ;;
  x0 <- index bx (Z.of_nat i) ;; x1 <- index bx (Z.of_nat i + 1) ;;
  w0 <- index bw (Z.of_nat i) ;; w1 <- index bw (Z.of_nat i + 1) ;;
  zt0 <- index bzt (Z.of_nat i) ;; zt1 <- index bzt (Z.of_nat i + 1) ;;
  ax1 <- qpoly ax (left_quad z_g x0 x1 w0 w1 zt0 zt1)
                (paint_l p) edge 0.92 1.0 2 ;;
  ax2 <- qpoly ax1 (right_quad z_g x0 x1 w0 w1 zt0 zt1)
                (paint_r p) edge 0.92 1.0 2 ;;
  ax3 <- qpoly ax2 (top_quad x0 x1 w0 w1 zt0 zt1)
                (paint_t p) edge 0.92 1.0 2 ;;
  qpoly ax3 (bottom_quad z_g x0 x1 w0 w1) (paint_bt p) edge 0.92 1.0 1.

Definition body_shell (ax : axes) (bx bw bzt : list R) (z_g : R) (p : paint)
    : option axes :=
  ax1 <- fold_left (shell_step z_g p bx bw bzt)
                   (range (Z.of_nat (List.length bx) - 1)) (Some ax) ;;
  xf <- index bx (-1) ;; wf <- index bw (-1) ;; zf <- index bzt (-1) ;;
  ax2 <- qpoly ax1 (end_face z_g xf wf zf) (paint_f p) edge 0.92 1.0 2 ;;
  xr <- index bx 0 ;; wr <- index bw 0 ;; zr <- index bzt 0 ;;
  qpoly ax2 (end_face z_g xr wr zr) (paint_re p) edge 0.92 1.0 2.

(** The faces of the shell, station by station: what [body_shell] draws
    when no index is out of range. *)
Definition station_faces (z_g : R) (bx bw bzt : list R) (i : nat)
    : list (list vertex) :=
  let x0 := nth i bx 0 in let x1 := nth (S i) bx 0 in
  let w0 := nth i bw 0 in let w1 := nth (S i) bw 0 in
  let zt0 := nth i bzt 0 in let zt1 := nth (S i) bzt 0 in
  [ left_quad z_g x0 x1 w0 w1 zt0 zt1; right_quad z_g x0 x1 w0 w1 zt0 zt1;
    top_quad x0 x1 w0 w1 zt0 zt1; bottom_quad z_g x0 x1 w0 w1 ].

Definition shell_faces (z_g : R) (bx bw bzt : list R) : list (list vertex) :=
  flat_map (station_faces z_g bx bw bzt) (seq 0 (List.length bx - 1))
  ++ [ end_face z_g (last bx 0) (last bw 0) (last bzt 0);
       end_face z_g (nth 0 bx 0) (nth 0 bw 0) (nth 0 bzt 0) ].

(** Reflection in the plane y = 0, the long axis of the car. *)
Definition mirror (v : vertex) : vertex :=
  let '(x, y, z) := v in (x, - y, z).

(** Two closed polygons are the same when their outlines agree up to the
    vertex at which the walk starts and the direction in which it goes. *)
Definition rotate {A : Type} (k : nat) (l : list A) : list A :=
  skipn k l ++ firstn k l.

Definition same_outline (p q : list vertex) : Prop :=
  exists k, p = rotate k q \/ p = rotate k (rev q).

(** The two edges of a panel across the car: every panel of the shell lists
    its vertices as near, far, far, near. *)
Definition near_edge (q : list vertex) : vertex * vertex :=
  (nth 0 q (0, 0, 0), nth 3 q (0, 0, 0)).

Definition far_edge (q : list vertex) : vertex * vertex :=
  (nth 1 q (0, 0, 0), nth 2 q (0, 0, 0)).

(** The polygons of one station and of the whole shell, with their
    colours. *)
Definition station_polys (z_g : R) (p : paint) (bx bw bzt : list R) (i : nat)
    : list artist :=
  let x0 := nth i bx 0 in let x1 := nth (S i) bx 0 in
  let w0 := nth i bw 0 in let w1 := nth (S i) bw 0 in
  let zt0 := nth i bzt 0 in let zt1 := nth (S i) bzt 0 in
  [ Poly3DCollection (left_quad z_g x0 x1 w0 w1 zt0 zt1)
                     (paint_l p) edge 0.92 1.0 2;
    Poly3DCollection (right_quad z_g x0 x1 w0 w1 zt0 zt1)
                     (paint_r p) edge 0.92 1.0 2;
    Poly3DCollection (top_quad x0 x1 w0 w1 zt0 zt1)
                     (paint_t p) edge 0.92 1.0 2;
    Poly3DCollection (bottom_quad z_g x0 x1 w0 w1)
                     (paint_bt p) edge 0.92 1.0 1 ].

Definition shell_polys (z_g : R) (p : paint) (bx bw bzt : list R)
    : list artist :=
  flat_map (station_polys z_g p bx bw bzt) (seq 0 (List.length bx - 1))
  ++ [ Poly3DCollection (end_face z_g (last bx 0) (last bw 0) (last bzt 0))
                        (paint_f p) edge 0.92 1.0 2;
       Poly3DCollection (end_face z_g (nth 0 bx 0) (nth 0 bw 0) (nth 0 bzt 0))
                        (paint_re p) edge 0.92 1.0 2 ].

(** The metallic paint of gen_nvis_80_40m_car_roof.py, lines 106-111. *)
Definition metallic : paint :=
  {| paint_l := "#4a6878"%string; paint_r := "#2a3e4a"%string;
     paint_t := "#5a7888"%string; paint_bt := "#1a2830"%string;
     paint_f := "#3a5565"%string; paint_re := "#283c48"%string |}.

(** ** The ring antennas and their leads *)

(** The three coordinate arrays handed to one [ax.plot] call, and the
    points they stand for. *)
Definition polyline : Type := (list R * list R * list R)%type.

Definition points (l : polyline) : list vertex :=
  let '(xs, ys, zs) := l in combine (combine xs ys) zs.

(** The main loop of gen_nvis_20m_car_roof.py, lines 227-231 (likewise
    gen_nvis_40m_car_roof.py, lines 344-348, and
    gen_nvis_80_40m_car_roof.py, lines 355-357, where [np.full(N, z)] has
    the length of the angles): a circle in the plane [z = z_loop], open by
    [gap_angle] on either side of the +Y axis. *)
Definition ring (R_loop z_loop gap_angle : R) (N : Z) : option polyline :=
  theta_loop <- np.linspace (PI / 2 + gap_angle)
                            (PI / 2 + 2 * PI - gap_angle) N ;;
  let lx := map (fun t => R_loop * cos t) theta_loop in
  let ly := map (fun t => R_loop * sin t) theta_loop in
  let lz := np.full_like theta_loop z_loop in
  Some (lx, ly, lz).

(** The leads from the loop ends to the capacitor at [(0, R_loop, z_loop)],
    lines 243-249: [sign] is 0.6 and the reach 0.05 in the 20 m script,
    0.7 and 0.06 in the 40 m script, 0.7 and 0.08 in the 80/40 m one. *)
Definition ring_leads (R_loop z_loop gap_angle sign reach : R)
    : list polyline :=
  let cap_x := 0 in
  let cap_y := R_loop in
  let cap_z := z_loop in
  map (fun '(angle, sign) =>
         let ex := R_loop * cos angle in
         let ey := R_loop * sin angle in
         ([ex; cap_x + sign * reach], [ey; cap_y], [z_loop; cap_z]))
      [ (PI / 2 + gap_angle, - sign); (PI / 2 + 2 * PI - gap_angle, sign) ].

(** The leads from the loop gap to the capacitor box, lines 461 and
    467-470 (gen_nvis_80_40m_optimized.py has the same loops with
    [Ly_loop] for [R_loop]): four lines, two per turn. *)
Definition gap_leads (R_loop gap_len z_lp z_lp2 : R) : list polyline :=
  let cap_x := 0 in
  let cap_y := R_loop + 0.06 in
  let cap_z := (z_lp + z_lp2) / 2 in
  flat_map (fun '(gx_, sx) =>
              map (fun z_t =>
                     ([gx_; cap_x + sx], [R_loop; cap_y], [z_t; cap_z]))
                  [z_lp; z_lp2])
           [ (gap_len / 2, 0.10); (- gap_len / 2, - 0.10) ].

(** Where a line starts, in the horizontal plane. *)
Definition foot (l : polyline) : R * R :=
  let '(xs, ys, _) := l in (hd 0 xs, hd 0 ys).

(** ** Boxes: which colour paints which side *)

(** The plane of the [k]-th face of the literal list of [draw_box] and
    [box3d]: bottom, top, -y, +y, -x, +x. *)
Definition box_side (cx cy cz hw hd hh : R) (k : nat) (v : vertex) : Prop :=
  let '(x, y, z) := v in
  match k with
  | 0%nat => z = cz - hh
  | 1%nat => z = cz + hh
  | 2%nat => y = cy - hd
  | 3%nat => y = cy + hd
  | 4%nat => x = cx - hw
  | _ => x = cx + hw
  end.

(** ** The radiation pattern inset
    gen_nvis_40m_car_roof.py, lines 742-749, and
    gen_nvis_80_40m_car_roof.py, lines 728-731, where the sample count is
    180 and [h_over_lam] is 0.002. *)

(** [np.max(a)] and [a.max()]: an empty array raises [ValueError]. *)
Definition amax (a : list R) : option R :=
  match a with
  | [] => None
  | x :: l => Some (fold_left Rmax l x)
  end.

(** The pattern at one elevation, before it is normalised:
    [pattern_raw * ground_factor]. *)
Definition gain (h_over_lam t : R) : R :=
  Rabs (cos t) * Rabs (sin (2 * PI * h_over_lam * sin t) + 0.8).

Definition radiation_pattern (h_over_lam : R) (num : Z) : option (list R) :=
  elev <- np.linspace 0 PI num ;;
  let pattern_raw := map (fun t => Rabs (cos t)) elev in
  let ground_factor :=
    map (fun t => Rabs (sin (2 * PI * h_over_lam * sin t) + 0.8)) elev in
  let pattern :=
    map (fun pg => fst pg * snd pg) (combine pattern_raw ground_factor) in
  m <- amax pattern ;;
  Some (map (fun v => v / m) pattern).

(** ** The car of gen_nvis_20m_car_roof.py *)

(** The lower body, lines 93-121.  The list [body_top] of the source is
    never read and is left out; the fifth face, under the comment "top",
    is [body_bot]. *)
Definition lower_body (ax : axes) (car_l car_w z_ground z_body : R) : axes :=
  let body_bot :=
    [ (- car_l, - car_w, z_ground); (car_l, - car_w, z_ground);
      (car_l, car_w, z_ground); (- car_l, car_w, z_ground) ] in
  let body_faces :=
    [ [ (- car_l, - car_w, z_ground); (car_l, - car_w, z_ground);
        (car_l, - car_w, z_body); (- car_l, - car_w, z_body) ];
      [ (- car_l, car_w, z_ground); (car_l, car_w, z_ground);
        (car_l, car_w, z_body); (- car_l, car_w, z_body) ];
      [ (car_l, - car_w, z_ground); (car_l, car_w, z_ground);
        (car_l, car_w, z_body); (car_l, - car_w, z_body) ];
      [ (- car_l, - car_w, z_ground); (- car_l, car_w, z_ground);
        (- car_l, car_w, z_body); (- car_l, - car_w, z_body) ];
      body_bot ] in
  let body_colors :=
    [ "#455a64"; "#37474f"; "#4a6572"; "#37474f"; "#37474f" ]%string in
  for_zip (fun acc face fc =>
             acc ++ [Poly3DCollection face fc "#263238"%string 0.92 1.0 2])
          body_faces body_colors ax.

(** The rim of one wheel, lines 194-196:
    [[wx + wheel_r*np.cos(t)*0.3, wy, wz + wheel_r*np.sin(t)] for t in
    wheel_theta]. *)
Definition wpts (wheel_r : R) (wheel_theta : list R) (hub : vertex)
    : list vertex :=
  let '(wx, wy, wz) := hub in
  map (fun t => (wx + wheel_r * cos t * 0.3, wy, wz + wheel_r * sin t))
      wheel_theta.

(** The four hubs, lines 188-193. *)
Definition wheel_positions (car_l car_w z_ground wheel_r : R) : list vertex :=
  [ (car_l * 0.6, - car_w - 0.01, z_ground + wheel_r * 0.4);
    (car_l * 0.6, car_w + 0.01, z_ground + wheel_r * 0.4);
    (- car_l * 0.6, - car_w - 0.01, z_ground + wheel_r * 0.4);
    (- car_l * 0.6, car_w + 0.01, z_ground + wheel_r * 0.4) ].

(** The wheels, lines 185-201; the source takes 24 angles.  Without an
    angle the rim is empty and [Poly3DCollection] raises at the first
    wheel. *)
Definition wheels (ax : axes) (car_l car_w z_ground wheel_r : R) (num : Z)
    : option axes :=
  wheel_theta <- np.linspace 0 (2 * PI) num ;;
  fold_left
    (fun acc (hub : vertex) =>
       a <- acc ;;
       p <- collection (wpts wheel_r wheel_theta hub)
                       "#212121"%string "#111"%string 0.85 1.5 2 ;;
       Some (a ++ [p]))
    (wheel_positions car_l car_w z_ground wheel_r) (Some ax).

(** * Properties *)

(** Case analysis over the five scripts. *)
Ltac each_script H :=
  repeat (destruct H as [<- | H]); [ .. | contradiction H ].

(** ** Lists and loops *)

Lemma fold_left_snoc {A B : Type} (f : B -> A) (l : list B) (a : list A) :
  fold_left (fun acc x => acc ++ [f x]) l a = a ++ map f l.
Proof.
  revert a. induction l as [|x l IH]; intros a; simpl.
  - now rewrite app_nil_r.
  - rewrite IH. now rewrite <- app_assoc.
Qed.

Lemma for_zip_snoc (mk : list vertex -> colour -> artist)
    (faces : list (list vertex)) (cols : list colour) (a : axes) :
  for_zip (fun acc face fc => acc ++ [mk face fc]) faces cols a
  = a ++ map (fun fc => mk (fst fc) (snd fc)) (combine faces cols).
Proof. unfold for_zip. apply (fold_left_snoc (fun fc => mk (fst fc) (snd fc))). Qed.

(** ** np.linspace *)

Lemma linspace_negative (a b : R) (n : Z) :
  (n < 0)%Z -> np.linspace a b n = None.
Proof.
  intros Hn. unfold np.linspace.
  destruct (Z.ltb_spec n 0); [reflexivity | lia].
Qed.

Lemma linspace_length (a b : R) (n : Z) :
  (0 <= n)%Z ->
  exists l, np.linspace a b n = Some l /\ List.length l = Z.to_nat n.
Proof.
  intros Hn. unfold np.linspace.
  destruct (Z.ltb_spec n 0); [lia|].
  destruct (Z.to_nat n) as [|[|m]].
  - now exists [].
  - now exists [a].
  - eexists. split; [reflexivity|].
    rewrite length_app, length_map, length_seq. simpl. lia.
Qed.

(** With two samples or more the first is [start] and the last is
    [stop]. *)
Lemma linspace_ends (a b : R) (n : Z) :
  (2 <= n)%Z ->
  exists mid, np.linspace a b n = Some ((0 * ((b - a) / INR (Z.to_nat n - 1)) + a) :: mid ++ [b])
              /\ List.length mid = (Z.to_nat n - 2)%nat.
Proof.
  intros Hn. unfold np.linspace.
  destruct (Z.ltb_spec n 0); [lia|].
  destruct (Z.to_nat n) as [|[|m]] eqn:E; try lia.
  replace (S (S m) - 1)%nat with (S m) by lia.
  exists (map (fun i => INR i * ((b - a) / INR (S m)) + a) (seq 1 m)).
  split.
  - reflexivity.
  - rewrite length_map, length_seq. lia.
Qed.

(** ** Boxes *)

Lemma box_faces_on_corners (cx cy cz hw hd hh : R) :
  Forall (quad_on_corners cx cy cz hw hd hh) (box_faces cx cy cz hw hd hh).
Proof.
  unfold box_faces, quad_on_corners.
  repeat (apply Forall_cons; [split; [reflexivity|] |]); try apply Forall_nil;
    repeat (apply Forall_cons; [unfold box_corners; simpl; tauto |]);
    apply Forall_nil.
Qed.

Lemma box_faces_length (cx cy cz hw hd hh : R) :
  List.length (box_faces cx cy cz hw hd hh) = 6%nat.
Proof. reflexivity. Qed.

Lemma box_polys_length lw cx cy cz hw hd hh cols ec al zo :
  List.length (box_polys lw cx cy cz hw hd hh cols ec al zo)
  = Nat.min 6 (List.length cols).
Proof.
  unfold box_polys. now rewrite length_map, length_combine, box_faces_length.
Qed.

Lemma draw_box_adds ax cx cy cz hw hd hh colors ec alpha zo :
  draw_box ax cx cy cz hw hd hh colors ec alpha zo
  = ax ++ box_polys 1.2 cx cy cz hw hd hh colors ec alpha zo.
Proof.
  unfold draw_box, box_polys.
  apply (for_zip_snoc (fun face fc => Poly3DCollection face fc ec alpha 1.2 zo)).
Qed.

Lemma qpoly_adds (a : axes) (v : list vertex) fc ec al lw zo :
  v <> [] -> qpoly a v fc ec al lw zo = Some (a ++ [Poly3DCollection v fc ec al lw zo]).
Proof. intros Hv. unfold qpoly, collection. destruct v; [contradiction | reflexivity]. Qed.

Lemma qpoly_empty (a : axes) fc ec al lw zo : qpoly a [] fc ec al lw zo = None.
Proof. reflexivity. Qed.

(** A loop whose body calls [qpoly] on a polygon that is not empty adds
    one collection per turn. *)
Lemma fold_qpoly {B : Type} (f : B -> list vertex) (g : B -> colour)
    (ec : colour) (al lw : R) (zo : Z) (l : list B) (a : axes) :
  Forall (fun x => f x <> []) l ->
  fold_left (fun acc x => a' <- acc ;; qpoly a' (f x) (g x) ec al lw zo)
            l (Some a)
  = Some (a ++ map (fun x => Poly3DCollection (f x) (g x) ec al lw zo) l).
Proof.
  revert a. induction l as [|x l IH]; intros a Hl; simpl.
  - now rewrite app_nil_r.
  - inversion Hl as [|? ? Hx Hl']; subst.
    rewrite qpoly_adds by exact Hx. rewrite IH by exact Hl'.
    now rewrite <- app_assoc.
Qed.

Lemma box_faces_not_empty (cx cy cz hw hd hh : R) (cols : list colour) :
  Forall (fun fc : list vertex * colour => fst fc <> [])
         (combine (box_faces cx cy cz hw hd hh) cols).
Proof.
  apply Forall_forall. intros [face fc] Hin. apply in_combine_l in Hin.
  unfold box_faces in Hin. simpl in *.
  repeat (destruct Hin as [<- | Hin]; [discriminate|]). contradiction.
Qed.

Lemma box3d_adds a cx cy cz hw hd hh cols ec al zo :
  box3d a cx cy cz hw hd hh cols ec al zo
  = Some (a ++ box_polys 1.0 cx cy cz hw hd hh cols ec al zo).
Proof.
  unfold box3d, for_zip_raising, box_polys.
  apply (fold_qpoly fst snd). apply box_faces_not_empty.
Qed.

Lemma box_polys_on_corners lw cx cy cz hw hd hh cols ec al zo :
  Forall (fun p => is_poly p /\ quad_on_corners cx cy cz hw hd hh (verts_of p))
         (box_polys lw cx cy cz hw hd hh cols ec al zo).
Proof.
  unfold box_polys. apply Forall_map. apply Forall_forall.
  intros [face fc] Hin. simpl. split; [exact I|].
  apply in_combine_l in Hin.
  pose proof (box_faces_on_corners cx cy cz hw hd hh) as H.
  rewrite Forall_forall in H. now apply H.
Qed.

(** C9.  Every face that [draw_box] / [box3d] builds is a quadrilateral
    whose four vertices are corners of the axis-aligned box centred at
    [(cx, cy, cz)] with half-extents [(hw, hd, hh)]; what the helper adds to
    the axes is one polygon per (face, colour) pair of the zip, each on those
    corners, so the number of faces added is the minimum of 6 and the length
    of the colour list. *)
Theorem box_faces_added (a : axes) (cx cy cz hw hd hh : R)
    (cols : list colour) (ec : colour) (al : R) (zo : Z) :
  Forall (quad_on_corners cx cy cz hw hd hh) (box_faces cx cy cz hw hd hh)
  /\ (exists new,
        draw_box a cx cy cz hw hd hh cols ec al zo = a ++ new
        /\ List.length new = Nat.min 6 (List.length cols)
        /\ Forall (fun p => is_poly p /\
                            quad_on_corners cx cy cz hw hd hh (verts_of p)) new)
  /\ (exists new,
        box3d a cx cy cz hw hd hh cols ec al zo = Some (a ++ new)
        /\ List.length new = Nat.min 6 (List.length cols)
        /\ Forall (fun p => is_poly p /\
                            quad_on_corners cx cy cz hw hd hh (verts_of p)) new).
Proof.
  split; [apply box_faces_on_corners|]. split.
  - exists (box_polys 1.2 cx cy cz hw hd hh cols ec al zo).
    split; [apply draw_box_adds|]. split;
      [apply box_polys_length | apply box_polys_on_corners].
  - exists (box_polys 1.0 cx cy cz hw hd hh cols ec al zo).
    split; [apply box3d_adds|]. split;
      [apply box_polys_length | apply box_polys_on_corners].
Qed.

(** ** Cylinders *)


Lemma cylinder_adds a cx cy zb zt r n fc ec al zo th :
  np.linspace 0 (2 * PI) (n + 1) = Some th -> th <> [] ->
  cylinder a cx cy zb zt r n fc ec al zo
  = Some (a ++ map (fun f => Poly3DCollection f fc ec al 0.5 zo)
                   (cylinder_sides cx cy zb zt r th n)
            ++ [Poly3DCollection (cylinder_cap cx cy zt r th) fc ec al 1.0 (zo + 1)]).
Proof.
  intros Hth Hne. unfold cylinder. rewrite Hth. cbn [bind].
  rewrite (fold_qpoly (cylinder_face cx cy zb zt r th) (fun _ => fc)).
  - cbn [bind]. rewrite qpoly_adds.
    + unfold cylinder_sides. now rewrite map_map, <- app_assoc.
    + unfold cylinder_cap. destruct th; [contradiction | discriminate].
  - apply Forall_forall. intros i _. discriminate.
Qed.

(** The angles of a cylinder of [n >= 1] faces: [n + 1] of them, the first
    0 and the last [2 * PI]. *)
Lemma cylinder_angles (n : Z) :
  (1 <= n)%Z ->
  exists th,
    np.linspace 0 (2 * PI) (n + 1) = Some th
    /\ List.length th = S (Z.to_nat n)
    /\ nth 0 th 0 = 0
    /\ nth (Z.to_nat n) th 0 = 2 * PI.
Proof.
  intros Hn. unfold np.linspace.
  destruct (Z.ltb_spec (n + 1) 0); [lia|].
  replace (Z.to_nat (n + 1)) with (S (Z.to_nat n)) by lia.
  destruct (Z.to_nat n) as [|m] eqn:E; [lia|].
  eexists. split; [reflexivity|]. split; [|split].
  - rewrite length_app, length_map, length_seq. simpl. lia.
  - cbn [seq map app nth]. change (INR 0) with 0. now rewrite Rmult_0_l, Rplus_0_l.
  - rewrite app_nth2 by (rewrite length_map, length_seq; lia).
    rewrite length_map, length_seq. now rewrite Nat.sub_diag.
Qed.

Lemma nth_map_seq {A : Type} (f : nat -> A) (n i : nat) (d : A) :
  (i < n)%nat -> nth i (map f (seq 0 n)) d = f i.
Proof.
  intros Hi. rewrite (nth_indep _ d (f 0%nat)) by (now rewrite length_map, length_seq).
  rewrite map_nth. now rewrite seq_nth.
Qed.




(** ** The rectangular loop *)


Lemma corner_arc_in_rect (lx ly cx cy rc : R) (angles : list R) :
  0 < rc -> - (lx - rc) <= cx <= lx - rc -> - (ly - rc) <= cy <= ly - rc ->
  Forall (in_rect lx ly) (corner_arc cx cy rc angles).
Proof.
  intros Hrc Hx Hy. unfold corner_arc. apply Forall_map, Forall_forall.
  intros a _. unfold in_rect. simpl.
  pose proof (COS_bound a) as Hc. pose proof (SIN_bound a) as Hs.
  assert (- rc <= rc * cos a <= rc) by nra.
  assert (- rc <= rc * sin a <= rc) by nra.
  lra.
Qed.

Lemma rect_loop_pts_eq (lx ly rc : R) (n_corner : Z) :
  (0 <= n_corner)%Z ->
  exists fr br bl fl,
    List.length fr = Z.to_nat n_corner /\ List.length br = Z.to_nat n_corner /\
    List.length bl = Z.to_nat n_corner /\ List.length fl = Z.to_nat n_corner /\
    rect_loop_pts lx ly rc n_corner
    = Some ((gap_len / 2, ly) :: (lx - rc, ly) ::
            corner_arc (lx - rc) (ly - rc) rc fr ++
            (lx, - ly + rc) ::
            corner_arc (lx - rc) (- ly + rc) rc br ++
            (- lx + rc, - ly) ::
            corner_arc (- lx + rc) (- ly + rc) rc bl ++
            (- lx, ly - rc) ::
            corner_arc (- lx + rc) (ly - rc) rc fl ++
            [(- gap_len / 2, ly)]).
Proof.
  intros Hn. unfold rect_loop_pts.
  destruct (linspace_length (PI / 2) 0 n_corner Hn) as (fr & -> & Hfr).
  destruct (linspace_length 0 (- PI / 2) n_corner Hn) as (br & -> & Hbr).
  destruct (linspace_length (- PI / 2) (- PI) n_corner Hn) as (bl & -> & Hbl).
  destruct (linspace_length PI (PI / 2) n_corner Hn) as (fl & -> & Hfl).
  exists fr, br, bl, fl. simpl. auto.
Qed.


(** A negative [n_corner] makes [np.linspace] raise. *)
Lemma rect_loop_pts_negative (lx ly rc : R) (n_corner : Z) :
  (n_corner < 0)%Z -> rect_loop_pts lx ly rc n_corner = None.
Proof.
  intros Hn. unfold rect_loop_pts. now rewrite linspace_negative.
Qed.







(** The arcs in double precision.  With [lx = 0.3], [ly = 0.2] and
    [rc = 0.03] the front-right arc of two samples,
    [np.linspace(np.pi/2, 0, 2)], ends at the angle 0 in
    [x = (0.3 - 0.03) + 0.03 * 1 = 0.30000000000000004], which is beyond
    [lx]. *)
Example arc_end_is_outside :
  exists angles x y,
    f64.linspace (f64.pi / 2) 0 2 = Some angles
    /\ last (f64.corner_arc f64.quarter_turns (0.3 - 0.03) (0.2 - 0.03) 0.03
                            angles) (0, 0)%float
       = (x, y)
    /\ x = 0.30000000000000004%float
    /\ (0.3 <? x)%float = true.
Proof.
  eexists. eexists. eexists.
  split; [vm_compute; reflexivity|].
  split; [vm_compute; reflexivity|].
  split; reflexivity.
Qed.

(** ** The statements of the scripts *)

Lemma mem_In (x : string) (l : list string) : mem x l = true <-> In x l.
Proof.
  unfold mem. rewrite existsb_exists. split.
  - intros (y & Hy & E). apply String.eqb_eq in E. subst. exact Hy.
  - intros H. exists x. split; [exact H | apply String.eqb_refl].
Qed.

(** The banners stand in the order of their lines, so that [section_at]
    is the section a line is in. *)
Lemma banners_in_order (s : script) (p : list py) :
  In (s, p) sources -> Sorted lt (banners s).
Proof.
  intros Hin. unfold sources in Hin.
  repeat (destruct Hin as [[= <- <-] | Hin];
          [lazy; repeat (constructor; try (apply Nat.ltb_lt; reflexivity)) | ]).
  contradiction Hin.
Qed.

(** What the summary of a section says it defines is bound by a statement
    of that section. *)
Lemma sections_bind_what_they_define (s : script) (p : list py) :
  In (s, p) sources ->
  forall sec x k, In sec (sections s) -> In (x, k) (defines sec) ->
    exists st, In st (statements_in s p sec) /\ In x (binds st).
Proof.
  intros Hin sec x k Hsec Hx.
  assert (H : forallb (fun sec =>
                forallb (fun xk =>
                   existsb (fun st => mem (fst xk) (binds st))
                           (statements_in s p sec))
                        (defines sec)) (sections s) = true).
  { unfold sources in Hin.
    repeat (destruct Hin as [[= <- <-] | Hin]; [vm_compute; reflexivity | ]).
    contradiction Hin. }
  rewrite forallb_forall in H. specialize (H _ Hsec).
  rewrite forallb_forall in H. specialize (H _ Hx).
  apply existsb_exists in H. destruct H as (st & Hst & Hm).
  exists st. split; [exact Hst | apply mem_In; exact Hm].
Qed.

Lemma scan_sound (ok : list py -> py -> bool) (rest : list py) :
  forall seen,
  scan ok seen rest = true ->
  forall before st after,
    rest = before ++ st :: after -> ok (seen ++ before) st = true.
Proof.
  induction rest as [ | s0 rest IH]; intros seen H before st after E.
  - destruct before; discriminate E.
  - cbn [scan] in H. apply andb_true_iff in H. destruct H as (H0 & H1).
    destruct before as [ | b before]; cbn [app] in E; injection E as -> E.
    + rewrite app_nil_r. exact H0.
    + specialize (IH _ H1 before st after E).
      rewrite <- app_assoc in IH. exact IH.
Qed.

Lemma changes_what_its_section_made_ok (s : script) (p : list py) :
  changes_what_its_section_made_b s p = true ->
  changes_what_its_section_made s p.
Proof.
  intros H before st after x E Hx.
  pose proof (scan_sound _ _ _ H before st after E) as Hok.
  cbn [app] in Hok. rewrite forallb_forall in Hok.
  specialize (Hok x Hx). apply andb_true_iff in Hok. destruct Hok as (H1 & H2).
  split.
  - apply existsb_exists in H1. destruct H1 as (b & Hb & Hm).
    exists b. split; [exact Hb | apply mem_In; exact Hm].
  - intros b Hb Hxb. rewrite forallb_forall in H2. specialize (H2 b Hb).
    apply mem_In in Hxb. rewrite Hxb in H2. cbn [implb] in H2.
    apply andb_true_iff in H2. destruct H2 as (H3 & H4).
    split; [exact H3 | apply Nat.eqb_eq; exact H4].
Qed.

Lemma changes_its_locals_only_ok (args : list name) (body : list py) :
  changes_its_locals_only_b args body = true ->
  changes_its_locals_only args body.
Proof.
  intros H before st after x E Hx.
  pose proof (scan_sound _ _ _ H before st after E) as Hok.
  cbn [app] in Hok. rewrite forallb_forall in Hok.
  specialize (Hok x Hx). apply andb_true_iff in Hok. destruct Hok as (H0 & H2).
  apply andb_true_iff in H0. destruct H0 as (H0 & H1).
  split; [ | split].
  - intros Hin. apply mem_In in Hin. rewrite Hin in H0. discriminate H0.
  - apply existsb_exists in H1. destruct H1 as (b & Hb & Hm).
    exists b. split; [exact Hb | apply mem_In; exact Hm].
  - intros b Hb Hxb. rewrite forallb_forall in H2. specialize (H2 b Hb).
    apply mem_In in Hxb. rewrite Hxb in H2. exact H2.
Qed.

Lemma calls_methods_of_the_first_ok (args : list name) (body : list py) :
  calls_methods_of_the_first_b args body = true ->
  calls_methods_of_the_first args body.
Proof.
  intros H st x m rest Hst Hp Hx.
  unfold calls_methods_of_the_first_b in H. rewrite forallb_forall in H.
  specialize (H st Hst). rewrite forallb_forall in H.
  specialize (H _ Hp). cbn beta iota in H.
  apply mem_In in Hx. rewrite Hx in H. cbn [implb] in H.
  destruct args as [ | a args]; [discriminate H | ].
  apply String.eqb_eq in H. subst. reflexivity.
Qed.

Lemma stores_nothing_ok (p : list py) :
  stores_nothing_b p = true -> stores_nothing p.
Proof.
  intros H st Hst. unfold stores_nothing_b in H. rewrite forallb_forall in H.
  specialize (H st Hst).
  destruct st; try exact I.
  - destruct (flat_map stores targets); [reflexivity | discriminate H].
  - destruct (stores t); [reflexivity | discriminate H].
  - destruct (stores t); [reflexivity | discriminate H].
Qed.

(** ** The heap *)

Lemma update_length (l : ref) (o : object) (h : heap) :
  (l < List.length h)%nat -> List.length (update l o h) = List.length h.
Proof.
  intros Hl. unfold update.
  rewrite length_app. cbn [List.length]. rewrite length_firstn, length_skipn. lia.
Qed.

Lemma nth_error_update_same (l : ref) (o : object) (h : heap) :
  (l < List.length h)%nat -> nth_error (update l o h) l = Some o.
Proof.
  intros Hl. unfold update.
  rewrite nth_error_app2 by (rewrite length_firstn; lia).
  rewrite length_firstn. replace (l - Nat.min l (List.length h))%nat with 0%nat by lia.
  reflexivity.
Qed.

Lemma nth_error_update_other (l k : ref) (o : object) (h : heap) :
  (l < List.length h)%nat -> k <> l ->
  nth_error (update l o h) k = nth_error h k.
Proof.
  intros Hl Hk. unfold update.
  destruct (Nat.lt_ge_cases k l) as [Hlt | Hge].
  - rewrite nth_error_app1 by (rewrite length_firstn; lia).
    rewrite nth_error_firstn.
    destruct (Nat.ltb_spec k l); [reflexivity | lia].
  - rewrite nth_error_app2 by (rewrite length_firstn; lia).
    rewrite length_firstn.
    replace (k - Nat.min l (List.length h))%nat with (S (k - S l)) by lia.
    cbn [nth_error]. rewrite nth_error_skipn. f_equal. lia.
Qed.

Lemma update_last (o o' : object) (h : heap) :
  update (List.length h) o' (h ++ [o]) = h ++ [o'].
Proof.
  unfold update.
  rewrite firstn_app, Nat.sub_diag, firstn_all. cbn [firstn].
  rewrite app_nil_r.
  rewrite skipn_all2 by (rewrite length_app; cbn; lia).
  reflexivity.
Qed.

Lemma nth_error_last (o : object) (h : heap) :
  nth_error (h ++ [o]) (List.length h) = Some o.
Proof.
  rewrite nth_error_app2 by lia. rewrite Nat.sub_diag. reflexivity.
Qed.

(** ** What a helper leaves alone *)

Lemma frames_ret {A : Type} n a (Q : A -> Prop) (x : A) :
  Q x -> frames n a Q (ret x).
Proof.
  intros HQ h Hn. cbn. repeat split; try lia; auto.
  intros y Hy. injection Hy as <-. exact HQ.
Qed.

Lemma frames_raise {A : Type} n a (Q : A -> Prop) :
  frames n a Q (@raise A).
Proof.
  intros h Hn. cbn. repeat split; try lia; auto. discriminate.
Qed.

Lemma frames_bind {A B : Type} n a (Q : A -> Prop) (Q' : B -> Prop)
    (m : action A) (k : A -> action B) :
  frames n a Q m -> (forall x, Q x -> frames n a Q' (k x)) ->
  frames n a Q' (and_then m k).
Proof.
  intros Hm Hk h Hn. unfold and_then.
  destruct (Hm h Hn) as (Hlen & Hold & Hret).
  destruct (m h) as [[x | ] h1]; cbn [fst snd] in *.
  - destruct (Hk x (Hret x eq_refl) h1 ltac:(lia)) as (Hlen' & Hold' & Hret').
    repeat split.
    + lia.
    + intros l Hl Hla. rewrite Hold' by assumption. apply Hold; assumption.
    + exact Hret'.
  - repeat split; try assumption. discriminate.
Qed.

Lemma frames_weaken {A : Type} n a (Q Q' : A -> Prop) (m : action A) :
  frames n a Q m -> (forall x, Q x -> Q' x) -> frames n a Q' m.
Proof.
  intros Hm HQ h Hn. destruct (Hm h Hn) as (Hlen & Hold & Hret).
  repeat split; auto.
Qed.

Lemma frames_lift {A : Type} n a (m : option A) :
  frames n a (fun _ => True) (lift m).
Proof.
  destruct m; [apply frames_ret; exact I | apply frames_raise].
Qed.

Lemma frames_get n a (l : ref) : frames n a (fun _ => True) (get l).
Proof.
  intros h Hn. unfold get. destruct (nth_error h l); cbn; repeat split; auto.
Qed.

Lemma frames_new n a (o : object) :
  frames n a (fun p => (n <= p)%nat) (new o).
Proof.
  intros h Hn. unfold new. cbn [fst snd]. repeat split.
  - rewrite length_app. lia.
  - intros l Hl _. apply nth_error_app1. lia.
  - intros x Hx. injection Hx as <-. exact Hn.
Qed.

Lemma frames_put_axes n a (o : object) :
  frames n a (fun _ => True) (put a o).
Proof.
  intros h Hn. unfold put.
  destruct (Nat.ltb_spec a (List.length h)) as [Hlt | Hge]; cbn [fst snd].
  - repeat split.
    + rewrite update_length by assumption. lia.
    + intros l _ Hla. apply nth_error_update_other; assumption.
  - repeat split; auto.
Qed.

Lemma frames_put_new n a (p : ref) (o : object) :
  (n <= p)%nat -> frames n a (fun _ => True) (put p o).
Proof.
  intros Hp h Hn. unfold put.
  destruct (Nat.ltb_spec p (List.length h)) as [Hlt | Hge]; cbn [fst snd].
  - repeat split.
    + rewrite update_length by assumption. lia.
    + intros l Hl _. apply nth_error_update_other; [assumption | lia].
  - repeat split; auto.
Qed.

Lemma frames_for_each {B : Type} n a (l : list B) (body : B -> action unit) :
  (forall x, frames n a (fun _ => True) (body x)) ->
  frames n a (fun _ => True) (for_each l body).
Proof.
  intros Hb. induction l as [ | x l IH]; cbn [for_each].
  - apply frames_ret. exact I.
  - eapply frames_bind; [apply Hb | intros _ _; exact IH].
Qed.

Lemma frames_new_each n a (os : list object) :
  frames n a (fun _ => True) (new_each os).
Proof.
  induction os as [ | o os IH]; cbn [new_each].
  - apply frames_ret. exact I.
  - eapply frames_bind; [apply frames_new | intros l _].
    eapply frames_bind; [apply IH | intros ls _].
    apply frames_ret. exact I.
Qed.

(** The steps of a proof that a body frames: one rule for each way a
    body is put together. *)
Ltac frame_step :=
  first
    [ apply frames_raise
    | apply frames_ret; exact I
    | apply frames_ret; assumption
    | apply frames_lift
    | apply frames_get
    | apply frames_put_axes
    | apply frames_put_new; assumption
    | apply frames_new_each
    | apply frames_for_each; intros ?
    | eapply frames_weaken; [apply frames_new | intros ? ?; exact I]
    | eapply frames_bind; [ | intros ? ? ] ].

Ltac frame := repeat (frame_step || match goal with
                                    | |- frames _ _ _ (match ?o with _ => _ end) => destruct o
                                    | |- frames _ _ _ (if ?b then _ else _) => destruct b
                                    end).

Lemma floats_frames n a l : frames n a (fun _ => True) (floats l).
Proof. unfold floats. frame. Qed.

Lemma vertices_frames n a l : frames n a (fun _ => True) (vertices l).
Proof. unfold vertices. frame. Qed.

Lemma colours_frames n a l : frames n a (fun _ => True) (colours l).
Proof. unfold colours. frame. Qed.

Lemma add_child_frames n a c : frames n a (fun _ => True) (add_child a c).
Proof. unfold add_child. frame. Qed.

Lemma ax_plot_frames n a px py pz c lw al zo :
  frames n a (fun _ => True) (ax_plot a px py pz c lw al zo).
Proof.
  unfold ax_plot.
  eapply frames_bind; [apply floats_frames | intros xs _].
  eapply frames_bind; [apply floats_frames | intros ys _].
  eapply frames_bind; [apply floats_frames | intros zs _].
  eapply frames_bind; [apply frames_new | intros l _].
  apply add_child_frames.
Qed.

Lemma new_collection_frames n a v al zo :
  frames n a (fun p => (n <= p)%nat) (new_collection v al zo).
Proof.
  unfold new_collection.
  eapply frames_bind; [apply vertices_frames | intros vs _].
  destruct vs; [apply frames_raise | apply frames_new].
Qed.

Lemma set_facecolor_frames n a p fc :
  (n <= p)%nat -> frames n a (fun _ => True) (set_facecolor p fc).
Proof. intros Hp. unfold set_facecolor. frame. Qed.

Lemma set_edgecolor_frames n a p ec :
  (n <= p)%nat -> frames n a (fun _ => True) (set_edgecolor p ec).
Proof. intros Hp. unfold set_edgecolor. frame. Qed.

Lemma set_linewidth_frames n a p lw :
  (n <= p)%nat -> frames n a (fun _ => True) (set_linewidth p lw).
Proof. intros Hp. unfold set_linewidth. frame. Qed.

Lemma add_collection3d_frames n a p :
  frames n a (fun _ => True) (add_collection3d a p).
Proof.
  unfold add_collection3d.
  eapply frames_bind; [apply frames_get | intros o _].
  destruct o; try apply frames_raise. apply add_child_frames.
Qed.

Lemma paint_and_add_frames n a v fc ec al lw zo :
  frames n a (fun _ => True)
    (p <~ new_collection v al zo ;;
     set_facecolor p fc ;;;
     set_edgecolor p ec ;;;
     set_linewidth p lw ;;;
     add_collection3d a p).
Proof.
  eapply frames_bind; [apply new_collection_frames | intros p Hp].
  eapply frames_bind; [apply set_facecolor_frames; exact Hp | intros _ _].
  eapply frames_bind; [apply set_edgecolor_frames; exact Hp | intros _ _].
  eapply frames_bind; [apply set_linewidth_frames; exact Hp | intros _ _].
  apply add_collection3d_frames.
Qed.

Lemma draw_tube_at_frames n ax px py pz color lw hi_color alpha zo :
  frames n ax (fun _ => True)
         (draw_tube_at ax px py pz color lw hi_color alpha zo).
Proof.
  unfold draw_tube_at.
  eapply frames_bind; [apply ax_plot_frames | intros _ _].
  destruct (truthy hi_color); [apply ax_plot_frames | apply frames_ret; exact I].
Qed.

Lemma tube_at_frames n a px py pz c lw hc al zo :
  frames n a (fun _ => True) (tube_at a px py pz c lw hc al zo).
Proof.
  unfold tube_at.
  eapply frames_bind; [apply ax_plot_frames | intros _ _].
  destruct (truthy hc); [apply ax_plot_frames | apply frames_ret; exact I].
Qed.

Lemma qpoly_at_frames n a v fc ec al lw zo :
  frames n a (fun _ => True) (qpoly_at a v fc ec al lw zo).
Proof. apply paint_and_add_frames. Qed.

Lemma draw_box_at_frames n ax cx cy cz hw hd hh colors ec alpha zo :
  frames n ax (fun _ => True)
         (draw_box_at ax cx cy cz hw hd hh colors ec alpha zo).
Proof.
  unfold draw_box_at.
  eapply frames_bind; [apply frames_new_each | intros faces _].
  eapply frames_bind; [apply colours_frames | intros cs _].
  apply frames_for_each. intros face_fc. apply paint_and_add_frames.
Qed.

Lemma box3d_at_frames n a cx cy cz hw hd hh cols ec al zo :
  frames n a (fun _ => True) (box3d_at a cx cy cz hw hd hh cols ec al zo).
Proof.
  unfold box3d_at.
  eapply frames_bind; [apply frames_new_each | intros fs _].
  eapply frames_bind; [apply colours_frames | intros cs _].
  apply frames_for_each. intros face_fc. apply qpoly_at_frames.
Qed.

Lemma cylinder_at_frames n a cx cy zb zt r k fc ec al zo :
  frames n a (fun _ => True) (cylinder_at a cx cy zb zt r k fc ec al zo).
Proof.
  unfold cylinder_at.
  eapply frames_bind; [apply frames_lift | intros th _].
  eapply frames_bind.
  - apply frames_for_each. intros i.
    eapply frames_bind; [apply frames_new | intros face _].
    apply qpoly_at_frames.
  - intros _ _.
    eapply frames_bind; [apply frames_new | intros cap _].
    apply qpoly_at_frames.
Qed.

Lemma frames_untouched {A : Type} (a : ref) (Q : A -> Prop) (m : action A)
    (h : heap) :
  frames (List.length h) a Q m -> untouched a h (snd (m h)).
Proof.
  intros Hm. destruct (Hm h (le_n _)) as (Hlen & Hold & _).
  split; assumption.
Qed.

(** ** The helpers on the heap draw what the helpers draw *)

Lemma ensures_bind {A B : Type} (m : action A) (k : A -> action B)
    (h : heap) (Q : B -> heap -> Prop) :
  ensures m h (fun x h' => ensures (k x) h' Q) ->
  ensures (and_then m k) h Q.
Proof.
  unfold ensures, and_then. destruct (m h) as [[x | ] h1]; auto.
Qed.

Lemma ensures_mono {A : Type} (m : action A) (h : heap)
    (Q Q' : A -> heap -> Prop) :
  ensures m h Q -> (forall x h', Q x h' -> Q' x h') -> ensures m h Q'.
Proof.
  unfold ensures. destruct (m h) as [[x | ] h1]; auto.
Qed.

Lemma ensures_eq {A : Type} (m : action A) (h h' : heap) (x : A)
    (Q : A -> heap -> Prop) :
  m h = (Returned x, h') -> Q x h' -> ensures m h Q.
Proof.
  intros E HQ. unfold ensures. rewrite E. exact HQ.
Qed.

Lemma untouched_refl a h : untouched a h h.
Proof. split; auto. Qed.

Lemma untouched_trans a h1 h2 h3 :
  untouched a h1 h2 -> untouched a h2 h3 -> untouched a h1 h3.
Proof.
  intros (L1 & O1) (L2 & O2). split; [lia | ].
  intros l Hl Hla. rewrite O2 by (try lia; assumption). apply O1; assumption.
Qed.

Lemma untouched_app a h t : untouched a h (h ++ t).
Proof.
  split; [rewrite length_app; lia | ].
  intros l Hl _. apply nth_error_app1. exact Hl.
Qed.

Lemma untouched_update a o h :
  (a < List.length h)%nat -> untouched a h (update a o h).
Proof.
  intros Ha. split; [rewrite update_length by assumption; lia | ].
  intros l _ Hla. apply nth_error_update_other; assumption.
Qed.

Lemma floats_eq l xs h :
  nth_error h l = Some (Floats xs) -> floats l h = (Returned xs, h).
Proof. intros E. unfold floats, and_then, get. rewrite E. reflexivity. Qed.

Lemma vertices_eq l v h :
  nth_error h l = Some (Vertices v) -> vertices l h = (Returned v, h).
Proof. intros E. unfold vertices, and_then, get. rewrite E. reflexivity. Qed.

Lemma colours_eq l cs h :
  nth_error h l = Some (Colours cs) -> colours l h = (Returned cs, h).
Proof. intros E. unfold colours, and_then, get. rewrite E. reflexivity. Qed.

Lemma all_some_app {A : Type} (l1 l2 : list (option A)) (r1 r2 : list A) :
  all_some l1 = Some r1 -> all_some l2 = Some r2 ->
  all_some (l1 ++ l2) = Some (r1 ++ r2).
Proof.
  revert r1. induction l1 as [ | x l1 IH]; intros r1 H1 H2; cbn in *.
  - injection H1 as <-. exact H2.
  - destruct x as [y | ]; cbn in *; [ | discriminate].
    destruct (all_some l1) as [ys | ] eqn:E; cbn in *; [ | discriminate].
    injection H1 as <-. rewrite (IH ys eq_refl H2). reflexivity.
Qed.

(** The children of an axes that shows something are artists: they are
    in the heap, and none of them is the axes. *)
Lemma all_some_children (h : heap) (a : ref) (cs : list ref) (ar : axes) :
  (exists x, nth_error h a = Some (Axes x)) ->
  all_some (map (fun c => o <- nth_error h c ;; artist_of o) cs) = Some ar ->
  Forall (fun c => (c < List.length h)%nat /\ c <> a) cs.
Proof.
  intros (x & Ha). revert ar. induction cs as [ | c cs IH]; intros ar H.
  - constructor.
  - cbn in H. destruct (nth_error h c) as [o | ] eqn:Ec; cbn in H; [ | discriminate].
    destruct (artist_of o) as [y | ] eqn:Eo; cbn in H; [ | discriminate].
    destruct (all_some _) as [ys | ] eqn:E; cbn in H; [ | discriminate].
    constructor; [ | apply (IH ys eq_refl)].
    split.
    + apply nth_error_Some. rewrite Ec. discriminate.
    + intros ->. rewrite Ha in Ec. injection Ec as <-. discriminate.
Qed.

Lemma view_add (h h' : heap) (a c : ref) (cs : list ref) (ar : axes)
    (x : artist) :
  nth_error h a = Some (Axes cs) ->
  view h a = Some ar ->
  untouched a h h' ->
  nth_error h' a = Some (Axes (cs ++ [c])) ->
  (o <- nth_error h' c ;; artist_of o) = Some x ->
  view h' a = Some (ar ++ [x]).
Proof.
  intros Ha Hv (Hlen & Hold) Ha' Hc. unfold view in *. rewrite Ha in Hv. rewrite Ha'.
  rewrite map_app. apply all_some_app.
  - etransitivity; [ | exact Hv]. f_equal. apply map_ext_in. intros k Hk.
    pose proof (all_some_children h a cs ar (ex_intro _ cs Ha) Hv) as HF.
    rewrite Forall_forall in HF. destruct (HF k Hk) as (H1 & H2).
    rewrite Hold by assumption. reflexivity.
  - cbn [map all_some]. rewrite Hc. reflexivity.
Qed.

Lemma view_kept (h h' : heap) (a : ref) (ar : axes) :
  view h a = Some ar ->
  untouched a h h' ->
  nth_error h' a = nth_error h a ->
  view h' a = Some ar.
Proof.
  intros Hv (Hlen & Hold) Ha'. unfold view in *. rewrite Ha'.
  destruct (nth_error h a) as [[ | | | | | cs] | ] eqn:Ha; try discriminate.
  etransitivity; [ | exact Hv]. f_equal. apply map_ext_in. intros k Hk.
  pose proof (all_some_children h a cs ar (ex_intro _ cs Ha) Hv) as HF.
  rewrite Forall_forall in HF. destruct (HF k Hk) as (H1 & H2).
  rewrite Hold by assumption. reflexivity.
Qed.

Lemma view_axes (h : heap) (a : ref) (ar : axes) :
  view h a = Some ar -> exists cs, nth_error h a = Some (Axes cs).
Proof.
  unfold view. destruct (nth_error h a) as [[ | | | | | cs] | ]; try discriminate.
  intros _. exists cs. reflexivity.
Qed.

Lemma lookup_lt (h : heap) (l : ref) (o : object) :
  nth_error h l = Some o -> (l < List.length h)%nat.
Proof. intros E. apply nth_error_Some. rewrite E. discriminate. Qed.

(** Adding the object just made to the axes. *)
Lemma add_last (h : heap) (a : ref) (cs : list ref) (o : object) :
  nth_error h a = Some (Axes cs) ->
  add_child a (List.length h) (h ++ [o])
  = (Returned tt, update a (Axes (cs ++ [List.length h])) (h ++ [o])).
Proof.
  intros Ha. pose proof (lookup_lt _ _ _ Ha) as Hlt.
  unfold add_child, and_then, get.
  rewrite nth_error_app1 by assumption. rewrite Ha.
  unfold put. rewrite length_app. cbn [List.length].
  destruct (Nat.ltb_spec a (List.length h + 1)); [reflexivity | lia].
Qed.

Lemma view_add_last (h : heap) (a : ref) (cs : list ref) (ar : axes)
    (o : object) (x : artist) :
  nth_error h a = Some (Axes cs) ->
  view h a = Some ar ->
  artist_of o = Some x ->
  let h' := update a (Axes (cs ++ [List.length h])) (h ++ [o]) in
  view h' a = Some (ar ++ [x]) /\ untouched a h h'.
Proof.
  intros Ha Hv Ho h'. pose proof (lookup_lt _ _ _ Ha) as Hlt.
  assert (Hlt' : (a < List.length (h ++ [o]))%nat)
    by (rewrite length_app; cbn; lia).
  assert (Hu : untouched a h h').
  { eapply untouched_trans; [apply untouched_app | ].
    apply untouched_update. exact Hlt'. }
  split; [ | exact Hu].
  eapply view_add; try eassumption.
  - apply nth_error_update_same. exact Hlt'.
  - unfold h'. rewrite nth_error_update_other by (try assumption; lia).
    rewrite nth_error_last. cbn [bind]. exact Ho.
Qed.

Lemma ax_plot_draws (h : heap) (a px py pz : ref) (xs ys zs : list R)
    (ar : axes) c lw al zo :
  view h a = Some ar ->
  nth_error h px = Some (Floats xs) ->
  nth_error h py = Some (Floats ys) ->
  nth_error h pz = Some (Floats zs) ->
  ensures (ax_plot a px py pz c lw al zo) h
    (fun _ h' => view h' a = Some (plot ar xs ys zs c lw al zo)
                 /\ untouched a h h').
Proof.
  intros Hv Hx Hy Hz. destruct (view_axes _ _ _ Hv) as (cs & Ha).
  eapply ensures_eq.
  - unfold ax_plot, and_then. rewrite (floats_eq _ _ _ Hx), (floats_eq _ _ _ Hy),
      (floats_eq _ _ _ Hz). unfold new. apply add_last. exact Ha.
  - apply view_add_last; try assumption. reflexivity.
Qed.

Lemma untouched_lookup a h h' l o :
  untouched a h h' -> nth_error h l = Some o -> l <> a ->
  nth_error h' l = Some o.
Proof.
  intros (_ & Hold) E Hla. rewrite Hold; [exact E | | exact Hla].
  eapply lookup_lt. exact E.
Qed.

Lemma not_the_axes (h : heap) (a l : ref) (ar : axes) (o : object) :
  view h a = Some ar -> nth_error h l = Some o ->
  (forall cs, o <> Axes cs) -> l <> a.
Proof.
  intros Hv E Ho ->. destruct (view_axes _ _ _ Hv) as (cs & Ha).
  rewrite Ha in E. injection E as <-. apply (Ho cs). reflexivity.
Qed.

Lemma tube_body_draws (h : heap) (a px py pz : ref) (xs ys zs : list R)
    (ar : axes) c lw hc al zo (k : R) :
  view h a = Some ar ->
  nth_error h px = Some (Floats xs) ->
  nth_error h py = Some (Floats ys) ->
  nth_error h pz = Some (Floats zs) ->
  ensures (ax_plot a px py pz c lw al zo ;;;
           if truthy hc
           then ax_plot a px py pz (the hc) (lw * k) 0.35 (zo + 1)
           else ret tt) h
    (fun _ h' =>
       view h' a = Some (let a1 := plot ar xs ys zs c lw al zo in
                         if truthy hc
                         then plot a1 xs ys zs (the hc) (lw * k) 0.35 (zo + 1)
                         else a1)
       /\ untouched a h h').
Proof.
  intros Hv Hx Hy Hz.
  assert (Hpx : px <> a) by (eapply not_the_axes; eauto; discriminate).
  assert (Hpy : py <> a) by (eapply not_the_axes; eauto; discriminate).
  assert (Hpz : pz <> a) by (eapply not_the_axes; eauto; discriminate).
  apply ensures_bind.
  eapply ensures_mono; [apply ax_plot_draws; eassumption | ].
  intros _ h1 (Hv1 & Hu1). cbv zeta.
  destruct (truthy hc).
  - eapply ensures_mono.
    + apply ax_plot_draws; [exact Hv1 | eapply untouched_lookup; eassumption .. ].
    + intros _ h2 (Hv2 & Hu2). split; [exact Hv2 | ].
      eapply untouched_trans; eassumption.
  - unfold ensures, ret. split; assumption.
Qed.

Lemma draw_tube_at_draws (h : heap) (ax px py pz : ref) (xs ys zs : list R)
    (ar : axes) color lw hi_color alpha zo :
  view h ax = Some ar ->
  nth_error h px = Some (Floats xs) ->
  nth_error h py = Some (Floats ys) ->
  nth_error h pz = Some (Floats zs) ->
  ensures (draw_tube_at ax px py pz color lw hi_color alpha zo) h
    (fun _ h' =>
       view h' ax = Some (draw_tube ar xs ys zs color lw hi_color alpha zo)
       /\ untouched ax h h').
Proof. intros. apply tube_body_draws; assumption. Qed.

Lemma tube_at_draws (h : heap) (a px py pz : ref) (xs ys zs : list R)
    (ar : axes) c lw hc al zo :
  view h a = Some ar ->
  nth_error h px = Some (Floats xs) ->
  nth_error h py = Some (Floats ys) ->
  nth_error h pz = Some (Floats zs) ->
  ensures (tube_at a px py pz c lw hc al zo) h
    (fun _ h' => view h' a = Some (tube ar xs ys zs c lw hc al zo)
                 /\ untouched a h h').
Proof. intros. apply tube_body_draws; assumption. Qed.

(** The constructor and the three setters leave one finished collection
    at the end of the heap. *)
Lemma painted (h : heap) (v : ref) (vs : list vertex) fc ec al lw zo
    (k : ref -> action unit) :
  nth_error h v = Some (Vertices vs) -> vs <> [] ->
  (p <~ new_collection v al zo ;;
   set_facecolor p fc ;;;
   set_edgecolor p ec ;;;
   set_linewidth p lw ;;;
   k p) h
  = k (List.length h)
      (h ++ [Collection vs al zo (Some fc) (Some ec) (Some lw)]).
Proof.
  intros Hv Hne.
  unfold and_then at 1. unfold new_collection, and_then at 1.
  rewrite (vertices_eq _ _ _ Hv).
  destruct vs as [ | v0 vs']; [contradiction Hne; reflexivity | ].
  unfold new.
  unfold and_then at 1. unfold set_facecolor, and_then at 1, get.
  rewrite nth_error_last. unfold put. rewrite length_app. cbn [List.length].
  replace (List.length h <? List.length h + 1)%nat with true
    by (symmetry; apply Nat.ltb_lt; lia).
  rewrite update_last.
  unfold and_then at 1. unfold set_edgecolor, and_then at 1, get.
  rewrite nth_error_last. unfold put. rewrite length_app. cbn [List.length].
  replace (List.length h <? List.length h + 1)%nat with true
    by (symmetry; apply Nat.ltb_lt; lia).
  rewrite update_last.
  unfold and_then at 1. unfold set_linewidth, and_then at 1, get.
  rewrite nth_error_last. unfold put. rewrite length_app. cbn [List.length].
  replace (List.length h <? List.length h + 1)%nat with true
    by (symmetry; apply Nat.ltb_lt; lia).
  rewrite update_last.
  reflexivity.
Qed.

(** With no vertex the constructor raises, and nothing has changed. *)
Lemma unpainted (h : heap) (v : ref) fc ec al lw zo
    (k : ref -> action unit) :
  nth_error h v = Some (Vertices []) ->
  (p <~ new_collection v al zo ;;
   set_facecolor p fc ;;;
   set_edgecolor p ec ;;;
   set_linewidth p lw ;;;
   k p) h
  = (Raises, h).
Proof.
  intros Hv. unfold and_then at 1. unfold new_collection, and_then at 1.
  rewrite (vertices_eq _ _ _ Hv). reflexivity.
Qed.

Lemma add_collection3d_last (h : heap) (a : ref) (cs : list ref)
    vs al zo fc ec lw :
  nth_error h a = Some (Axes cs) ->
  add_collection3d a (List.length h) (h ++ [Collection vs al zo fc ec lw])
  = (Returned tt,
     update a (Axes (cs ++ [List.length h]))
            (h ++ [Collection vs al zo fc ec lw])).
Proof.
  intros Ha. unfold add_collection3d, and_then at 1, get.
  rewrite nth_error_last. apply add_last. exact Ha.
Qed.

Lemma paint_and_add_draws (h : heap) (a v : ref) (vs : list vertex)
    (ar : axes) fc ec al lw zo :
  view h a = Some ar ->
  nth_error h v = Some (Vertices vs) -> vs <> [] ->
  ensures (p <~ new_collection v al zo ;;
           set_facecolor p fc ;;;
           set_edgecolor p ec ;;;
           set_linewidth p lw ;;;
           add_collection3d a p) h
    (fun _ h' =>
       view h' a = Some (ar ++ [Poly3DCollection vs fc ec al lw zo])
       /\ untouched a h h').
Proof.
  intros Hv Hvs Hne. destruct (view_axes _ _ _ Hv) as (cs & Ha).
  eapply ensures_eq.
  - rewrite (painted h v vs) by assumption.
    apply add_collection3d_last. exact Ha.
  - apply view_add_last; try assumption. reflexivity.
Qed.

Lemma qpoly_at_draws (h : heap) (a v : ref) (vs : list vertex)
    (ar ar' : axes) fc ec al lw zo :
  view h a = Some ar ->
  nth_error h v = Some (Vertices vs) ->
  qpoly ar vs fc ec al lw zo = Some ar' ->
  ensures (qpoly_at a v fc ec al lw zo) h
    (fun _ h' => view h' a = Some ar' /\ untouched a h h').
Proof.
  intros Hv Hvs Hq. destruct vs as [ | v0 vs']; [discriminate Hq | ].
  cbn in Hq. injection Hq as <-.
  apply paint_and_add_draws; [assumption .. | discriminate].
Qed.

Lemma qpoly_at_raises (h : heap) (a v : ref) fc ec al lw zo :
  nth_error h v = Some (Vertices []) ->
  qpoly_at a v fc ec al lw zo h = (Raises, h).
Proof. intros Hv. apply unpainted. exact Hv. Qed.

Lemma new_each_eq (os : list object) (h : heap) :
  new_each os h = (Returned (seq (List.length h) (List.length os)), h ++ os).
Proof.
  revert h. induction os as [ | o os IH]; intros h; cbn [new_each].
  - unfold ret. rewrite app_nil_r. reflexivity.
  - unfold and_then at 1. unfold new. unfold and_then at 1. rewrite IH.
    unfold ret. rewrite length_app. cbn [List.length seq].
    rewrite <- app_assoc. cbn [app]. repeat f_equal. lia.
Qed.

(** The loop of [draw_box] and, through [qpoly], of [box3d]: one finished
    collection for each pair of a face and a colour. *)
Lemma zip_loop_draws (a : ref) ec al lw zo (cols : list colour) :
  forall (refs : list ref) (fs : list (list vertex)) (h : heap) (ar : axes),
  Forall2 (fun r f => nth_error h r = Some (Vertices f) /\ f <> []) refs fs ->
  view h a = Some ar ->
  ensures (for_each (combine refs cols)
             (fun face_fc =>
                p <~ new_collection (fst face_fc) al zo ;;
                set_facecolor p (snd face_fc) ;;;
                set_edgecolor p ec ;;;
                set_linewidth p lw ;;;
                add_collection3d a p)) h
    (fun _ h' =>
       view h' a
       = Some (ar ++ map (fun fc => Poly3DCollection (fst fc) (snd fc) ec al lw zo)
                         (combine fs cols))
       /\ untouched a h h').
Proof.
  induction cols as [ | c cols IH]; intros refs fs h ar HF Hv.
  - destruct HF; cbn [combine for_each map].
    + rewrite app_nil_r. split; [exact Hv | apply untouched_refl].
    + unfold ensures, ret. rewrite app_nil_r. split; [exact Hv | apply untouched_refl].
  - destruct HF as [ | r f refs fs (Hr & Hf) HF]; cbn [combine for_each map].
    + unfold ensures, ret. rewrite app_nil_r. split; [exact Hv | apply untouched_refl].
    + apply ensures_bind. cbn [fst snd].
      eapply ensures_mono; [apply paint_and_add_draws; eassumption | ].
      intros _ h1 (Hv1 & Hu1).
      eapply ensures_mono.
      * eapply (IH refs fs h1); [ | exact Hv1].
        eapply Forall2_impl; [ | exact HF].
        intros r' f' (Hr' & Hf'). split; [ | exact Hf'].
        eapply untouched_lookup; [exact Hu1 | exact Hr' | ].
        eapply not_the_axes; [exact Hv | exact Hr' | discriminate].
      * intros _ h2 (Hv2 & Hu2). split.
        -- rewrite Hv2, <- app_assoc. reflexivity.
        -- eapply untouched_trans; eassumption.
Qed.

(** Polygons just made, and the references to them. *)
Lemma polygons_made (fs : list (list vertex)) :
  forall h : heap,
  Forall (fun f => f <> []) fs ->
  Forall2 (fun r f =>
             nth_error (h ++ map Vertices fs) r = Some (Vertices f) /\ f <> [])
          (seq (List.length h) (List.length fs)) fs.
Proof.
  induction fs as [ | f fs IH]; intros h HF; cbn [map List.length seq].
  - constructor.
  - inversion HF as [ | ? ? Hf HF']; subst. constructor.
    + split; [ | exact Hf].
      rewrite nth_error_app2 by lia. rewrite Nat.sub_diag. reflexivity.
    + specialize (IH (h ++ [Vertices f]) HF').
      rewrite length_app, Nat.add_1_r in IH. cbn [List.length] in IH.
      rewrite <- app_assoc in IH. exact IH.
Qed.

Lemma box_faces_full (cx cy cz hw hd hh : R) :
  Forall (fun f : list vertex => f <> []) (box_faces cx cy cz hw hd hh).
Proof. unfold box_faces. repeat constructor; discriminate. Qed.

Lemma box_loop_draws (h : heap) (a cols : ref) (cs : list colour)
    (ar : axes) cx cy cz hw hd hh ec al lw zo :
  view h a = Some ar ->
  nth_error h cols = Some (Colours cs) ->
  ensures (fs <~ new_each (map Vertices (box_faces cx cy cz hw hd hh)) ;;
           cs <~ colours cols ;;
           for_each (combine fs cs)
             (fun face_fc =>
                p <~ new_collection (fst face_fc) al zo ;;
                set_facecolor p (snd face_fc) ;;;
                set_edgecolor p ec ;;;
                set_linewidth p lw ;;;
                add_collection3d a p)) h
    (fun _ h' =>
       view h' a = Some (ar ++ box_polys lw cx cy cz hw hd hh cs ec al zo)
       /\ untouched a h h').
Proof.
  intros Hv Hc.
  set (h1 := h ++ map Vertices (box_faces cx cy cz hw hd hh)).
  assert (Hu1 : untouched a h h1) by apply untouched_app.
  assert (Hv1 : view h1 a = Some ar).
  { eapply view_kept; [exact Hv | exact Hu1 | ].
    apply nth_error_app1. destruct (view_axes _ _ _ Hv) as (x & Hx).
    eapply lookup_lt. exact Hx. }
  assert (Hc1 : nth_error h1 cols = Some (Colours cs)).
  { unfold h1. rewrite nth_error_app1; [exact Hc | eapply lookup_lt; exact Hc]. }
  unfold ensures. unfold and_then at 1. rewrite new_each_eq. fold h1.
  unfold and_then at 1. rewrite (colours_eq _ _ _ Hc1).
  pose proof (zip_loop_draws a ec al lw zo cs _ _ h1 ar
                (polygons_made _ h (box_faces_full cx cy cz hw hd hh)) Hv1) as HL.
  unfold ensures in HL. rewrite length_map.
  destruct (for_each _ _ h1) as [[[] | ] h2]; [ | exact HL].
  destruct HL as (Hv2 & Hu2). split; [exact Hv2 | ].
  eapply untouched_trans; eassumption.
Qed.

Lemma draw_box_at_draws (h : heap) (ax colors : ref) (cs : list colour)
    (ar : axes) cx cy cz hw hd hh ec alpha zo :
  view h ax = Some ar ->
  nth_error h colors = Some (Colours cs) ->
  ensures (draw_box_at ax cx cy cz hw hd hh colors ec alpha zo) h
    (fun _ h' =>
       view h' ax = Some (draw_box ar cx cy cz hw hd hh cs ec alpha zo)
       /\ untouched ax h h').
Proof.
  intros Hv Hc. rewrite draw_box_adds.
  apply box_loop_draws; assumption.
Qed.

Lemma box3d_at_draws (h : heap) (a cols : ref) (cs : list colour)
    (ar : axes) cx cy cz hw hd hh ec al zo :
  view h a = Some ar ->
  nth_error h cols = Some (Colours cs) ->
  ensures (box3d_at a cx cy cz hw hd hh cols ec al zo) h
    (fun _ h' =>
       view h' a = box3d ar cx cy cz hw hd hh cs ec al zo
       /\ untouched a h h').
Proof.
  intros Hv Hc. rewrite box3d_adds.
  apply box_loop_draws; assumption.
Qed.

(** The loop of [cylinder]: each turn makes a face and hands it to
    [qpoly]. *)
Lemma cylinder_loop_draws (a : ref) cx cy zb zt r th fc ec al zo :
  forall (l : list nat) (h : heap) (ar : axes),
  view h a = Some ar ->
  ensures (for_each l
             (fun i =>
                face <~ new (Vertices (cylinder_face cx cy zb zt r th i)) ;;
                qpoly_at a face fc ec al 0.5 zo)) h
    (fun _ h' =>
       view h' a
       = Some (ar ++ map (fun i => Poly3DCollection
                                     (cylinder_face cx cy zb zt r th i)
                                     fc ec al 0.5 zo) l)
       /\ untouched a h h').
Proof.
  induction l as [ | i l IH]; intros h ar Hv; cbn [for_each map].
  - unfold ensures, ret. rewrite app_nil_r. split; [exact Hv | apply untouched_refl].
  - apply ensures_bind. apply ensures_bind.
    unfold ensures at 1. unfold new.
    set (h1 := h ++ [Vertices (cylinder_face cx cy zb zt r th i)]).
    assert (Hu1 : untouched a h h1) by apply untouched_app.
    assert (Hv1 : view h1 a = Some ar).
    { eapply view_kept; [exact Hv | exact Hu1 | ].
      apply nth_error_app1. destruct (view_axes _ _ _ Hv) as (x & Hx).
      eapply lookup_lt. exact Hx. }
    eapply ensures_mono.
    + apply (paint_and_add_draws h1 a (List.length h)
               (cylinder_face cx cy zb zt r th i) ar);
        [exact Hv1 | apply nth_error_last | discriminate].
    + intros _ h2 (Hv2 & Hu2).
      eapply ensures_mono; [apply (IH h2 _ Hv2) | ].
      intros _ h3 (Hv3 & Hu3). split.
      * rewrite Hv3, <- app_assoc. reflexivity.
      * eapply untouched_trans; [exact Hu1 | ].
        eapply untouched_trans; eassumption.
Qed.

Lemma cylinder_at_draws (h : heap) (a : ref) (ar : axes)
    cx cy zb zt r n fc ec al zo :
  view h a = Some ar ->
  (0 <= n)%Z ->
  ensures (cylinder_at a cx cy zb zt r n fc ec al zo) h
    (fun _ h' =>
       view h' a = cylinder ar cx cy zb zt r n fc ec al zo
       /\ untouched a h h').
Proof.
  intros Hv Hn.
  destruct (np.linspace 0 (2 * PI) (n + 1)) as [th | ] eqn:Hth.
  2:{ unfold np.linspace in Hth.
      destruct (Z.ltb_spec (n + 1) 0); [lia | ].
      destruct (Z.to_nat (n + 1)) as [ | [ | ]]; discriminate. }
  assert (Hne : th <> []).
  { intros ->. unfold np.linspace in Hth.
    destruct (Z.ltb_spec (n + 1) 0); [lia | ].
    destruct (Z.to_nat (n + 1)) as [ | [ | m]] eqn:E; [lia | discriminate | ].
    apply (f_equal (fun o => match o with
                             | Some l => List.length l
                             | None => 0%nat
                             end)) in Hth.
    cbv zeta in Hth. rewrite length_app in Hth. cbn in Hth. lia. }
  rewrite (cylinder_adds _ _ _ _ _ _ _ _ _ _ _ th Hth Hne).
  unfold cylinder_at. rewrite Hth. cbn [lift].
  apply ensures_bind. unfold ensures at 1, ret.
  apply ensures_bind.
  eapply ensures_mono; [apply cylinder_loop_draws; exact Hv | ].
  intros _ h1 (Hv1 & Hu1).
  apply ensures_bind. unfold ensures at 1. unfold new.
  set (h2 := h1 ++ [Vertices (cylinder_cap cx cy zt r th)]).
  assert (Hu2 : untouched a h1 h2) by apply untouched_app.
  assert (Hv2 : view h2 a = Some (ar ++ map (fun i => Poly3DCollection
                                     (cylinder_face cx cy zb zt r th i)
                                     fc ec al 0.5 zo) (range n))).
  { eapply view_kept; [exact Hv1 | exact Hu2 | ].
    apply nth_error_app1. destruct (view_axes _ _ _ Hv1) as (x & Hx).
    eapply lookup_lt. exact Hx. }
  eapply ensures_mono.
  - apply (paint_and_add_draws h2 a (List.length h1)
             (cylinder_cap cx cy zt r th));
      [exact Hv2 | apply nth_error_last | ].
    unfold cylinder_cap. destruct th; [contradiction Hne; reflexivity | discriminate].
  - intros _ h3 (Hv3 & Hu3). split.
    + rewrite Hv3. unfold cylinder_sides. rewrite map_map, <- app_assoc.
      reflexivity.
    + eapply untouched_trans; [exact Hu1 | ].
      eapply untouched_trans; eassumption.
Qed.

(** With fewer than zero sides [cylinder] raises: below [-1] out of
    [np.linspace], before anything is made; at [-1] out of the
    constructor, on the empty cap, which is the one object made. *)
Lemma cylinder_at_raises_early (h : heap) (a : ref) cx cy zb zt r n fc ec al zo :
  (n <= -2)%Z ->
  cylinder_at a cx cy zb zt r n fc ec al zo h = (Raises, h).
Proof.
  intros Hn. unfold cylinder_at, and_then at 1, np.linspace.
  destruct (Z.ltb_spec (n + 1) 0); [reflexivity | lia].
Qed.

Lemma cylinder_at_raises_on_cap (h : heap) (a : ref) cx cy zb zt r fc ec al zo :
  cylinder_at a cx cy zb zt r (-1) fc ec al zo h
  = (Raises, h ++ [Vertices []]).
Proof.
  assert (E : np.linspace 0 (2 * PI) (-1 + 1) = Some []) by reflexivity.
  unfold cylinder_at. rewrite E. cbn [lift].
  change (range (-1)) with (@nil nat). cbn [for_each].
  unfold cylinder_cap. cbn [map].
  unfold and_then at 1. unfold ret at 1.
  unfold and_then at 1. unfold ret at 1.
  unfold and_then at 1. unfold new.
  apply qpoly_at_raises. apply nth_error_last.
Qed.

(** ** Arrays are written where they are made *)

Lemma functions_keep_ok (p : list py) :
  functions_keep_b p = true ->
  forall f args body, In (f, args, body) (functions p) ->
    changes_its_locals_only args body
    /\ calls_methods_of_the_first args body
    /\ functions body = [].
Proof.
  intros H f args body Hin. unfold functions_keep_b in H.
  rewrite forallb_forall in H. specialize (H _ Hin). cbn [fst snd] in H.
  apply andb_true_iff in H. destruct H as (H & H3).
  apply andb_true_iff in H. destruct H as (H1 & H2).
  split; [ | split].
  - apply changes_its_locals_only_ok. exact H1.
  - apply calls_methods_of_the_first_ok. exact H2.
  - destruct (functions body); [reflexivity | discriminate H3].
Qed.

Lemma far_receivers_ok (p : list py) :
  far_receivers_b p = true ->
  forall st path, In st (everywhere p) ->
    In path (far_receivers (value_of st)) -> path = fig_patches_append.
Proof.
  intros H st path Hst Hp. unfold far_receivers_b in H.
  rewrite forallb_forall in H. specialize (H _ Hst).
  rewrite forallb_forall in H. specialize (H _ Hp).
  destruct (list_eq_dec string_dec path fig_patches_append) as [E | ];
    [exact E | discriminate H].
Qed.

Lemma leaves_the_rest_of_frames (a : ref) (m : action unit) :
  (forall n, frames n a (fun _ => True) m) -> leaves_the_rest a m.
Proof. intros H h. eapply frames_untouched. apply H. Qed.

(** A body that writes into an array it was handed does not pass. *)
Example a_write_is_seen :
  ~ leaves_the_rest 0%nat (put 1%nat (Floats [])).
Proof.
  intros H. destruct (H [Axes []; Floats [1]]) as (_ & Hold).
  specialize (Hold 1%nat ltac:(cbn; lia) ltac:(discriminate)).
  cbn in Hold. discriminate Hold.
Qed.

(** C7.  Arrays are changed only where they are made, and the drawing
    helpers leave the arrays they are handed as they are.

    Of the statements of the five scripts, every one of them, in the
    module and in the functions.  A statement that changes the object of a
    name in place (an augmented assignment, a store into an element, a
    slice or an attribute, a call of a mutating method of [list] or
    [ndarray]) stands after a binding of that name, and every binding of
    the name in the module makes a new object and stands in the same
    section as the change; so that an array, which reaches a later section
    only under a name bound in an earlier one, is only read there.  In
    fact no statement stores into an element, a slice or an attribute; the
    mutating calls on anything but a bare name are the two
    [fig.patches.append] of each script; and the changes through a name
    are [pat /= pat.max()], [ax_cov.fill(...)] on an axes, and the ten
    [pts.append] inside [rect_loop_pts].  Inside a function a change in
    place is to a local that the function has made itself, never to a
    parameter; the only parameter a method is called on is the first, the
    axes; and no function defines another.

    Of the helpers on the heap.  Whatever the arguments, and whether the
    call returns or raises, [draw_tube], [tube], [qpoly] (and [poly]),
    [draw_box], [box3d] and [cylinder] leave every object that was there
    before the call as it was, the axes apart.  With an axes and arrays
    for arguments, [draw_tube] and [tube] return, the axes then shows what
    the helper as a function gives, and the three arrays hold what they
    held; so do [draw_box] and [box3d] with their list of colours; and
    [qpoly] likewise for a polygon with a vertex, whereas on the empty
    polygon it raises and leaves the heap as it was. *)
Theorem arrays_are_only_read :
  (forall s p, In (s, p) sources ->
     changes_what_its_section_made s p
     /\ stores_nothing p
     /\ (forall st path,
           In st (everywhere p) ->
           In path (far_receivers (value_of st)) ->
           path = fig_patches_append)
     /\ (forall f args body, In (f, args, body) (functions p) ->
           changes_its_locals_only args body
           /\ calls_methods_of_the_first args body
           /\ functions body = []))
  /\ map (fun sp => in_place (snd sp)) sources
     = [ [];
         [(806, "ax_cov")];
         [(731, "pat"); (774, "ax_cov")];
         [];
         [(409, "pts"); (411, "pts"); (414, "pts"); (416, "pts");
          (419, "pts"); (421, "pts"); (424, "pts"); (426, "pts");
          (429, "pts"); (431, "pts")] ]%nat%string
  /\ (forall a px py pz color lw hi_color alpha zo,
        leaves_the_rest a (draw_tube_at a px py pz color lw hi_color alpha zo))
  /\ (forall a px py pz c lw hc al zo,
        leaves_the_rest a (tube_at a px py pz c lw hc al zo))
  /\ (forall a v fc ec al lw zo,
        leaves_the_rest a (qpoly_at a v fc ec al lw zo)
        /\ leaves_the_rest a (poly_at a v fc ec al lw zo))
  /\ (forall a cx cy cz hw hd hh colors ec alpha zo,
        leaves_the_rest a (draw_box_at a cx cy cz hw hd hh colors ec alpha zo)
        /\ leaves_the_rest a (box3d_at a cx cy cz hw hd hh colors ec alpha zo))
  /\ (forall a cx cy zb zt r n fc ec al zo,
        leaves_the_rest a (cylinder_at a cx cy zb zt r n fc ec al zo))
  /\ (forall h a ar px py pz xs ys zs,
        view h a = Some ar ->
        nth_error h px = Some (Floats xs) ->
        nth_error h py = Some (Floats ys) ->
        nth_error h pz = Some (Floats zs) ->
        forall c lw hc al zo,
          ensures (draw_tube_at a px py pz c lw hc al zo) h
            (fun _ h' =>
               view h' a = Some (draw_tube ar xs ys zs c lw hc al zo)
               /\ nth_error h' px = Some (Floats xs)
               /\ nth_error h' py = Some (Floats ys)
               /\ nth_error h' pz = Some (Floats zs))
          /\ ensures (tube_at a px py pz c lw hc al zo) h
               (fun _ h' =>
                  view h' a = Some (tube ar xs ys zs c lw hc al zo)
                  /\ nth_error h' px = Some (Floats xs)
                  /\ nth_error h' py = Some (Floats ys)
                  /\ nth_error h' pz = Some (Floats zs)))
  /\ (forall h a ar v vs,
        view h a = Some ar ->
        nth_error h v = Some (Vertices vs) ->
        forall fc ec al lw zo,
          match qpoly ar vs fc ec al lw zo with
          | Some ar' =>
              ensures (qpoly_at a v fc ec al lw zo) h
                (fun _ h' => view h' a = Some ar'
                             /\ nth_error h' v = Some (Vertices vs))
          | None => qpoly_at a v fc ec al lw zo h = (Raises, h)
          end)
  /\ (forall h a ar colors cs,
        view h a = Some ar ->
        nth_error h colors = Some (Colours cs) ->
        forall cx cy cz hw hd hh ec alpha zo,
          ensures (draw_box_at a cx cy cz hw hd hh colors ec alpha zo) h
            (fun _ h' =>
               view h' a = Some (draw_box ar cx cy cz hw hd hh cs ec alpha zo)
               /\ nth_error h' colors = Some (Colours cs))
          /\ ensures (box3d_at a cx cy cz hw hd hh colors ec alpha zo) h
               (fun _ h' =>
                  view h' a = box3d ar cx cy cz hw hd hh cs ec alpha zo
                  /\ nth_error h' colors = Some (Colours cs))).
Proof.
  split.
  { intros s p Hin.
    assert (H : changes_what_its_section_made_b s p = true
                /\ stores_nothing_b p = true
                /\ far_receivers_b p = true
                /\ functions_keep_b p = true).
    { unfold sources in Hin.
      repeat (destruct Hin as [[= <- <-] | Hin];
              [repeat split; vm_compute; reflexivity | ]).
      contradiction Hin. }
    destruct H as (H1 & H2 & H3 & H4).
    split; [apply changes_what_its_section_made_ok; exact H1 | ].
    split; [apply stores_nothing_ok; exact H2 | ].
    split; [apply far_receivers_ok; exact H3 | ].
    apply functions_keep_ok; exact H4. }
  split.
  { vm_compute. reflexivity. }
  split.
  { intros. apply leaves_the_rest_of_frames. intros n. apply draw_tube_at_frames. }
  split.
  { intros. apply leaves_the_rest_of_frames. intros n. apply tube_at_frames. }
  split.
  { intros. split; apply leaves_the_rest_of_frames; intros n;
      apply qpoly_at_frames. }
  split.
  { intros. split; apply leaves_the_rest_of_frames; intros n;
      [apply draw_box_at_frames | apply box3d_at_frames]. }
  split.
  { intros. apply leaves_the_rest_of_frames. intros k. apply cylinder_at_frames. }
  split.
  { intros h a ar px py pz xs ys zs Hv Hx Hy Hz c lw hc al zo.
    assert (Hpx : px <> a) by (eapply not_the_axes; eauto; discriminate).
    assert (Hpy : py <> a) by (eapply not_the_axes; eauto; discriminate).
    assert (Hpz : pz <> a) by (eapply not_the_axes; eauto; discriminate).
    split.
    - eapply ensures_mono; [apply draw_tube_at_draws; eassumption | ].
      intros _ h' (Hv' & Hu).
      split; [exact Hv' | ].
      split; [ | split]; eapply untouched_lookup; eassumption.
    - eapply ensures_mono; [apply tube_at_draws; eassumption | ].
      intros _ h' (Hv' & Hu).
      split; [exact Hv' | ].
      split; [ | split]; eapply untouched_lookup; eassumption. }
  split.
  { intros h a ar v vs Hv Hvs fc ec al lw zo.
    destruct (qpoly ar vs fc ec al lw zo) as [ar' | ] eqn:Hq.
    - eapply ensures_mono; [eapply qpoly_at_draws; eassumption | ].
      intros _ h' (Hv' & Hu). split; [exact Hv' | ].
      eapply untouched_lookup; [exact Hu | exact Hvs | ].
      eapply not_the_axes; [exact Hv | exact Hvs | discriminate].
    - apply qpoly_at_raises. destruct vs; [exact Hvs | discriminate Hq]. }
  intros h a ar colors cs Hv Hc cx cy cz hw hd hh ec alpha zo.
  assert (Hca : colors <> a) by (eapply not_the_axes; eauto; discriminate).
  split.
  - eapply ensures_mono; [apply draw_box_at_draws; eassumption | ].
    intros _ h' (Hv' & Hu). split; [exact Hv' | ].
    eapply untouched_lookup; eassumption.
  - eapply ensures_mono; [apply box3d_at_draws; eassumption | ].
    intros _ h' (Hv' & Hu). split; [exact Hv' | ].
    eapply untouched_lookup; eassumption.
Qed.

Lemma arrays_are_only_read_witness :
  changes_what_its_section_made gen_nvis_80_40m_car_roof.script
                                statements_of.gen_nvis_80_40m_car_roof
  /\ changes_its_locals_only
       ["lx"; "ly"; "rc"; "n_corner"]%string
       (match functions statements_of.gen_nvis_80_40m_optimized with
        | [_; _; _; _; (_, _, body)] => body
        | _ => []
        end)
  /\ ensures (tube_at 0%nat 1%nat 2%nat 3%nat "#b87333"%string 7 None 1 5)
             [Axes []; Floats [0; 1]; Floats [0; 0]; Floats [1; 1]]
             (fun _ h' =>
                view h' 0%nat
                = Some (tube [] [0; 1] [0; 0] [1; 1] "#b87333"%string 7 None 1 5)
                /\ nth_error h' 1%nat = Some (Floats [0; 1])
                /\ nth_error h' 2%nat = Some (Floats [0; 0])
                /\ nth_error h' 3%nat = Some (Floats [1; 1])).
Proof.
  destruct arrays_are_only_read
    as (Hs & _ & _ & _ & _ & _ & _ & Htube & _).
  split; [ | split].
  - apply (Hs gen_nvis_80_40m_car_roof.script
              statements_of.gen_nvis_80_40m_car_roof).
    cbn. auto.
  - destruct (Hs gen_nvis_80_40m_optimized.script
                 statements_of.gen_nvis_80_40m_optimized) as (_ & _ & _ & Hf).
    { cbn. auto 6. }
    refine (proj1 (Hf "rect_loop_pts"%string _ _ _)).
    vm_compute. auto 6.
  - apply (Htube [Axes []; Floats [0; 1]; Floats [0; 0]; Floats [1; 1]]
                 0%nat [] 1%nat 2%nat 3%nat [0; 1] [0; 0] [1; 1]);
      reflexivity.
Defined.

(** ** Running a program *)

(** Induction over statements that reaches into the blocks of a [try]. *)
Section StmtInduction.

Variable P : stmt -> Prop.
Hypothesis P_do : forall c, P (Do c).
Hypothesis P_try :
  forall body handler, Forall P body -> Forall P handler -> P (Try body handler).

Fixpoint stmt_induction (s : stmt) : P s :=
  match s with
  | Do c => P_do c
  | Try body handler =>
      let fix all (p : list stmt) : Forall P p :=
        match p with
        | [] => Forall_nil P
        | s' :: p' => Forall_cons s' (stmt_induction s') (all p')
        end in
      P_try body handler (all body) (all handler)
  end.

End StmtInduction.

(** The block inside [exec_stmt] is [exec]. *)
Lemma exec_stmt_try (fault : option nat) (body handler : list stmt)
    (st : process) :
  exec_stmt fault (Try body handler) st
  = match exec fault body st with
    | (Finished, st') => (Finished, st')
    | (Raised, st') => exec fault handler st'
    end.
Proof.
  simpl.
  assert (Hblock : forall p st0,
    (fix block (p : list stmt) (st : process) : status * process :=
       match p with
       | [] => (Finished, st)
       | s :: p' =>
           match exec_stmt fault s st with
           | (Finished, st') => block p' st'
           | (Raised, st') => (Raised, st')
           end
       end) p st0 = exec fault p st0).
  { induction p as [|s p IH]; intros st0; simpl; [reflexivity|].
    destruct (exec_stmt fault s st0) as [[|] st']; [apply IH | reflexivity]. }
  rewrite !Hblock.
  destruct (exec fault body st) as [[|] st']; [reflexivity | apply Hblock].
Qed.

(** Once a statement raises, nothing after it runs. *)
Lemma exec_app (fault : option nat) (p q : list stmt) (st : process) :
  exec fault (p ++ q) st
  = match exec fault p st with
    | (Finished, st') => exec fault q st'
    | (Raised, st') => (Raised, st')
    end.
Proof.
  revert st. induction p as [|s p IH]; intros st; simpl; [reflexivity|].
  destruct (exec_stmt fault s st) as [[|] st']; [apply IH | reflexivity].
Qed.

(** *** Programs that take no input *)

Lemma do_call_env (fault : option nat) (c : call) (e : environment)
    (st : process) :
  closed_stmt (Do c) = true ->
  do_call fault c (with_env e st) = moved_to e (do_call fault c st).
Proof.
  intros Hc. unfold do_call. simpl.
  destruct (match fault with
            | Some k => is_library c && Nat.eqb k (calls st)
            | None => false
            end); [reflexivity|].
  destruct c as [s | path d bbox | | text | src];
    try reflexivity; [|discriminate Hc].
  destruct (computes s); reflexivity.
Qed.

Lemma exec_env_from (fault : option nat) (p : list stmt) :
  Forall (fun s => closed_stmt s = true ->
                   forall e st,
                     exec_stmt fault s (with_env e st)
                     = moved_to e (exec_stmt fault s st)) p ->
  closed p = true ->
  forall e st,
    exec fault p (with_env e st) = moved_to e (exec fault p st).
Proof.
  induction 1 as [|s p Hs _ IH]; intros Hc e st; simpl; [reflexivity|].
  apply andb_prop in Hc. destruct Hc as [Hc1 Hc2].
  rewrite (Hs Hc1). unfold moved_to at 1.
  destruct (exec_stmt fault s st) as [[|] st']; simpl;
    [now apply IH | reflexivity].
Qed.

Lemma exec_stmt_env (fault : option nat) (s : stmt) :
  closed_stmt s = true ->
  forall e st,
    exec_stmt fault s (with_env e st) = moved_to e (exec_stmt fault s st).
Proof.
  induction s as [c | body handler Hb Hh] using stmt_induction;
    intros Hc e st.
  - now apply do_call_env.
  - simpl in Hc. apply andb_prop in Hc. destruct Hc as [Hc1 Hc2].
    rewrite !exec_stmt_try.
    rewrite (exec_env_from fault body Hb Hc1). unfold moved_to at 1.
    destruct (exec fault body st) as [[|] st']; simpl; [reflexivity|].
    now apply (exec_env_from fault handler Hh).
Qed.

(** A program that takes no input does the same in every environment. *)
Lemma exec_env (fault : option nat) (p : list stmt) (e : environment)
    (st : process) :
  closed p = true ->
  exec fault p (with_env e st) = moved_to e (exec fault p st).
Proof.
  intros Hc. apply exec_env_from; [|exact Hc].
  apply Forall_forall. intros s _. apply exec_stmt_env.
Qed.

(** The five scripts take no input. *)
Lemma scripts_closed (s : script) : In s scripts -> closed (program s) = true.
Proof. intros Hin. each_script Hin; reflexivity. Qed.

(** A program that reads its command line is not closed, and its runs
    differ with the command line. *)
Remark input_is_observed :
  closed [Do (Input Argv)] = false
  /\ events (snd (exec None [Do (Input Argv)] (start bare)))
     <> events (snd (exec None [Do (Input Argv)]
                          (start {| argv := ["--dpi"%string]; stdin := [];
                                    config_files := [] |}))).
Proof. split; [reflexivity | discriminate]. Qed.

(** C2.  Two runs of one of the five scripts compute the same coordinate
    arrays, write to the same path and print the same lines whatever the
    command line, the standard input and the configuration files are: no
    statement of the script takes input. *)
Theorem closed_to_input (s : script) (e1 e2 : environment) :
  In s scripts ->
  closed (program s) = true
  /\ observable (run e1 s) = observable (run e2 s)
  /\ files (events (snd (run e1 s))) = files (events (snd (run e2 s)))
  /\ console (events (snd (run e1 s))) = console (events (snd (run e2 s))).
Proof.
  intros Hin. pose proof (scripts_closed s Hin) as Hc.
  split; [exact Hc|].
  assert (H : run e2 s = moved_to e2 (run e1 s)).
  { unfold run. change (start e2) with (with_env e2 (start e1)).
    now apply exec_env. }
  rewrite H. unfold observable, moved_to. simpl. auto.
Qed.

(** The optimized poster run bare and run with arguments, piped input
    and a matplotlibrc. *)
Lemma closed_to_input_witness :
  In gen_nvis_80_40m_optimized.script scripts
  /\ observable (run bare gen_nvis_80_40m_optimized.script)
     = observable (run busy gen_nvis_80_40m_optimized.script).
Proof.
  split; [simpl; tauto|].
  apply (closed_to_input gen_nvis_80_40m_optimized.script bare busy).
  simpl; tauto.
Defined.

(** ** The runs of the five scripts *)

(** C1.  A complete run of any of the five scripts writes one file and no
    other, at the path bound to [out], and that path is the string written
    in the source. *)
Theorem one_image_file (s : script) (e : environment) :
  In s scripts ->
  exists st,
    run e s = (Finished, st)
    /\ files (events st) = [output s]
    /\ In (file s, output s)
         [ ("gen_nvis_20m_car_roof.py",
            "C:\Users\Jakkrit\.local\bin\NVIS_20m_Car_Roof_3D.jpg");
           ("gen_nvis_40m_car_roof.py",
            "C:\Users\Jakkrit\.local\bin\NVIS_40m_Car_Roof_3D.jpg");
           ("gen_nvis_80_40m_car_roof.py",
            "C:\Users\Jakkrit\.local\bin\NVIS_80_40m_Car_Roof_3D.jpg");
           ("gen_nvis_80_40_20m_triband.py",
            "C:\Users\Jakkrit\.local\bin\NVIS_80_40_20m_Triband_Sedan_3D.jpg");
           ("gen_nvis_80_40m_optimized.py",
            "C:\Users\Jakkrit\.local\bin\NVIS_80_40m_Optimized_Sedan_3D.jpg")
         ]%string.
Proof.
  intros Hin. each_script Hin;
    (eexists; split; [reflexivity | split; [reflexivity | simpl; tauto]]).
Qed.

Lemma one_image_file_witness :
  In gen_nvis_20m_car_roof.script scripts /\
  exists st,
    run bare gen_nvis_20m_car_roof.script = (Finished, st)
    /\ files (events st) = [gen_nvis_20m_car_roof.out].
Proof.
  split; [simpl; tauto|].
  destruct (one_image_file gen_nvis_20m_car_roof.script bare) as (st & H1 & H2 & _);
    [simpl; tauto|].
  exists st. split; [exact H1 | exact H2].
Defined.

(** C4.  In a complete run the file is written after every drawing
    section has finished: what comes before the save only touches memory,
    and after the save come the close of the figure and the two status
    lines, and nothing else. *)
Theorem save_comes_last (s : script) (e : environment) :
  In s scripts ->
  exists st line1 line2,
    run e s = (Finished, st)
    /\ events st = drawn s ++ [ Saved (output s) (dpi s) "tight"; Closed;
                                Printed line1; Printed line2 ]
    /\ forallb in_memory (drawn s) = true
    /\ files (drawn s) = [].
Proof.
  intros Hin. each_script Hin.
  - exists (snd (run e gen_nvis_20m_car_roof.script)),
      gen_nvis_20m_car_roof.saved_line, gen_nvis_20m_car_roof.size_line.
    repeat split; reflexivity.
  - exists (snd (run e gen_nvis_40m_car_roof.script)),
      gen_nvis_40m_car_roof.saved_line, gen_nvis_40m_car_roof.size_line.
    repeat split; reflexivity.
  - exists (snd (run e gen_nvis_80_40m_car_roof.script)),
      gen_nvis_80_40m_car_roof.saved_line, gen_nvis_80_40m_car_roof.size_line.
    repeat split; reflexivity.
  - exists (snd (run e gen_nvis_80_40_20m_triband.script)),
      gen_nvis_80_40_20m_triband.saved_line,
      gen_nvis_80_40_20m_triband.size_line.
    repeat split; reflexivity.
  - exists (snd (run e gen_nvis_80_40m_optimized.script)),
      gen_nvis_80_40m_optimized.saved_line,
      gen_nvis_80_40m_optimized.size_line.
    repeat split; reflexivity.
Qed.

Lemma save_comes_last_witness :
  In gen_nvis_40m_car_roof.script scripts /\
  exists st line1 line2,
    run bare gen_nvis_40m_car_roof.script = (Finished, st)
    /\ events st = drawn gen_nvis_40m_car_roof.script
                   ++ [ Saved gen_nvis_40m_car_roof.out 200 "tight";
                        Closed; Printed line1; Printed line2 ]
    /\ forallb in_memory (drawn gen_nvis_40m_car_roof.script) = true
    /\ files (drawn gen_nvis_40m_car_roof.script) = [].
Proof.
  split; [simpl; tauto|].
  apply (save_comes_last gen_nvis_40m_car_roof.script bare). simpl; tauto.
Defined.

(** C6.  A complete run prints two lines and no more: ["Saved: "]
    followed by the path of [out], then a ["Size: "] line that gives the
    canvas in pixels (inches times DPI) and in inches. *)
Theorem two_status_lines (s : script) (e : environment) :
  In s scripts ->
  exists st eq_sign inches,
    run e s = (Finished, st)
    /\ console (events st)
       = [ ("Saved: " ++ output s)%string; size_text s eq_sign inches ]
    /\ In (eq_sign, inches) wordings.
Proof.
  intros Hin. each_script Hin.
  - exists (snd (run e gen_nvis_20m_car_roof.script)), " = "%string,
      " inches @ "%string. repeat split; try reflexivity. simpl; tauto.
  - exists (snd (run e gen_nvis_40m_car_roof.script)), "  =  "%string,
      " in @ "%string. repeat split; try reflexivity. simpl; tauto.
  - exists (snd (run e gen_nvis_80_40m_car_roof.script)), " = "%string,
      " in @ "%string. repeat split; try reflexivity. simpl; tauto.
  - exists (snd (run e gen_nvis_80_40_20m_triband.script)), " = "%string,
      " in @ "%string. repeat split; try reflexivity. simpl; tauto.
  - exists (snd (run e gen_nvis_80_40m_optimized.script)), " = "%string,
      " in @ "%string. repeat split; try reflexivity. simpl; tauto.
Qed.

Lemma two_status_lines_witness :
  In gen_nvis_20m_car_roof.script scripts /\
  exists st eq_sign inches,
    run bare gen_nvis_20m_car_roof.script = (Finished, st)
    /\ console (events st)
       = [ ("Saved: " ++ gen_nvis_20m_car_roof.out)%string;
           size_text gen_nvis_20m_car_roof.script eq_sign inches ]
    /\ In (eq_sign, inches) wordings.
Proof.
  split; [simpl; tauto|].
  apply (two_status_lines gen_nvis_20m_car_roof.script bare). simpl; tauto.
Defined.

(** What the five scripts print, letter by letter. *)
Example consoles :
  map (fun s => console (events (snd (run bare s)))) scripts
  = [ [ "Saved: C:\Users\Jakkrit\.local\bin\NVIS_20m_Car_Roof_3D.jpg";
        "Size: 8400 x 5600 px = 42x28 inches @ 200 DPI" ];
      [ "Saved: C:\Users\Jakkrit\.local\bin\NVIS_40m_Car_Roof_3D.jpg";
        "Size: 8800 x 6000 px  =  44x30 in @ 200 DPI" ];
      [ "Saved: C:\Users\Jakkrit\.local\bin\NVIS_80_40m_Car_Roof_3D.jpg";
        "Size: 9600 x 6400 px = 48x32 in @ 200 DPI" ];
      [ "Saved: C:\Users\Jakkrit\.local\bin\NVIS_80_40_20m_Triband_Sedan_3D.jpg";
        "Size: 9600 x 6800 px = 48x34 in @ 200 DPI" ];
      [ "Saved: C:\Users\Jakkrit\.local\bin\NVIS_80_40m_Optimized_Sedan_3D.jpg";
        "Size: 9600 x 6800 px = 48x34 in @ 200 DPI" ] ]%string.
Proof. reflexivity. Qed.

(** ** Exceptions *)

Lemma files_app (l m : list event) : files (l ++ m) = files l ++ files m.
Proof. apply flat_map_app. Qed.

Lemma console_app (l m : list event) :
  console (l ++ m) = console l ++ console m.
Proof. apply flat_map_app. Qed.

Lemma drew_silent (secs : list section) :
  files (map (fun x => Drew (title x)) secs) = []
  /\ console (map (fun x => Drew (title x)) secs) = [].
Proof. induction secs as [|x secs [IH1 IH2]]; simpl; auto. Qed.

Lemma handler_free_draws (secs : list section) (tail : list stmt) :
  handler_free tail = true -> handler_free (draws secs ++ tail) = true.
Proof.
  intros Ht. unfold handler_free, draws.
  rewrite forallb_app. apply andb_true_intro. split; [|exact Ht].
  apply forallb_forall. intros s Hs. apply in_map_iff in Hs.
  destruct Hs as (x & <- & _). reflexivity.
Qed.

Lemma library_calls_draws (secs : list section) (tail : list stmt) :
  library_calls (draws secs ++ tail)
  = (List.length secs + library_calls tail)%nat.
Proof.
  unfold library_calls, draws. rewrite filter_app, length_app. f_equal.
  induction secs as [|x secs IH]; simpl; [reflexivity | now rewrite IH].
Qed.

(** Drawing sections that the fault does not fall in all finish. *)
Lemma exec_draws_finished (fault : option nat) (secs : list section) :
  Forall (fun x => computes x <> None) secs ->
  forall st,
    (forall k, fault = Some k ->
               (k < calls st \/ calls st + List.length secs <= k)%nat) ->
    exists st',
      exec fault (draws secs) st = (Finished, st')
      /\ calls st' = (calls st + List.length secs)%nat
      /\ events st' = events st ++ map (fun x => Drew (title x)) secs.
Proof.
  induction 1 as [|x secs Hx _ IH]; intros st Hk; simpl.
  - exists st. rewrite app_nil_r. repeat split; lia.
  - unfold do_call.
    assert (Hf : match fault with
                 | Some k => is_library (Draw x) && Nat.eqb k (calls st)
                 | None => false
                 end = false).
    { destruct fault as [k|]; [|reflexivity]. simpl.
      apply Nat.eqb_neq. specialize (Hk k eq_refl). simpl in Hk. lia. }
    rewrite Hf. destruct (computes x) as [arrays|]; [|contradiction].
    destruct (IH (emit (Drew (title x)) true arrays st)) as (st' & He & Hc & Hev).
    + intros k Hfk. specialize (Hk k Hfk). simpl in *. lia.
    + exists st'. split; [exact He|]. simpl in *. split; [lia|].
      rewrite Hev, <- app_assoc. reflexivity.
Qed.

(** A fault that falls in the drawing sections ends the run there. *)
Lemma exec_draws_raised (k : nat) (secs : list section) :
  Forall (fun x => computes x <> None) secs ->
  forall st,
    (calls st <= k < calls st + List.length secs)%nat ->
    exists st',
      exec (Some k) (draws secs) st = (Raised, st')
      /\ calls st' = k
      /\ events st'
         = events st ++ map (fun x => Drew (title x))
                            (firstn (k - calls st) secs).
Proof.
  induction 1 as [|x secs Hx _ IH]; intros st Hk; simpl in *; [lia|].
  unfold do_call. simpl. destruct (Nat.eqb_spec k (calls st)) as [->|Hne].
  - exists st. rewrite Nat.sub_diag. simpl. rewrite app_nil_r. auto.
  - destruct (computes x) as [arrays|]; [|contradiction].
    destruct (IH (emit (Drew (title x)) true arrays st)) as (st' & He & Hc & Hev);
      [simpl; lia|].
    exists st'. split; [exact He|]. split; [exact Hc|].
    rewrite Hev. simpl.
    replace (k - calls st)%nat with (S (k - S (calls st))) by lia.
    simpl. rewrite <- app_assoc. reflexivity.
Qed.

(** Exceptions in a script of the linear shape. *)
Lemma linear_exceptions (s : script) (e : environment) (k : nat) :
  linear s ->
  (k < library_calls (program s))%nat ->
  handler_free (program s) = true
  /\ exists st,
       run_with_fault k e s = (Raised, st)
       /\ calls st = k
       /\ console (events st) = []
       /\ ((S k < library_calls (program s))%nat -> files (events st) = [])
       /\ (S k = library_calls (program s) -> files (events st) = [output s]).
Proof.
  intros ((line1 & line2 & Hprog) & Hcomp) Hk.
  unfold run_with_fault. rewrite Hprog in *.
  set (secs := removelast (sections s)) in *.
  rewrite library_calls_draws in *.
  change (library_calls (save_block s line1 line2)) with 2%nat in *.
  split; [now apply handler_free_draws|].
  rewrite exec_app.
  destruct (Nat.lt_ge_cases k (List.length secs)) as [Hlt|Hge].
  - destruct (exec_draws_raised k secs Hcomp (start e)) as (st & -> & Hc & Hev);
      [simpl; lia|].
    exists st. split; [reflexivity|]. split; [exact Hc|].
    simpl in Hev. rewrite Hev.
    destruct (drew_silent (firstn (k - 0) secs)) as [Hf Hp].
    rewrite Hf, Hp. repeat split; intros; first [reflexivity | lia].
  - destruct (exec_draws_finished (Some k) secs Hcomp (start e))
      as (st & -> & Hc & Hev).
    { intros k' [= <-]. simpl. lia. }
    simpl in Hc, Hev. destruct (drew_silent secs) as [Hf Hp].
    assert (Hcases : k = List.length secs \/ k = S (List.length secs)) by lia.
    destruct Hcases as [-> | ->].
    + exists st. cbn [save_block exec exec_stmt]. unfold do_call.
      cbn [is_library andb]. rewrite Hc, Nat.eqb_refl, Hev, Hf, Hp.
      repeat split; intros; first [reflexivity | lia].
    + exists (emit (Saved (output s) (dpi s) "tight") true [] st).
      cbn [save_block exec exec_stmt]. unfold do_call at 1.
      cbn [is_library andb]. rewrite Hc.
      rewrite (proj2 (Nat.eqb_neq (S (List.length secs)) (List.length secs)))
        by lia.
      unfold do_call. cbn [is_library andb emit calls events].
      rewrite Hc, Nat.eqb_refl, Hev, files_app, console_app, Hf, Hp.
      repeat split; intros; first [reflexivity | lia].
Qed.

(** The five scripts have the linear shape. *)
Lemma scripts_linear (s : script) : In s scripts -> linear s.
Proof.
  intros Hin. each_script Hin;
    (split;
     [ do 2 eexists; reflexivity
     | repeat (apply Forall_cons; [cbn [computes]; discriminate |]);
       apply Forall_nil ]).
Qed.

(** C5, as the code has it.  No script holds a [try]; an exception raised
    by any library call is not caught and ends the run before a status
    line is printed.  No file has been written by then, unless the call
    that raised is the last one, [plt.close()], which runs after the
    save. *)
Theorem exceptions_end_the_run (s : script) (e : environment) (k : nat) :
  In s scripts ->
  (k < library_calls (program s))%nat ->
  handler_free (program s) = true
  /\ exists st,
       run_with_fault k e s = (Raised, st)
       /\ calls st = k
       /\ console (events st) = []
       /\ ((S k < library_calls (program s))%nat -> files (events st) = [])
       /\ (S k = library_calls (program s) -> files (events st) = [output s]).
Proof.
  intros Hin Hk. apply linear_exceptions; [now apply scripts_linear | exact Hk].
Qed.

(** [fig.savefig] raises in gen_nvis_80_40m_optimized.py: library call 13,
    after the thirteen drawing sections. *)
Lemma exceptions_end_the_run_witness :
  In gen_nvis_80_40m_optimized.script scripts /\
  (13 < library_calls (program gen_nvis_80_40m_optimized.script))%nat /\
  ends_without_output 13 bare gen_nvis_80_40m_optimized.script.
Proof.
  split; [simpl; tauto|]. split; [lazy; lia|].
  destruct (exceptions_end_the_run gen_nvis_80_40m_optimized.script bare 13)
    as (_ & st & Hrun & _ & Hcon & Hfiles & _); [simpl; tauto | lazy; lia |].
  exists st. split; [exact Hrun|]. split; [|exact Hcon].
  apply Hfiles. lazy. lia.
Defined.

(** C5 as the claim words it fails when the call that raises is
    [plt.close()]: in gen_nvis_20m_car_roof.py that is library call 9, and
    the file has been written by then. *)
Lemma close_raises_counterexample :
  is_library Close = true
  /\ nth_error (program gen_nvis_20m_car_roof.script) 9 = Some (Do Close)
  /\ (9 < library_calls (program gen_nvis_20m_car_roof.script))%nat
  /\ ~ ends_without_output 9 bare gen_nvis_20m_car_roof.script.
Proof.
  split; [reflexivity|]. split; [reflexivity|]. split; [lazy; lia|].
  intros (st & Hrun & Hfiles & _).
  assert (H : files (events (snd (run_with_fault 9 bare
                                    gen_nvis_20m_car_roof.script)))
              = [gen_nvis_20m_car_roof.out]) by reflexivity.
  rewrite Hrun in H. cbn [snd] in H. rewrite Hfiles in H. discriminate H.
Qed.

(** * More properties *)

(** ** Indexing *)

Lemma index_inside {A : Type} (a : list A) (i : nat) (d : A) :
  (i < List.length a)%nat -> index a (Z.of_nat i) = Some (nth i a d).
Proof.
  intros Hi. unfold index.
  destruct (Z.leb_spec 0 (Z.of_nat i)); [|lia].
  destruct (Z.ltb_spec (Z.of_nat i) (Z.of_nat (List.length a))); [|lia].
  simpl. rewrite Nat2Z.id. now apply nth_error_nth'.
Qed.

Lemma index_succ {A : Type} (a : list A) (i : nat) (d : A) :
  (S i < List.length a)%nat -> index a (Z.of_nat i + 1) = Some (nth (S i) a d).
Proof.
  intros Hi. replace (Z.of_nat i + 1)%Z with (Z.of_nat (S i)) by lia.
  now apply index_inside.
Qed.

Lemma index_outside {A : Type} (a : list A) (i : nat) :
  (List.length a <= i)%nat -> index a (Z.of_nat i) = None.
Proof.
  intros Hi. unfold index.
  destruct (Z.leb_spec 0 (Z.of_nat i)); [|lia].
  destruct (Z.ltb_spec (Z.of_nat i) (Z.of_nat (List.length a))); [lia|].
  simpl. destruct (Z.ltb_spec (Z.of_nat i) 0); [lia|].
  now rewrite andb_false_r.
Qed.

Lemma index_last {A : Type} (a : list A) (d : A) :
  a <> [] -> index a (-1) = Some (last a d).
Proof.
  intros Ha. unfold index.
  assert (Hlen : (0 < List.length a)%nat) by (destruct a; [contradiction | simpl; lia]).
  simpl.
  destruct (Z.ltb_spec (-1) 0); [|lia].
  destruct (Z.leb_spec (- Z.of_nat (List.length a)) (-1)); [|lia].
  simpl.
  replace (Z.to_nat (Z.of_nat (List.length a) + -1)) with (List.length a - 1)%nat by lia.
  rewrite (nth_error_nth' a d) by lia. f_equal.
  destruct (exists_last Ha) as (l & x & ->).
  rewrite last_last, length_app. simpl.
  replace (List.length l + 1 - 1)%nat with (List.length l) by lia.
  now rewrite nth_middle.
Qed.

Lemma index_empty {A : Type} (i : Z) : index (@nil A) i = None.
Proof.
  unfold index. simpl.
  destruct (Z.leb_spec 0 i), (Z.ltb_spec i 0); simpl; try reflexivity; lia.
Qed.

(** ** The lower body shell *)

Lemma shell_step_raised z_g p bx bw bzt i :
  shell_step z_g p bx bw bzt None i = None.
Proof. reflexivity. Qed.

Lemma shell_step_drawn z_g p bx bw bzt ax i :
  (S i < List.length bx)%nat -> (S i < List.length bw)%nat ->
  (S i < List.length bzt)%nat ->
  shell_step z_g p bx bw bzt (Some ax) i
  = Some (ax ++ station_polys z_g p bx bw bzt i).
Proof.
  intros Hx Hw Hz. unfold shell_step.
  rewrite (index_inside bx i 0), (index_succ bx i 0) by lia.
  rewrite (index_inside bw i 0), (index_succ bw i 0) by lia.
  rewrite (index_inside bzt i 0), (index_succ bzt i 0) by lia.
  cbn [bind].
  rewrite !qpoly_adds by discriminate. cbn [bind].
  rewrite !qpoly_adds by discriminate. cbn [bind].
  rewrite !qpoly_adds by discriminate. cbn [bind].
  rewrite !qpoly_adds by discriminate.
  unfold station_polys. rewrite <- !app_assoc. reflexivity.
Qed.

Lemma shell_loop_drawn z_g p bx bw bzt (k m : nat) (ax : axes) :
  (k + m < List.length bx)%nat -> (k + m < List.length bw)%nat ->
  (k + m < List.length bzt)%nat ->
  fold_left (shell_step z_g p bx bw bzt) (seq k m) (Some ax)
  = Some (ax ++ flat_map (station_polys z_g p bx bw bzt) (seq k m)).
Proof.
  revert k ax. induction m as [|m IH]; intros k ax Hx Hw Hz.
  - simpl. now rewrite app_nil_r.
  - cbn [seq fold_left flat_map]. rewrite shell_step_drawn by lia.
    rewrite IH by lia. now rewrite <- app_assoc.
Qed.

Lemma shell_loop_raised z_g p bx bw bzt (l : list nat) :
  fold_left (shell_step z_g p bx bw bzt) l None = None.
Proof. induction l as [|i l IH]; simpl; [reflexivity | exact IH]. Qed.

Lemma shell_loop_fails z_g p bx bw bzt (l : list nat) (i : nat) acc :
  In i l ->
  (forall acc', shell_step z_g p bx bw bzt acc' i = None) ->
  fold_left (shell_step z_g p bx bw bzt) l acc = None.
Proof.
  revert acc. induction l as [|j l IH]; intros acc Hin Hi; [contradiction|].
  simpl. destruct Hin as [-> | Hin].
  - rewrite Hi. apply shell_loop_raised.
  - now apply IH.
Qed.

Lemma range_pred (n : nat) : range (Z.of_nat n - 1) = seq 0 (n - 1).
Proof. unfold range. f_equal. lia. Qed.

Lemma shell_polys_length z_g p bx bw bzt :
  List.length (shell_polys z_g p bx bw bzt)
  = (4 * (List.length bx - 1) + 2)%nat.
Proof.
  unfold shell_polys. rewrite length_app. simpl.
  assert (H : forall l, List.length (flat_map (station_polys z_g p bx bw bzt) l)
                        = (4 * List.length l)%nat).
  { induction l as [|i l IH]; simpl; [reflexivity | rewrite IH; lia]. }
  rewrite H, length_seq. lia.
Qed.

Lemma shell_polys_faces z_g p bx bw bzt :
  map verts_of (shell_polys z_g p bx bw bzt) = shell_faces z_g bx bw bzt.
Proof.
  unfold shell_polys, shell_faces. rewrite map_app. f_equal.
  induction (seq 0 (List.length bx - 1)) as [|i l IH]; simpl;
    [reflexivity | now rewrite IH].
Qed.

Lemma body_shell_eq (ax : axes) (bx bw bzt : list R) (z_g : R) (p : paint) :
  (1 <= List.length bx)%nat ->
  (List.length bx <= List.length bw)%nat ->
  (List.length bx <= List.length bzt)%nat ->
  body_shell ax bx bw bzt z_g p = Some (ax ++ shell_polys z_g p bx bw bzt).
Proof.
  intros Hx Hw Hz.
  unfold body_shell. rewrite range_pred.
  rewrite shell_loop_drawn by lia. simpl.
  assert (Hbx : bx <> []) by (destruct bx; [simpl in Hx; lia | discriminate]).
  assert (Hbw : bw <> []) by (destruct bw; [simpl in Hw; lia | discriminate]).
  assert (Hbz : bzt <> []) by (destruct bzt; [simpl in Hz; lia | discriminate]).
  rewrite (index_last bx 0 Hbx), (index_last bw 0 Hbw), (index_last bzt 0 Hbz).
  simpl.
  change 0%Z with (Z.of_nat 0).
  rewrite (index_inside bx 0 0), (index_inside bw 0 0), (index_inside bzt 0 0)
    by lia.
  cbn [bind]. repeat (rewrite qpoly_adds by discriminate; cbn [bind]).
  unfold shell_polys. rewrite <- !app_assoc. reflexivity.
Qed.

(** X1.  When [bx] is not empty and neither [bw] nor [bzt] is shorter than
    [bx], the shell is drawn: the artists on the axes stay, and four
    panels per pair of neighbouring stations and then the front and the
    rear face are added, [4 * (len(bx) - 1) + 2] polygons in all. *)
Theorem body_shell_drawn (ax : axes) (bx bw bzt : list R) (z_g : R) (p : paint) :
  (1 <= List.length bx)%nat ->
  (List.length bx <= List.length bw)%nat ->
  (List.length bx <= List.length bzt)%nat ->
  exists new,
    body_shell ax bx bw bzt z_g p = Some (ax ++ new)
    /\ List.length new = (4 * (List.length bx - 1) + 2)%nat
    /\ map verts_of new = shell_faces z_g bx bw bzt.
Proof.
  intros Hx Hw Hz. exists (shell_polys z_g p bx bw bzt).
  split; [now apply body_shell_eq|].
  split; [apply shell_polys_length | apply shell_polys_faces].
Qed.

(** The profile of gen_nvis_80_40m_car_roof.py on an empty axes. *)
Lemma body_shell_drawn_witness :
  (1 <= List.length gen_nvis_80_40m_car_roof.bx)%nat /\
  (List.length gen_nvis_80_40m_car_roof.bx
   <= List.length gen_nvis_80_40m_car_roof.bw)%nat /\
  (List.length gen_nvis_80_40m_car_roof.bx
   <= List.length gen_nvis_80_40m_car_roof.bzt)%nat /\
  exists new,
    body_shell [] gen_nvis_80_40m_car_roof.bx gen_nvis_80_40m_car_roof.bw
               gen_nvis_80_40m_car_roof.bzt gen_nvis_80_40m_car_roof.z_g
               metallic
    = Some ([] ++ new)
    /\ List.length new = 78%nat.
Proof.
  split; [simpl; lia|]. split; [simpl; lia|]. split; [simpl; lia|].
  destruct (body_shell_drawn [] gen_nvis_80_40m_car_roof.bx
              gen_nvis_80_40m_car_roof.bw gen_nvis_80_40m_car_roof.bzt
              gen_nvis_80_40m_car_roof.z_g
              metallic)
    as (new & H1 & H2 & _); [simpl; lia | simpl; lia | simpl; lia |].
  exists new. split; [exact H1 | exact H2].
Defined.

(** X2.  The shell raises [IndexError] when [bx] is empty, although the
    loop then has nothing to do, and when [bw] or [bzt] is shorter than
    [bx]. *)
Theorem body_shell_raises (ax : axes) (bx bw bzt : list R) (z_g : R) (p : paint) :
  bx = [] \/ (List.length bw < List.length bx)%nat
          \/ (List.length bzt < List.length bx)%nat ->
  body_shell ax bx bw bzt z_g p = None.
Proof.
  intros H. unfold body_shell. rewrite range_pred.
  destruct H as [-> | H].
  - reflexivity.
  - assert (Hshort :
      forall a : list R, (List.length a < List.length bx)%nat ->
      a = [] \/ exists i, In i (seq 0 (List.length bx - 1))
                          /\ index a (Z.of_nat i + 1) = None).
    { intros a Ha. destruct a as [|y a]; [now left|]. right.
      exists (List.length a). split.
      - apply in_seq. simpl in Ha. lia.
      - replace (Z.of_nat (List.length a) + 1)%Z
          with (Z.of_nat (List.length (y :: a))) by (simpl; lia).
        now apply index_outside. }
    destruct H as [H | H]; destruct (Hshort _ H) as [-> | (i & Hi & Hnone)].
    + destruct (fold_left _ _ _); [simpl|reflexivity].
      destruct (index bx (-1)); [simpl|reflexivity].
      reflexivity.
    + rewrite (shell_loop_fails z_g p bx bw bzt _ i); [reflexivity | exact Hi |].
      intros [acc|]; [|reflexivity]. unfold shell_step. simpl.
      destruct (index bx (Z.of_nat i)); [simpl|reflexivity].
      destruct (index bx (Z.of_nat i + 1)); [simpl|reflexivity].
      destruct (index bw (Z.of_nat i)); [simpl|reflexivity].
      now rewrite Hnone.
    + destruct (fold_left _ _ _); [simpl|reflexivity].
      destruct (index bx (-1)); [simpl|reflexivity].
      destruct (index bw (-1)); [simpl|reflexivity].
      reflexivity.
    + rewrite (shell_loop_fails z_g p bx bw bzt _ i); [reflexivity | exact Hi |].
      intros [acc|]; [|reflexivity]. unfold shell_step. simpl.
      destruct (index bx (Z.of_nat i)); [simpl|reflexivity].
      destruct (index bx (Z.of_nat i + 1)); [simpl|reflexivity].
      destruct (index bw (Z.of_nat i)); [simpl|reflexivity].
      destruct (index bw (Z.of_nat i + 1)); [simpl|reflexivity].
      destruct (index bzt (Z.of_nat i)); [simpl|reflexivity].
      now rewrite Hnone.
Qed.

(** A profile of three stations with only two widths. *)
Lemma body_shell_raises_witness :
  (([-2; 0; 2] : list R) = []
   \/ (List.length [0.4; 0.7]%R < List.length [-2; 0; 2]%R)%nat
   \/ (List.length [0.3; 0.5; 0.3]%R < List.length [-2; 0; 2]%R)%nat)
  /\ body_shell [] [-2; 0; 2] [0.4; 0.7] [0.3; 0.5; 0.3] 0
       metallic = None.
Proof.
  split; [right; left; simpl; lia|].
  apply (body_shell_raises [] [-2; 0; 2] [0.4; 0.7] [0.3; 0.5; 0.3] 0).
  right; left; simpl; lia.
Defined.

Lemma mirror_left z_g x0 x1 w0 w1 zt0 zt1 :
  map mirror (left_quad z_g x0 x1 w0 w1 zt0 zt1)
  = right_quad z_g x0 x1 w0 w1 zt0 zt1.
Proof. unfold left_quad, right_quad; simpl. now rewrite !Ropp_involutive. Qed.

Lemma mirror_right z_g x0 x1 w0 w1 zt0 zt1 :
  map mirror (right_quad z_g x0 x1 w0 w1 zt0 zt1)
  = left_quad z_g x0 x1 w0 w1 zt0 zt1.
Proof. reflexivity. Qed.

Lemma mirror_top x0 x1 w0 w1 zt0 zt1 :
  map mirror (top_quad x0 x1 w0 w1 zt0 zt1)
  = rev (top_quad x0 x1 w0 w1 zt0 zt1).
Proof. unfold top_quad; simpl. now rewrite !Ropp_involutive. Qed.

Lemma mirror_bottom z_g x0 x1 w0 w1 :
  map mirror (bottom_quad z_g x0 x1 w0 w1)
  = rev (bottom_quad z_g x0 x1 w0 w1).
Proof. unfold bottom_quad; simpl. now rewrite !Ropp_involutive. Qed.

Lemma mirror_end z_g x w zt :
  map mirror (end_face z_g x w zt) = rotate 2 (rev (end_face z_g x w zt)).
Proof. unfold end_face, rotate; simpl. now rewrite !Ropp_involutive. Qed.

Lemma shell_faces_mirror z_g bx bw bzt f :
  In f (shell_faces z_g bx bw bzt) ->
  exists g, In g (shell_faces z_g bx bw bzt)
            /\ same_outline (map mirror f) g.
Proof.
  unfold shell_faces. intros Hf. apply in_app_or in Hf.
  destruct Hf as [Hf | Hf].
  - apply in_flat_map in Hf. destruct Hf as (i & Hi & Hf).
    assert (Hin : forall g, In g (station_faces z_g bx bw bzt i) ->
              In g (flat_map (station_faces z_g bx bw bzt)
                             (seq 0 (List.length bx - 1)) ++
                    [end_face z_g (last bx 0) (last bw 0) (last bzt 0);
                     end_face z_g (nth 0 bx 0) (nth 0 bw 0) (nth 0 bzt 0)])).
    { intros g Hg. apply in_or_app. left. apply in_flat_map. now exists i. }
    unfold station_faces in Hf, Hin. cbv zeta in Hf, Hin.
    destruct Hf as [<- | [<- | [<- | [<- | []]]]].
    + eexists. split; [apply Hin; right; left; reflexivity|].
      exists 0%nat. left. apply mirror_left.
    + eexists. split; [apply Hin; left; reflexivity|].
      exists 0%nat. left. apply mirror_right.
    + eexists. split; [apply Hin; right; right; left; reflexivity|].
      exists 0%nat. right. apply mirror_top.
    + eexists. split; [apply Hin; right; right; right; left; reflexivity|].
      exists 0%nat. right. apply mirror_bottom.
  - destruct Hf as [<- | [<- | []]].
    + eexists. split; [apply in_or_app; right; left; reflexivity|].
      exists 2%nat. right. apply mirror_end.
    + eexists. split; [apply in_or_app; right; right; left; reflexivity|].
      exists 2%nat. right. apply mirror_end.
Qed.

(** X3.  The shell is symmetric about the long axis of the car: the mirror
    image in the plane y = 0 of every polygon drawn is the outline of a
    polygon drawn (the right panel for a left panel; itself for a top,
    bottom, front or rear face). *)
Theorem body_shell_symmetric (ax : axes) (bx bw bzt : list R) (z_g : R)
    (p : paint) :
  (1 <= List.length bx)%nat ->
  (List.length bx <= List.length bw)%nat ->
  (List.length bx <= List.length bzt)%nat ->
  exists new,
    body_shell ax bx bw bzt z_g p = Some (ax ++ new)
    /\ forall a, In a new ->
       exists b, In b new
                 /\ same_outline (map mirror (verts_of a)) (verts_of b).
Proof.
  intros Hx Hw Hz. exists (shell_polys z_g p bx bw bzt).
  split; [now apply body_shell_eq|]. intros a Ha.
  pose proof (shell_polys_faces z_g p bx bw bzt) as Hfaces.
  destruct (shell_faces_mirror z_g bx bw bzt (verts_of a)) as (g & Hg & Hsame).
  { rewrite <- Hfaces. now apply in_map. }
  rewrite <- Hfaces in Hg. apply in_map_iff in Hg.
  destruct Hg as (b & <- & Hb). now exists b.
Qed.

(** The profile of gen_nvis_80_40m_car_roof.py: the polygons drawn have
    their mirror images drawn. *)
Lemma body_shell_symmetric_witness :
  (1 <= List.length gen_nvis_80_40m_car_roof.bx)%nat /\
  (List.length gen_nvis_80_40m_car_roof.bx
   <= List.length gen_nvis_80_40m_car_roof.bw)%nat /\
  (List.length gen_nvis_80_40m_car_roof.bx
   <= List.length gen_nvis_80_40m_car_roof.bzt)%nat /\
  exists new,
    body_shell [] gen_nvis_80_40m_car_roof.bx gen_nvis_80_40m_car_roof.bw
               gen_nvis_80_40m_car_roof.bzt gen_nvis_80_40m_car_roof.z_g
               metallic
    = Some ([] ++ new)
    /\ forall a, In a new ->
       exists b, In b new
                 /\ same_outline (map mirror (verts_of a)) (verts_of b).
Proof.
  split; [simpl; lia|]. split; [simpl; lia|]. split; [simpl; lia|].
  apply (body_shell_symmetric [] gen_nvis_80_40m_car_roof.bx
           gen_nvis_80_40m_car_roof.bw gen_nvis_80_40m_car_roof.bzt
           gen_nvis_80_40m_car_roof.z_g metallic); simpl; lia.
Defined.

Lemma last_is_nth {A : Type} (l : list A) (d : A) :
  last l d = nth (List.length l - 1) l d.
Proof.
  induction l as [|x [|y l] IH]; [reflexivity | reflexivity |].
  change (last (x :: y :: l) d) with (last (y :: l) d). rewrite IH.
  simpl. now rewrite Nat.sub_0_r.
Qed.

(** X4.  With three arrays of one length (two stations or more) the shell
    has no gap: along the car each panel ends on the edge at which the
    panel of the same side of the next station begins, the front face
    stands on the far edges of the last left and right panels, and the
    rear face on the near edges of the first. *)
Theorem body_shell_closed (ax : axes) (bx bw bzt : list R) (z_g : R)
    (p : paint) :
  (2 <= List.length bx)%nat ->
  List.length bw = List.length bx ->
  List.length bzt = List.length bx ->
  let panels := station_faces z_g bx bw bzt in
  let n := List.length bx in
  exists new front rear,
    body_shell ax bx bw bzt z_g p = Some (ax ++ new)
    /\ map verts_of new = flat_map panels (seq 0 (n - 1)) ++ [front; rear]
    /\ (forall i k, (S (S i) < n)%nat -> (k < 4)%nat ->
        far_edge (nth k (panels i) []) = near_edge (nth k (panels (S i)) []))
    /\ front = [ fst (far_edge (nth 0 (panels (n - 2)%nat) []));
                 fst (far_edge (nth 1 (panels (n - 2)%nat) []));
                 snd (far_edge (nth 1 (panels (n - 2)%nat) []));
                 snd (far_edge (nth 0 (panels (n - 2)%nat) [])) ]
    /\ rear = [ fst (near_edge (nth 0 (panels 0%nat) []));
                fst (near_edge (nth 1 (panels 0%nat) []));
                snd (near_edge (nth 1 (panels 0%nat) []));
                snd (near_edge (nth 0 (panels 0%nat) [])) ].
Proof.
  intros Hx Hw Hz panels n.
  exists (shell_polys z_g p bx bw bzt),
         (end_face z_g (last bx 0) (last bw 0) (last bzt 0)),
         (end_face z_g (nth 0 bx 0) (nth 0 bw 0) (nth 0 bzt 0)).
  split; [apply body_shell_eq; lia|].
  split; [apply shell_polys_faces|].
  split; [|split].
  - intros i k _ Hk.
    destruct k as [|[|[|[|k]]]]; [reflexivity .. | lia].
  - rewrite !last_is_nth, Hw, Hz. subst panels n.
    replace (List.length bx - 1)%nat with (S (List.length bx - 2)) by lia.
    reflexivity.
  - reflexivity.
Qed.

(** The profile of gen_nvis_80_40m_car_roof.py has twenty stations. *)
Lemma body_shell_closed_witness :
  exists new front rear,
    body_shell [] gen_nvis_80_40m_car_roof.bx gen_nvis_80_40m_car_roof.bw
               gen_nvis_80_40m_car_roof.bzt gen_nvis_80_40m_car_roof.z_g
               metallic
    = Some ([] ++ new)
    /\ map verts_of new
       = flat_map (station_faces gen_nvis_80_40m_car_roof.z_g
                     gen_nvis_80_40m_car_roof.bx gen_nvis_80_40m_car_roof.bw
                     gen_nvis_80_40m_car_roof.bzt) (seq 0 19)
         ++ [front; rear].
Proof.
  destruct (body_shell_closed [] gen_nvis_80_40m_car_roof.bx
              gen_nvis_80_40m_car_roof.bw gen_nvis_80_40m_car_roof.bzt
              gen_nvis_80_40m_car_roof.z_g metallic)
    as (new & front & rear & H1 & H2 & _);
    [simpl; lia | reflexivity | reflexivity |].
  exists new, front, rear. split; [exact H1 | exact H2].
Defined.

(** ** The ring antennas *)

Lemma points_map (f g : R -> R) (z : R) (th : list R) :
  points (map f th, map g th, np.full_like th z)
  = map (fun t => (f t, g t, z)) th.
Proof.
  unfold points, np.full_like.
  induction th as [|t th IH]; simpl; [reflexivity | now rewrite IH].
Qed.

(** With two samples or more the first sample is [start] itself and the
    last one [stop] itself. *)
Lemma linspace_exact_ends (a b : R) (n : Z) :
  (2 <= n)%Z ->
  exists mid,
    np.linspace a b n = Some (a :: mid ++ [b])
    /\ List.length mid = (Z.to_nat n - 2)%nat.
Proof.
  intros Hn. destruct (linspace_ends a b n Hn) as (mid & H & L).
  exists mid. split; [|exact L].
  rewrite H. now rewrite Rmult_0_l, Rplus_0_l.
Qed.

(** X5.  With two samples or more, the main loop of the single-turn
    antennas is a polyline of [N] points at height [z_loop] whose first
    point is taken at the angle [pi/2 + gap_angle] and whose last point at
    the angle [pi/2 + 2*pi - gap_angle]; the two leads start at exactly
    these two points, the left one at the first and the right one at the
    last, and end [sign * reach] on either side of the capacitor at
    [(0, R_loop, z_loop)]. *)
Theorem ring_gap (R_loop z_loop gap_angle sign reach : R) (N : Z) :
  (2 <= N)%Z ->
  let left_a := PI / 2 + gap_angle in
  let right_a := PI / 2 + 2 * PI - gap_angle in
  let left := (R_loop * cos left_a, R_loop * sin left_a, z_loop) in
  let right := (R_loop * cos right_a, R_loop * sin right_a, z_loop) in
  exists loop mid,
    ring R_loop z_loop gap_angle N = Some loop
    /\ points loop = left :: mid ++ [right]
    /\ List.length (points loop) = Z.to_nat N
    /\ Forall (fun v => height v = z_loop) (points loop)
    /\ map points (ring_leads R_loop z_loop gap_angle sign reach)
       = [ [left; (0 + - sign * reach, R_loop, z_loop)];
           [right; (0 + sign * reach, R_loop, z_loop)] ].
Proof.
  intros HN left_a right_a left right.
  destruct (linspace_exact_ends left_a right_a N HN) as (mid & Hth & Hmid).
  unfold ring. fold left_a right_a. rewrite Hth. cbn [bind].
  eexists. exists (map (fun t => (R_loop * cos t, R_loop * sin t, z_loop)) mid).
  split; [reflexivity|].
  rewrite points_map.
  split; [|split; [|split]].
  - cbn [map]. rewrite map_app. reflexivity.
  - rewrite length_map. cbn [List.length]. rewrite length_app, Hmid.
    cbn [List.length]. lia.
  - apply Forall_map, Forall_forall. intros t _. reflexivity.
  - reflexivity.
Qed.

(** The loop of gen_nvis_20m_car_roof.py. *)
Lemma ring_gap_witness :
  (2 <= gen_nvis_20m_car_roof.N_pts)%Z /\
  exists loop mid,
    ring gen_nvis_20m_car_roof.R_loop gen_nvis_20m_car_roof.z_loop
         gen_nvis_20m_car_roof.gap_angle gen_nvis_20m_car_roof.N_pts
    = Some loop
    /\ points loop
       = (gen_nvis_20m_car_roof.R_loop
          * cos (PI / 2 + gen_nvis_20m_car_roof.gap_angle),
          gen_nvis_20m_car_roof.R_loop
          * sin (PI / 2 + gen_nvis_20m_car_roof.gap_angle),
          gen_nvis_20m_car_roof.z_loop)
         :: mid
         ++ [(gen_nvis_20m_car_roof.R_loop
              * cos (PI / 2 + 2 * PI - gen_nvis_20m_car_roof.gap_angle),
              gen_nvis_20m_car_roof.R_loop
              * sin (PI / 2 + 2 * PI - gen_nvis_20m_car_roof.gap_angle),
              gen_nvis_20m_car_roof.z_loop)]
    /\ List.length (points loop) = 200%nat.
Proof.
  assert (HN : (2 <= gen_nvis_20m_car_roof.N_pts)%Z)
    by (unfold gen_nvis_20m_car_roof.N_pts; lia).
  split; [exact HN|].
  destruct (ring_gap gen_nvis_20m_car_roof.R_loop gen_nvis_20m_car_roof.z_loop
              gen_nvis_20m_car_roof.gap_angle 0.6 0.05
              gen_nvis_20m_car_roof.N_pts HN)
    as (loop & mid & H1 & H2 & H3 & _).
  exists loop, mid. split; [exact H1|]. split; [exact H2 | exact H3].
Defined.

(** ** The leads of the rectangular loop *)

(** X8.  In gen_nvis_80_40m_optimized.py the leads meet the loop: for a
    corner count that is not negative, the two leads on the right start
    at the first point of the loop and the two on the left at its last
    point, which is also the foot [(jx, jy) = (-gap_len/2, ly)] of the
    jumper. *)
Theorem leads_meet_the_loop (lx ly rc z_lp z_lp2 : R) (n_corner : Z) :
  (0 <= n_corner)%Z ->
  exists pts,
    rect_loop_pts lx ly rc n_corner = Some pts
    /\ map foot (gap_leads ly gap_len z_lp z_lp2)
       = [ hd (0, 0) pts; hd (0, 0) pts; last pts (0, 0); last pts (0, 0) ]
    /\ last pts (0, 0) = (- gap_len / 2, ly).
Proof.
  intros Hn.
  destruct (rect_loop_pts_eq lx ly rc n_corner Hn)
    as (fr & br & bl & fl & _ & _ & _ & _ & Heq).
  eexists. split; [exact Heq|].
  match goal with
  | |- context [last (?x :: ?l) _] =>
      assert (Hlast : last (x :: l) (0, 0) = (- gap_len / 2, ly))
  end.
  { repeat (rewrite app_comm_cons || rewrite app_assoc).
    apply last_last. }
  rewrite Hlast. split; reflexivity.
Qed.

Lemma leads_meet_the_loop_witness :
  (0 <= 12)%Z /\
  exists pts,
    loop_pts = Some pts
    /\ map foot (gap_leads Ly_loop gap_len 0 0.10)
       = [ hd (0, 0) pts; hd (0, 0) pts; last pts (0, 0); last pts (0, 0) ]
    /\ last pts (0, 0) = (- gap_len / 2, Ly_loop).
Proof.
  split; [lia|].
  apply (leads_meet_the_loop Lx_loop Ly_loop R_corner 0 0.10 12). lia.
Defined.

(** ** The wall and the cap of a cylinder *)

Lemma list_as_items (th : list R) :
  th = map (item th) (seq 0 (List.length th)).
Proof.
  apply (nth_ext _ _ 0 0).
  - now rewrite length_map, length_seq.
  - intros i Hi. now rewrite nth_map_seq.
Qed.

Lemma last_map_seq {A : Type} (f : nat -> A) (n : nat) (d : A) :
  last (map f (seq 0 (S n))) d = f n.
Proof. rewrite seq_S, map_app. cbn [map]. apply last_last. Qed.

(** X9.  For [n >= 1] the wall of a cylinder has no gap between two
    neighbouring faces and carries its cap: each side face ends on the
    edge on which the next one begins, and the vertices of the cap are,
    in order, the upper near corner of every side face and then the upper
    far corner of the last one.  The first face begins at the angle 0 and
    the last one ends at the angle [2*pi]: whether the wall closes there
    is left to the cosine and the sine of these two angles. *)
Theorem cylinder_wall_and_cap (a : axes) (cx cy zb zt r : R) (n : Z)
    (fc ec : colour) (al : R) (zo : Z) :
  (1 <= n)%Z ->
  exists sides cap,
    cylinder a cx cy zb zt r n fc ec al zo
    = Some (a ++ map (fun f => Poly3DCollection f fc ec al 0.5 zo) sides
              ++ [Poly3DCollection cap fc ec al 1.0 (zo + 1)])
    /\ List.length sides = Z.to_nat n
    /\ (forall i, (S i < Z.to_nat n)%nat ->
        far_edge (nth i sides []) = near_edge (nth (S i) sides []))
    /\ near_edge (hd [] sides)
       = (circle_point cx cy r 0 zb, circle_point cx cy r 0 zt)
    /\ far_edge (last sides [])
       = (circle_point cx cy r (2 * PI) zb, circle_point cx cy r (2 * PI) zt)
    /\ cap = map (fun f => snd (near_edge f)) sides
             ++ [snd (far_edge (last sides []))].
Proof.
  intros Hn.
  destruct (cylinder_angles n Hn) as (th & Hth & Hlen & Hfirst & Hlast).
  exists (cylinder_sides cx cy zb zt r th n), (cylinder_cap cx cy zt r th).
  split.
  { apply cylinder_adds; [exact Hth|]. destruct th; discriminate. }
  unfold cylinder_sides, range.
  destruct (Z.to_nat n) as [|m] eqn:E; [lia|].
  split; [now rewrite length_map, length_seq|].
  split; [|split; [|split]].
  - intros i Hi. rewrite !nth_map_seq by lia.
    unfold far_edge, near_edge, cylinder_face. cbn [nth].
    now rewrite Nat.add_1_r.
  - cbn [seq map hd]. unfold near_edge, cylinder_face, circle_point, item.
    cbn [nth]. now rewrite Hfirst.
  - rewrite last_map_seq.
    unfold far_edge, cylinder_face, circle_point, item. cbn [nth].
    now rewrite Nat.add_1_r, Hlast.
  - rewrite last_map_seq, map_map.
    unfold cylinder_cap at 1. rewrite (list_as_items th) at 1.
    rewrite Hlen, seq_S, !map_app, map_map. cbn [map].
    unfold far_edge, near_edge, cylinder_face. cbn [nth snd Nat.add].
    now rewrite Nat.add_1_r.
Qed.

(** An exhaust tip of gen_nvis_80_40m_car_roof.py, lines 340-342. *)
Lemma cylinder_wall_and_cap_witness :
  (1 <= 10)%Z /\
  exists sides cap,
    cylinder [] (-2.30 - 0.04) (-0.30) (-0.20 - 0.01) (-0.20 + 0.02) 0.025 10
             "#78909c"%string "#546e7a"%string 0.8 3
    = Some ([] ++ map (fun f => Poly3DCollection f "#78909c"%string
                                  "#546e7a"%string 0.8 0.5 3) sides
              ++ [Poly3DCollection cap "#78909c"%string "#546e7a"%string
                                   0.8 1.0 (3 + 1)])
    /\ List.length sides = 10%nat
    /\ cap = map (fun f => snd (near_edge f)) sides
             ++ [snd (far_edge (last sides []))].
Proof.
  split; [lia|].
  destruct (cylinder_wall_and_cap [] (-2.30 - 0.04) (-0.30) (-0.20 - 0.01)
              (-0.20 + 0.02) 0.025 10 "#78909c"%string "#546e7a"%string 0.8 3)
    as (sides & cap & H1 & H2 & _ & _ & _ & H6); [lia|].
  exists sides, cap. split; [exact H1|]. split; [exact H2 | exact H6].
Defined.

(** X10.  [cylinder] with fewer than one side.  For [n <= -1] the call
    raises and the axes shows what it showed: below [-1] the exception
    comes out of [np.linspace] and the heap is as it was; at [-1] there is
    no angle, the loop has no turn, and the constructor raises on the
    empty cap, the one object made.  For [n = 0] the call returns, and
    has added one collection: the cap, of the single vertex at angle 0. *)
Theorem cylinder_without_sides (h : heap) (a : ref) (ar : axes)
    (cx cy zb zt r : R) (fc ec : colour) (al : R) (zo : Z) :
  view h a = Some ar ->
  (forall n, (n <= -1)%Z ->
     cylinder ar cx cy zb zt r n fc ec al zo = None
     /\ cylinder_at a cx cy zb zt r n fc ec al zo h
        = (Raises, if (n =? -1)%Z then h ++ [Vertices []] else h)
     /\ view (snd (cylinder_at a cx cy zb zt r n fc ec al zo h)) a = Some ar)
  /\ cylinder ar cx cy zb zt r 0 fc ec al zo
     = Some (ar ++ [Poly3DCollection [circle_point cx cy r 0 zt]
                                     fc ec al 1.0 (zo + 1)])
  /\ ensures (cylinder_at a cx cy zb zt r 0 fc ec al zo) h
       (fun _ h' =>
          view h' a
          = Some (ar ++ [Poly3DCollection [circle_point cx cy r 0 zt]
                                          fc ec al 1.0 (zo + 1)])).
Proof.
  intros Hv.
  assert (H0 : cylinder ar cx cy zb zt r 0 fc ec al zo
               = Some (ar ++ [Poly3DCollection [circle_point cx cy r 0 zt]
                                               fc ec al 1.0 (zo + 1)])).
  { rewrite (cylinder_adds _ _ _ _ _ _ _ _ _ _ _ [0]);
      [ | reflexivity | discriminate].
    reflexivity. }
  split; [ | split].
  - intros n Hn. destruct (Z.eqb_spec n (-1)) as [-> | Hne].
    + split; [reflexivity | ].
      rewrite cylinder_at_raises_on_cap. split; [reflexivity | ].
      cbn [snd]. eapply view_kept; [exact Hv | apply untouched_app | ].
      apply nth_error_app1. destruct (view_axes _ _ _ Hv) as (x & Hx).
      eapply lookup_lt. exact Hx.
    + assert (Hn2 : (n <= -2)%Z) by lia.
      rewrite cylinder_at_raises_early by exact Hn2.
      split; [ | split; [reflexivity | exact Hv]].
      unfold cylinder, np.linspace.
      destruct (Z.ltb_spec (n + 1) 0); [reflexivity | lia].
  - exact H0.
  - eapply ensures_mono; [apply cylinder_at_draws; [exact Hv | lia] | ].
    intros _ h' (Hv' & _). rewrite Hv'. exact H0.
Qed.

Lemma cylinder_without_sides_witness :
  cylinder [] 0 0 0 1 1 (-1) "#b87333"%string "#222"%string 0.85 12 = None
  /\ cylinder_at 0%nat 0 0 0 1 1 (-1) "#b87333"%string "#222"%string 0.85 12 [Axes []]
     = (Raises, [Axes []; Vertices []])
  /\ cylinder_at 0%nat 0 0 0 1 1 (-3) "#b87333"%string "#222"%string 0.85 12 [Axes []]
     = (Raises, [Axes []]).
Proof.
  destruct (cylinder_without_sides [Axes []] 0%nat [] 0 0 0 1 1
              "#b87333"%string "#222"%string 0.85 12 eq_refl)
    as (Hneg & _ & _).
  destruct (Hneg (-1)%Z ltac:(lia)) as (H1 & H2 & _).
  destruct (Hneg (-3)%Z ltac:(lia)) as (_ & H3 & _).
  split; [exact H1 | split; [exact H2 | exact H3]].
Defined.

(** ** Boxes: which colour paints which side *)

Lemma nth_error_combine {A B : Type} (l1 : list A) (l2 : list B) (k : nat)
    (x : A) (y : B) :
  nth_error l1 k = Some x -> nth_error l2 k = Some y ->
  nth_error (combine l1 l2) k = Some (x, y).
Proof.
  revert l2 k. induction l1 as [|a l1 IH]; intros l2 k H1 H2.
  - destruct k; discriminate.
  - destruct l2 as [|b l2]; [destruct k; discriminate|].
    destruct k as [|k]; simpl in *.
    + now inversion H1; inversion H2.
    + now apply IH.
Qed.

Lemma box_faces_sides (cx cy cz hw hd hh : R) (k : nat) :
  (k < 6)%nat ->
  exists face,
    nth_error (box_faces cx cy cz hw hd hh) k = Some face
    /\ Forall (box_side cx cy cz hw hd hh k) face.
Proof.
  intros Hk. unfold box_faces.
  destruct k as [|[|[|[|[|[|k]]]]]]; [| | | | | | lia];
    (eexists; split; [reflexivity|]);
    repeat (apply Forall_cons; [reflexivity|]); apply Forall_nil.
Qed.

(** X11.  The colours of a box go to its sides in the order bottom, top,
    -y, +y, -x, +x: for [k < 6], the polygon that [draw_box] (line width
    1.2) and [box3d] (line width 1.0) add in place [k] after the artists
    already there has the colour [cols[k]] and all its vertices in the
    plane of side [k]. *)
Theorem box_colours_in_order (a : axes) (cx cy cz hw hd hh : R)
    (cols : list colour) (ec : colour) (al : R) (zo : Z) (k : nat) (fc : colour) :
  nth_error cols k = Some fc -> (k < 6)%nat ->
  exists face,
    nth_error (draw_box a cx cy cz hw hd hh cols ec al zo) (List.length a + k)
    = Some (Poly3DCollection face fc ec al 1.2 zo)
    /\ (exists drawn,
          box3d a cx cy cz hw hd hh cols ec al zo = Some drawn
          /\ nth_error drawn (List.length a + k)
             = Some (Poly3DCollection face fc ec al 1.0 zo))
    /\ Forall (box_side cx cy cz hw hd hh k) face.
Proof.
  intros Hfc Hk.
  destruct (box_faces_sides cx cy cz hw hd hh k Hk) as (face & Hface & Hside).
  exists face.
  assert (Hk' : forall lw,
            nth_error (a ++ box_polys lw cx cy cz hw hd hh cols ec al zo)
                      (List.length a + k)
            = Some (Poly3DCollection face fc ec al lw zo)).
  { intros lw. rewrite nth_error_app2 by lia.
    replace (List.length a + k - List.length a)%nat with k by lia.
    unfold box_polys. rewrite nth_error_map.
    now rewrite (nth_error_combine _ _ _ _ _ Hface Hfc). }
  split; [rewrite draw_box_adds; apply Hk'|].
  split; [|exact Hside].
  eexists. split; [apply box3d_adds | apply Hk'].
Qed.

(** The colours and half-extents of the capacitor box of
    gen_nvis_20m_car_roof.py, lines 238-240: the fifth
    colour is on the side [x = cx - hw]. *)
Lemma box_colours_in_order_witness :
  nth_error ["#1565c0"; "#1976d2"; "#1e88e5"; "#1565c0"; "#0d47a1";
             "#1976d2"]%string 4 = Some "#0d47a1"%string
  /\ (4 < 6)%nat
  /\ exists face,
       nth_error (draw_box [] 0 0.40 0 0.08 0.05 0.04
                    ["#1565c0"; "#1976d2"; "#1e88e5"; "#1565c0"; "#0d47a1";
                     "#1976d2"]%string "#0d47a1"%string 0.85 15)
                 (List.length (@nil artist) + 4)
       = Some (Poly3DCollection face "#0d47a1"%string "#0d47a1"%string
                                0.85 1.2 15)
       /\ (exists drawn,
             box3d [] 0 0.40 0 0.08 0.05 0.04
                   ["#1565c0"; "#1976d2"; "#1e88e5"; "#1565c0"; "#0d47a1";
                    "#1976d2"]%string "#0d47a1"%string 0.85 15 = Some drawn
             /\ nth_error drawn (List.length (@nil artist) + 4)
                = Some (Poly3DCollection face "#0d47a1"%string
                                         "#0d47a1"%string 0.85 1.0 15))
       /\ Forall (box_side 0 0.40 0 0.08 0.05 0.04 4) face.
Proof.
  split; [reflexivity|]. split; [lia|].
  apply (box_colours_in_order [] 0 0.40 0 0.08 0.05 0.04
           ["#1565c0"; "#1976d2"; "#1e88e5"; "#1565c0"; "#0d47a1";
            "#1976d2"]%string "#0d47a1"%string 0.85 15 4 "#0d47a1"%string);
    [reflexivity | lia].
Defined.

(** ** The radiation pattern *)

Lemma fold_Rmax_init (l : list R) (x : R) : x <= fold_left Rmax l x.
Proof.
  revert x. induction l as [|y l IH]; intros x; simpl; [lra|].
  eapply Rle_trans; [apply (Rmax_l x y) | apply IH].
Qed.

Lemma fold_Rmax_ge (l : list R) (x y : R) :
  In y l -> y <= fold_left Rmax l x.
Proof.
  revert x. induction l as [|z l IH]; intros x Hin; [contradiction|].
  simpl. destruct Hin as [-> | Hin].
  - eapply Rle_trans; [apply (Rmax_r x y) | apply fold_Rmax_init].
  - now apply IH.
Qed.

Lemma fold_Rmax_in (l : list R) (x : R) :
  In (fold_left Rmax l x) (x :: l).
Proof.
  revert x. induction l as [|y l IH]; intros x; simpl; [now left|].
  destruct (IH (Rmax x y)) as [H | H].
  - rewrite <- H. unfold Rmax. destruct (Rle_dec x y); [right; now left | now left].
  - right. now right.
Qed.

Lemma linspace_first (a b : R) (n : Z) :
  (1 <= n)%Z ->
  exists rest, np.linspace a b n = Some (a :: rest)
               /\ List.length (a :: rest) = Z.to_nat n.
Proof.
  intros Hn. destruct (Z.eq_dec n 1) as [-> | Hne].
  - exists []. split; reflexivity.
  - destruct (linspace_exact_ends a b n) as (mid & H & L); [lia|].
    exists (mid ++ [b]). split; [exact H|].
    cbn [List.length]. rewrite length_app, L. cbn [List.length]. lia.
Qed.

Lemma product_map (f g : R -> R) (l : list R) :
  map (fun pg => fst pg * snd pg) (combine (map f l) (map g l))
  = map (fun t => f t * g t) l.
Proof. induction l as [|t l IH]; simpl; [reflexivity | now rewrite IH]. Qed.

(** X12.  With one sample or more the pattern is normalised safely.  The
    array that is divided holds the gain at every elevation, the first of
    which is 0, where the gain is 0.8; the number it is divided by is its
    maximum [m], so that [0.8 <= m]; the result holds [num] values, all
    between 0 and 1, one of which is 1.  Without a sample the maximum of
    an empty array raises. *)
Theorem radiation_pattern_normalised (h_over_lam : R) (num : Z) :
  (1 <= num)%Z ->
  (exists elev raw m pattern,
     np.linspace 0 PI num = Some elev
     /\ raw = map (gain h_over_lam) elev
     /\ hd_error raw = Some 0.8
     /\ amax raw = Some m
     /\ 0.8 <= m
     /\ radiation_pattern h_over_lam num = Some pattern
     /\ pattern = map (fun v => v / m) raw
     /\ List.length pattern = Z.to_nat num
     /\ Forall (fun v => 0 <= v <= 1) pattern
     /\ In 1 pattern)
  /\ radiation_pattern h_over_lam 0 = None.
Proof.
  intros Hn. split; [|reflexivity].
  destruct (linspace_first 0 PI num Hn) as (rest & Hel & Hlen).
  set (f := gain h_over_lam).
  assert (Hf0 : f 0 = 0.8).
  { subst f. unfold gain. rewrite sin_0, Rmult_0_r, sin_0, cos_0, Rplus_0_l.
    rewrite Rabs_R1, Rmult_1_l. apply Rabs_right. lra. }
  assert (Hpos : forall t, 0 <= f t).
  { intros t. subst f. unfold gain. apply Rmult_le_pos; apply Rabs_pos. }
  set (m := fold_left Rmax (map f rest) (f 0)).
  assert (Hm : 0.8 <= m) by (rewrite <- Hf0; apply fold_Rmax_init).
  assert (Hge : forall v, In v (f 0 :: map f rest) -> 0 <= v <= m).
  { intros v [<- | Hv].
    - split; [apply Hpos | apply fold_Rmax_init].
    - split; [|now apply fold_Rmax_ge].
      apply in_map_iff in Hv. destruct Hv as (t & <- & _). apply Hpos. }
  exists (0 :: rest), (map f (0 :: rest)), m,
         (map (fun v => v / m) (map f (0 :: rest))).
  split; [exact Hel|]. split; [reflexivity|].
  split; [cbn [map hd_error]; now rewrite Hf0|].
  split; [reflexivity|]. split; [exact Hm|].
  split.
  { unfold radiation_pattern. rewrite Hel. cbn [bind]. rewrite product_map.
    reflexivity. }
  split; [reflexivity|].
  split; [rewrite !length_map; exact Hlen|].
  split.
  - apply Forall_map, Forall_forall. intros v Hv. apply Hge in Hv.
    split.
    + apply Rmult_le_pos; [tauto | left; apply Rinv_0_lt_compat; lra].
    + apply (Rmult_le_reg_r m); [lra|].
      unfold Rdiv. rewrite Rmult_assoc, Rinv_l by lra. lra.
  - apply in_map_iff. exists m. split; [field; lra | apply fold_Rmax_in].
Qed.

(** The counts of the two scripts: 180 samples, [h_over_lam = 0.002]. *)
Lemma radiation_pattern_normalised_witness :
  (1 <= 180)%Z /\
  (exists elev raw m pattern,
     np.linspace 0 PI 180 = Some elev
     /\ raw = map (gain 0.002) elev
     /\ hd_error raw = Some 0.8
     /\ amax raw = Some m
     /\ 0.8 <= m
     /\ radiation_pattern 0.002 180 = Some pattern
     /\ pattern = map (fun v => v / m) raw
     /\ List.length pattern = Z.to_nat 180
     /\ Forall (fun v => 0 <= v <= 1) pattern
     /\ In 1 pattern)
  /\ radiation_pattern 0.002 0 = None.
Proof.
  split; [lia|]. apply (radiation_pattern_normalised 0.002 180). lia.
Defined.

(** ** The car of gen_nvis_20m_car_roof.py *)

(** X13.  The lower body is drawn open: five polygons are added, the four
    walls and the floor, each with a vertex on the ground; when the body
    has a height, none of them lies in the plane [z = z_body] of its top,
    and the last one, the face the source calls the top, lies in the
    plane [z = z_ground]. *)
Theorem lower_body_has_no_top (ax : axes) (car_l car_w z_ground z_body : R) :
  z_ground <> z_body ->
  exists new,
    lower_body ax car_l car_w z_ground z_body = ax ++ new
    /\ List.length new = 5%nat
    /\ (forall p, In p new ->
        ~ Forall (fun v => height v = z_body) (verts_of p))
    /\ Forall (fun v => height v = z_ground) (verts_of (last new (Line3D [] [] [] EmptyString 0 0 0))).
Proof.
  intros Hh. unfold lower_body. cbv zeta.
  rewrite (for_zip_snoc
             (fun face fc => Poly3DCollection face fc "#263238"%string 0.92 1.0 2)).
  eexists. split; [reflexivity|].
  split; [reflexivity|]. split.
  - intros p Hp. cbn [combine map fst snd] in Hp.
    repeat (destruct Hp as [<- | Hp];
            [intros H; inversion H as [|? ? Hz _]; cbn [height] in Hz;
             now apply Hh |]).
    contradiction.
  - cbn [combine map fst snd last verts_of].
    repeat (apply Forall_cons; [reflexivity|]). apply Forall_nil.
Qed.

(** The body of the script: ground at -0.15, height 0.35. *)
Lemma lower_body_has_no_top_witness :
  gen_nvis_20m_car_roof.z_ground <> gen_nvis_20m_car_roof.z_body
  /\ exists new,
       lower_body [] 2.4 0.70 gen_nvis_20m_car_roof.z_ground
                  gen_nvis_20m_car_roof.z_body = [] ++ new
       /\ List.length new = 5%nat.
Proof.
  assert (H : gen_nvis_20m_car_roof.z_ground <> gen_nvis_20m_car_roof.z_body).
  { unfold gen_nvis_20m_car_roof.z_body, gen_nvis_20m_car_roof.z_ground,
      gen_nvis_20m_car_roof.car_h. lra. }
  split; [exact H|].
  destruct (lower_body_has_no_top [] 2.4 0.70 gen_nvis_20m_car_roof.z_ground
              gen_nvis_20m_car_roof.z_body H) as (new & H1 & H2 & _).
  exists new. split; [exact H1 | exact H2].
Defined.

Lemma wpts_length (wheel_r : R) (theta : list R) (hub : vertex) :
  List.length (wpts wheel_r theta hub) = List.length theta.
Proof. destruct hub as [[wx wy] wz]. unfold wpts. apply length_map. Qed.

Lemma wheels_drawn (ax : axes) (wheel_r : R) (theta : list R)
    (hubs : list vertex) :
  theta <> [] ->
  fold_left
    (fun acc (hub : vertex) =>
       a <- acc ;;
       p <- collection (wpts wheel_r theta hub)
                       "#212121"%string "#111"%string 0.85 1.5 2 ;;
       Some (a ++ [p]))
    hubs (Some ax)
  = Some (ax ++ map (fun hub => Poly3DCollection (wpts wheel_r theta hub)
                                  "#212121"%string "#111"%string 0.85 1.5 2)
                    hubs).
Proof.
  intros Hne. revert ax. induction hubs as [|hub hubs IH]; intros ax.
  - simpl. now rewrite app_nil_r.
  - cbn [fold_left map bind].
    assert (Hw : wpts wheel_r theta hub <> []).
    { intros H. apply (f_equal (@List.length vertex)) in H.
      rewrite wpts_length in H. destruct theta; [contradiction | discriminate]. }
    assert (Hc : collection (wpts wheel_r theta hub)
                            "#212121"%string "#111"%string 0.85 1.5 2
                 = Some (Poly3DCollection (wpts wheel_r theta hub)
                           "#212121"%string "#111"%string 0.85 1.5 2)).
    { unfold collection. destruct (wpts wheel_r theta hub);
        [contradiction | reflexivity]. }
    rewrite Hc. cbn [bind]. rewrite IH. now rewrite <- app_assoc.
Qed.

(** X14.  With one angle or more, the four wheels are four polygons of
    [num] vertices each, added after the artists already there.  Every
    vertex of a wheel has the [y] of its hub, so that the wheel stands in
    a vertical plane 0.01 outside a flank of the car, and the wheel on
    the right of each axle is the mirror image in the plane y = 0 of the
    wheel on the left; the left wheels are the rims [wpts] about the two
    left hubs at the angles of [np.linspace(0, 2*pi, num)].  Without an
    angle the call raises. *)
Theorem wheels_are_mirrored (ax : axes) (car_l car_w z_ground wheel_r : R)
    (num : Z) :
  (1 <= num)%Z ->
  (exists theta front_l front_r rear_l rear_r,
     wheels ax car_l car_w z_ground wheel_r num
     = Some (ax ++ map (fun w => Poly3DCollection w "#212121"%string
                                   "#111"%string 0.85 1.5 2)
                       [front_l; front_r; rear_l; rear_r])
     /\ Forall (fun w => List.length w = Z.to_nat num)
               [front_l; front_r; rear_l; rear_r]
     /\ Forall (fun v => snd (fst v) = - car_w - 0.01) (front_l ++ rear_l)
     /\ Forall (fun v => snd (fst v) = car_w + 0.01) (front_r ++ rear_r)
     /\ front_r = map mirror front_l
     /\ rear_r = map mirror rear_l
     /\ np.linspace 0 (2 * PI) num = Some theta
     /\ front_l = wpts wheel_r theta
                       (car_l * 0.6, - car_w - 0.01, z_ground + wheel_r * 0.4)
     /\ rear_l = wpts wheel_r theta
                      (- car_l * 0.6, - car_w - 0.01, z_ground + wheel_r * 0.4))
  /\ wheels ax car_l car_w z_ground wheel_r 0 = None.
Proof.
  intros Hn. split; [|reflexivity].
  destruct (linspace_first 0 (2 * PI) num Hn) as (rest & Hth & Hlen).
  set (theta := 0 :: rest) in *.
  exists theta,
         (wpts wheel_r theta (car_l * 0.6, - car_w - 0.01, z_ground + wheel_r * 0.4)),
         (wpts wheel_r theta (car_l * 0.6, car_w + 0.01, z_ground + wheel_r * 0.4)),
         (wpts wheel_r theta (- car_l * 0.6, - car_w - 0.01, z_ground + wheel_r * 0.4)),
         (wpts wheel_r theta (- car_l * 0.6, car_w + 0.01, z_ground + wheel_r * 0.4)).
  split.
  { unfold wheels. rewrite Hth. cbn [bind]. fold theta.
    rewrite wheels_drawn by (subst theta; discriminate). reflexivity. }
  split.
  { repeat (apply Forall_cons; [rewrite wpts_length; exact Hlen|]).
    apply Forall_nil. }
  assert (Hm : forall wx wz,
             wpts wheel_r theta (wx, car_w + 0.01, wz)
             = map mirror (wpts wheel_r theta (wx, - car_w - 0.01, wz))).
  { intros wx wz. unfold wpts. rewrite map_map. apply map_ext. intros t.
    unfold mirror. f_equal. f_equal. lra. }
  split; [|split; [|split; [|split; [|split; [|split]]]]].
  - apply Forall_app. split; unfold wpts; apply Forall_map, Forall_forall;
      intros t _; reflexivity.
  - apply Forall_app. split; unfold wpts; apply Forall_map, Forall_forall;
      intros t _; reflexivity.
  - apply Hm.
  - apply Hm.
  - exact Hth.
  - reflexivity.
  - reflexivity.
Qed.

(** The wheels of the script: 24 angles, radius 0.15. *)
Lemma wheels_are_mirrored_witness :
  (1 <= 24)%Z /\
  exists front_l front_r rear_l rear_r,
    wheels [] 2.4 0.70 (-0.15) 0.15 24
    = Some ([] ++ map (fun w => Poly3DCollection w "#212121"%string
                                  "#111"%string 0.85 1.5 2)
                      [front_l; front_r; rear_l; rear_r])
    /\ front_r = map mirror front_l
    /\ rear_r = map mirror rear_l.
Proof.
  split; [lia|].
  destruct (wheels_are_mirrored [] 2.4 0.70 (-0.15) 0.15 24)
    as ((theta & fl & fr & rl & rr & H1 & _ & _ & _ & H5 & H6 & _) & _); [lia|].
  exists fl, fr, rl, rr. split; [exact H1|]. split; [exact H5 | exact H6].
Defined.
